(** * The D-Bus message codec of libsystemd-bus (src/libsystemd-bus/bus-message.c)

    A shallow embedding of the message object, its buffer manager, writer,
    reader and header-field parser, followed by the properties of the codec
    that are proved about it.

    Conventions of the embedding:
    - a byte, a [char] and every C integer is a [Z]; the wrap-around of the
      unsigned types is written out ([u8], [u32], [size_t]);
    - a C string is the list of its characters, the terminating NUL left
      implicit; a pointer into one of the two regions of a message is the
      offset into that region, [None] being the NULL pointer;
    - an [int] result is the C value: negative errno, [0] or [1];
    - [malloc], [realloc] and [strdup] draw their outcome from an explicit
      allocation oracle, so that every out-of-memory path can be exercised;
    - reading memory the C program has no right to read, and a failed
      assertion, end the run as [Undefined]; the two loops of the header
      parser run on fuel, and a run that uses it up ends as
      [Stops FuelExhausted]. *)

From Stdlib Require Import Ascii String ZArith List Bool Lia.
Import ListNotations.
Open Scope Z_scope.

Set Implicit Arguments.

(** ** Characters, strings and errno values *)

Definition chr (c : ascii) : Z := Z.of_N (N_of_ascii c).

Definition cstring := list Z.

Definition cstr (s : string) : cstring := map chr (list_ascii_of_string s).

Definition strlen (s : cstring) : Z := Zlength s.

(** [s[i]] for a C string: its characters, then the terminating NUL. *)
Definition char_at (s : cstring) (i : Z) : Z := nth (Z.to_nat i) s 0.

(** [s + i]: the string that starts [i] characters into [s]. *)
Definition str_from (s : cstring) (i : Z) : cstring := skipn (Z.to_nat i) s.

Fixpoint cstring_eqb (a b : cstring) : bool :=
  match a, b with
  | [], [] => true
  | x :: a', y :: b' => (x =? y) && cstring_eqb a' b'
  | _, _ => false
  end.

Definition streq := cstring_eqb.

Fixpoint startswith (s prefix : cstring) : bool :=
  match prefix, s with
  | [], _ => true
  | y :: prefix', x :: s' => (x =? y) && startswith s' prefix'
  | _ :: _, [] => false
  end.

(** [isempty(p)]: a NULL pointer or the empty string. *)
Definition isempty (p : option cstring) : bool :=
  match p with None => true | Some [] => true | Some (_ :: _) => false end.

Definition strempty (p : option cstring) : cstring :=
  match p with None => [] | Some s => s end.

Definition EPERM : Z := 1.
Definition ENOENT : Z := 2.
Definition ENXIO : Z := 6.
Definition ENOMEM : Z := 12.
Definition EBUSY : Z := 16.
Definition EEXIST : Z := 17.
Definition EINVAL : Z := 22.
Definition EBADMSG : Z := 74.

(** ** Machine integers *)

Definition u8 (x : Z) : Z := x mod 2 ^ 8.
Definition u32 (x : Z) : Z := x mod 2 ^ 32.
Definition size_t (x : Z) : Z := x mod 2 ^ 64.
Definition UINT32_MAX : Z := 2 ^ 32 - 1.

(** Modelled from the spec: util.h is not among the sources; [ALIGN_TO] is the
    spec's [align_up(l, ali)], the least multiple of [ali] that is not below
    [l], computed on [size_t]. *)
Definition ALIGN_TO (l ali : Z) : Z := size_t (l + ali - 1) / ali * ali.

(** ** Protocol constants

    Modelled from the spec: sd-bus-protocol.h, bus-message.h and bus-type.c are
    not among the sources. The type codes and the type table are those of
    section 4.2 of the spec, the message types and the flag those of section 3,
    the header field codes those of section 4.5, the two limits those of
    section 6. *)

Definition SD_BUS_TYPE_BYTE : Z := chr "y".
Definition SD_BUS_TYPE_BOOLEAN : Z := chr "b".
Definition SD_BUS_TYPE_INT16 : Z := chr "n".
Definition SD_BUS_TYPE_UINT16 : Z := chr "q".
Definition SD_BUS_TYPE_INT32 : Z := chr "i".
Definition SD_BUS_TYPE_UINT32 : Z := chr "u".
Definition SD_BUS_TYPE_INT64 : Z := chr "x".
Definition SD_BUS_TYPE_UINT64 : Z := chr "t".
Definition SD_BUS_TYPE_DOUBLE : Z := chr "d".
Definition SD_BUS_TYPE_STRING : Z := chr "s".
Definition SD_BUS_TYPE_OBJECT_PATH : Z := chr "o".
Definition SD_BUS_TYPE_SIGNATURE : Z := chr "g".
Definition SD_BUS_TYPE_UNIX_FD : Z := chr "h".
Definition SD_BUS_TYPE_ARRAY : Z := chr "a".
Definition SD_BUS_TYPE_VARIANT : Z := chr "v".
Definition SD_BUS_TYPE_STRUCT : Z := chr "r".
Definition SD_BUS_TYPE_STRUCT_BEGIN : Z := chr "(".
Definition SD_BUS_TYPE_STRUCT_END : Z := chr ")".
Definition SD_BUS_TYPE_DICT_ENTRY : Z := chr "e".
Definition SD_BUS_TYPE_DICT_ENTRY_BEGIN : Z := chr "{".
Definition SD_BUS_TYPE_DICT_ENTRY_END : Z := chr "}".

Definition basic_types : list Z :=
  [ SD_BUS_TYPE_BYTE; SD_BUS_TYPE_BOOLEAN; SD_BUS_TYPE_INT16; SD_BUS_TYPE_UINT16;
    SD_BUS_TYPE_INT32; SD_BUS_TYPE_UINT32; SD_BUS_TYPE_INT64; SD_BUS_TYPE_UINT64;
    SD_BUS_TYPE_DOUBLE; SD_BUS_TYPE_STRING; SD_BUS_TYPE_OBJECT_PATH;
    SD_BUS_TYPE_SIGNATURE; SD_BUS_TYPE_UNIX_FD ].

Definition bus_type_is_basic (c : Z) : bool := existsb (Z.eqb c) basic_types.

(** The alignment column of the type table; a negative errno for a character
    that is no type code. *)
Definition bus_type_get_alignment (c : Z) : Z :=
  if existsb (Z.eqb c) [SD_BUS_TYPE_BYTE; SD_BUS_TYPE_SIGNATURE; SD_BUS_TYPE_VARIANT] then 1
  else if existsb (Z.eqb c) [SD_BUS_TYPE_INT16; SD_BUS_TYPE_UINT16] then 2
  else if existsb (Z.eqb c) [SD_BUS_TYPE_BOOLEAN; SD_BUS_TYPE_INT32; SD_BUS_TYPE_UINT32;
                              SD_BUS_TYPE_STRING; SD_BUS_TYPE_OBJECT_PATH;
                              SD_BUS_TYPE_ARRAY; SD_BUS_TYPE_UNIX_FD] then 4
  else if existsb (Z.eqb c) [SD_BUS_TYPE_INT64; SD_BUS_TYPE_UINT64; SD_BUS_TYPE_DOUBLE;
                              SD_BUS_TYPE_STRUCT; SD_BUS_TYPE_STRUCT_BEGIN;
                              SD_BUS_TYPE_DICT_ENTRY; SD_BUS_TYPE_DICT_ENTRY_BEGIN] then 8
  else - EINVAL.

(** The size column of the type table, for the types of fixed width. *)
Definition bus_type_get_size (c : Z) : Z :=
  if c =? SD_BUS_TYPE_BYTE then 1
  else if existsb (Z.eqb c) [SD_BUS_TYPE_INT16; SD_BUS_TYPE_UINT16] then 2
  else if existsb (Z.eqb c) [SD_BUS_TYPE_BOOLEAN; SD_BUS_TYPE_INT32; SD_BUS_TYPE_UINT32;
                              SD_BUS_TYPE_UNIX_FD] then 4
  else if existsb (Z.eqb c) [SD_BUS_TYPE_INT64; SD_BUS_TYPE_UINT64; SD_BUS_TYPE_DOUBLE] then 8
  else - EINVAL.

Definition _SD_BUS_MESSAGE_TYPE_INVALID : Z := 0.
Definition SD_BUS_MESSAGE_TYPE_METHOD_CALL : Z := 1.
Definition SD_BUS_MESSAGE_TYPE_METHOD_RETURN : Z := 2.
Definition SD_BUS_MESSAGE_TYPE_METHOD_ERROR : Z := 3.
Definition SD_BUS_MESSAGE_TYPE_SIGNAL : Z := 4.

Definition SD_BUS_MESSAGE_NO_REPLY_EXPECTED : Z := 1.

Definition _SD_BUS_MESSAGE_HEADER_INVALID : Z := 0.
Definition SD_BUS_MESSAGE_HEADER_PATH : Z := 1.
Definition SD_BUS_MESSAGE_HEADER_INTERFACE : Z := 2.
Definition SD_BUS_MESSAGE_HEADER_MEMBER : Z := 3.
Definition SD_BUS_MESSAGE_HEADER_ERROR_NAME : Z := 4.
Definition SD_BUS_MESSAGE_HEADER_REPLY_SERIAL : Z := 5.
Definition SD_BUS_MESSAGE_HEADER_DESTINATION : Z := 6.
Definition SD_BUS_MESSAGE_HEADER_SENDER : Z := 7.
Definition SD_BUS_MESSAGE_HEADER_SIGNATURE : Z := 8.
Definition SD_BUS_MESSAGE_HEADER_UNIX_FDS : Z := 9.

Definition BUS_ARRAY_MAX_SIZE : Z := 67108864.
Definition BUS_CONTAINER_DEPTH : Z := 64.

Definition SD_BUS_LITTLE_ENDIAN : Z := chr "l".
Definition SD_BUS_BIG_ENDIAN : Z := chr "B".

(** ** Byte order and raw memory *)

Inductive byte_order : Type := LittleEndian | BigEndian.

(** The machine the library is compiled for. *)
Class Host : Type := { host_order : byte_order }.

Fixpoint le_bytes (n : nat) (v : Z) : list Z :=
  match n with
  | O => []
  | S k => v mod 256 :: le_bytes k (v / 256)
  end.

Fixpoint le_value (bs : list Z) : Z :=
  match bs with
  | [] => 0
  | b :: r => b + 256 * le_value r
  end.

Section ByteOrder.
Context {host : Host}.

Definition SD_BUS_NATIVE_ENDIAN : Z :=
  match host_order with LittleEndian => SD_BUS_LITTLE_ENDIAN | BigEndian => SD_BUS_BIG_ENDIAN end.

Definition SD_BUS_REVERSE_ENDIAN : Z :=
  match host_order with LittleEndian => SD_BUS_BIG_ENDIAN | BigEndian => SD_BUS_LITTLE_ENDIAN end.

(** The [n] bytes an unsigned integer object of that width and value [v]
    occupies in memory ([memcpy] from it, or a store through a pointer). *)
Definition store_native (n : nat) (v : Z) : list Z :=
  match host_order with LittleEndian => le_bytes n v | BigEndian => rev (le_bytes n v) end.

(** The value of the unsigned integer object made of the bytes [bs]. *)
Definition load_native (bs : list Z) : Z :=
  match host_order with LittleEndian => le_value bs | BigEndian => le_value (rev bs) end.
End ByteOrder.

Definition bswap_16 (x : Z) : Z := le_value (rev (le_bytes 2 x)).
Definition bswap_32 (x : Z) : Z := le_value (rev (le_bytes 4 x)).
Definition bswap_64 (x : Z) : Z := le_value (rev (le_bytes 8 x)).

Definition byte_at (buf : list Z) (i : Z) : Z := nth (Z.to_nat i) buf 0.

Definition slice (buf : list Z) (off n : Z) : list Z :=
  firstn (Z.to_nat n) (skipn (Z.to_nat off) buf).

(** [memcpy(buf + off, bs, |bs|)] inside an object of [|buf|] bytes. *)
Definition mem_write (buf : list Z) (off : Z) (bs : list Z) : list Z :=
  firstn (Z.to_nat off) buf ++ bs ++ skipn (Z.to_nat off + length bs) buf.

Definition memset (buf : list Z) (off c n : Z) : list Z :=
  mem_write buf off (repeat c (Z.to_nat n)).

(** The C string that starts at a pointer: the bytes up to the first NUL. *)
Fixpoint take_until_nul (l : list Z) : cstring :=
  match l with
  | [] => []
  | b :: r => if b =? 0 then [] else b :: take_until_nul r
  end.

Definition cstr_at (buf : list Z) (q : Z) : cstring :=
  take_until_nul (skipn (Z.to_nat q) buf).

(** A region pointer ([m->fields], [m->body]): NULL, or the bytes behind it. *)
Definition region := option (list Z).

Definition region_bytes (p : region) : list Z :=
  match p with None => [] | Some l => l end.

(** ** Runs: the allocator's say and undefined behaviour *)

Inductive stop : Type :=
| UndefinedBehaviour
| FuelExhausted.

Inductive outcome (A : Type) : Type :=
| Returns (a : A)
| Stops (why : stop).
Arguments Stops {A}.

Definition Undefined {A : Type} : outcome A := Stops UndefinedBehaviour.

(** What one call of the allocator does: it fails, or it succeeds and the
    bytes it hands out beyond those it preserves hold [junk]. *)
Inductive alloc_result : Type := AllocFails | AllocOk (junk : Z).

(** The allocation oracle: the outcomes of the calls to come, in order; past
    its end every call succeeds. *)
Definition heap := list alloc_result.

Definition M (A : Type) : Type := heap -> outcome (A * heap).

Definition ret {A} (a : A) : M A := fun h => Returns (a, h).

Definition bind {A B} (c : M A) (k : A -> M B) : M B :=
  fun h => match c h with
           | Returns (a, h') => k a h'
           | Stops why => Stops why
           end.

Definition stops {A} (why : stop) : M A := fun _ => Stops why.

Definition alloc : M alloc_result :=
  fun h => match h with
           | [] => Returns (AllocOk 0, [])
           | a :: h' => Returns (a, h')
           end.

Declare Scope run_scope.
Delimit Scope run_scope with run.
Notation "x <- c ;; k" := (bind c (fun x => k))
  (at level 61, c at next level, right associativity) : run_scope.
Notation "' pat <- c ;; k" := (bind c (fun x => match x with pat => k end))
  (at level 61, pat pattern, c at next level, right associativity) : run_scope.
Open Scope run_scope.

(** ** The data model (bus-message.h) *)

Record bus_header : Type := mk_header {
  endian : Z;
  type : Z;
  flags : Z;
  version : Z;
  body_size : Z;
  serial : Z;
  fields_size : Z
}.

Record bus_container : Type := mk_container {
  enclosing : Z;
  signature : option cstring;
  index : Z;
  array_size : option Z;   (* uint32_t *array_size: an offset into the body *)
  begin : Z
}.

(** [sd_bus_error], over the kind of pointer that holds its two strings: an
    offset into a region inside a message, a C string in a caller's hands. *)
Record sd_bus_error (ptr : Type) : Type := mk_error {
  name : option ptr;
  message : option ptr
}.

Definition sd_bus_error_is_set {ptr} (e : option (sd_bus_error ptr)) : bool :=
  match e with
  | None => false
  | Some e => match name e with Some _ => true | None => false end
  end.

Record ucred : Type := mk_ucred { ucred_pid : Z; ucred_uid : Z; ucred_gid : Z }.

(** [struct sd_bus_message]. The reference count, the ownership flags
    ([free_header], [free_fields], [free_body]), the descriptor array behind
    [n_fds] and the cache of [peek_type] are left out: no operation below
    reads them. [containers] holds the [n_containers] live frames. *)
Record sd_bus_message : Type := mk_message {
  header : bus_header;
  fields : region;
  body : region;
  sealed : bool;
  dont_send : bool;
  uid_valid : bool;
  gid_valid : bool;
  uid : Z;
  gid : Z;
  pid : Z;
  label : option cstring;
  path : option Z;
  interface : option Z;
  member : option Z;
  destination : option Z;
  sender : option Z;
  error : sd_bus_error Z;
  reply_serial : Z;
  root_container : bus_container;
  containers : list bus_container;
  rindex : Z;
  n_fds : Z;
  iovec : list (list Z)
}.

Definition n_containers (m : sd_bus_message) : Z := Zlength (containers m).

(** Assignments to one member of a structure. *)

Definition set_flags (v : Z) (r : bus_header) : bus_header :=
  mk_header
    (endian r) (type r) v (version r) (body_size r) (serial r) (fields_size r).

Definition set_body_size (v : Z) (r : bus_header) : bus_header :=
  mk_header
    (endian r) (type r) (flags r) (version r) v (serial r) (fields_size r).

Definition set_serial (v : Z) (r : bus_header) : bus_header :=
  mk_header
    (endian r) (type r) (flags r) (version r) (body_size r) v (fields_size r).

Definition set_fields_size (v : Z) (r : bus_header) : bus_header :=
  mk_header
    (endian r) (type r) (flags r) (version r) (body_size r) (serial r) v.

Definition set_signature (v : option cstring) (r : bus_container) : bus_container :=
  mk_container
    (enclosing r) v (index r) (array_size r) (begin r).

Definition set_index (v : Z) (r : bus_container) : bus_container :=
  mk_container
    (enclosing r) (signature r) v (array_size r) (begin r).

Definition set_header (v : bus_header) (r : sd_bus_message) : sd_bus_message :=
  mk_message
    v (fields r) (body r) (sealed r) (dont_send r) (uid_valid r) (gid_valid r) (uid r)
    (gid r) (pid r) (label r) (path r) (interface r) (member r) (destination r) (sender
    r) (error r) (reply_serial r) (root_container r) (containers r) (rindex r) (n_fds r)
    (iovec r).

Definition set_fields (v : region) (r : sd_bus_message) : sd_bus_message :=
  mk_message
    (header r) v (body r) (sealed r) (dont_send r) (uid_valid r) (gid_valid r) (uid r)
    (gid r) (pid r) (label r) (path r) (interface r) (member r) (destination r) (sender
    r) (error r) (reply_serial r) (root_container r) (containers r) (rindex r) (n_fds r)
    (iovec r).

Definition set_body (v : region) (r : sd_bus_message) : sd_bus_message :=
  mk_message
    (header r) (fields r) v (sealed r) (dont_send r) (uid_valid r) (gid_valid r) (uid r)
    (gid r) (pid r) (label r) (path r) (interface r) (member r) (destination r) (sender
    r) (error r) (reply_serial r) (root_container r) (containers r) (rindex r) (n_fds r)
    (iovec r).

Definition set_sealed (v : bool) (r : sd_bus_message) : sd_bus_message :=
  mk_message
    (header r) (fields r) (body r) v (dont_send r) (uid_valid r) (gid_valid r) (uid r)
    (gid r) (pid r) (label r) (path r) (interface r) (member r) (destination r) (sender
    r) (error r) (reply_serial r) (root_container r) (containers r) (rindex r) (n_fds r)
    (iovec r).

Definition set_dont_send (v : bool) (r : sd_bus_message) : sd_bus_message :=
  mk_message
    (header r) (fields r) (body r) (sealed r) v (uid_valid r) (gid_valid r) (uid r) (gid
    r) (pid r) (label r) (path r) (interface r) (member r) (destination r) (sender r)
    (error r) (reply_serial r) (root_container r) (containers r) (rindex r) (n_fds r)
    (iovec r).

Definition set_path (v : option Z) (r : sd_bus_message) : sd_bus_message :=
  mk_message
    (header r) (fields r) (body r) (sealed r) (dont_send r) (uid_valid r) (gid_valid r)
    (uid r) (gid r) (pid r) (label r) v (interface r) (member r) (destination r) (sender
    r) (error r) (reply_serial r) (root_container r) (containers r) (rindex r) (n_fds r)
    (iovec r).

Definition set_interface (v : option Z) (r : sd_bus_message) : sd_bus_message :=
  mk_message
    (header r) (fields r) (body r) (sealed r) (dont_send r) (uid_valid r) (gid_valid r)
    (uid r) (gid r) (pid r) (label r) (path r) v (member r) (destination r) (sender r)
    (error r) (reply_serial r) (root_container r) (containers r) (rindex r) (n_fds r)
    (iovec r).

Definition set_member (v : option Z) (r : sd_bus_message) : sd_bus_message :=
  mk_message
    (header r) (fields r) (body r) (sealed r) (dont_send r) (uid_valid r) (gid_valid r)
    (uid r) (gid r) (pid r) (label r) (path r) (interface r) v (destination r) (sender
    r) (error r) (reply_serial r) (root_container r) (containers r) (rindex r) (n_fds r)
    (iovec r).

Definition set_destination (v : option Z) (r : sd_bus_message) : sd_bus_message :=
  mk_message
    (header r) (fields r) (body r) (sealed r) (dont_send r) (uid_valid r) (gid_valid r)
    (uid r) (gid r) (pid r) (label r) (path r) (interface r) (member r) v (sender r)
    (error r) (reply_serial r) (root_container r) (containers r) (rindex r) (n_fds r)
    (iovec r).

Definition set_sender (v : option Z) (r : sd_bus_message) : sd_bus_message :=
  mk_message
    (header r) (fields r) (body r) (sealed r) (dont_send r) (uid_valid r) (gid_valid r)
    (uid r) (gid r) (pid r) (label r) (path r) (interface r) (member r) (destination r)
    v (error r) (reply_serial r) (root_container r) (containers r) (rindex r) (n_fds r)
    (iovec r).

Definition set_error (v : sd_bus_error Z) (r : sd_bus_message) : sd_bus_message :=
  mk_message
    (header r) (fields r) (body r) (sealed r) (dont_send r) (uid_valid r) (gid_valid r)
    (uid r) (gid r) (pid r) (label r) (path r) (interface r) (member r) (destination r)
    (sender r) v (reply_serial r) (root_container r) (containers r) (rindex r) (n_fds r)
    (iovec r).

Definition set_reply_serial (v : Z) (r : sd_bus_message) : sd_bus_message :=
  mk_message
    (header r) (fields r) (body r) (sealed r) (dont_send r) (uid_valid r) (gid_valid r)
    (uid r) (gid r) (pid r) (label r) (path r) (interface r) (member r) (destination r)
    (sender r) (error r) v (root_container r) (containers r) (rindex r) (n_fds r) (iovec
    r).

Definition set_root_container (v : bus_container) (r : sd_bus_message) : sd_bus_message :=
  mk_message
    (header r) (fields r) (body r) (sealed r) (dont_send r) (uid_valid r) (gid_valid r)
    (uid r) (gid r) (pid r) (label r) (path r) (interface r) (member r) (destination r)
    (sender r) (error r) (reply_serial r) v (containers r) (rindex r) (n_fds r) (iovec
    r).

Definition set_containers (v : list bus_container) (r : sd_bus_message) : sd_bus_message :=
  mk_message
    (header r) (fields r) (body r) (sealed r) (dont_send r) (uid_valid r) (gid_valid r)
    (uid r) (gid r) (pid r) (label r) (path r) (interface r) (member r) (destination r)
    (sender r) (error r) (reply_serial r) (root_container r) v (rindex r) (n_fds r)
    (iovec r).

Definition set_rindex (v : Z) (r : sd_bus_message) : sd_bus_message :=
  mk_message
    (header r) (fields r) (body r) (sealed r) (dont_send r) (uid_valid r) (gid_valid r)
    (uid r) (gid r) (pid r) (label r) (path r) (interface r) (member r) (destination r)
    (sender r) (error r) (reply_serial r) (root_container r) (containers r) v (n_fds r)
    (iovec r).

Definition set_iovec (v : list (list Z)) (r : sd_bus_message) : sd_bus_message :=
  mk_message
    (header r) (fields r) (body r) (sealed r) (dont_send r) (uid_valid r) (gid_valid r)
    (uid r) (gid r) (pid r) (label r) (path r) (interface r) (member r) (destination r)
    (sender r) (error r) (reply_serial r) (root_container r) (containers r) (rindex r)
    (n_fds r) v.

(** ** External collaborators

    The signature grammar (bus-signature.c), the name and object path
    predicates (bus-internal.c) and the UTF-8 check (utf8.c) are consumed as
    black boxes: the codec is stated and proved over any implementation.
    [signature_element_length] gives the [int] result and the length it
    stores through its second argument. *)
Class Collaborators : Type := {
  utf8_is_valid : cstring -> bool;
  object_path_is_valid : cstring -> bool;
  interface_name_is_valid : cstring -> bool;
  member_name_is_valid : cstring -> bool;
  error_name_is_valid : cstring -> bool;
  service_name_is_valid : cstring -> bool;
  signature_is_valid : cstring -> bool -> bool;
  signature_is_single : cstring -> bool;
  signature_is_pair : cstring -> bool;
  signature_element_length : cstring -> Z * Z
}.

(** [struct sd_bus], as far as the codec looks into it. *)
Record sd_bus : Type := mk_bus { message_version : Z }.

(** ** Buffer manager *)

(** [realloc(p, n)]: the old bytes as far as they fit, [junk] behind them. *)
Definition realloc (p : region) (n junk : Z) : list Z :=
  firstn (Z.to_nat n) (region_bytes p ++ repeat junk (Z.to_nat n)).

(** [(uint8_t* ) p + start], as a pointer that is NULL or not. *)
Definition ptr_add (p : region) (start : Z) : option Z :=
  match p with
  | Some _ => Some start
  | None => if start =? 0 then None else Some start
  end.

(** The result is the returned pointer, then [*p] and [*sz] after the call. *)
Definition buffer_extend (p : region) (sz align extend : Z) : M (option Z * region * Z) :=
  let start := ALIGN_TO sz align in
  let n := size_t (start + extend) in
  if n =? sz then ret (ptr_add p start, p, sz)
  else if UINT32_MAX <? n then ret (None, p, sz)
  else
    a <- alloc ;;
    match a with
    | AllocFails => ret (None, p, sz)
    | AllocOk junk =>
        let k := realloc p n junk in
        (* Zero out padding *)
        let k := if sz <? start then memset k sz 0 (start - sz) else k in
        ret (Some start, Some k, n)
    end.

(** The quick access pointers are offsets into the region: moving the region
    leaves them as they are, which is what the re-basing of the C code
    achieves. *)
Definition message_extend_fields (m : sd_bus_message) (align sz : Z)
  : M (option Z * sd_bus_message) :=
  '(p, f, fs) <- buffer_extend (fields m) (fields_size (header m)) align sz ;;
  match p with
  | None => ret (None, m)
  | Some _ => ret (p, set_fields f (set_header (set_fields_size fs (header m)) m))
  end.

(** An out-parameter [const char **ret] that names a member of the message. *)
Definition out_ptr := option (option Z -> sd_bus_message -> sd_bus_message).

Definition assign (ret_ : out_ptr) (q : Z) (m : sd_bus_message) : sd_bus_message :=
  match ret_ with
  | Some setter => setter (Some q) m
  | None => m
  end.

Section Codec.
Context {host : Host} {ext : Collaborators}.

Definition header_bytes (h : bus_header) : list Z :=
  [endian h; type h; flags h; version h]
    ++ store_native 4 (body_size h) ++ store_native 4 (serial h)
    ++ store_native 4 (fields_size h).

Definition BUS_MESSAGE_BSWAP16 (m : sd_bus_message) (u : Z) : Z :=
  if endian (header m) =? SD_BUS_NATIVE_ENDIAN then u else bswap_16 u.
Definition BUS_MESSAGE_BSWAP32 (m : sd_bus_message) (u : Z) : Z :=
  if endian (header m) =? SD_BUS_NATIVE_ENDIAN then u else bswap_32 u.
Definition BUS_MESSAGE_BSWAP64 (m : sd_bus_message) (u : Z) : Z :=
  if endian (header m) =? SD_BUS_NATIVE_ENDIAN then u else bswap_64 u.

Definition BUS_MESSAGE_SERIAL (m : sd_bus_message) : Z :=
  BUS_MESSAGE_BSWAP32 m (serial (header m)).
Definition BUS_MESSAGE_BODY_SIZE (m : sd_bus_message) : Z :=
  BUS_MESSAGE_BSWAP32 m (body_size (header m)).
Definition BUS_MESSAGE_FIELDS_SIZE (m : sd_bus_message) : Z :=
  BUS_MESSAGE_BSWAP32 m (fields_size (header m)).

(** The bytes written are contiguous: the field code, the signature of
    the variant ([1], the type, NUL), the length and the string with its
    NUL. *)
Definition message_append_field_string
    (m : sd_bus_message) (h : Z) (type_ : Z) (s : cstring) (ret_ : out_ptr)
  : M (Z * sd_bus_message) :=
  let l := strlen s in
  if UINT32_MAX <? l then ret (- EINVAL, m)
  else
    (* field id byte + signature length + signature 's' + NUL + string length + string + NUL *)
    '(p, m) <- message_extend_fields m 8 (size_t (4 + 4 + l + 1)) ;;
    match p with
    | None => ret (- ENOMEM, m)
    | Some p =>
        let f := mem_write (region_bytes (fields m)) p
                   ([h; 1; type_; 0] ++ store_native 4 l ++ s ++ [0]) in
        ret (0, assign ret_ (p + 8) (set_fields (Some f) m))
    end.

Definition message_append_field_signature
    (m : sd_bus_message) (h : Z) (s : cstring) (ret_ : out_ptr)
  : M (Z * sd_bus_message) :=
  let l := strlen s in
  if 255 <? l then ret (- EINVAL, m)
  else
    (* field id byte + signature length + signature 'g' + NUL + string length + string + NUL *)
    '(p, m) <- message_extend_fields m 8 (size_t (4 + 1 + l + 1)) ;;
    match p with
    | None => ret (- ENOMEM, m)
    | Some p =>
        let f := mem_write (region_bytes (fields m)) p
                   ([h; 1; SD_BUS_TYPE_SIGNATURE; 0; l] ++ s ++ [0]) in
        ret (0, assign ret_ (p + 5) (set_fields (Some f) m))
    end.

Definition message_append_field_uint32 (m : sd_bus_message) (h : Z) (x : Z)
  : M (Z * sd_bus_message) :=
  (* field id byte + signature length + signature 'u' + NUL + value *)
  '(p, m) <- message_extend_fields m 8 (4 + 4) ;;
  match p with
  | None => ret (- ENOMEM, m)
  | Some p =>
      let f := mem_write (region_bytes (fields m)) p
                 ([h; 1; SD_BUS_TYPE_UINT32; 0] ++ store_native 4 x) in
      ret (0, set_fields (Some f) m)
  end.

(** ** Constructors *)

(** What [malloc0] hands out. *)
Definition zero_message : sd_bus_message :=
  mk_message (mk_header 0 0 0 0 0 0 0) None None false false false false 0 0 0 None
             None None None None None (mk_error None None) 0
             (mk_container 0 None 0 None 0) [] 0 0 [].

Definition message_new (bus : option sd_bus) (type_ : Z) : M (option sd_bus_message) :=
  a <- alloc ;;
  match a with
  | AllocFails => ret None
  | AllocOk _ =>
      ret (Some (set_header
                   (mk_header SD_BUS_NATIVE_ENDIAN type_ 0
                              (match bus with Some b => message_version b | None => 1 end)
                              0 0 0)
                   zero_message))
  end.

(** A constructor gives its [int] result and the message it stores through
    its last argument; on failure the new message is freed. *)
Definition sd_bus_message_new_signal
    (bus : option sd_bus) (path_ interface_ member_ : option cstring)
  : M (Z * option sd_bus_message) :=
  match path_, interface_, member_ with
  | None, _, _ => ret (- EINVAL, None)
  | _, None, _ => ret (- EINVAL, None)
  | _, _, None => ret (- EINVAL, None)
  | Some path_, Some interface_, Some member_ =>
      t <- message_new bus SD_BUS_MESSAGE_TYPE_SIGNAL ;;
      match t with
      | None => ret (- ENOMEM, None)
      | Some t =>
          let t := set_header
                     (set_flags (Z.lor (flags (header t)) SD_BUS_MESSAGE_NO_REPLY_EXPECTED)
                                (header t)) t in
          '(r, t) <- message_append_field_string t SD_BUS_MESSAGE_HEADER_PATH
                       SD_BUS_TYPE_OBJECT_PATH path_ (Some set_path) ;;
          if r <? 0 then ret (r, None) else
          '(r, t) <- message_append_field_string t SD_BUS_MESSAGE_HEADER_INTERFACE
                       SD_BUS_TYPE_STRING interface_ (Some set_interface) ;;
          if r <? 0 then ret (r, None) else
          '(r, t) <- message_append_field_string t SD_BUS_MESSAGE_HEADER_MEMBER
                       SD_BUS_TYPE_STRING member_ (Some set_member) ;;
          if r <? 0 then ret (r, None) else
          ret (0, Some t)
      end
  end.

Definition sd_bus_message_new_method_call
    (bus : option sd_bus) (destination_ path_ interface_ member_ : option cstring)
  : M (Z * option sd_bus_message) :=
  match path_, member_ with
  | None, _ => ret (- EINVAL, None)
  | _, None => ret (- EINVAL, None)
  | Some path_, Some member_ =>
      t <- message_new bus SD_BUS_MESSAGE_TYPE_METHOD_CALL ;;
      match t with
      | None => ret (- ENOMEM, None)
      | Some t =>
          '(r, t) <- message_append_field_string t SD_BUS_MESSAGE_HEADER_PATH
                       SD_BUS_TYPE_OBJECT_PATH path_ (Some set_path) ;;
          if r <? 0 then ret (r, None) else
          '(r, t) <- message_append_field_string t SD_BUS_MESSAGE_HEADER_MEMBER
                       SD_BUS_TYPE_STRING member_ (Some set_member) ;;
          if r <? 0 then ret (r, None) else
          '(r, t) <- match interface_ with
                     | Some i => message_append_field_string t SD_BUS_MESSAGE_HEADER_INTERFACE
                                   SD_BUS_TYPE_STRING i (Some set_interface)
                     | None => ret (0, t)
                     end ;;
          if r <? 0 then ret (r, None) else
          '(r, t) <- match destination_ with
                     | Some d => message_append_field_string t SD_BUS_MESSAGE_HEADER_DESTINATION
                                   SD_BUS_TYPE_STRING d (Some set_destination)
                     | None => ret (0, t)
                     end ;;
          if r <? 0 then ret (r, None) else
          ret (0, Some t)
      end
  end.

(** [call->sender] points into the fields of [call]; the string it points
    to is what is appended. *)
Definition message_new_reply
    (bus : option sd_bus) (call : option sd_bus_message) (type_ : Z)
  : M (Z * option sd_bus_message) :=
  match call with
  | None => ret (- EINVAL, None)
  | Some call =>
      if negb (sealed call) then ret (- EPERM, None)
      else if negb (type (header call) =? SD_BUS_MESSAGE_TYPE_METHOD_CALL) then ret (- EINVAL, None)
      else
        t <- message_new bus type_ ;;
        match t with
        | None => ret (- ENOMEM, None)
        | Some t =>
            let t := set_header
                       (set_flags (Z.lor (flags (header t)) SD_BUS_MESSAGE_NO_REPLY_EXPECTED)
                                  (header t)) t in
            let t := set_reply_serial (BUS_MESSAGE_SERIAL call) t in
            '(r, t) <- message_append_field_uint32 t SD_BUS_MESSAGE_HEADER_REPLY_SERIAL
                         (reply_serial t) ;;
            if r <? 0 then ret (r, None) else
            '(r, t) <- match sender call with
                       | Some s =>
                           message_append_field_string t SD_BUS_MESSAGE_HEADER_DESTINATION
                             SD_BUS_TYPE_STRING (cstr_at (region_bytes (fields call)) s)
                             (Some set_sender)
                       | None => ret (0, t)
                       end ;;
            if r <? 0 then ret (r, None) else
            let t := set_dont_send
                       (negb (Z.land (flags (header call)) SD_BUS_MESSAGE_NO_REPLY_EXPECTED =? 0))
                       t in
            ret (0, Some t)
        end
  end.

Definition sd_bus_message_new_method_return
    (bus : option sd_bus) (call : option sd_bus_message)
  : M (Z * option sd_bus_message) :=
  message_new_reply bus call SD_BUS_MESSAGE_TYPE_METHOD_RETURN.

(** ** Accessors *)

Definition sd_bus_message_get_no_reply (m : sd_bus_message) : Z :=
  if type (header m) =? SD_BUS_MESSAGE_TYPE_METHOD_CALL
  then (if Z.land (flags (header m)) SD_BUS_MESSAGE_NO_REPLY_EXPECTED =? 0 then 0 else 1)
  else 0.

Definition sd_bus_message_get_destination (m : sd_bus_message) : option Z := destination m.

Definition sd_bus_message_get_sender (m : sd_bus_message) : option Z := sender m.

(** The result and the value stored through [serial]. *)
Definition sd_bus_message_get_reply_serial (m : sd_bus_message) : Z * option Z :=
  if reply_serial m =? 0 then (- ENOENT, None) else (0, Some (reply_serial m)).

Definition message_get_container (m : sd_bus_message) : bus_container :=
  if n_containers m =? 0 then root_container m
  else last (containers m) (root_container m).

(** [c] is a pointer to the current frame: writing through it changes the
    root container or the last live frame of the stack. *)
Definition message_set_container (m : sd_bus_message) (c : bus_container) : sd_bus_message :=
  if n_containers m =? 0 then set_root_container c m
  else set_containers (removelast (containers m) ++ [c]) m.

(** [c->signature[c->index] = 0], undoing a tentative extension. *)
Definition truncate_signature (e : bool) (m : sd_bus_message) : sd_bus_message :=
  if e then
    let c := message_get_container m in
    message_set_container m
      (set_signature (Some (firstn (Z.to_nat (index c)) (strempty (signature c)))) c)
  else m.

(** [*c->array_size += added] for the slot at body offset [a]. *)
Definition array_size_add (b : list Z) (a added : Z) : list Z :=
  mem_write b a (store_native 4 (u32 (load_native (slice b a 4) + added))).

(** ** Writer *)

Definition message_extend_body (m : sd_bus_message) (align sz : Z)
  : M (option Z * sd_bus_message) :=
  let before := body_size (header m) in
  '(p, b, bs) <- buffer_extend (body m) (body_size (header m)) align sz ;;
  match p with
  | None => ret (None, m)
  | Some _ =>
      let added := size_t (bs - before) in
      let b' := fold_left
                  (fun b c => match array_size c with
                              | Some a => array_size_add b a added
                              | None => b
                              end)
                  (containers m) (region_bytes b) in
      let b := match b with Some _ => Some b' | None => None end in
      ret (p, set_body b (set_header (set_body_size bs (header m)) m))
  end.

(** What [const void *p] points to: nothing, an integer object of the
    width of the type (given by its value as an unsigned integer), or a
    C string. *)
Inductive pointee : Type :=
| PNull
| PInt (v : Z)
| PStr (s : cstring).

(** Modelled from the spec: util.c is not among the sources; [strextend]
    extends the signature in place by the given characters and fails when
    the allocator does. The pointer it returns is the end of the extended
    string, so that [e - c->signature] is its length. *)
Definition strextend (x : option cstring) (suffix : cstring) : M (option cstring) :=
  a <- alloc ;;
  match a with
  | AllocFails => ret None
  | AllocOk _ => ret (Some (strempty x ++ suffix))
  end.

Definition set_error_message (q : option Z) (m : sd_bus_message) : sd_bus_message :=
  set_error (mk_error (name (error m)) q) m.

Definition set_error_name (q : option Z) (m : sd_bus_message) : sd_bus_message :=
  set_error (mk_error q (message (error m))) m.

Definition has_char (c : bus_container) : bool :=
  match signature c with
  | Some s => negb (char_at s (index c) =? 0)
  | None => false
  end.

Definition advance (c : bus_container) (nindex : Z) : bus_container :=
  if enclosing c =? SD_BUS_TYPE_ARRAY then c else set_index nindex c.

(** [message_append_basic] in its three parts. First the slot of the
    current frame: it must hold the type, or, at the end of the signature
    of the root container, the signature is extended by it. The result is
    the [int], whether the signature was extended ([e] is not NULL) and the
    message. *)
Definition append_slot (m : sd_bus_message) (type_ : Z) : M (Z * bool * sd_bus_message) :=
  let c := message_get_container m in
  if has_char c then
    (* Container signature is already set *)
    if negb (char_at (strempty (signature c)) (index c) =? type_)
    then ret (- ENXIO, false, m)
    else ret (0, false, m)
  else
    (* Maybe we can append to the signature? But only if this is the top-level container *)
    if negb (enclosing c =? 0) then ret (- ENXIO, false, m)
    else
      e <- strextend (signature c) [type_] ;;
      match e with
      | None => ret (- ENOMEM, false, m)
      | Some s => ret (0, true, message_set_container m (set_signature (Some s) c))
      end.

(** Then the switch on the type: an [int] that is negative for a NULL
    string, the alignment, the size and the bytes that will be copied
    into the body. *)
Definition basic_layout (type_ : Z) (p : pointee) : outcome (Z * (Z * Z * list Z)) :=
  if (type_ =? SD_BUS_TYPE_STRING) || (type_ =? SD_BUS_TYPE_OBJECT_PATH) then
    match p with
    | PNull => Returns (- EINVAL, (0, 0, []))
    | PStr s =>
        let sz := size_t (4 + strlen s + 1) in
        Returns (0, (4, sz, store_native 4 (u32 (sz - 5)) ++ s ++ [0]))
    | PInt _ => Undefined
    end
  else if type_ =? SD_BUS_TYPE_SIGNATURE then
    match p with
    | PNull => Returns (- EINVAL, (0, 0, []))
    | PStr s =>
        let sz := size_t (1 + strlen s + 1) in
        Returns (0, (1, sz, [u8 (sz - 1)] ++ s ++ [0]))
    | PInt _ => Undefined
    end
  else if type_ =? SD_BUS_TYPE_BOOLEAN then
    match p with
    | PInt v =>
        let k := if u32 v =? 0 then 0 else 1 in
        Returns (0, (4, 4, store_native 4 k))
    | _ => Undefined
    end
  else
    match p with
    | PInt v =>
        let sz := bus_type_get_size type_ in
        Returns (0, (bus_type_get_alignment type_, sz, store_native (Z.to_nat sz) v))
    | _ => Undefined
    end.

(** Last the body grows and takes the bytes, and the cursor of the frame
    moves on. *)
Definition append_value
    (m : sd_bus_message) (e : bool) (type_ align sz : Z) (bytes : list Z) (stored : out_ptr)
  : M (Z * sd_bus_message) :=
  '(a, m) <- message_extend_body m align sz ;;
  match a with
  | None =>
      (* Truncate extended signature again *)
      ret (- ENOMEM, truncate_signature e m)
  | Some a =>
      let m := set_body (Some (mem_write (region_bytes (body m)) a bytes)) m in
      let m := if (type_ =? SD_BUS_TYPE_STRING) || (type_ =? SD_BUS_TYPE_OBJECT_PATH)
               then assign stored (a + 4) m
               else if type_ =? SD_BUS_TYPE_SIGNATURE then assign stored (a + 1) m
               else assign stored a m in
      let c := message_get_container m in
      ret (0, message_set_container m (advance c (index c + 1)))
  end.

Definition message_append_basic
    (m : sd_bus_message) (type_ : Z) (p : pointee) (stored : out_ptr)
  : M (Z * sd_bus_message) :=
  if sealed m then ret (- EPERM, m)
  else if negb (bus_type_is_basic type_) then ret (- EINVAL, m)
  else
    '(r, e, m) <- append_slot m type_ ;;
    if r <? 0 then ret (r, m)
    else
      match basic_layout type_ p with
      | Stops why => stops why
      | Returns (r, (align, sz, bytes)) =>
          if r <? 0 then ret (r, truncate_signature e m)
          else append_value m e type_ align sz bytes stored
      end.

Definition sd_bus_message_append_basic (m : sd_bus_message) (type_ : Z) (p : pointee)
  : M (Z * sd_bus_message) :=
  message_append_basic m type_ p None.

(** The signature check the four [open] helpers share: the slot of the
    current frame must hold [expected]; an exhausted signature of the root
    container is extended by [expected] instead. The result is the [int],
    whether the signature was extended, the index behind the slot, and the
    message. *)
Definition open_slot
    (m : sd_bus_message) (c : bus_container) (matches : bool) (expected : cstring)
  : M (Z * bool * Z * sd_bus_message) :=
  if has_char c then
    if negb matches then ret (- ENXIO, false, 0, m)
    else ret (0, false, index c + strlen expected, m)
  else if negb (enclosing c =? 0) then ret (- ENXIO, false, 0, m)
  else
    e <- strextend (signature c) expected ;;
    match e with
    | None => ret (- ENOMEM, false, 0, m)
    | Some s => ret (0, true, strlen s, message_set_container m (set_signature (Some s) c))
    end.

(** The result is the [int], the message and [*array_size]. *)
Definition bus_message_open_array
    (m : sd_bus_message) (c : bus_container) (contents : cstring)
  : M (Z * sd_bus_message * option Z) :=
  if negb (signature_is_single contents) then ret (- EINVAL, m, None)
  else
    let alignment := bus_type_get_alignment (char_at contents 0) in
    if alignment <? 0 then ret (alignment, m, None)
    else
      let sig := strempty (signature c) in
      '(r, e, nindex, m) <-
        open_slot m c
          ((char_at sig (index c) =? SD_BUS_TYPE_ARRAY)
           && startswith (str_from sig (index c + 1)) contents)
          (SD_BUS_TYPE_ARRAY :: contents) ;;
      if r <? 0 then ret (r, m, None)
      else
        let saved := body_size (header m) in
        '(a, m) <- message_extend_body m 4 4 ;;
        match a with
        | None => ret (- ENOMEM, truncate_signature e m, None)
        | Some a =>
            '(pad, m) <- message_extend_body m alignment 0 ;;
            match pad with
            | None =>
                (* Add alignment between size and first element *)
                let m := truncate_signature e m in
                ret (- ENOMEM, set_header (set_body_size saved (header m)) m, None)
            | Some _ =>
                let m := message_set_container m (advance (message_get_container m) nindex) in
                let m := set_body
                           (Some (mem_write (region_bytes (body m)) a (store_native 4 0))) m in
                ret (0, m, Some a)
            end
        end.

Definition bus_message_open_variant
    (m : sd_bus_message) (c : bus_container) (contents : cstring)
  : M (Z * sd_bus_message) :=
  if negb (signature_is_single contents) then ret (- EINVAL, m)
  else if char_at contents 0 =? SD_BUS_TYPE_DICT_ENTRY_BEGIN then ret (- EINVAL, m)
  else
    let sig := strempty (signature c) in
    '(r, e, _, m) <-
      open_slot m c (char_at sig (index c) =? SD_BUS_TYPE_VARIANT) [SD_BUS_TYPE_VARIANT] ;;
    if r <? 0 then ret (r, m)
    else
      let l := strlen contents in
      '(a, m) <- message_extend_body m 1 (size_t (1 + l + 1)) ;;
      match a with
      | None => ret (- ENOMEM, truncate_signature e m)
      | Some a =>
          let m := set_body
                     (Some (mem_write (region_bytes (body m)) a ([u8 l] ++ contents ++ [0]))) m in
          let c := message_get_container m in
          ret (0, message_set_container m (advance c (index c + 1)))
      end.

Definition bus_message_open_struct
    (m : sd_bus_message) (c : bus_container) (contents : cstring)
  : M (Z * sd_bus_message) :=
  if negb (signature_is_valid contents false) then ret (- EINVAL, m)
  else
    let sig := strempty (signature c) in
    let l := strlen contents in
    '(r, e, nindex, m) <-
      open_slot m c
        ((char_at sig (index c) =? SD_BUS_TYPE_STRUCT_BEGIN)
         && startswith (str_from sig (index c + 1)) contents
         && (char_at sig (index c + 1 + l) =? SD_BUS_TYPE_STRUCT_END))
        ([SD_BUS_TYPE_STRUCT_BEGIN] ++ contents ++ [SD_BUS_TYPE_STRUCT_END]) ;;
    if r <? 0 then ret (r, m)
    else
      (* Align contents to 8 byte boundary *)
      '(a, m) <- message_extend_body m 8 0 ;;
      match a with
      | None => ret (- ENOMEM, truncate_signature e m)
      | Some _ =>
          ret (0, message_set_container m (advance (message_get_container m) nindex))
      end.

Definition bus_message_open_dict_entry
    (m : sd_bus_message) (c : bus_container) (contents : cstring)
  : M (Z * sd_bus_message) :=
  if negb (signature_is_pair contents) then ret (- EINVAL, m)
  else if negb (enclosing c =? SD_BUS_TYPE_ARRAY) then ret (- ENXIO, m)
  else if has_char c then
    let sig := strempty (signature c) in
    let l := strlen contents in
    if negb ((char_at sig (index c) =? SD_BUS_TYPE_DICT_ENTRY_BEGIN)
             && startswith (str_from sig (index c + 1)) contents
             && (char_at sig (index c + 1 + l) =? SD_BUS_TYPE_DICT_ENTRY_END))
    then ret (- ENXIO, m)
    else
      let nindex := index c + 1 + l + 1 in
      (* Align contents to 8 byte boundary *)
      '(a, m) <- message_extend_body m 8 0 ;;
      match a with
      | None => ret (- ENOMEM, m)
      | Some _ =>
          ret (0, message_set_container m (advance (message_get_container m) nindex))
      end
  else ret (- ENXIO, m).

(** The dispatch of [open_container] on the kind of container; only the
    array helper stores through [array_size]. *)
Definition open_kind
    (m : sd_bus_message) (c : bus_container) (type_ : Z) (contents : cstring)
  : M (Z * sd_bus_message * option Z) :=
  if type_ =? SD_BUS_TYPE_ARRAY then bus_message_open_array m c contents
  else if type_ =? SD_BUS_TYPE_VARIANT then
    '(r, m) <- bus_message_open_variant m c contents ;; ret (r, m, None)
  else if type_ =? SD_BUS_TYPE_STRUCT then
    '(r, m) <- bus_message_open_struct m c contents ;; ret (r, m, None)
  else if type_ =? SD_BUS_TYPE_DICT_ENTRY then
    '(r, m) <- bus_message_open_dict_entry m c contents ;; ret (r, m, None)
  else ret (- EINVAL, m, None).

Definition sd_bus_message_open_container
    (m : sd_bus_message) (type_ : Z) (contents : option cstring)
  : M (Z * sd_bus_message) :=
  if sealed m then ret (- EPERM, m)
  else
    match contents with
    | None => ret (- EINVAL, m)
    | Some contents =>
        (* Make sure we have space for one more container *)
        w <- alloc ;;
        match w with
        | AllocFails => ret (- ENOMEM, m)
        | AllocOk _ =>
            let c := message_get_container m in
            signature_ <- alloc ;;
            match signature_ with
            | AllocFails => ret (- ENOMEM, m)
            | AllocOk _ =>
                '(r, m, array_size_) <- open_kind m c type_ contents ;;
                if r <? 0 then ret (r, m)
                else
                  (* OK, let's fill it in *)
                  ret (0, set_containers
                            (containers m ++ [mk_container type_ (Some contents) 0 array_size_ 0])
                            m)
            end
        end
    end.

Definition sd_bus_message_close_container (m : sd_bus_message) : Z * sd_bus_message :=
  if sealed m then (- EPERM, m)
  else if n_containers m <=? 0 then (- EINVAL, m)
  else
    let c := message_get_container m in
    if negb (enclosing c =? SD_BUS_TYPE_ARRAY) && has_char c then (- EINVAL, m)
    else (0, set_containers (removelast (containers m)) m).

Definition sd_bus_message_new_method_error
    (bus : option sd_bus) (call : option sd_bus_message) (e : option (sd_bus_error cstring))
  : M (Z * option sd_bus_message) :=
  match e with
  | Some (mk_error (Some e_name) e_message) =>
      '(r, t) <- message_new_reply bus call SD_BUS_MESSAGE_TYPE_METHOD_ERROR ;;
      match t with
      | None => ret (r, None)
      | Some t =>
          if r <? 0 then ret (r, None) else
          '(r, t) <- message_append_field_string t SD_BUS_MESSAGE_HEADER_ERROR_NAME
                       SD_BUS_TYPE_STRING e_name (Some set_error_name) ;;
          if r <? 0 then ret (r, None) else
          '(r, t) <- match e_message with
                     | Some msg => message_append_basic t SD_BUS_TYPE_STRING (PStr msg)
                                     (Some set_error_message)
                     | None => ret (0, t)
                     end ;;
          if r <? 0 then ret (r, None) else
          ret (0, Some t)
      end
  | _ => ret (- EINVAL, None)
  end.

(** ** Reader *)

(** The loop of [buffer_peek] that verifies that padding is 0: [count]
    bytes from offset [k] on. *)
Fixpoint padding_is_zero (p : list Z) (k : Z) (count : nat) : bool :=
  match count with
  | O => true
  | S count' => if byte_at p k =? 0 then padding_is_zero p (k + 1) count' else false
  end.

(** The result is the [int], [*rindex] after the call and the pointer
    stored through [r], as an offset into [p]. *)
Definition buffer_peek (p : list Z) (sz rindex align nbytes : Z) : Z * Z * Z :=
  let start := ALIGN_TO rindex align in
  let n := size_t (start + nbytes) in
  if sz <? n then (- EBADMSG, rindex, 0)
  else if negb (padding_is_zero p rindex (Z.to_nat (start - rindex))) then (- EBADMSG, rindex, 0)
  else (1, n, start).

Definition message_end_of_array (m : sd_bus_message) (index_ : Z) : bool :=
  let c := message_get_container m in
  match array_size c with
  | None => false
  | Some a =>
      size_t (begin c + BUS_MESSAGE_BSWAP32 m (load_native (slice (region_bytes (body m)) a 4)))
        <=? index_
  end.

Definition message_peek_body (m : sd_bus_message) (rindex_ align nbytes : Z) : Z * Z * Z :=
  if message_end_of_array m rindex_ then (0, rindex_, 0)
  else buffer_peek (region_bytes (body m)) (BUS_MESSAGE_BODY_SIZE m) rindex_ align nbytes.

(** [memchr] stops at the first NUL it meets; when it meets none inside
    the object and [l] reaches past its end, the scan leaves the object. *)
Definition validate_nul (buf : list Z) (s l : Z) : outcome bool :=
  (* Check for NUL chars in the string *)
  if existsb (Z.eqb 0) (slice buf s l) then Returns false
  else if Zlength buf <=? s + l then Undefined
  (* Check for NUL termination *)
  else Returns (byte_at buf (s + l) =? 0).

Definition validate_with (check : cstring -> bool) (buf : list Z) (s l : Z) : outcome bool :=
  match validate_nul buf s l with
  | Returns true => Returns (check (cstr_at buf s))
  | other => other
  end.

Definition validate_string : list Z -> Z -> Z -> outcome bool :=
  validate_with utf8_is_valid.

Definition validate_signature : list Z -> Z -> Z -> outcome bool :=
  validate_with (fun s => signature_is_valid s true).

Definition validate_object_path : list Z -> Z -> Z -> outcome bool :=
  validate_with object_path_is_valid.

(** What a read stores through [void *p]: an integer, or a pointer into
    the body. *)
Inductive value : Type :=
| VInt (v : Z)
| VPtr (q : Z).

Definition read_done (m : sd_bus_message) (v : value)
  : outcome (Z * sd_bus_message * option value) :=
  let c := message_get_container m in
  Returns (1, message_set_container m (advance c (index c + 1)), Some v).

(** The length-prefixed string types: [width] bytes of length aligned to
    [width], then the characters and a NUL. *)
Definition read_string
    (m : sd_bus_message) (width : Z) (validate : list Z -> Z -> Z -> outcome bool)
  : outcome (Z * sd_bus_message * option value) :=
  let b := region_bytes (body m) in
  let '(r, rindex_, q) := message_peek_body m (rindex m) width width in
  if r <=? 0 then Returns (r, m, None)
  else
    let l := if width =? 4 then BUS_MESSAGE_BSWAP32 m (load_native (slice b q 4))
             else byte_at b q in
    let '(r, rindex_, q) :=
      message_peek_body m rindex_ 1 (if width =? 4 then u32 (l + 1) else l + 1) in
    if r <? 0 then Returns (r, m, None)
    else if r =? 0 then Returns (- EBADMSG, m, None)
    else
      match validate b q l with
      | Stops why => Stops why
      | Returns false => Returns (- EBADMSG, m, None)
      | Returns true => read_done (set_rindex rindex_ m) (VPtr q)
      end.

Definition sd_bus_message_read_basic (m : sd_bus_message) (type_ : Z)
  : outcome (Z * sd_bus_message * option value) :=
  if negb (sealed m) then Returns (- EPERM, m, None)
  else if negb (bus_type_is_basic type_) then Returns (- EINVAL, m, None)
  else
    let c := message_get_container m in
    if negb (has_char c) then Returns (0, m, None)
    else if negb (char_at (strempty (signature c)) (index c) =? type_)
    then Returns (- ENXIO, m, None)
    else if type_ =? SD_BUS_TYPE_STRING then read_string m 4 validate_string
    else if type_ =? SD_BUS_TYPE_OBJECT_PATH then read_string m 4 validate_object_path
    else if type_ =? SD_BUS_TYPE_SIGNATURE then read_string m 1 validate_signature
    else
      let align := bus_type_get_alignment type_ in
      let sz := bus_type_get_size type_ in
      let b := region_bytes (body m) in
      let '(r, rindex_, q) := message_peek_body m (rindex m) align sz in
      if r <=? 0 then Returns (r, m, None)
      else
        let m := set_rindex rindex_ m in
        if type_ =? SD_BUS_TYPE_BYTE then read_done m (VInt (byte_at b q))
        else if type_ =? SD_BUS_TYPE_BOOLEAN then
          read_done m (VInt (if load_native (slice b q 4) =? 0 then 0 else 1))
        else if (type_ =? SD_BUS_TYPE_INT16) || (type_ =? SD_BUS_TYPE_UINT16) then
          read_done m (VInt (BUS_MESSAGE_BSWAP16 m (load_native (slice b q 2))))
        else if (type_ =? SD_BUS_TYPE_INT32) || (type_ =? SD_BUS_TYPE_UINT32) then
          read_done m (VInt (BUS_MESSAGE_BSWAP32 m (load_native (slice b q 4))))
        else if (type_ =? SD_BUS_TYPE_INT64) || (type_ =? SD_BUS_TYPE_UINT64)
                || (type_ =? SD_BUS_TYPE_DOUBLE) then
          read_done m (VInt (BUS_MESSAGE_BSWAP64 m (load_native (slice b q 8))))
        else
          (* assert_not_reached("Unknown basic type...") *)
          Undefined.

(** The result of an [enter] helper is the [int], the message and
    [*array_size]. *)
Definition bus_message_enter_array
    (m : sd_bus_message) (c : bus_container) (contents : cstring)
  : outcome (Z * sd_bus_message * option Z) :=
  if negb (signature_is_single contents) then Returns (- EINVAL, m, None)
  else
    let alignment := bus_type_get_alignment (char_at contents 0) in
    if alignment <? 0 then Returns (alignment, m, None)
    else if negb (has_char c) then Returns (0, m, None)
    else
      let sig := strempty (signature c) in
      if negb (char_at sig (index c) =? SD_BUS_TYPE_ARRAY) then Returns (- ENXIO, m, None)
      else if negb (startswith (str_from sig (index c + 1)) contents)
      then Returns (- ENXIO, m, None)
      else
        let '(r, rindex_, q) := message_peek_body m (rindex m) 4 4 in
        if r <=? 0 then Returns (r, m, None)
        else if BUS_ARRAY_MAX_SIZE
                  <? BUS_MESSAGE_BSWAP32 m (load_native (slice (region_bytes (body m)) q 4))
        then Returns (- EBADMSG, m, None)
        else
          let '(r, rindex_, _) := message_peek_body m rindex_ alignment 0 in
          if r <? 0 then Returns (r, m, None)
          else if r =? 0 then Returns (- EBADMSG, m, None)
          else
            let m := message_set_container m (advance c (index c + (1 + strlen contents))) in
            Returns (1, set_rindex rindex_ m, Some q).

Definition bus_message_enter_variant
    (m : sd_bus_message) (c : bus_container) (contents : cstring)
  : outcome (Z * sd_bus_message * option Z) :=
  if negb (signature_is_single contents) then Returns (- EINVAL, m, None)
  else if char_at contents 0 =? SD_BUS_TYPE_DICT_ENTRY_BEGIN then Returns (- EINVAL, m, None)
  else if negb (has_char c) then Returns (0, m, None)
  else if negb (char_at (strempty (signature c)) (index c) =? SD_BUS_TYPE_VARIANT)
  then Returns (- ENXIO, m, None)
  else
    let b := region_bytes (body m) in
    let '(r, rindex_, q) := message_peek_body m (rindex m) 1 1 in
    if r <=? 0 then Returns (r, m, None)
    else
      let l := byte_at b q in
      let '(r, rindex_, q) := message_peek_body m rindex_ 1 (l + 1) in
      if r <? 0 then Returns (r, m, None)
      else if r =? 0 then Returns (- EBADMSG, m, None)
      else
        match validate_signature b q l with
        | Stops why => Stops why
        | Returns false => Returns (- EBADMSG, m, None)
        | Returns true =>
            if negb (streq (cstr_at b q) contents) then Returns (- ENXIO, m, None)
            else
              let m := message_set_container m (advance c (index c + 1)) in
              Returns (1, set_rindex rindex_ m, None)
        end.

(** STRUCT and DICT_ENTRY differ in the grammar predicate, the brackets and
    the frame a DICT_ENTRY has to sit in. *)
Definition enter_bracketed
    (m : sd_bus_message) (c : bus_container) (contents : cstring) (open_ close_ : Z)
  : outcome (Z * sd_bus_message * option Z) :=
  if negb (has_char c) then Returns (0, m, None)
  else
    let sig := strempty (signature c) in
    let l := strlen contents in
    if negb ((char_at sig (index c) =? open_)
             && startswith (str_from sig (index c + 1)) contents
             && (char_at sig (index c + 1 + l) =? close_))
    then Returns (- ENXIO, m, None)
    else
      let '(r, rindex_, _) := message_peek_body m (rindex m) 8 0 in
      if r <=? 0 then Returns (r, m, None)
      else
        let m := set_rindex rindex_ m in
        Returns (1, message_set_container m (advance c (index c + (1 + l + 1))), None).

Definition bus_message_enter_struct
    (m : sd_bus_message) (c : bus_container) (contents : cstring)
  : outcome (Z * sd_bus_message * option Z) :=
  if negb (signature_is_valid contents false) then Returns (- EINVAL, m, None)
  else enter_bracketed m c contents SD_BUS_TYPE_STRUCT_BEGIN SD_BUS_TYPE_STRUCT_END.

Definition bus_message_enter_dict_entry
    (m : sd_bus_message) (c : bus_container) (contents : cstring)
  : outcome (Z * sd_bus_message * option Z) :=
  if negb (signature_is_pair contents) then Returns (- EINVAL, m, None)
  else if negb (enclosing c =? SD_BUS_TYPE_ARRAY) then Returns (- ENXIO, m, None)
  else enter_bracketed m c contents SD_BUS_TYPE_DICT_ENTRY_BEGIN SD_BUS_TYPE_DICT_ENTRY_END.

Definition lift {A} (o : outcome A) : M A :=
  fun h => match o with Returns a => Returns (a, h) | Stops why => Stops why end.

(** The dispatch of [enter_container] on the kind of container. *)
Definition enter_kind
    (m : sd_bus_message) (c : bus_container) (type_ : Z) (contents : cstring)
  : outcome (Z * sd_bus_message * option Z) :=
  if type_ =? SD_BUS_TYPE_ARRAY then bus_message_enter_array m c contents
  else if type_ =? SD_BUS_TYPE_VARIANT then bus_message_enter_variant m c contents
  else if type_ =? SD_BUS_TYPE_STRUCT then bus_message_enter_struct m c contents
  else if type_ =? SD_BUS_TYPE_DICT_ENTRY then bus_message_enter_dict_entry m c contents
  else Returns (- EINVAL, m, None).

Definition sd_bus_message_enter_container
    (m : sd_bus_message) (type_ : Z) (contents : option cstring)
  : M (Z * sd_bus_message) :=
  if negb (sealed m) then ret (- EPERM, m)
  else
    match contents with
    | None => ret (- EINVAL, m)
    | Some contents =>
        (* We enforce a global limit on container depth *)
        if BUS_CONTAINER_DEPTH <=? n_containers m then ret (- EBADMSG, m)
        else
          w <- alloc ;;
          match w with
          | AllocFails => ret (- ENOMEM, m)
          | AllocOk _ =>
              let c := message_get_container m in
              if negb (has_char c) then ret (0, m)
              else
                signature_ <- alloc ;;
                match signature_ with
                | AllocFails => ret (- ENOMEM, m)
                | AllocOk _ =>
                    '(r, m, array_size_) <- lift (enter_kind m c type_ contents) ;;
                    if r <=? 0 then ret (r, m)
                    else
                      (* OK, let's fill it in *)
                      ret (1, set_containers
                                (containers m
                                   ++ [mk_container type_ (Some contents) 0 array_size_ (rindex m)])
                                m)
                end
          end
    end.

Definition sd_bus_message_exit_container (m : sd_bus_message) : outcome (Z * sd_bus_message) :=
  if negb (sealed m) then Returns (- EPERM, m)
  else if n_containers m <=? 0 then Returns (- EINVAL, m)
  else
    let c := message_get_container m in
    let pop := Returns (1, set_containers (removelast (containers m)) m) in
    if enclosing c =? SD_BUS_TYPE_ARRAY then
      match array_size c with
      | None => Undefined
      | Some a =>
          let l := BUS_MESSAGE_BSWAP32 m (load_native (slice (region_bytes (body m)) a 4)) in
          if negb (size_t (begin c + l) =? rindex m) then Returns (- EBUSY, m)
          else pop
      end
    else if has_char c then Returns (- EINVAL, m)
    else pop.

(** The length prefix of an array frame, as the parser reads it:
    the [uint32_t] at [c->array_size], byte-swapped when the message is
    not in the byte order of the host. *)
Definition array_length (m : sd_bus_message) (a : Z) : Z :=
  BUS_MESSAGE_BSWAP32 m (load_native (slice (region_bytes (body m)) a 4)).

Definition reset_containers (m : sd_bus_message) : sd_bus_message :=
  set_root_container (set_index 0 (root_container m)) (set_containers [] m).

Definition sd_bus_message_rewind (m : sd_bus_message) (complete : bool) : Z * sd_bus_message :=
  if negb (sealed m) then (- EPERM, m)
  else
    let m :=
      if complete then
        let m := set_rindex 0 (reset_containers m) in
        set_root_container (set_index 0 (root_container m)) m
      else
        let c := message_get_container m in
        set_rindex (begin c) (message_set_container m (set_index 0 c)) in
    ((if isempty (signature (message_get_container m)) then 0 else 1), m).

(** ** Header fields of a received message *)

Definition message_peek_fields (m : sd_bus_message) (rindex_ align nbytes : Z) : Z * Z * Z :=
  buffer_peek (region_bytes (fields m)) (BUS_MESSAGE_FIELDS_SIZE m) rindex_ align nbytes.

(** The result is the [int], [*ri] and the value stored through [ret]. *)
Definition message_peek_field_uint32 (m : sd_bus_message) (ri : Z) : Z * Z * Z :=
  let '(r, ri, q) := message_peek_fields m ri 4 4 in
  if r <? 0 then (r, ri, 0)
  else (0, ri, BUS_MESSAGE_BSWAP32 m (load_native (slice (region_bytes (fields m)) q 4))).

(** The result is the [int], [*ri] and the pointer stored through [ret].
    A NULL [validate] stands for the UTF-8 check of [validate_string]. *)
Definition message_peek_field_string
    (m : sd_bus_message) (validate : option (cstring -> bool)) (ri : Z)
  : outcome (Z * Z * Z) :=
  let '(r, ri, l) := message_peek_field_uint32 m ri in
  if r <? 0 then Returns (r, ri, 0)
  else
    let '(r, ri, q) := message_peek_fields m ri 1 (u32 (l + 1)) in
    if r <? 0 then Returns (r, ri, 0)
    else
      match validate_with (match validate with Some v => v | None => utf8_is_valid end)
                          (region_bytes (fields m)) q l with
      | Stops why => Stops why
      | Returns false => Returns (- EBADMSG, ri, 0)
      | Returns true => Returns (0, ri, q)
      end.

Definition message_peek_field_signature (m : sd_bus_message) (ri : Z) : outcome (Z * Z * Z) :=
  let '(r, ri, q) := message_peek_fields m ri 1 1 in
  if r <? 0 then Returns (r, ri, 0)
  else
    let l := byte_at (region_bytes (fields m)) q in
    let '(r, ri, q) := message_peek_fields m ri 1 (l + 1) in
    if r <? 0 then Returns (r, ri, 0)
    else
      match validate_signature (region_bytes (fields m)) q l with
      | Stops why => Stops why
      | Returns false => Returns (- EBADMSG, ri, 0)
      | Returns true => Returns (0, ri, q)
      end.

(** [*signature += n] on a signature of which [sig] is left: stepping
    beyond its end leaves the object. *)
Definition sig_advance (sig : cstring) (n : Z) : outcome cstring :=
  if strlen sig <? n then Undefined else Returns (str_from sig n).

(** [message_skip_fields]. [sig] is what [*signature] points to and
    [terminated] tells whether a NUL follows it: the copies the function
    makes of a part of a signature ([char sig[l-1]] filled by [strncpy])
    have none. The grammar helper reads its argument up to the end of an
    element; applied to such a copy, which always lacks the last character
    of the element it was cut from, it reads beyond the array. Every turn
    of the loop and every call takes one unit of fuel. The result is the
    [int] and [*ri]. *)
Fixpoint message_skip_fields
    (fuel : nat) (m : sd_bus_message) (ri array_size_ : Z)
    (sig : cstring) (terminated : bool) (original_index : Z) {struct fuel}
  : outcome (Z * Z) :=
  match fuel with
  | O => Stops FuelExhausted
  | S fuel =>
      if negb (array_size_ =? UINT32_MAX) && (array_size_ <=? size_t (ri - original_index))
      then Returns (0, ri)
      else
        match sig with
        | [] => if terminated then Returns (0, ri) else Undefined
        | t :: _ =>
            let next (r_ri : outcome (Z * Z)) (n : Z) :=
              match r_ri with
              | Stops why => Stops why
              | Returns (r, ri) =>
                  if r <? 0 then Returns (r, ri)
                  else match sig_advance sig n with
                       | Stops why => Stops why
                       | Returns sig' =>
                           message_skip_fields fuel m ri array_size_ sig' terminated
                                               original_index
                       end
              end in
            let drop_q (x : outcome (Z * Z * Z)) : outcome (Z * Z) :=
              match x with
              | Stops why => Stops why
              | Returns (r, ri, _) => Returns (r, ri)
              end in
            if t =? 0 then Returns (0, ri)
            else if t =? SD_BUS_TYPE_STRING then
              next (drop_q (message_peek_field_string m None ri)) 1
            else if t =? SD_BUS_TYPE_OBJECT_PATH then
              next (drop_q (message_peek_field_string m (Some object_path_is_valid) ri)) 1
            else if t =? SD_BUS_TYPE_SIGNATURE then
              next (drop_q (message_peek_field_signature m ri)) 1
            else if bus_type_is_basic t then
              let '(r, ri, _) :=
                message_peek_fields m ri (bus_type_get_alignment t) (bus_type_get_size t) in
              next (Returns (r, ri)) 1
            else if t =? SD_BUS_TYPE_ARRAY then
              if negb terminated then Undefined
              else
                let '(r, l) := signature_element_length (str_from sig 1) in
                if r <? 0 then Returns (r, ri)
                else if l <? 1 then Undefined (* assert(l >= 1) *)
                else if l =? 1 then Undefined (* sig[0] of char sig[0] *)
                else
                  let copy := slice sig 1 (l - 1) in
                  let alignment := bus_type_get_alignment (char_at copy 0) in
                  if alignment <? 0 then Returns (alignment, ri)
                  else
                    let '(r, ri, nas) := message_peek_field_uint32 m ri in
                    if r <? 0 then Returns (r, ri)
                    else if BUS_ARRAY_MAX_SIZE <? nas then Returns (- EBADMSG, ri)
                    else
                      let '(r, ri, _) := message_peek_fields m ri alignment 0 in
                      if r <? 0 then Returns (r, ri)
                      else
                        next (message_skip_fields fuel m ri nas copy false ri) (1 + l)
            else if t =? SD_BUS_TYPE_VARIANT then
              match message_peek_field_signature m ri with
              | Stops why => Stops why
              | Returns (r, ri, s) =>
                  if r <? 0 then Returns (r, ri)
                  else
                    next (message_skip_fields fuel m ri UINT32_MAX
                            (cstr_at (region_bytes (fields m)) s) true ri) 1
              end
            else if (t =? SD_BUS_TYPE_STRUCT) || (t =? SD_BUS_TYPE_DICT_ENTRY) then
              if negb terminated then Undefined
              else
                let '(r, l) := signature_element_length sig in
                if r <? 0 then Returns (r, ri)
                else if l <? 2 then Undefined (* assert(l >= 2) *)
                else
                  next (message_skip_fields fuel m ri UINT32_MAX (slice sig 1 (l - 1)) false ri) l
            else Returns (- EINVAL, ri)
        end
  end.

(** [sd_bus_message_read(m, "s", &m->error.message)], the one use the
    codec makes of the variadic reader: a single turn of the loop of
    [message_read_ap], on the type [s]. *)
Definition sd_bus_message_read_s (m : sd_bus_message) (ret_ : out_ptr)
  : outcome (Z * sd_bus_message) :=
  if negb (sealed m) then Returns (- EPERM, m)
  else
    match sd_bus_message_read_basic m SD_BUS_TYPE_STRING with
    | Stops why => Stops why
    | Returns (r, m, v) =>
        if r <? 0 then Returns (r, m)
        else if r =? 0 then Returns (- ENXIO, m)
        else Returns (1, match v with Some (VPtr q) => assign ret_ q m | _ => m end)
    end.

(** One header field: the code byte and the signature of its variant are
    peeked, then the value is read according to the code. The result is the
    [int], [ri] and the message. *)
Definition parse_field (m : sd_bus_message) (ri : Z) : M (Z * Z * sd_bus_message) :=
  let f := region_bytes (fields m) in
  let '(r, ri, header_) := message_peek_fields m ri 8 1 in
  if r <? 0 then ret (r, ri, m)
  else
    '(r, ri, signature_) <- lift (message_peek_field_signature m ri) ;;
    if r <? 0 then ret (r, ri, m)
    else
      let sig := cstr_at f signature_ in
      let code := byte_at f header_ in
      let string_field (expected : cstring) (validate : cstring -> bool) (ret_ : out_ptr) :=
        if negb (streq sig expected) then ret (- EBADMSG, ri, m)
        else
          '(r, ri, q) <- lift (message_peek_field_string m (Some validate) ri) ;;
          if r <? 0 then ret (r, ri, m) else ret (r, ri, assign ret_ q m) in
      if code =? _SD_BUS_MESSAGE_HEADER_INVALID then ret (- EBADMSG, ri, m)
      else if code =? SD_BUS_MESSAGE_HEADER_PATH then
        string_field [SD_BUS_TYPE_OBJECT_PATH] object_path_is_valid (Some set_path)
      else if code =? SD_BUS_MESSAGE_HEADER_INTERFACE then
        string_field [SD_BUS_TYPE_STRING] interface_name_is_valid (Some set_interface)
      else if code =? SD_BUS_MESSAGE_HEADER_MEMBER then
        string_field [SD_BUS_TYPE_STRING] member_name_is_valid (Some set_member)
      else if code =? SD_BUS_MESSAGE_HEADER_ERROR_NAME then
        string_field [SD_BUS_TYPE_STRING] error_name_is_valid (Some set_error_name)
      else if code =? SD_BUS_MESSAGE_HEADER_DESTINATION then
        string_field [SD_BUS_TYPE_STRING] service_name_is_valid (Some set_destination)
      else if code =? SD_BUS_MESSAGE_HEADER_SENDER then
        string_field [SD_BUS_TYPE_STRING] service_name_is_valid (Some set_sender)
      else if code =? SD_BUS_MESSAGE_HEADER_SIGNATURE then
        if negb (streq sig [SD_BUS_TYPE_SIGNATURE]) then ret (- EBADMSG, ri, m)
        else
          '(r, ri, s) <- lift (message_peek_field_signature m ri) ;;
          if r <? 0 then ret (r, ri, m)
          else
            c <- alloc ;;
            match c with
            | AllocFails => ret (- ENOMEM, ri, m)
            | AllocOk _ =>
                ret (r, ri, set_root_container
                              (set_signature (Some (cstr_at f s)) (root_container m)) m)
            end
      else if code =? SD_BUS_MESSAGE_HEADER_REPLY_SERIAL then
        if negb (streq sig [SD_BUS_TYPE_UINT32]) then ret (- EBADMSG, ri, m)
        else
          let '(r, ri, x) := message_peek_field_uint32 m ri in
          if r <? 0 then ret (r, ri, m)
          else
            let m := set_reply_serial x m in
            if reply_serial m =? 0 then ret (- EBADMSG, ri, m) else ret (r, ri, m)
      else
        '(r, ri) <- lift (message_skip_fields
                            (Z.to_nat (256 * (BUS_MESSAGE_FIELDS_SIZE m + 1)))
                            m ri UINT32_MAX sig true ri) ;;
        ret (r, ri, m).

(** The loop [for (ri = 0; ri < BUS_MESSAGE_FIELDS_SIZE(m); )]. *)
Fixpoint parse_fields_loop (fuel : nat) (m : sd_bus_message) (ri : Z) {struct fuel}
  : M (Z * sd_bus_message) :=
  if ri <? BUS_MESSAGE_FIELDS_SIZE m then
    match fuel with
    | O => stops FuelExhausted
    | S fuel =>
        '(r, ri, m) <- parse_field m ri ;;
        if r <? 0 then ret (r, m) else parse_fields_loop fuel m ri
    end
  else ret (0, m).

(** What [message_parse_fields] enforces once the fields are enumerated. *)
Definition body_matches_signature (m : sd_bus_message) : bool :=
  Bool.eqb (isempty (signature (root_container m))) (BUS_MESSAGE_BODY_SIZE m =? 0).

Definition is_null (p : option Z) : bool :=
  match p with None => true | Some _ => false end.

Definition type_requirements (m : sd_bus_message) : bool :=
  let t := type (header m) in
  if t =? SD_BUS_MESSAGE_TYPE_SIGNAL then
    negb (is_null (path m) || is_null (interface m) || is_null (member m))
  else if t =? SD_BUS_MESSAGE_TYPE_METHOD_CALL then
    negb (is_null (path m) || is_null (member m))
  else if t =? SD_BUS_MESSAGE_TYPE_METHOD_RETURN then
    negb (reply_serial m =? 0)
  else if t =? SD_BUS_MESSAGE_TYPE_METHOD_ERROR then
    negb ((reply_serial m =? 0) || is_null (name (error m)))
  else true.

Definition message_parse_fields (m : sd_bus_message) : M (Z * sd_bus_message) :=
  '(r, m) <- parse_fields_loop (Z.to_nat (BUS_MESSAGE_FIELDS_SIZE m)) m 0 ;;
  if r <? 0 then ret (r, m)
  else if negb (body_matches_signature m) then ret (- EBADMSG, m)
  else if negb (type_requirements m) then ret (- EBADMSG, m)
  else if type (header m) =? SD_BUS_MESSAGE_TYPE_METHOD_ERROR then
    (* Try to read the error message, but if we can't it's a non-issue *)
    '(_, m) <- lift (sd_bus_message_read_s m (Some set_error_message)) ;;
    ret (0, m)
  else ret (0, m).

(** [h = buffer]: the header structure laid over the first 16 bytes. *)
Definition header_at (buffer : list Z) : bus_header :=
  mk_header (byte_at buffer 0) (byte_at buffer 1) (byte_at buffer 2) (byte_at buffer 3)
            (load_native (slice buffer 4 4)) (load_native (slice buffer 8 4))
            (load_native (slice buffer 12 4)).

Definition sizeof_bus_header : Z := 16.

Definition bus_message_from_malloc
    (buffer : list Z) (length_ : Z) (ucred_ : option ucred) (label_ : option cstring)
  : M (Z * option sd_bus_message) :=
  if length_ <? sizeof_bus_header then ret (- EBADMSG, None)
  else
    let h := header_at buffer in
    if negb (version h =? 1) then ret (- EBADMSG, None)
    else if serial h =? 0 then ret (- EBADMSG, None)
    else if type h =? _SD_BUS_MESSAGE_TYPE_INVALID then ret (- EBADMSG, None)
    else
      let sizes :=
        if endian h =? SD_BUS_NATIVE_ENDIAN then Some (fields_size h, body_size h)
        else if endian h =? SD_BUS_REVERSE_ENDIAN
        then Some (bswap_32 (fields_size h), bswap_32 (body_size h))
        else None in
      match sizes with
      | None => ret (- EBADMSG, None)
      | Some (fs, bs) =>
          let total := size_t (sizeof_bus_header + ALIGN_TO fs 8 + bs) in
          if negb (length_ =? total) then ret (- EBADMSG, None)
          else
            a <- alloc ;;
            match a with
            | AllocFails => ret (- ENOMEM, None)
            | AllocOk _ =>
                let m :=
                  mk_message h
                    (Some (skipn (Z.to_nat sizeof_bus_header) buffer))
                    (Some (skipn (Z.to_nat (sizeof_bus_header + ALIGN_TO fs 8)) buffer))
                    true false
                    (match ucred_ with Some _ => true | None => false end)
                    (match ucred_ with Some _ => true | None => false end)
                    (match ucred_ with Some u => ucred_uid u | None => 0 end)
                    (match ucred_ with Some u => ucred_gid u | None => 0 end)
                    (match ucred_ with Some u => ucred_pid u | None => 0 end)
                    label_
                    None None None None None (mk_error None None) 0
                    (mk_container 0 None 0 None 0) [] 0 0
                    [firstn (Z.to_nat length_) buffer] in
                '(r, m) <- message_parse_fields m ;;
                if r <? 0 then ret (r, None) else ret (0, Some m)
            end
      end.

(** ** Seal *)

Definition setup_iovec (m : sd_bus_message) : sd_bus_message :=
  let fs := fields_size (header m) in
  set_iovec
    ([header_bytes (header m)]
       ++ match fields m with
          | Some f =>
              [firstn (Z.to_nat fs) f]
                ++ (if negb (fs mod 8 =? 0) then [repeat 0 (Z.to_nat (8 - fs mod 8))] else [])
          | None => []
          end
       ++ match body m with
          | Some b => [firstn (Z.to_nat (body_size (header m))) b]
          | None => []
          end)
    m.

Definition bus_message_seal (m : sd_bus_message) (serial_ : Z) : M (Z * sd_bus_message) :=
  if sealed m then ret (- EPERM, m)
  else if 0 <? n_containers m then ret (- EBADMSG, m)
  else
    (* If there's a non-trivial signature set, then add it in here *)
    '(r, m) <- (if negb (isempty (signature (root_container m)))
                then message_append_field_signature m SD_BUS_MESSAGE_HEADER_SIGNATURE
                       (strempty (signature (root_container m))) None
                else ret (0, m)) ;;
    if r <? 0 then ret (r, m)
    else
      '(r, m) <- (if 0 <? n_fds m
                  then message_append_field_uint32 m SD_BUS_MESSAGE_HEADER_UNIX_FDS (n_fds m)
                  else ret (0, m)) ;;
      if r <? 0 then ret (r, m)
      else
        let m := set_header (set_serial (u32 serial_) (header m)) m in
        let m := set_sealed true m in
        ret (0, setup_iovec m).

End Codec.

(** ** Accessors, type tests, flags and the blob

    The functions of the file that the writer, the reader and the parser do
    not call themselves. As everywhere the message is not NULL, and an out
    parameter is a valid pointer unless it is shown as a [bool]. *)

Section Accessors.
Context {host : Host} {ext : Collaborators}.

(** The result and the value stored through [serial]. *)
Definition sd_bus_message_get_serial (m : sd_bus_message) : Z * option Z :=
  if serial (header m) =? 0 then (- ENOENT, None) else (0, Some (BUS_MESSAGE_SERIAL m)).

Definition sd_bus_message_get_path (m : sd_bus_message) : option Z := path m.

Definition sd_bus_message_get_interface (m : sd_bus_message) : option Z := interface m.

Definition sd_bus_message_get_member (m : sd_bus_message) : option Z := member m.

Definition sd_bus_message_get_uid (m : sd_bus_message) : Z * option Z :=
  if negb (uid_valid m) then (- ENOENT, None) else (0, Some (uid m)).

Definition sd_bus_message_get_gid (m : sd_bus_message) : Z * option Z :=
  if negb (gid_valid m) then (- ENOENT, None) else (0, Some (gid m)).

Definition sd_bus_message_get_pid (m : sd_bus_message) : Z * option Z :=
  if pid m <=? 0 then (- ENOENT, None) else (0, Some (pid m)).

Definition sd_bus_message_get_label (m : sd_bus_message) : option cstring := label m.

(** [want && (!have || !streq(have, want))], for a quick access pointer
    [have] into the fields of the message. *)
Definition differs (m : sd_bus_message) (have : option Z) (want : option cstring) : bool :=
  match want with
  | None => false
  | Some w =>
      match have with
      | None => true
      | Some q => negb (streq (cstr_at (region_bytes (fields m)) q) w)
      end
  end.

Definition sd_bus_message_is_signal
    (m : sd_bus_message) (interface_ member_ : option cstring) : Z :=
  if negb (type (header m) =? SD_BUS_MESSAGE_TYPE_SIGNAL) then 0
  else if differs m (interface m) interface_ then 0
  else if differs m (member m) member_ then 0
  else 1.

Definition sd_bus_message_is_method_call
    (m : sd_bus_message) (interface_ member_ : option cstring) : Z :=
  if negb (type (header m) =? SD_BUS_MESSAGE_TYPE_METHOD_CALL) then 0
  else if differs m (interface m) interface_ then 0
  else if differs m (member m) member_ then 0
  else 1.

Definition sd_bus_message_is_method_error (m : sd_bus_message) (name_ : option cstring) : Z :=
  if negb (type (header m) =? SD_BUS_MESSAGE_TYPE_METHOD_ERROR) then 0
  else if differs m (name (error m)) name_ then 0
  else 1.

Definition sd_bus_message_set_no_reply (m : sd_bus_message) (b : Z) : Z * sd_bus_message :=
  if sealed m then (- EPERM, m)
  else if negb (type (header m) =? SD_BUS_MESSAGE_TYPE_METHOD_CALL) then (- EPERM, m)
  else
    let f := flags (header m) in
    let f := if negb (b =? 0) then Z.lor f SD_BUS_MESSAGE_NO_REPLY_EXPECTED
             else Z.land f (Z.lnot SD_BUS_MESSAGE_NO_REPLY_EXPECTED) in
    (0, set_header (set_flags f (header m)) m).

Definition sd_bus_message_set_destination (m : sd_bus_message) (destination_ : option cstring)
  : M (Z * sd_bus_message) :=
  match destination_ with
  | None => ret (- EINVAL, m)
  | Some d =>
      if sealed m then ret (- EPERM, m)
      else if negb (is_null (destination m)) then ret (- EEXIST, m)
      else message_append_field_string m SD_BUS_MESSAGE_HEADER_DESTINATION
             SD_BUS_TYPE_STRING d (Some set_destination)
  end.

(** What [peek_type] stores through [contents]: NULL, a copy of a part of
    the signature of the frame (the message keeps it as its
    [peeked_signature]), or a pointer into the body. *)
Inductive peeked : Type :=
| PeekNull
| PeekCopy (s : cstring)
| PeekBody (q : Z).

(** [if (out) *out = v]: what is stored through an out parameter that may be
    NULL. *)
Definition stored_through {A : Type} (out : bool) (v : A) : option A :=
  if out then Some v else None.

(** [type_] and [contents] tell whether the two out parameters are given.
    The result is the [int] and what is stored through each of them. *)
Definition sd_bus_message_peek_type (m : sd_bus_message) (type_ contents : bool)
  : M (Z * option Z * option peeked) :=
  if negb (sealed m) then ret (- EPERM, None, None)
  else
    let c := message_get_container m in
    let sig := strempty (signature c) in
    let eof := (0, stored_through type_ (enclosing c), stored_through contents PeekNull) in
    if negb (has_char c) then ret eof
    else if message_end_of_array m (rindex m) then ret eof
    else
      let t := char_at sig (index c) in
      if bus_type_is_basic t then
        ret (1, stored_through type_ t, stored_through contents PeekNull)
      else if t =? SD_BUS_TYPE_ARRAY then
        if contents then
          let '(r, l) := signature_element_length (str_from sig (index c + 1)) in
          if r <? 0 then ret (r, None, None)
          else if l <? 1 then stops UndefinedBehaviour (* assert(l >= 1) *)
          else
            a <- alloc ;;
            match a with
            | AllocFails => ret (- ENOMEM, None, None)
            | AllocOk _ =>
                ret (1, stored_through type_ SD_BUS_TYPE_ARRAY,
                     Some (PeekCopy (slice sig (index c + 1) l)))
            end
        else ret (1, stored_through type_ SD_BUS_TYPE_ARRAY, None)
      else if (t =? SD_BUS_TYPE_STRUCT_BEGIN) || (t =? SD_BUS_TYPE_DICT_ENTRY_BEGIN) then
        let kind := if t =? SD_BUS_TYPE_STRUCT_BEGIN then SD_BUS_TYPE_STRUCT
                    else SD_BUS_TYPE_DICT_ENTRY in
        if contents then
          let '(r, l) := signature_element_length (str_from sig (index c)) in
          if r <? 0 then ret (r, None, None)
          else if l <? 2 then stops UndefinedBehaviour (* assert(l >= 2) *)
          else
            a <- alloc ;;
            match a with
            | AllocFails => ret (- ENOMEM, None, None)
            | AllocOk _ =>
                ret (1, stored_through type_ kind,
                     Some (PeekCopy (slice sig (index c + 1) (l - 2))))
            end
        else ret (1, stored_through type_ kind, None)
      else if t =? SD_BUS_TYPE_VARIANT then
        if contents then
          let b := region_bytes (body m) in
          let '(r, rindex_, q) := message_peek_body m (rindex m) 1 1 in
          if r <? 0 then ret (r, None, None)
          else if r =? 0 then ret eof
          else
            let l := byte_at b q in
            let '(r, rindex_, q) := message_peek_body m rindex_ 1 (l + 1) in
            if r <? 0 then ret (r, None, None)
            else if r =? 0 then ret (- EBADMSG, None, None)
            else
              match validate_signature b q l with
              | Stops why => stops why
              | Returns false => ret (- EBADMSG, None, None)
              | Returns true =>
                  ret (1, stored_through type_ SD_BUS_TYPE_VARIANT, Some (PeekBody q))
              end
        else ret (1, stored_through type_ SD_BUS_TYPE_VARIANT, None)
      else ret (- EINVAL, None, None).

(** The result is the [int] and, on success, the buffer and its size. *)
Definition bus_message_get_blob (m : sd_bus_message) : M (Z * option (list Z * Z)) :=
  let total := fold_left (fun t v => size_t (t + Zlength v)) (iovec m) 0 in
  p <- alloc ;;
  match p with
  | AllocFails => ret (- ENOMEM, None)
  | AllocOk _ => ret (0, Some (concat (iovec m), total))
  end.

End Accessors.

(** ** A reference implementation of the collaborators

    Modelled from the spec: bus-signature.c, bus-internal.c and utf8.c are not
    among the sources. Section 3 (invariants 5 and 6) and the glossary of the
    spec fix what the predicates decide: a signature is a sequence of complete
    types, a complete type is a basic type, a variant, an array of a complete
    type, a struct of complete types, or (inside an array) a dict entry made of
    a basic key and a complete type; strings are UTF-8; object paths and names
    follow the grammar of the D-Bus wire protocol. The instance below is used
    for the concrete runs of this file only: every general statement is
    proved over an arbitrary instance of [Collaborators]. *)
Module Reference.

Fixpoint element_length
    (fuel : nat) (allow_dict_entry : bool) (array_depth struct_depth : Z) (s : cstring)
    {struct fuel} : option Z :=
  match fuel with
  | O => None
  | S fuel' =>
      let members :=
        fix members (k : nat) (p : cstring) (n : Z) (dict : bool) (closing : Z) {struct k}
          : option (Z * Z) :=
          match k with
          | O => None
          | S k' =>
              match p with
              | [] => None
              | c :: _ =>
                  if c =? closing then Some (1, n)
                  else if dict && (n =? 0) && negb (bus_type_is_basic c) then None
                  else
                    match element_length fuel' false array_depth (struct_depth + 1) p with
                    | None => None
                    | Some t =>
                        match members k' (str_from p t) (n + 1) dict closing with
                        | None => None
                        | Some (l, n') => Some (t + l, n')
                        end
                    end
              end
          end in
      match s with
      | [] => None
      | c :: rest =>
          if bus_type_is_basic c || (c =? SD_BUS_TYPE_VARIANT) then Some 1
          else if c =? SD_BUS_TYPE_ARRAY then
            if 32 <=? array_depth then None
            else option_map (Z.add 1)
                            (element_length fuel' true (array_depth + 1) struct_depth rest)
          else if c =? SD_BUS_TYPE_STRUCT_BEGIN then
            if 32 <=? struct_depth then None
            else
              match members (S (List.length rest)) rest 0 false SD_BUS_TYPE_STRUCT_END with
              | Some (l, n) => if n =? 0 then None else Some (1 + l)
              | None => None
              end
          else if (c =? SD_BUS_TYPE_DICT_ENTRY_BEGIN) && allow_dict_entry then
            if 32 <=? struct_depth then None
            else
              match members (S (List.length rest)) rest 0 true SD_BUS_TYPE_DICT_ENTRY_END with
              | Some (l, n) => if n =? 2 then Some (1 + l) else None
              | None => None
              end
          else None
      end
  end.

Definition signature_element_length (s : cstring) : Z * Z :=
  match element_length (S (List.length s)) true 0 0 s with
  | Some l => (0, l)
  | None => (- EINVAL, 0)
  end.

Definition signature_is_single (s : cstring) : bool :=
  match element_length (S (List.length s)) true 0 0 s with
  | Some l => l =? strlen s
  | None => false
  end.

Definition signature_is_pair (s : cstring) : bool :=
  match s with
  | key :: rest => bus_type_is_basic key && signature_is_single rest
  | [] => false
  end.

Fixpoint complete_types (k : nat) (allow_dict_entry : bool) (s : cstring) : bool :=
  match s with
  | [] => true
  | _ :: _ =>
      match k with
      | O => false
      | S k' =>
          match element_length (S (List.length s)) allow_dict_entry 0 0 s with
          | Some t => complete_types k' allow_dict_entry (str_from s t)
          | None => false
          end
      end
  end.

Definition signature_is_valid (s : cstring) (allow_dict_entry : bool) : bool :=
  (strlen s <=? 255) && complete_types (List.length s) allow_dict_entry s.

Definition continuation (b : Z) : bool := (128 <=? b) && (b <=? 191).

Fixpoint utf8_is_valid (s : cstring) : bool :=
  match s with
  | [] => true
  | b0 :: r =>
      if b0 <? 128 then utf8_is_valid r
      else if (194 <=? b0) && (b0 <=? 223) then
        match r with
        | b1 :: r => continuation b1 && utf8_is_valid r
        | _ => false
        end
      else if (224 <=? b0) && (b0 <=? 239) then
        match r with
        | b1 :: b2 :: r =>
            continuation b1 && continuation b2
            && negb ((b0 =? 224) && (b1 <? 160)) && negb ((b0 =? 237) && (159 <? b1))
            && utf8_is_valid r
        | _ => false
        end
      else if (240 <=? b0) && (b0 <=? 244) then
        match r with
        | b1 :: b2 :: b3 :: r =>
            continuation b1 && continuation b2 && continuation b3
            && negb ((b0 =? 240) && (b1 <? 144)) && negb ((b0 =? 244) && (143 <? b1))
            && utf8_is_valid r
        | _ => false
        end
      else false
  end.

Definition is_digit (c : Z) : bool := (chr "0" <=? c) && (c <=? chr "9").
Definition is_alpha_ (c : Z) : bool :=
  ((chr "A" <=? c) && (c <=? chr "Z")) || ((chr "a" <=? c) && (c <=? chr "z"))
  || (c =? chr "_").

(** [fresh] tells that an element has just begun and holds no character. *)
Fixpoint path_elements (s : cstring) (fresh : bool) : bool :=
  match s with
  | [] => negb fresh
  | c :: r =>
      if c =? chr "/" then negb fresh && path_elements r true
      else (is_alpha_ c || is_digit c) && path_elements r false
  end.

Definition object_path_is_valid (s : cstring) : bool :=
  match s with
  | [c] => c =? chr "/"
  | c :: r => (c =? chr "/") && path_elements r true
  | [] => false
  end.

(** Elements separated by dots; [first] and [later] say which characters
    may begin and continue an element; [dots] counts the dots seen. *)
Fixpoint dotted (first later : Z -> bool) (s : cstring) (fresh : bool) (dots : Z) : option Z :=
  match s with
  | [] => if fresh then None else Some dots
  | c :: r =>
      if c =? chr "." then (if fresh then None else dotted first later r true (dots + 1))
      else if fresh then (if first c then dotted first later r false dots else None)
      else if later c then dotted first later r false dots
      else None
  end.

Definition member_name_is_valid (s : cstring) : bool :=
  (strlen s <=? 255)
  && match dotted is_alpha_ (fun c => is_alpha_ c || is_digit c) s true 0 with
     | Some dots => dots =? 0
     | None => false
     end.

Definition interface_name_is_valid (s : cstring) : bool :=
  (strlen s <=? 255)
  && match dotted is_alpha_ (fun c => is_alpha_ c || is_digit c) s true 0 with
     | Some dots => 1 <=? dots
     | None => false
     end.

Definition error_name_is_valid := interface_name_is_valid.

Definition service_name_is_valid (s : cstring) : bool :=
  let dash c := c =? chr "-" in
  (strlen s <=? 255)
  && match s with
     | c :: r =>
         if c =? chr ":" then
           match dotted (fun c => is_alpha_ c || is_digit c || dash c)
                        (fun c => is_alpha_ c || is_digit c || dash c) r true 0 with
           | Some dots => 1 <=? dots
           | None => false
           end
         else
           match dotted (fun c => is_alpha_ c || dash c)
                        (fun c => is_alpha_ c || is_digit c || dash c) s true 0 with
           | Some dots => 1 <=? dots
           | None => false
           end
     | [] => false
     end.

End Reference.

#[export] Instance reference_collaborators : Collaborators := {|
  utf8_is_valid := Reference.utf8_is_valid;
  object_path_is_valid := Reference.object_path_is_valid;
  interface_name_is_valid := Reference.interface_name_is_valid;
  member_name_is_valid := Reference.member_name_is_valid;
  error_name_is_valid := Reference.error_name_is_valid;
  service_name_is_valid := Reference.service_name_is_valid;
  signature_is_valid := Reference.signature_is_valid;
  signature_is_single := Reference.signature_is_single;
  signature_is_pair := Reference.signature_is_pair;
  signature_element_length := Reference.signature_element_length
|}.

(** The two kinds of machine. *)
Definition little_endian_host : Host := {| host_order := LittleEndian |}.
Definition big_endian_host : Host := {| host_order := BigEndian |}.

(** ** Concrete runs

    Messages built and parsed on a little-endian host, with the reference
    collaborators and an allocator that never fails. A step that does not
    succeed ends the run with [None]. *)
Module Run.

#[local] Existing Instance little_endian_host.

Definition created (c : M (Z * option sd_bus_message)) : option sd_bus_message :=
  match c [] with
  | Returns ((r, Some m), _) => if r <? 0 then None else Some m
  | _ => None
  end.

Definition step (f : sd_bus_message -> M (Z * sd_bus_message)) (x : option sd_bus_message)
  : option sd_bus_message :=
  match x with
  | Some m => match f m [] with
              | Returns ((r, m'), _) => if r <? 0 then None else Some m'
              | Stops _ => None
              end
  | None => None
  end.

Definition pure_step (f : sd_bus_message -> Z * sd_bus_message)
  : sd_bus_message -> M (Z * sd_bus_message) :=
  fun m => ret (f m).

Definition read_step (type_ : Z) : sd_bus_message -> M (Z * sd_bus_message) :=
  fun m => '(r, m, _) <- lift (sd_bus_message_read_basic m type_) ;; ret (r, m).

Fixpoint times {A} (n : nat) (f : A -> A) (x : A) : A :=
  match n with O => x | S n' => times n' f (f x) end.

Definition hello : option sd_bus_message :=
  created (sd_bus_message_new_method_call None (Some (cstr "o.f.DBus")) (Some (cstr "/"))
                                          None (Some (cstr "Hello"))).

(** The calls of [fs] one after the other, as long as none fails. *)
Definition steps (fs : list (sd_bus_message -> M (Z * sd_bus_message)))
           (x : option sd_bus_message) : option sd_bus_message :=
  fold_left (fun acc f => step f acc) fs x.

Definition the (x : option sd_bus_message) : sd_bus_message :=
  match x with Some m => m | None => zero_message end.

(** A call whose body is the array [au] of 5 and 6, sealed, rewound, the
    array entered and both elements read. *)
Definition inside_array : sd_bus_message :=
  Eval vm_compute in
    the (steps
           [ (fun m => sd_bus_message_open_container m SD_BUS_TYPE_ARRAY (Some (cstr "u")));
             (fun m => sd_bus_message_append_basic m SD_BUS_TYPE_UINT32 (PInt 5));
             (fun m => sd_bus_message_append_basic m SD_BUS_TYPE_UINT32 (PInt 6));
             pure_step sd_bus_message_close_container;
             (fun m => bus_message_seal m 1);
             pure_step (fun m => sd_bus_message_rewind m true);
             (fun m => sd_bus_message_enter_container m SD_BUS_TYPE_ARRAY (Some (cstr "u")));
             read_step SD_BUS_TYPE_UINT32;
             read_step SD_BUS_TYPE_UINT32 ]
           hello).

(** Scenario 1 of the spec: the signal [/foo com.example Bar] with the
    body (s "hi", u 7), before and after it is sealed with serial 1. *)
Definition signal_su : sd_bus_message :=
  Eval vm_compute in
    the (steps
           [ (fun m => sd_bus_message_append_basic m SD_BUS_TYPE_STRING (PStr (cstr "hi")));
             (fun m => sd_bus_message_append_basic m SD_BUS_TYPE_UINT32 (PInt 7)) ]
           (created (sd_bus_message_new_signal None (Some (cstr "/foo"))
                       (Some (cstr "com.example")) (Some (cstr "Bar"))))).

Definition sealed_su : sd_bus_message :=
  Eval vm_compute in the (step (fun m => bus_message_seal m 1) (Some signal_su)).

(** Scenario 2 of the spec, sealed with serial 1, and its wire image. *)
Definition sealed_hello : sd_bus_message :=
  Eval vm_compute in the (step (fun m => bus_message_seal m 1) hello).

Definition hello_blob : list Z := Eval vm_compute in concat (iovec sealed_hello).

(** The same bytes with the type byte turned into SIGNAL. *)
Definition hello_as_signal_blob : list Z :=
  Eval vm_compute in mem_write hello_blob 1 [SD_BUS_MESSAGE_TYPE_SIGNAL].

(** A sealed method call as a bus hands it over, with the SENDER field
    [:1.5] behind the fields of scenario 2, and its wire image. *)
Definition call_blob : list Z :=
  Eval vm_compute in
    concat (iovec (the (steps
                          [ (fun m => message_append_field_string m SD_BUS_MESSAGE_HEADER_SENDER
                                        SD_BUS_TYPE_STRING (cstr ":1.5") None);
                            (fun m => bus_message_seal m 100) ]
                          hello))).

Definition received_call : sd_bus_message :=
  Eval vm_compute in
    the (created (bus_message_from_malloc call_blob (Zlength call_blob) None None)).

(** 64 variants nested in one another on the build path, and the message
    in which a 65th variant, holding the byte 7, has been opened inside
    them, all 65 closed again, then sealed and rewound for reading. *)
Definition open_variant_v : sd_bus_message -> M (Z * sd_bus_message) :=
  fun m => sd_bus_message_open_container m SD_BUS_TYPE_VARIANT (Some (cstr "v")).

Definition enter_variant_v : sd_bus_message -> M (Z * sd_bus_message) :=
  fun m => sd_bus_message_enter_container m SD_BUS_TYPE_VARIANT (Some (cstr "v")).

Definition nested_64 : sd_bus_message :=
  Eval vm_compute in the (times 64 (step open_variant_v) hello).

Definition nested_65_sealed : sd_bus_message :=
  Eval vm_compute in
    the (steps
           [ pure_step (fun m => sd_bus_message_rewind m true) ]
           (steps
              [ (fun m => bus_message_seal m 1) ]
              (times 65 (step (pure_step sd_bus_message_close_container))
                 (steps
                    [ (fun m => sd_bus_message_open_container m SD_BUS_TYPE_VARIANT
                                  (Some (cstr "y")));
                      (fun m => sd_bus_message_append_basic m SD_BUS_TYPE_BYTE (PInt 7)) ]
                    (Some nested_64))))).

Definition entered_64 : sd_bus_message :=
  Eval vm_compute in the (times 64 (step enter_variant_v) (Some nested_65_sealed)).

(** The reply [new_method_return] makes for [received_call]. *)
Definition reply_to_call : sd_bus_message :=
  Eval vm_compute in
    the (created (sd_bus_message_new_method_return None (Some received_call))).

(** The signal of scenario 1 after one more value has been appended at
    its root, and that message sealed with serial 1. *)
Definition appended (type_ : Z) (p : pointee) : sd_bus_message :=
  the (step (fun m => sd_bus_message_append_basic m type_ p) (Some signal_su)).

Definition sealed_after (type_ : Z) (p : pointee) : sd_bus_message :=
  the (step (fun m => bus_message_seal m 1) (Some (appended type_ p))).

(** The signal of scenario 1 as [new_signal] makes it, before anything is
    appended. *)
Definition bare_signal : sd_bus_message :=
  Eval vm_compute in
    the (created (sd_bus_message_new_signal None (Some (cstr "/foo"))
                    (Some (cstr "com.example")) (Some (cstr "Bar")))).

(** The signal of scenario 1, sealed and rewound, after its string has been
    read. *)
Definition sealed_su_read : sd_bus_message :=
  Eval vm_compute in
    the (steps [ pure_step (fun m => sd_bus_message_rewind m true);
                 read_step SD_BUS_TYPE_STRING ]
               (Some sealed_su)).

(** The call of scenario 2 as it arrives from the process 42 of the user
    1000 and the group 100, with the security label [lbl]. *)
Definition received_hello : sd_bus_message :=
  Eval vm_compute in
    the (created (bus_message_from_malloc hello_blob (Zlength hello_blob)
                    (Some (mk_ucred 42 1000 100)) (Some (cstr "lbl")))).

(** The signal [/foo com.example Bar] without a body, sealed with the
    serial 7, and its wire image. *)
Definition sealed_bare_signal : sd_bus_message :=
  Eval vm_compute in the (step (fun m => bus_message_seal m 7) (Some bare_signal)).

Definition bare_signal_blob : list Z :=
  Eval vm_compute in concat (iovec sealed_bare_signal).

(** A new method call to which only a header field has been appended: the
    UNIX_FDS field as [seal] writes it for two descriptors, and a PATH field
    that holds a string where an object path belongs. *)
Definition new_call : option sd_bus_message :=
  match message_new None SD_BUS_MESSAGE_TYPE_METHOD_CALL [] with
  | Returns (t, _) => t
  | Stops _ => None
  end.

Definition only_unix_fds : sd_bus_message :=
  Eval vm_compute in
    the (step (fun m => message_append_field_uint32 m SD_BUS_MESSAGE_HEADER_UNIX_FDS 2)
              new_call).

Definition path_as_string : sd_bus_message :=
  Eval vm_compute in
    the (step (fun m => message_append_field_string m SD_BUS_MESSAGE_HEADER_PATH
                          SD_BUS_TYPE_STRING (cstr "/foo") None)
              new_call).

(** The error reply [org.example.Failed], with the message [boom], to the
    call of scenario 2. *)
Definition error_reply : sd_bus_message :=
  Eval vm_compute in
    the (created (sd_bus_message_new_method_error None (Some sealed_hello)
                    (Some (mk_error (Some (cstr "org.example.Failed"))
                                    (Some (cstr "boom")))))).

(** The call of scenario 2 with an array of [uint32_t] opened in its body,
    and with the elements 5 and 6 in the array. *)
Definition array_opened : sd_bus_message :=
  Eval vm_compute in
    the (step (fun m => sd_bus_message_open_container m SD_BUS_TYPE_ARRAY (Some (cstr "u")))
              hello).

Definition array_filled : sd_bus_message :=
  Eval vm_compute in
    the (steps
           [ (fun m => sd_bus_message_append_basic m SD_BUS_TYPE_UINT32 (PInt 5));
             (fun m => sd_bus_message_append_basic m SD_BUS_TYPE_UINT32 (PInt 6)) ]
           (Some array_opened)).

(** That call with the array closed, and sealed with the serial 1. *)
Definition array_closed : sd_bus_message :=
  Eval vm_compute in
    the (step (pure_step sd_bus_message_close_container) (Some array_filled)).

Definition array_sealed : sd_bus_message :=
  Eval vm_compute in
    the (step (fun m => bus_message_seal m 1) (Some array_closed)).

(** The call of scenario 2 with a variant of the [uint32_t] 7 in its body:
    opened, filled, closed, and sealed with the serial 1. *)
Definition variant_opened : sd_bus_message :=
  Eval vm_compute in
    the (step (fun m => sd_bus_message_open_container m SD_BUS_TYPE_VARIANT (Some (cstr "u")))
              hello).

Definition variant_filled : sd_bus_message :=
  Eval vm_compute in
    the (step (fun m => sd_bus_message_append_basic m SD_BUS_TYPE_UINT32 (PInt 7))
              (Some variant_opened)).

Definition variant_closed : sd_bus_message :=
  Eval vm_compute in
    the (step (pure_step sd_bus_message_close_container) (Some variant_filled)).

Definition variant_sealed : sd_bus_message :=
  Eval vm_compute in
    the (step (fun m => bus_message_seal m 1) (Some variant_closed)).

(** The signal of scenario 1 with a struct of the [uint32_t] 9 behind its
    two values: opened, filled, closed, and sealed with the serial 1. *)
Definition struct_opened : sd_bus_message :=
  Eval vm_compute in
    the (step (fun m => sd_bus_message_open_container m SD_BUS_TYPE_STRUCT (Some (cstr "u")))
              (Some signal_su)).

Definition struct_filled : sd_bus_message :=
  Eval vm_compute in
    the (step (fun m => sd_bus_message_append_basic m SD_BUS_TYPE_UINT32 (PInt 9))
              (Some struct_opened)).

Definition struct_closed : sd_bus_message :=
  Eval vm_compute in
    the (step (pure_step sd_bus_message_close_container) (Some struct_filled)).

Definition struct_sealed : sd_bus_message :=
  Eval vm_compute in
    the (step (fun m => bus_message_seal m 1) (Some struct_closed)).









End Run.

(** ** Vocabulary of the statements *)

Definition is_bytes (l : list Z) : Prop := Forall (fun b => 0 <= b < 256) l.

Section HeaderVocabulary.
Context {host : Host}.

(** A 32-bit size of the header as the parser reads it: as it stands when
    the endian marker is that of the host, byte-swapped otherwise. *)
Definition wire_u32 (hd : bus_header) (x : Z) : Z :=
  if endian hd =? SD_BUS_NATIVE_ENDIAN then x else bswap_32 x.

(** What [bus_message_from_malloc] demands of the first 16 bytes and of
    the length of a buffer. *)
Definition header_accepted (buffer : list Z) (length_ : Z) : Prop :=
  let hd := header_at buffer in
  16 <= length_
  /\ version hd = 1
  /\ serial hd <> 0
  /\ type hd <> _SD_BUS_MESSAGE_TYPE_INVALID
  /\ (endian hd = SD_BUS_LITTLE_ENDIAN \/ endian hd = SD_BUS_BIG_ENDIAN)
  /\ length_ = 16 + ALIGN_TO (wire_u32 hd (fields_size hd)) 8 + wire_u32 hd (body_size hd).
End HeaderVocabulary.


Section Vocabulary.
Context {host : Host}.

(** A message under construction keeps the size field of its header in
    step with the fields region. *)
Definition fields_in_step (m : sd_bus_message) : Prop :=
  Zlength (region_bytes (fields m)) = fields_size (header m)
  /\ fields_size (header m) <= UINT32_MAX.

(** The message after a field of bytes [data] has been appended. *)
Definition with_field (m : sd_bus_message) (data : list Z) : sd_bus_message :=
  let fs := fields_size (header m) in
  set_fields
    (Some (region_bytes (fields m) ++ repeat 0 (Z.to_nat (ALIGN_TO fs 8 - fs)) ++ data))
    (set_header (set_fields_size (ALIGN_TO fs 8 + Zlength data) (header m)) m).

(** The bytes of the SIGNATURE header field and of a header field that
    holds a [uint32_t]. *)
Definition signature_field (s : cstring) : list Z :=
  [SD_BUS_MESSAGE_HEADER_SIGNATURE; 1; SD_BUS_TYPE_SIGNATURE; 0; strlen s] ++ s ++ [0].

Definition uint32_field (code x : Z) : list Z :=
  [code; 1; SD_BUS_TYPE_UINT32; 0] ++ store_native 4 x.
End Vocabulary.

(** The next [n] calls of the allocator succeed. *)
Definition allocations_succeed (n : nat) (h : heap) : Prop :=
  Forall (fun a => a <> AllocFails) (firstn n h).

(** A frame whose cursor lies within its signature, the signature being a
    proper C string (no NUL inside). *)
Definition container_ok (c : bus_container) : Prop :=
  0 <= index c <= strlen (strempty (signature c))
  /\ Forall (fun x => x <> 0) (strempty (signature c)).

(** The message in which the signature of the current frame has been
    extended by [suffix] and cut back at the cursor. *)
Definition extended_and_truncated (m : sd_bus_message) (suffix : cstring) : sd_bus_message :=
  truncate_signature true
    (message_set_container m
       (set_signature (Some (strempty (signature (message_get_container m)) ++ suffix))
                      (message_get_container m))).

Section ParseVocabulary.
Context {host : Host}.



End ParseVocabulary.

Section ReplyVocabulary.
Context {host : Host}.

(** The bytes of a header field that holds a string. *)
Definition string_field (code type_ : Z) (s : cstring) : list Z :=
  [code; 1; type_; 0] ++ store_native 4 (strlen s) ++ s ++ [0].
End ReplyVocabulary.

Section AppendVocabulary.
Context {host : Host}.

(** The message after the value made of [bytes] has been appended to its
    body at the alignment [align]. *)
Definition with_value (m : sd_bus_message) (align : Z) (bytes : list Z) : sd_bus_message :=
  let bs := body_size (header m) in
  set_body
    (Some (region_bytes (body m) ++ repeat 0 (Z.to_nat (ALIGN_TO bs align - bs)) ++ bytes))
    (set_header (set_body_size (ALIGN_TO bs align + Zlength bytes) (header m)) m).

(** A message under construction, no container open: not sealed, in the
    byte order of the host, the size fields of the header in step with the
    two regions, the cursor of the root container within its signature. *)
Definition building (m : sd_bus_message) : Prop :=
  sealed m = false
  /\ containers m = []
  /\ endian (header m) = SD_BUS_NATIVE_ENDIAN
  /\ Zlength (region_bytes (body m)) = body_size (header m)
  /\ body_size (header m) <= UINT32_MAX
  /\ fields_in_step m
  /\ container_ok (root_container m)
  /\ array_size (root_container m) = None.

(** The sealed message [m'] with its read cursor where the message [m]
    it grew from had its write cursor: at the end of the body of [m], and
    at the slot of the root signature [m] stood at. *)
Definition at_cursor_of (m m' : sd_bus_message) : sd_bus_message :=
  set_rindex (body_size (header m))
    (set_root_container (set_index (index (root_container m)) (root_container m')) m').


End AppendVocabulary.

Section RoundTripVocabulary.
Context {host : Host} {ext : Collaborators}.


End RoundTripVocabulary.

(** The bytes [f] hold the C string [s] at the offset [p], its NUL
    included. *)
Definition holds_string (f : list Z) (p : Z) (s : cstring) : Prop :=
  exists before after,
    f = before ++ s ++ 0 :: after /\ Zlength before = p /\ Forall (fun c => c <> 0) s.

(** The quick access pointer [q] of the message [m] points at the C
    string [s] in its fields. *)
Definition points_at (m : sd_bus_message) (q : option Z) (s : cstring) : Prop :=
  exists p, q = Some p /\ cstr_at (region_bytes (fields m)) p = s.

(** What a type test is asked for: nothing (NULL), or this string. *)
Definition asks_for (want : option cstring) (s : cstring) : Prop :=
  want = None \/ want = Some s.

(** The bytes of a message on the wire: the header, the fields, zeros up
    to the next multiple of 8, the body. *)
Definition wire_image {host : Host} (m : sd_bus_message) : list Z :=
  let fs := fields_size (header m) in
  header_bytes (header m) ++ region_bytes (fields m)
    ++ repeat 0 (Z.to_nat (ALIGN_TO fs 8 - fs)) ++ region_bytes (body m).

(** A message whose two regions have the sizes its header gives. *)
Definition in_step {host : Host} (m : sd_bus_message) : Prop :=
  fields_in_step m
  /\ Zlength (region_bytes (body m)) = body_size (header m)
  /\ body_size (header m) <= UINT32_MAX.

(** The message [m'] is [m] but for the quick access pointers, the reply
    serial and the signature of the root container: what the enumeration of
    the header fields fills in. *)
Definition same_but_quick_access (m m' : sd_bus_message) : Prop :=
  header m' = header m /\ fields m' = fields m /\ body m' = body m
  /\ sealed m' = sealed m
  /\ uid_valid m' = uid_valid m /\ gid_valid m' = gid_valid m
  /\ uid m' = uid m /\ gid m' = gid m /\ pid m' = pid m /\ label m' = label m
  /\ containers m' = containers m /\ rindex m' = rindex m /\ iovec m' = iovec m
  /\ n_fds m' = n_fds m
  /\ set_signature (signature (root_container m)) (root_container m') = root_container m.
(** The message with its read cursor at the start: no container entered,
    nothing read. *)
Definition rewound (m : sd_bus_message) : sd_bus_message :=
  set_rindex 0
    (set_containers [] (set_root_container (set_index 0 (root_container m)) m)).

(** Two states of a message that differ at most in the read cursor: the
    read index, the stack of containers entered and the index into the
    signature of the root container. *)
Definition same_but_cursor (m m' : sd_bus_message) : Prop := rewound m' = rewound m.

Section ReaderVocabulary.
Context {host : Host} {ext : Collaborators}.

(** One call of the reader on [m] that returns, with whatever result, and
    leaves the message as [m']. *)
Inductive reader_call (m m' : sd_bus_message) : Prop :=
| call_read_basic (t r : Z) (v : option value) :
    sd_bus_message_read_basic m t = Returns (r, m', v) -> reader_call m m'
| call_enter_container (t : Z) (contents : option cstring) (h h' : heap) (r : Z) :
    sd_bus_message_enter_container m t contents h = Returns ((r, m'), h') -> reader_call m m'
| call_exit_container (r : Z) :
    sd_bus_message_exit_container m = Returns (r, m') -> reader_call m m'
| call_rewind (complete : bool) (r : Z) :
    sd_bus_message_rewind m complete = (r, m') -> reader_call m m'.

(** Any number of calls of the reader, one after the other. *)
Inductive reader_calls : sd_bus_message -> sd_bus_message -> Prop :=
| calls_none (m : sd_bus_message) : reader_calls m m
| calls_more (m m1 m' : sd_bus_message) :
    reader_call m m1 -> reader_calls m1 m' -> reader_calls m m'.
End ReaderVocabulary.

(** The fields [F] of a message after the writer has appended a field of
    bytes [data]: zeros up to the next multiple of 8, then the field. *)
Definition after_field (F data : list Z) : list Z :=
  F ++ repeat 0 (Z.to_nat (ALIGN_TO (Zlength F) 8 - Zlength F)) ++ data.

(** The message without what the writer of the body works on: the body
    and its size in the header, the stack of containers, the root container
    with its signature, and the pointer to the error message, which lies
    in the body. *)
Definition without_body (m : sd_bus_message) : sd_bus_message :=
  set_body None
    (set_header (set_body_size 0 (header m))
       (set_containers []
          (set_root_container (mk_container 0 None 0 None 0)
             (set_error (mk_error (name (error m)) None) m)))).

(** Two states of a message that differ at most in the body and what
    belongs to it. *)
Definition same_but_body (m m' : sd_bus_message) : Prop :=
  without_body m' = without_body m.

Section WriterVocabulary.
Context {host : Host} {ext : Collaborators}.

(** One call of the writer of the body on [m] that returns, with whatever
    result, and leaves the message as [m']. *)
Inductive writer_call (m m' : sd_bus_message) : Prop :=
| call_append_basic (t : Z) (p : pointee) (h h' : heap) (r : Z) :
    sd_bus_message_append_basic m t p h = Returns ((r, m'), h') -> writer_call m m'
| call_open_container (t : Z) (contents : option cstring) (h h' : heap) (r : Z) :
    sd_bus_message_open_container m t contents h = Returns ((r, m'), h') -> writer_call m m'
| call_close_container (r : Z) :
    sd_bus_message_close_container m = (r, m') -> writer_call m m'.

(** Any number of calls of the writer, one after the other. *)
Inductive writer_calls : sd_bus_message -> sd_bus_message -> Prop :=
| writes_none (m : sd_bus_message) : writer_calls m m
| writes_more (m m1 m' : sd_bus_message) :
    writer_call m m1 -> writer_calls m1 m' -> writer_calls m m'.
End WriterVocabulary.

(** ** Arrays of [uint32_t] in the body *)

Section ArrayVocabulary.
Context {host : Host} {ext : Collaborators}.

(** A client that appends the values [xs] of the type [t] one after the
    other and stops at the first call that fails. *)
Fixpoint append_each (m : sd_bus_message) (t : Z) (xs : list Z) : M (Z * sd_bus_message) :=
  match xs with
  | [] => ret (0, m)
  | x :: xs' =>
      '(r, m) <- sd_bus_message_append_basic m t (PInt x) ;;
      if r <? 0 then ret (r, m) else append_each m t xs'
  end.

(** A client that reads [n] values of the type [t] one after the other;
    it has a result when every call returned 1. *)
Fixpoint read_each (m : sd_bus_message) (t : Z) (n : nat)
  : option (list value * sd_bus_message) :=
  match n with
  | O => Some ([], m)
  | S n' =>
      match sd_bus_message_read_basic m t with
      | Returns (1, m', Some v) =>
          match read_each m' t n' with
          | Some (vs, m'') => Some (v :: vs, m'')
          | None => None
          end
      | _ => None
      end
  end.

(** The body of a message in which an array of [uint32_t] has been opened
    behind the bytes [B] and holds the elements [xs]: zeros up to the
    alignment of the length, the length in bytes, the elements. *)
Definition array_u32_bytes (B xs : list Z) : list Z :=
  B ++ repeat 0 (Z.to_nat (ALIGN_TO (Zlength B) 4 - Zlength B))
    ++ store_native 4 (4 * Zlength xs) ++ concat (map (store_native 4) xs).

(** The frame of that array on the stack of the writer. *)
Definition array_u32_frame (B : list Z) : bus_container :=
  mk_container SD_BUS_TYPE_ARRAY (Some [SD_BUS_TYPE_UINT32]) 0
               (Some (ALIGN_TO (Zlength B) 4)) 0.

(** A message under construction in which that array is the one open
    container. *)
Definition array_u32_open (m : sd_bus_message) (B xs : list Z) : Prop :=
  sealed m = false
  /\ containers m = [array_u32_frame B]
  /\ body m = Some (array_u32_bytes B xs)
  /\ body_size (header m) = Zlength (array_u32_bytes B xs)
  /\ body_size (header m) <= UINT32_MAX.

(** The frame of that array on the stack of the reader: the length is at
    the aligned offset, the elements begin four bytes behind it. *)
Definition array_u32_entered_frame (B : list Z) : bus_container :=
  mk_container SD_BUS_TYPE_ARRAY (Some [SD_BUS_TYPE_UINT32]) 0
               (Some (ALIGN_TO (Zlength B) 4)) (ALIGN_TO (Zlength B) 4 + 4).

(** A sealed message in native byte order whose body holds that array,
    followed by [rest], and whose reader has entered the array and read
    its first [j] elements. *)
Definition array_u32_entered (m : sd_bus_message) (B xs rest : list Z) (j : Z) : Prop :=
  sealed m = true
  /\ containers m = [array_u32_entered_frame B]
  /\ body m = Some (array_u32_bytes B xs ++ rest)
  /\ endian (header m) = SD_BUS_NATIVE_ENDIAN
  /\ body_size (header m) = Zlength (array_u32_bytes B xs ++ rest)
  /\ body_size (header m) <= UINT32_MAX
  /\ rindex m = ALIGN_TO (Zlength B) 4 + 4 + 4 * j.
End ArrayVocabulary.

(** ** One [uint32_t] in a variant or a struct *)

Section OneValueVocabulary.
Context {host : Host}.

(** The frame of a variant or a struct whose contents are one
    [uint32_t]: its kind, how far its signature has been walked, and where
    its contents begin. *)
Definition u32_frame (kind i bg : Z) : bus_container :=
  mk_container kind (Some [SD_BUS_TYPE_UINT32]) i None bg.

(** [x] as a [uint32_t] behind the bytes [P]: zeros up to a multiple of 4,
    then the four bytes. *)
Definition u32_behind (P : list Z) (x : Z) : list Z :=
  P ++ repeat 0 (Z.to_nat (ALIGN_TO (Zlength P) 4 - Zlength P)) ++ store_native 4 x.

(** The body with a variant of one [uint32_t] behind the bytes [B]: the
    signature [u] of the contents with its length in front and its NUL
    behind, then the value. *)
Definition variant_u32_bytes (B : list Z) (x : Z) : list Z :=
  u32_behind (B ++ [1; SD_BUS_TYPE_UINT32; 0]) x.

(** The body with a struct of one [uint32_t] behind the bytes [B]: zeros
    up to a multiple of 8, then the value. *)
Definition struct_u32_bytes (B : list Z) (x : Z) : list Z :=
  u32_behind (B ++ repeat 0 (Z.to_nat (ALIGN_TO (Zlength B) 8 - Zlength B))) x.
End OneValueVocabulary.

(** ** A value in the body, and what the writer does behind it *)

(** The largest size of an object in memory: a C string that is handed to
    the writer is no longer. *)
Definition PTRDIFF_MAX : Z := 2 ^ 63 - 1.

Definition in_memory (p : pointee) : Prop :=
  match p with
  | PStr s => strlen s <= PTRDIFF_MAX
  | _ => True
  end.

Definition contents_in_memory (contents : option cstring) : Prop :=
  match contents with
  | Some s => strlen s <= PTRDIFF_MAX
  | None => True
  end.

(** The length slot of an array frame, if the frame has one, lies inside
    the first [bound] bytes of the body. *)
Definition slot_within (bound : Z) (c : bus_container) : Prop :=
  match array_size c with
  | Some a => 0 <= a /\ a + 4 <= bound
  | None => True
  end.

(** The length slot of an array frame, if the frame has one, lies outside
    the bytes from [lo] up to [hi]. *)
Definition slot_outside (lo hi : Z) (c : bus_container) : Prop :=
  match array_size c with
  | Some a => a + 4 <= lo \/ hi <= a
  | None => True
  end.

(** The signature of the frame [c] holds the type [t] at the index [i], and
    the cursor of a frame that can still grow (the root container) is past
    it. *)
Definition holds_type (i t : Z) (c : bus_container) : Prop :=
  t <> 0 /\ 0 <= i
  /\ char_at (strempty (signature c)) i = t
  /\ (enclosing c = 0 -> i < index c)
  /\ array_size c = None.

Section AnywhereVocabulary.
Context {host : Host} {ext : Collaborators}.

(** A message the writer can work on, at the root or with containers
    open: laid out in the byte order of the host, its body at least as long
    as the header says and no longer than 32 bits can tell, the length slot
    of every open array inside it. *)
Definition writable (m : sd_bus_message) : Prop :=
  endian (header m) = SD_BUS_NATIVE_ENDIAN
  /\ 0 <= body_size (header m) <= Zlength (region_bytes (body m))
  /\ body_size (header m) <= UINT32_MAX
  /\ Forall (slot_within (body_size (header m))) (containers m).

(** A writable message whose body holds the bytes [V] from [lo] up to
    [hi], out of reach of the length slots of the open arrays; and, when
    [o] names an index and a type, whose root signature holds that type
    there. *)
Definition kept (lo hi : Z) (V : list Z) (o : option (Z * Z)) (m : sd_bus_message) : Prop :=
  endian (header m) = SD_BUS_NATIVE_ENDIAN
  /\ (0 <= lo <= hi /\ hi <= body_size (header m) <= Zlength (region_bytes (body m)))
  /\ body_size (header m) <= UINT32_MAX
  /\ slice (region_bytes (body m)) lo (hi - lo) = V
  /\ Forall (slot_within (body_size (header m))) (containers m)
  /\ Forall (slot_outside lo hi) (containers m)
  /\ match o with
     | Some (i, t) => holds_type i t (root_container m)
     | None => True
     end.

(** One more call of the writer of the body on [m], with strings that lie
    in memory, that returns, with whatever result, and leaves the message
    as [m']. *)
Inductive written_on (m m' : sd_bus_message) : Prop :=
| on_append_basic (t : Z) (p : pointee) (h h' : heap) (r : Z) :
    in_memory p ->
    sd_bus_message_append_basic m t p h = Returns ((r, m'), h') -> written_on m m'
| on_open_container (t : Z) (contents : option cstring) (h h' : heap) (r : Z) :
    contents_in_memory contents ->
    sd_bus_message_open_container m t contents h = Returns ((r, m'), h') -> written_on m m'
| on_close_container (r : Z) :
    sd_bus_message_close_container m = (r, m') -> written_on m m'.

(** Any number of such calls, one after the other. *)
Inductive written_further : sd_bus_message -> sd_bus_message -> Prop :=
| written_no_further (m : sd_bus_message) : written_further m m
| written_once_more (m m1 m' : sd_bus_message) :
    written_on m m1 -> written_further m1 m' -> written_further m m'.





End AnywhereVocabulary.

(** * Properties *)

Unset Implicit Arguments.

(** ** Arithmetic of alignment and of the byte encodings *)

Lemma size_t_small (x : Z) : 0 <= x < 2 ^ 64 -> size_t x = x.
Proof. intros H. unfold size_t. apply Z.mod_small. exact H. Qed.

Lemma u32_small (x : Z) : 0 <= x < 2 ^ 32 -> u32 x = x.
Proof. intros H. unfold u32. apply Z.mod_small. exact H. Qed.

(** [ALIGN_TO] rounds up to the next multiple of the alignment. *)
Lemma ALIGN_TO_spec (l ali : Z) :
  0 < ali -> 0 <= l -> l + ali <= 2 ^ 64 ->
  l <= ALIGN_TO l ali < l + ali /\ ALIGN_TO l ali mod ali = 0.
Proof.
  intros Hali Hl Hno. unfold ALIGN_TO.
  rewrite size_t_small by lia.
  pose proof (Z.div_mod (l + ali - 1) ali ltac:(lia)) as Hdm.
  pose proof (Z.mod_pos_bound (l + ali - 1) ali Hali) as Hb.
  split.
  - nia.
  - apply Z.mod_mul. lia.
Qed.

Lemma ALIGN_TO_aligned (l ali : Z) :
  0 < ali -> 0 <= l -> l + ali <= 2 ^ 64 -> l mod ali = 0 -> ALIGN_TO l ali = l.
Proof.
  intros Hali Hl Hno Hm. unfold ALIGN_TO.
  rewrite size_t_small by lia.
  apply Z.mod_divide in Hm; [|lia]. destruct Hm as [k Hk]. subst l.
  replace (k * ali + ali - 1) with (ali - 1 + k * ali) by lia.
  rewrite Z.div_add by lia. rewrite Z.div_small by lia. lia.
Qed.

Lemma le_bytes_length (n : nat) (v : Z) : List.length (le_bytes n v) = n.
Proof. revert v. induction n as [|n IH]; intros v; simpl; [reflexivity|now rewrite IH]. Qed.

Lemma le_value_le_bytes (n : nat) (v : Z) :
  0 <= v < 256 ^ Z.of_nat n -> le_value (le_bytes n v) = v.
Proof.
  revert v. induction n as [|n IH]; intros v Hv.
  - simpl in *. lia.
  - cbn [le_bytes le_value]. rewrite IH.
    + pose proof (Z.div_mod v 256 ltac:(lia)). lia.
    + rewrite Nat2Z.inj_succ, Z.pow_succ_r in Hv by lia.
      split; [apply Z.div_pos; lia|apply Z.div_lt_upper_bound; lia].
Qed.

Lemma le_bytes_range (n : nat) (v : Z) : Forall (fun b => 0 <= b < 256) (le_bytes n v).
Proof.
  revert v. induction n as [|n IH]; intros v; simpl; constructor.
  - apply Z.mod_pos_bound. lia.
  - apply IH.
Qed.

Lemma le_value_range (bs : list Z) :
  Forall (fun b => 0 <= b < 256) bs -> 0 <= le_value bs < 256 ^ Zlength bs.
Proof.
  induction 1 as [|b bs Hb _ IH].
  - cbn. lia.
  - cbn [le_value]. rewrite Zlength_cons, Z.pow_succ_r by (rewrite Zlength_correct; lia). lia.
Qed.

Section HostFacts.
Context {host : Host}.

Lemma store_native_length (n : nat) (v : Z) : List.length (store_native n v) = n.
Proof.
  unfold store_native. destruct host_order; [|rewrite length_rev]; apply le_bytes_length.
Qed.

Lemma load_store_native (n : nat) (v : Z) :
  0 <= v < 256 ^ Z.of_nat n -> load_native (store_native n v) = v.
Proof.
  intros Hv. unfold load_native, store_native.
  destruct host_order; [|rewrite rev_involutive]; now apply le_value_le_bytes.
Qed.

Lemma load_native_range (bs : list Z) :
  Forall (fun b => 0 <= b < 256) bs -> 0 <= load_native bs < 256 ^ Zlength bs.
Proof.
  intros Hbs. unfold load_native. destruct host_order.
  - now apply le_value_range.
  - replace (Zlength bs) with (Zlength (rev bs))
      by (rewrite !Zlength_correct, length_rev; reflexivity).
    apply le_value_range. now apply Forall_rev.
Qed.

Lemma native_is_l_or_B :
  (SD_BUS_NATIVE_ENDIAN = SD_BUS_LITTLE_ENDIAN /\ SD_BUS_REVERSE_ENDIAN = SD_BUS_BIG_ENDIAN)
  \/ (SD_BUS_NATIVE_ENDIAN = SD_BUS_BIG_ENDIAN /\ SD_BUS_REVERSE_ENDIAN = SD_BUS_LITTLE_ENDIAN).
Proof. unfold SD_BUS_NATIVE_ENDIAN, SD_BUS_REVERSE_ENDIAN. destruct host_order; auto. Qed.
End HostFacts.

Lemma bswap_32_range (x : Z) : 0 <= bswap_32 x < 2 ^ 32.
Proof.
  unfold bswap_32.
  pose proof (le_value_range (rev (le_bytes 4 x))
                (Forall_rev (le_bytes_range 4 x))) as H.
  rewrite Zlength_correct, length_rev, le_bytes_length in H. exact H.
Qed.

(** ** The padding loop *)

Lemma padding_is_zero_spec (p : list Z) (k : Z) (count : nat) :
  padding_is_zero p k count = true
  <-> forall i, k <= i < k + Z.of_nat count -> byte_at p i = 0.
Proof.
  revert k. induction count as [|count IH]; intros k.
  - simpl. split; [intros _ i Hi; lia|reflexivity].
  - cbn [padding_is_zero]. destruct (byte_at p k =? 0) eqn:Hk.
    + rewrite IH. apply Z.eqb_eq in Hk. split.
      * intros H i Hi. destruct (Z.eq_dec i k) as [->|Hne]; [exact Hk|apply H; lia].
      * intros H i Hi. apply H. lia.
    + apply Z.eqb_neq in Hk. split; [discriminate|].
      intros H. exfalso. apply Hk, H. lia.
Qed.

(** ** Reads through [buffer_peek] *)

(** The two ways [buffer_peek] can go, and where the aligned start lies. *)
Lemma buffer_peek_cases (p : list Z) (sz r a n : Z) :
  0 <= r -> 0 < a -> 0 <= n -> r + a + n <= 2 ^ 64 ->
  let start := ALIGN_TO r a in
  (r <= start < r + a /\ start mod a = 0)
  /\ (start + n <= sz /\ (forall k, r <= k < start -> byte_at p k = 0)
      -> buffer_peek p sz r a n = (1, start + n, start))
  /\ (~ (start + n <= sz /\ (forall k, r <= k < start -> byte_at p k = 0))
      -> buffer_peek p sz r a n = (- EBADMSG, r, 0)).
Proof.
  intros Hr Ha Hn Hno start.
  destruct (ALIGN_TO_spec r a) as [Hb Hm]; try lia.
  fold start in Hb, Hm.
  assert (Hpad : padding_is_zero p r (Z.to_nat (start - r)) = true
                 <-> forall k, r <= k < start -> byte_at p k = 0).
  { rewrite padding_is_zero_spec. rewrite Z2Nat.id by lia.
    split; intros H k Hk; apply H; lia. }
  split; [split; assumption|].
  unfold buffer_peek. fold start. rewrite size_t_small by lia.
  split.
  - intros [Hfit Hzero]. apply Hpad in Hzero.
    destruct (sz <? start + n) eqn:E; [apply Z.ltb_lt in E; lia|].
    rewrite Hzero. reflexivity.
  - intros Hnot.
    destruct (sz <? start + n) eqn:E; [reflexivity|].
    apply Z.ltb_ge in E.
    destruct (padding_is_zero p r (Z.to_nat (start - r))) eqn:P; [|reflexivity].
    exfalso. apply Hnot. split; [lia|]. apply Hpad. reflexivity.
Qed.

(** C7. A read at cursor [r] with alignment [a] and size [n] over a region of
    size [sz] succeeds exactly when the aligned start plus [n] stays within
    [sz] and every padding byte between [r] and the aligned start is zero;
    it then leaves the cursor at the aligned start plus [n]. In every other
    case it fails with malformed-message and leaves the cursor alone. The
    hypotheses keep the [size_t] arithmetic of the function from wrapping;
    the first conjunct says what the aligned start is. *)
Theorem buffer_peek_checks_range_and_padding (p : list Z) (sz r a n : Z) :
  0 <= r -> 0 < a -> 0 <= n -> r + a + n <= 2 ^ 64 ->
  let start := ALIGN_TO r a in
  (r <= start < r + a /\ start mod a = 0)
  /\ (start + n <= sz /\ (forall k, r <= k < start -> byte_at p k = 0)
      -> buffer_peek p sz r a n = (1, start + n, start))
  /\ (~ (start + n <= sz /\ (forall k, r <= k < start -> byte_at p k = 0))
      -> buffer_peek p sz r a n = (- EBADMSG, r, 0)).
Proof. exact (buffer_peek_cases p sz r a n). Qed.

Lemma buffer_peek_checks_range_and_padding_witness :
  buffer_peek [1; 0; 0; 0; 7; 0; 0; 0] 8 1 4 4 = (1, ALIGN_TO 1 4 + 4, ALIGN_TO 1 4)
  /\ buffer_peek [1; 0; 9; 0; 7; 0; 0; 0] 8 1 4 4 = (- EBADMSG, 1, 0).
Proof.
  split.
  - apply (buffer_peek_checks_range_and_padding [1; 0; 0; 0; 7; 0; 0; 0] 8 1 4 4);
      [lia | lia | lia | lia |].
    split; [vm_compute; discriminate|].
    intros k Hk. change (ALIGN_TO 1 4) with 4 in Hk.
    assert (Hc : k = 1 \/ k = 2 \/ k = 3) by lia.
    destruct Hc as [->|[->| ->]]; reflexivity.
  - apply (buffer_peek_checks_range_and_padding [1; 0; 9; 0; 7; 0; 0; 0] 8 1 4 4);
      [lia | lia | lia | lia |].
    intros [_ Hz]. specialize (Hz 2). change (ALIGN_TO 1 4) with 4 in Hz.
    assert (H : byte_at [1; 0; 9; 0; 7; 0; 0; 0] 2 = 0) by (apply Hz; lia).
    discriminate H.
Defined.

(** ** The no-reply accessor *)

Section NoReply.
Context {host : Host}.

(** C10. [get_no_reply] answers 0 for every message that is not a method
    call, whatever the no_reply_expected bit of its flags; for a method
    call it answers 1 or 0 as the bit is set or not. *)
Theorem get_no_reply_reports_the_flag_of_method_calls_only (m : sd_bus_message) :
  (type (header m) <> SD_BUS_MESSAGE_TYPE_METHOD_CALL
   -> sd_bus_message_get_no_reply m = 0)
  /\ (type (header m) = SD_BUS_MESSAGE_TYPE_METHOD_CALL
      -> (Z.land (flags (header m)) SD_BUS_MESSAGE_NO_REPLY_EXPECTED <> 0
          -> sd_bus_message_get_no_reply m = 1)
         /\ (Z.land (flags (header m)) SD_BUS_MESSAGE_NO_REPLY_EXPECTED = 0
             -> sd_bus_message_get_no_reply m = 0)).
Proof.
  unfold sd_bus_message_get_no_reply. split.
  - intros Hne. apply Z.eqb_neq in Hne. rewrite Hne. reflexivity.
  - intros He. apply Z.eqb_eq in He. rewrite He. split; intros Hf.
    + apply Z.eqb_neq in Hf. rewrite Hf. reflexivity.
    + apply Z.eqb_eq in Hf. rewrite Hf. reflexivity.
Qed.
End NoReply.

(** A signal as [sd_bus_message_new_signal] makes it carries the flag, and
    [get_no_reply] answers 0 for it. *)
Example get_no_reply_of_a_new_signal :
  exists t h,
    @sd_bus_message_new_signal little_endian_host None
      (Some (cstr "/foo")) (Some (cstr "com.example")) (Some (cstr "Bar")) []
    = Returns ((0, Some t), h)
    /\ Z.land (flags (header t)) SD_BUS_MESSAGE_NO_REPLY_EXPECTED = 1
    /\ sd_bus_message_get_no_reply t = 0.
Proof. eexists. eexists. vm_compute. repeat split. Qed.

(** ** Leaving an array on the parse path *)

Section ExitContainer.
Context {host : Host}.

(** C6. On a sealed message whose current frame is an ARRAY frame,
    [exit_container] succeeds exactly when the frame's begin offset plus
    the byte-swapped length prefix equals the read cursor, and then pops the
    frame, whose signature goes with it; otherwise it answers -EBUSY and
    changes nothing. *)
Theorem exit_container_checks_array_length (m : sd_bus_message) (a : Z) :
  sealed m = true ->
  0 < n_containers m ->
  enclosing (message_get_container m) = SD_BUS_TYPE_ARRAY ->
  array_size (message_get_container m) = Some a ->
  0 <= begin (message_get_container m) + array_length m a < 2 ^ 64 ->
  (begin (message_get_container m) + array_length m a = rindex m
   -> sd_bus_message_exit_container m
      = Returns (1, set_containers (removelast (containers m)) m))
  /\ (begin (message_get_container m) + array_length m a <> rindex m
      -> sd_bus_message_exit_container m = Returns (- EBUSY, m)).
Proof.
  intros Hs Hn He Ha Hrange.
  unfold sd_bus_message_exit_container.
  rewrite Hs. cbn [negb].
  destruct (n_containers m <=? 0) eqn:E; [apply Z.leb_le in E; lia|].
  rewrite He, Z.eqb_refl, Ha.
  fold (array_length m a). rewrite size_t_small by exact Hrange.
  split; intros H.
  - rewrite H, Z.eqb_refl. reflexivity.
  - apply Z.eqb_neq in H. rewrite H. reflexivity.
Qed.

(** Popping takes the last frame off the stack. *)
Lemma exit_container_pops (m m' : sd_bus_message) :
  sd_bus_message_exit_container m = Returns (1, m') ->
  containers m' = removelast (containers m)
  /\ n_containers m' = n_containers m - 1
  /\ body m' = body m /\ rindex m' = rindex m /\ root_container m' = root_container m.
Proof.
  unfold sd_bus_message_exit_container.
  destruct (negb (sealed m)); [intros H; inversion H|].
  destruct (n_containers m <=? 0) eqn:E; [intros H; inversion H|].
  apply Z.leb_gt in E.
  assert (Hpop : forall x, Returns (1, set_containers (removelast (containers m)) m)
                           = Returns (1, x) ->
                 containers x = removelast (containers m)
                 /\ n_containers x = n_containers m - 1
                 /\ body x = body m /\ rindex x = rindex m
                 /\ root_container x = root_container m).
  { intros x Hx. inversion Hx; subst x. cbn. repeat split.
    unfold n_containers in *. cbn.
    destruct (containers m) as [|c l] using rev_ind.
    - rewrite Zlength_nil in E. lia.
    - rewrite removelast_last. rewrite !Zlength_correct, length_app. cbn. lia. }
  destruct (enclosing (message_get_container m) =? SD_BUS_TYPE_ARRAY).
  - destruct (array_size (message_get_container m)); [|intros H; inversion H].
    destruct (negb _); [intros H; inversion H|]. apply Hpop.
  - destruct (has_char (message_get_container m)); [intros H; inversion H|]. apply Hpop.
Qed.
End ExitContainer.

Lemma exit_container_checks_array_length_witness :
  @sd_bus_message_exit_container little_endian_host Run.inside_array
  = Returns (1, set_containers (removelast (containers Run.inside_array)) Run.inside_array)
  /\ rindex Run.inside_array = 12.
Proof.
  split; [|reflexivity].
  apply (@exit_container_checks_array_length little_endian_host Run.inside_array 0).
  - reflexivity.
  - reflexivity.
  - reflexivity.
  - reflexivity.
  - split; [vm_compute; discriminate | vm_compute; reflexivity].
  - reflexivity.
Defined.

(** ** Lists of bytes addressed by offsets *)

Lemma Zlength_app {A} (a b : list A) : Zlength (a ++ b) = Zlength a + Zlength b.
Proof. rewrite !Zlength_correct, length_app. lia. Qed.

Lemma Zlength_repeat {A} (x : A) (n : nat) : Zlength (repeat x n) = Z.of_nat n.
Proof. rewrite Zlength_correct, repeat_length. reflexivity. Qed.

Lemma Zlength_nonneg {A} (l : list A) : 0 <= Zlength l.
Proof. rewrite Zlength_correct. lia. Qed.

Lemma to_nat_Zlength {A} (l : list A) : Z.to_nat (Zlength l) = List.length l.
Proof. rewrite Zlength_correct. apply Nat2Z.id. Qed.

Lemma slice_middle (a b c : list Z) : slice (a ++ b ++ c) (Zlength a) (Zlength b) = b.
Proof.
  unfold slice. rewrite !to_nat_Zlength.
  rewrite skipn_app, skipn_all, Nat.sub_diag. cbn [skipn app].
  rewrite firstn_app, firstn_all, Nat.sub_diag. cbn [firstn]. apply app_nil_r.
Qed.

Lemma slice_app_l (a b : list Z) (off n : Z) :
  0 <= off -> 0 <= n -> off + n <= Zlength a -> slice (a ++ b) off n = slice a off n.
Proof.
  intros Hoff Hn Hfit. unfold slice.
  rewrite Zlength_correct in Hfit.
  rewrite skipn_app, firstn_app.
  replace (Z.to_nat n - List.length (skipn (Z.to_nat off) a))%nat with 0%nat
    by (rewrite length_skipn; lia).
  cbn [firstn]. apply app_nil_r.
Qed.

Lemma byte_at_app_l (a b : list Z) (i : Z) :
  0 <= i < Zlength a -> byte_at (a ++ b) i = byte_at a i.
Proof.
  intros Hi. unfold byte_at. rewrite Zlength_correct in Hi. apply app_nth1. lia.
Qed.

Lemma byte_at_app_r (a b : list Z) (i : Z) :
  Zlength a <= i -> byte_at (a ++ b) i = byte_at b (i - Zlength a).
Proof.
  intros Hi. unfold byte_at. pose proof (Zlength_nonneg a) as Ha.
  rewrite Zlength_correct in *.
  rewrite app_nth2 by lia. f_equal. lia.
Qed.

Lemma byte_at_zeros (n : nat) (i : Z) : byte_at (repeat 0 n) i = 0.
Proof.
  unfold byte_at. destruct (Nat.lt_ge_cases (Z.to_nat i) n) as [H|H].
  - apply nth_repeat_lt. exact H.
  - apply nth_overflow. rewrite repeat_length. exact H.
Qed.

Lemma mem_write_at_end (a junk data : list Z) :
  List.length junk = List.length data ->
  mem_write (a ++ junk) (Zlength a) data = a ++ data.
Proof.
  intros Hlen. unfold mem_write. rewrite to_nat_Zlength.
  rewrite firstn_app, firstn_all, Nat.sub_diag. cbn [firstn]. rewrite app_nil_r.
  rewrite skipn_all2 by (rewrite length_app; lia).
  rewrite app_nil_r. reflexivity.
Qed.

Lemma firstn_repeat {A} (x : A) (m n : nat) :
  (m <= n)%nat -> firstn m (repeat x n) = repeat x m.
Proof.
  revert n. induction m as [|m IH]; intros n Hmn; [reflexivity|].
  destruct n as [|n]; [lia|]. cbn. f_equal. apply IH. lia.
Qed.

Lemma skipn_repeat {A} (x : A) (m n : nat) : skipn m (repeat x n) = repeat x (n - m).
Proof.
  revert n. induction m as [|m IH]; intros n.
  - rewrite Nat.sub_0_r. reflexivity.
  - destruct n as [|n]; [reflexivity|]. cbn. apply IH.
Qed.

(** [realloc] to [n] bytes followed by the zeroing of the padding. *)
Lemma realloc_then_zero_padding (p : region) (sz start n junk : Z) :
  Zlength (region_bytes p) = sz -> sz <= start <= n ->
  (if sz <? start then memset (realloc p n junk) sz 0 (start - sz) else realloc p n junk)
  = region_bytes p ++ repeat 0 (Z.to_nat (start - sz)) ++ repeat junk (Z.to_nat (n - start)).
Proof.
  intros Hlen Hle.
  pose proof (Zlength_nonneg (region_bytes p)) as Hsz. rewrite Hlen in Hsz.
  assert (Hre : realloc p n junk = region_bytes p ++ repeat junk (Z.to_nat (n - sz))).
  { unfold realloc. rewrite firstn_app, <- (to_nat_Zlength (region_bytes p)), Hlen.
    rewrite firstn_all2 by (rewrite <- to_nat_Zlength, Hlen; lia).
    rewrite firstn_repeat by lia. f_equal. f_equal. lia. }
  rewrite Hre. destruct (sz <? start) eqn:E.
  - unfold memset, mem_write. rewrite repeat_length.
    rewrite firstn_app, <- (to_nat_Zlength (region_bytes p)), Hlen, Nat.sub_diag.
    rewrite firstn_all2 by (rewrite <- to_nat_Zlength, Hlen; lia).
    cbn [firstn]. rewrite app_nil_r.
    rewrite skipn_app, <- (to_nat_Zlength (region_bytes p)), Hlen.
    rewrite skipn_all2 by (rewrite <- to_nat_Zlength, Hlen; lia).
    cbn [app]. rewrite skipn_repeat. do 3 f_equal. apply Z.ltb_lt in E. lia.
  - apply Z.ltb_ge in E. assert (start = sz) by lia. subst start.
    rewrite Z.sub_diag. reflexivity.
Qed.

(** ** What [buffer_extend] does to a region *)

Lemma buffer_extend_null (p : region) (sz align extend : Z) (h h' : heap) (p' : region) (sz' : Z) :
  buffer_extend p sz align extend h = Returns ((None, p', sz'), h') ->
  p' = p /\ sz' = sz.
Proof.
  unfold buffer_extend, bind, ret, alloc.
  destruct (_ =? sz).
  - intros H. inversion H. auto.
  - destruct (UINT32_MAX <? _); [intros H; inversion H; auto|].
    destruct h as [|[|junk] h0]; intros H; inversion H; auto.
Qed.

(** A region whose size field tells its length grows by zero padding up to
    the alignment and by [extend] bytes of whatever the allocator left
    there. *)
Lemma buffer_extend_grows
    (p : region) (sz align extend : Z) (h h' : heap) (q : Z) (p' : region) (sz' : Z) :
  buffer_extend p sz align extend h = Returns ((Some q, p', sz'), h') ->
  Zlength (region_bytes p) = sz -> 0 < align -> 0 <= extend -> sz + align + extend <= 2 ^ 64 ->
  q = ALIGN_TO sz align /\ sz' = q + extend /\ (0 < extend -> sz' <= UINT32_MAX)
  /\ exists junk,
      region_bytes p'
      = region_bytes p ++ repeat 0 (Z.to_nat (q - sz)) ++ repeat junk (Z.to_nat extend).
Proof.
  intros Hrun Hlen Halign Hext Hno.
  pose proof (Zlength_nonneg (region_bytes p)) as Hsz. rewrite Hlen in Hsz.
  destruct (ALIGN_TO_spec sz align) as [Hb Hm]; try lia.
  revert Hrun. unfold buffer_extend, bind, ret, alloc.
  rewrite size_t_small by lia.
  destruct (ALIGN_TO sz align + extend =? sz) eqn:E.
  - apply Z.eqb_eq in E. intros H.
    assert (Hq : q = ALIGN_TO sz align).
    { destruct p as [bytes|]; cbn [ptr_add] in H.
      - inversion H. reflexivity.
      - destruct (ALIGN_TO sz align =? 0); inversion H. reflexivity. }
    assert (Hp : p' = p /\ sz' = sz).
    { destruct p as [bytes|]; cbn [ptr_add] in H.
      - inversion H. auto.
      - destruct (ALIGN_TO sz align =? 0); inversion H. auto. }
    destruct Hp as [-> ->]. subst q.
    assert (extend = 0) by lia. assert (ALIGN_TO sz align = sz) by lia.
    repeat split; try lia.
    exists 0. replace (ALIGN_TO sz align - sz) with 0 by lia. subst extend.
    cbn. rewrite app_nil_r. reflexivity.
  - apply Z.eqb_neq in E.
    destruct (UINT32_MAX <? ALIGN_TO sz align + extend) eqn:U; [intros H; inversion H|].
    apply Z.ltb_ge in U.
    assert (Hgrow : forall junk,
               region_bytes
                 (Some (if sz <? ALIGN_TO sz align
                        then memset (realloc p (ALIGN_TO sz align + extend) junk) sz 0
                                    (ALIGN_TO sz align - sz)
                        else realloc p (ALIGN_TO sz align + extend) junk))
               = region_bytes p ++ repeat 0 (Z.to_nat (ALIGN_TO sz align - sz))
                   ++ repeat junk (Z.to_nat extend)).
    { intros junk. cbn [region_bytes].
      rewrite realloc_then_zero_padding by (try assumption; lia).
      do 3 f_equal. lia. }
    destruct h as [|[|junk] h0]; intros H; inversion H; subst; clear H.
    + repeat split; try lia. exists 0. apply Hgrow.
    + repeat split; try lia. exists junk. apply Hgrow.
Qed.

(** ** Appending a header field *)

Section Fields.
Context {host : Host}.

Lemma message_extend_fields_null (m m' : sd_bus_message) (align sz : Z) (h h' : heap) :
  message_extend_fields m align sz h = Returns ((None, m'), h') -> m' = m.
Proof.
  unfold message_extend_fields, bind, ret.
  destruct (buffer_extend _ _ _ _ h) as [[[[p f] fs] h1]|] eqn:E; [|discriminate].
  destruct p; intros H; inversion H. reflexivity.
Qed.

Lemma extend_fields_then_write
    (m m1 : sd_bus_message) (data : list Z) (h h1 : heap) (p : Z) :
  message_extend_fields m 8 (Zlength data) h = Returns ((Some p, m1), h1) ->
  fields_in_step m -> 0 < Zlength data < 2 ^ 33 ->
  p = ALIGN_TO (fields_size (header m)) 8
  /\ set_fields (Some (mem_write (region_bytes (fields m1)) p data)) m1 = with_field m data
  /\ fields_in_step (with_field m data).
Proof.
  intros Hrun [Hlen Hmax] Hdata.
  unfold message_extend_fields, bind, ret in Hrun.
  destruct (buffer_extend _ _ _ _ h) as [[[[q f] fs] h2]|] eqn:E; [|discriminate].
  destruct q as [q|]; [|discriminate].
  injection Hrun as Hp Hm1 Hh. subst p m1 h1.
  unfold UINT32_MAX in Hmax.
  pose proof (Zlength_nonneg (region_bytes (fields m))) as Hnn.
  apply buffer_extend_grows in E; try assumption; try lia.
  destruct E as (Hq & Hfs & Hle & junk & Hbytes).
  split; [exact Hq|].
  assert (Hw : mem_write (region_bytes f) q data
               = region_bytes (fields m)
                   ++ repeat 0 (Z.to_nat (ALIGN_TO (fields_size (header m)) 8
                                          - fields_size (header m))) ++ data).
  { rewrite Hbytes, Hq. rewrite app_assoc.
    replace (ALIGN_TO (fields_size (header m)) 8)
      with (Zlength (region_bytes (fields m)
                       ++ repeat 0 (Z.to_nat (ALIGN_TO (fields_size (header m)) 8
                                              - fields_size (header m))))) at 2.
    - rewrite mem_write_at_end; [now rewrite <- app_assoc|].
      rewrite repeat_length. apply to_nat_Zlength.
    - destruct (ALIGN_TO_spec (fields_size (header m)) 8) as [Hb _]; try lia.
      rewrite Zlength_app, Zlength_repeat, Hlen. lia. }
  split.
  - unfold with_field. cbn. rewrite Hw, Hfs, Hq. reflexivity.
  - unfold fields_in_step, with_field. cbn.
    destruct (ALIGN_TO_spec (fields_size (header m)) 8) as [Hb _]; try lia.
    rewrite !Zlength_app, Zlength_repeat, Hlen. split; [lia|].
    rewrite <- Hq, <- Hfs. apply Hle. lia.
Qed.

Lemma message_append_field_signature_cases
    (m m' : sd_bus_message) (s : cstring) (h h' : heap) (r : Z) :
  message_append_field_signature m SD_BUS_MESSAGE_HEADER_SIGNATURE s None h
  = Returns ((r, m'), h') ->
  fields_in_step m ->
  (r < 0 /\ m' = m)
  \/ (r = 0 /\ m' = with_field m (signature_field s)
      /\ fields_in_step (with_field m (signature_field s))).
Proof.
  intros Hrun Hstep. unfold message_append_field_signature in Hrun.
  pose proof (Zlength_nonneg s) as Hs.
  destruct (255 <? strlen s) eqn:L.
  { inversion Hrun. left. split; [reflexivity|reflexivity]. }
  apply Z.ltb_ge in L. unfold strlen in *.
  unfold bind in Hrun. rewrite size_t_small in Hrun by lia.
  replace (4 + 1 + Zlength s + 1) with (Zlength (signature_field s)) in Hrun
    by (unfold signature_field; rewrite !Zlength_app, !Zlength_cons, Zlength_nil; unfold strlen; lia).
  destruct (message_extend_fields _ _ _ h) as [[[p m1] h1]|] eqn:E; [|discriminate].
  destruct p as [p|].
  - inversion Hrun; subst. right. split; [reflexivity|].
    apply extend_fields_then_write in E; try assumption.
    + destruct E as (_ & E & E'). split; assumption.
    + unfold signature_field. rewrite !Zlength_app, !Zlength_cons, Zlength_nil. lia.
  - inversion Hrun; subst. left. split; [reflexivity|].
    eapply message_extend_fields_null; eassumption.
Qed.

Lemma message_append_field_uint32_cases
    (m m' : sd_bus_message) (code x : Z) (h h' : heap) (r : Z) :
  message_append_field_uint32 m code x h = Returns ((r, m'), h') ->
  fields_in_step m ->
  (r < 0 /\ m' = m)
  \/ (r = 0 /\ m' = with_field m (uint32_field code x)
      /\ fields_in_step (with_field m (uint32_field code x))).
Proof.
  intros Hrun Hstep. unfold message_append_field_uint32, bind in Hrun.
  assert (Hl : Zlength (uint32_field code x) = 8).
  { unfold uint32_field. rewrite Zlength_app, !Zlength_cons, Zlength_nil.
    rewrite Zlength_correct, store_native_length. reflexivity. }
  replace (4 + 4) with (Zlength (uint32_field code x)) in Hrun by (rewrite Hl; reflexivity).
  destruct (message_extend_fields _ _ _ h) as [[[p m1] h1]|] eqn:E; [|discriminate].
  destruct p as [p|].
  - inversion Hrun; subst. right. split; [reflexivity|].
    apply extend_fields_then_write in E; try assumption; [|lia].
    destruct E as (_ & E & E'). split; assumption.
  - inversion Hrun; subst. left. split; [reflexivity|].
    eapply message_extend_fields_null; eassumption.
Qed.
End Fields.

(** ** Seal *)

Section Seal.
Context {host : Host}.

Lemma with_field_slice (m : sd_bus_message) (data rest : list Z) :
  fields_in_step m ->
  slice (region_bytes (fields (with_field m data)) ++ rest)
        (ALIGN_TO (fields_size (header m)) 8) (Zlength data)
  = data.
Proof.
  intros [Hlen Hmax]. unfold with_field. cbn [fields set_fields region_bytes].
  pose proof (Zlength_nonneg (region_bytes (fields m))) as Hnn.
  unfold UINT32_MAX in Hmax.
  destruct (ALIGN_TO_spec (fields_size (header m)) 8) as [Hb _]; try lia.
  set (pad := repeat 0 (Z.to_nat (ALIGN_TO (fields_size (header m)) 8
                                  - fields_size (header m)))).
  assert (Hz : Zlength (region_bytes (fields m) ++ pad)
               = ALIGN_TO (fields_size (header m)) 8).
  { unfold pad. rewrite Zlength_app, Zlength_repeat, Hlen. lia. }
  rewrite <- Hz.
  replace ((region_bytes (fields m) ++ pad ++ data) ++ rest)
    with ((region_bytes (fields m) ++ pad) ++ data ++ rest)
    by (rewrite <- !app_assoc; reflexivity).
  apply slice_middle.
Qed.

(** What a successful [seal] has done. *)
Lemma seal_effect
    (m m' : sd_bus_message) (serial_ : Z) (h h' : heap) :
  bus_message_seal m serial_ h = Returns ((0, m'), h') ->
  fields_in_step m ->
  (sealed m = false /\ containers m = [])
  /\ sealed m' = true
  /\ serial (header m') = serial_ mod 2 ^ 32
  /\ (serial (header m') <> 0 <-> serial_ mod 2 ^ 32 <> 0)
  /\ (isempty (signature (root_container m)) = false ->
      slice (region_bytes (fields m'))
            (ALIGN_TO (fields_size (header m)) 8)
            (Zlength (signature_field (strempty (signature (root_container m)))))
      = signature_field (strempty (signature (root_container m))))
  /\ (isempty (signature (root_container m)) = true -> n_fds m <= 0 ->
      fields m' = fields m)
  /\ body m' = body m
  /\ root_container m' = root_container m
  /\ containers m' = []
  /\ body_size (header m') = body_size (header m)
  /\ endian (header m') = endian (header m)
  /\ type (header m') = type (header m).
Proof.
  intros Hrun Hstep. unfold bus_message_seal in Hrun.
  destruct (sealed m) eqn:Hs; [inversion Hrun|].
  destruct (0 <? n_containers m) eqn:Hn; [inversion Hrun|].
  apply Z.ltb_ge in Hn. unfold n_containers in Hn.
  assert (Hc : containers m = []).
  { apply Zlength_nil_inv. pose proof (Zlength_nonneg (containers m)). lia. }
  unfold bind in Hrun.
  set (sig := strempty (signature (root_container m))) in *.
  destruct (isempty (signature (root_container m))) eqn:He; cbn [negb] in Hrun.
  - (* no root signature: no SIGNATURE field *)
    unfold ret in Hrun at 1. cbn [Z.ltb Z.compare] in Hrun.
    destruct (0 <? n_fds m) eqn:Hf.
    + destruct (message_append_field_uint32 _ _ _ h) as [[[r m1] h1]|] eqn:E; [|discriminate].
      apply message_append_field_uint32_cases in E; [|assumption].
      destruct E as [[Hr ->]|(-> & -> & _)].
      * pose proof Hr as Hr'. apply Z.ltb_lt in Hr'. rewrite Hr' in Hrun.
        inversion Hrun. lia.
      * cbn [Z.ltb Z.compare] in Hrun. inversion Hrun; subst m'. clear Hrun.
        cbn. unfold u32. repeat split; try tauto; try discriminate.
        apply Z.ltb_lt in Hf. intros _ Hle. lia.
    + unfold ret in Hrun. cbn [Z.ltb Z.compare] in Hrun. inversion Hrun; subst m'.
      cbn. unfold u32. repeat split; try tauto; try discriminate.
  - destruct (message_append_field_signature _ _ _ _ h) as [[[r m1] h1]|] eqn:E; [|discriminate].
    apply message_append_field_signature_cases in E; [|assumption].
    destruct E as [[Hr ->]|(-> & -> & Hstep1)].
    { pose proof Hr as Hr'. apply Z.ltb_lt in Hr'. rewrite Hr' in Hrun.
      inversion Hrun. lia. }
    cbn [Z.ltb Z.compare] in Hrun.
    replace (n_fds (with_field m (signature_field sig))) with (n_fds m) in Hrun by reflexivity.
    destruct (0 <? n_fds m) eqn:Hf.
    + destruct (message_append_field_uint32 _ _ _ h1) as [[[r m2] h2]|] eqn:E; [|discriminate].
      apply message_append_field_uint32_cases in E; [|assumption].
      destruct E as [[Hr ->]|(-> & -> & _)].
      * pose proof Hr as Hr'. apply Z.ltb_lt in Hr'. rewrite Hr' in Hrun.
        inversion Hrun. lia.
      * cbn [Z.ltb Z.compare] in Hrun. inversion Hrun; subst m'. clear Hrun.
        cbn -[signature_field ALIGN_TO with_field]. unfold u32.
        repeat split; try tauto; try discriminate.
        intros _. apply with_field_slice. exact Hstep.
    + unfold ret in Hrun. cbn [Z.ltb Z.compare] in Hrun. inversion Hrun; subst m'.
      cbn -[signature_field ALIGN_TO with_field]. unfold u32.
      repeat split; try tauto; try discriminate.
      intros _. rewrite <- (app_nil_r (region_bytes _)).
      apply with_field_slice. exact Hstep.
Qed.

(** C9, as the code has it. [seal] succeeds only on a message that is
    not sealed and has no open container. On success the message is
    sealed, its header holds the given serial reduced to 32 bits (so the
    serial of the sealed message is nonzero exactly when the given serial
    is no multiple of 2^32), a SIGNATURE header field that carries the root
    signature has been appended at the next 8-byte boundary of the fields
    when that signature is not empty, the fields are untouched when it is
    empty and no descriptor is attached, and the body, the root container
    and the rest of the header are as before. *)
Theorem seal_spec
    (m m' : sd_bus_message) (serial_ : Z) (h h' : heap) :
  bus_message_seal m serial_ h = Returns ((0, m'), h') ->
  fields_in_step m ->
  (sealed m = false /\ containers m = [])
  /\ sealed m' = true
  /\ serial (header m') = serial_ mod 2 ^ 32
  /\ (serial (header m') <> 0 <-> serial_ mod 2 ^ 32 <> 0)
  /\ (isempty (signature (root_container m)) = false ->
      slice (region_bytes (fields m'))
            (ALIGN_TO (fields_size (header m)) 8)
            (Zlength (signature_field (strempty (signature (root_container m)))))
      = signature_field (strempty (signature (root_container m))))
  /\ (isempty (signature (root_container m)) = true -> n_fds m <= 0 ->
      fields m' = fields m)
  /\ body m' = body m
  /\ root_container m' = root_container m
  /\ containers m' = []
  /\ body_size (header m') = body_size (header m)
  /\ endian (header m') = endian (header m)
  /\ type (header m') = type (header m).
Proof. exact (seal_effect m m' serial_ h h'). Qed.
End Seal.

Lemma seal_spec_witness :
  @bus_message_seal little_endian_host Run.signal_su 1 [] = Returns ((0, Run.sealed_su), [])
  /\ @fields_in_step Run.signal_su
  /\ sealed Run.sealed_su = true
  /\ serial (header Run.sealed_su) = 1 mod 2 ^ 32
  /\ slice (region_bytes (fields Run.sealed_su)) 56 8 = signature_field (cstr "su").
Proof.
  assert (Hrun : @bus_message_seal little_endian_host Run.signal_su 1 []
                 = Returns ((0, Run.sealed_su), [])) by (vm_compute; reflexivity).
  assert (Hstep : fields_in_step Run.signal_su).
  { split; [reflexivity | vm_compute; discriminate]. }
  split; [exact Hrun|]. split; [exact Hstep|].
  destruct (seal_spec Run.signal_su Run.sealed_su 1 [] [] Hrun Hstep)
    as (_ & Hsealed & Hserial & _ & Hfield & _).
  split; [exact Hsealed|]. split; [exact Hserial|].
  apply Hfield. reflexivity.
Defined.

(** [seal] takes the serial as it comes: given 0 it succeeds and the sealed
    message has serial 0; given 2^32 likewise. *)
Lemma seal_accepts_serial_zero :
  exists m m',
    @bus_message_seal little_endian_host Run.signal_su 0 [] = Returns ((0, m), [])
    /\ sealed m = true /\ serial (header m) = 0
    /\ @bus_message_seal little_endian_host Run.signal_su (2 ^ 32) [] = Returns ((0, m'), [])
    /\ sealed m' = true /\ serial (header m') = 0.
Proof. eexists. eexists. vm_compute. repeat split. Qed.

(** ** Accepting a received buffer *)

Lemma is_bytes_slice (buf : list Z) (off n : Z) : is_bytes buf -> is_bytes (slice buf off n).
Proof.
  intros H. unfold is_bytes, slice in *.
  rewrite <- (firstn_skipn (Z.to_nat off) buf) in H.
  apply Forall_app in H. destruct H as [_ H].
  rewrite <- (firstn_skipn (Z.to_nat n) (skipn (Z.to_nat off) buf)) in H.
  apply Forall_app in H. destruct H as [H _]. exact H.
Qed.

Lemma Zlength_slice_le (buf : list Z) (off n : Z) : 0 <= n -> Zlength (slice buf off n) <= n.
Proof.
  intros Hn. unfold slice. rewrite Zlength_correct, length_firstn. lia.
Qed.

Section FromMalloc.
Context {host : Host} {ext : Collaborators}.

Lemma load_u32_range (buf : list Z) (off : Z) :
  is_bytes buf -> 0 <= load_native (slice buf off 4) < 2 ^ 32.
Proof.
  intros Hb.
  pose proof (load_native_range (slice buf off 4) (is_bytes_slice buf off 4 Hb)) as H.
  pose proof (Zlength_slice_le buf off 4 ltac:(lia)) as Hl.
  pose proof (Zlength_nonneg (slice buf off 4)) as Hn.
  assert (256 ^ Zlength (slice buf off 4) <= 256 ^ 4) by (apply Z.pow_le_mono_r; lia).
  change (2 ^ 32) with (256 ^ 4). lia.
Qed.

Lemma wire_u32_range (hd : bus_header) (x : Z) :
  0 <= x < 2 ^ 32 -> 0 <= wire_u32 hd x < 2 ^ 32.
Proof.
  intros Hx. unfold wire_u32. destruct (_ =? _); [exact Hx|apply bswap_32_range].
Qed.

(** C2, as the code has it. For a buffer of bytes, [from_malloc] succeeds
    only if the length is at least 16, the version is 1, the serial is
    not zero, the type is not the invalid type 0, the endian marker is 'l'
    or 'B', and the length is 16 plus the fields size rounded up to 8 plus
    the body size (both sizes byte-swapped per the marker); when one of
    these fails the result is malformed-message, whatever the allocator
    would have said. *)
Theorem from_malloc_header_checks
    (buffer : list Z) (length_ : Z) (ucred_ : option ucred) (label_ : option cstring)
    (h : heap) :
  is_bytes buffer ->
  (forall m h',
      bus_message_from_malloc buffer length_ ucred_ label_ h = Returns ((0, Some m), h') ->
      header_accepted buffer length_)
  /\ (~ header_accepted buffer length_ ->
      bus_message_from_malloc buffer length_ ucred_ label_ h = Returns ((- EBADMSG, None), h)).
Proof.
  intros Hbytes.
  pose proof (load_u32_range buffer 12 Hbytes) as Hfs.
  pose proof (load_u32_range buffer 4 Hbytes) as Hbs.
  set (hd := header_at buffer).
  assert (Hfs' := wire_u32_range hd _ Hfs). assert (Hbs' := wire_u32_range hd _ Hbs).
  change (load_native (slice buffer 12 4)) with (fields_size hd) in *.
  change (load_native (slice buffer 4 4)) with (body_size hd) in *.
  destruct (ALIGN_TO_spec (wire_u32 hd (fields_size hd)) 8) as [Hal _]; try lia.
  unfold bus_message_from_malloc, header_accepted, sizeof_bus_header. fold hd.
  destruct (length_ <? 16) eqn:E1.
  { apply Z.ltb_lt in E1. split; [intros m h' H; inversion H|intros _; reflexivity]. }
  apply Z.ltb_ge in E1.
  destruct (version hd =? 1) eqn:E2; cbn [negb].
  2:{ apply Z.eqb_neq in E2. split; [intros m h' H; inversion H|intros _; reflexivity]. }
  apply Z.eqb_eq in E2.
  destruct (serial hd =? 0) eqn:E3.
  { apply Z.eqb_eq in E3. split; [intros m h' H; inversion H|intros _; reflexivity]. }
  apply Z.eqb_neq in E3.
  destruct (type hd =? _SD_BUS_MESSAGE_TYPE_INVALID) eqn:E4.
  { apply Z.eqb_eq in E4. split; [intros m h' H; inversion H|intros _; reflexivity]. }
  apply Z.eqb_neq in E4.
  assert (Hsizes :
            (if endian hd =? SD_BUS_NATIVE_ENDIAN then Some (fields_size hd, body_size hd)
             else if endian hd =? SD_BUS_REVERSE_ENDIAN
                  then Some (bswap_32 (fields_size hd), bswap_32 (body_size hd))
                  else None)
            = if (endian hd =? SD_BUS_NATIVE_ENDIAN) || (endian hd =? SD_BUS_REVERSE_ENDIAN)
              then Some (wire_u32 hd (fields_size hd), wire_u32 hd (body_size hd))
              else None).
  { unfold wire_u32. destruct (endian hd =? SD_BUS_NATIVE_ENDIAN); cbn [orb]; [reflexivity|].
    destruct (endian hd =? SD_BUS_REVERSE_ENDIAN); reflexivity. }
  rewrite Hsizes. clear Hsizes.
  assert (Hmark : (endian hd =? SD_BUS_NATIVE_ENDIAN) || (endian hd =? SD_BUS_REVERSE_ENDIAN) = true
                  <-> (endian hd = SD_BUS_LITTLE_ENDIAN \/ endian hd = SD_BUS_BIG_ENDIAN)).
  { rewrite orb_true_iff, !Z.eqb_eq.
    destruct native_is_l_or_B as [[-> ->]|[-> ->]]; tauto. }
  destruct ((endian hd =? SD_BUS_NATIVE_ENDIAN) || (endian hd =? SD_BUS_REVERSE_ENDIAN)) eqn:E5.
  2:{ split; [intros m h' H; inversion H|intros _; reflexivity]. }
  rewrite size_t_small by lia.
  destruct (length_ =? 16 + ALIGN_TO (wire_u32 hd (fields_size hd)) 8
                       + wire_u32 hd (body_size hd)) eqn:E6; cbn [negb].
  2:{ apply Z.eqb_neq in E6. split; [intros m h' H; inversion H|intros _; reflexivity]. }
  apply Z.eqb_eq in E6.
  assert (Hok : 16 <= length_ /\ version hd = 1 /\ serial hd <> 0
                /\ type hd <> _SD_BUS_MESSAGE_TYPE_INVALID
                /\ (endian hd = SD_BUS_LITTLE_ENDIAN \/ endian hd = SD_BUS_BIG_ENDIAN)
                /\ length_ = 16 + ALIGN_TO (wire_u32 hd (fields_size hd)) 8
                             + wire_u32 hd (body_size hd)).
  { repeat split; try assumption. apply Hmark. reflexivity. }
  split; [intros m h' _; exact Hok|intros Hnot; contradiction].
Qed.
End FromMalloc.

(** A buffer of 16 bytes with the type 5, no fields and no body: a valid
    header by the checks of the code, and [from_malloc] succeeds on it, with a
    type outside 1..4. *)
Lemma from_malloc_accepts_type_5 :
  exists m,
    @bus_message_from_malloc little_endian_host reference_collaborators
      [108; 5; 0; 1; 0; 0; 0; 0; 1; 0; 0; 0; 0; 0; 0; 0] 16 None None []
    = Returns ((0, Some m), [])
    /\ type (header m) = 5.
Proof. eexists. vm_compute. split; reflexivity. Qed.

Lemma from_malloc_header_checks_witness :
  @header_accepted little_endian_host (concat (iovec Run.sealed_su)) 92
  /\ @bus_message_from_malloc little_endian_host reference_collaborators
       [108; 4; 1; 1; 12; 0; 0; 0; 1; 0] 10 None None []
     = Returns ((- EBADMSG, None), []).
Proof.
  split.
  - refine (proj1 (@from_malloc_header_checks little_endian_host reference_collaborators
                     (concat (iovec Run.sealed_su)) 92 None None [] _) _ [] _).
    + vm_compute. repeat constructor; discriminate.
    + vm_compute. reflexivity.
  - apply (@from_malloc_header_checks little_endian_host reference_collaborators
             [108; 4; 1; 1; 12; 0; 0; 0; 1; 0] 10 None None []).
    + vm_compute. repeat constructor; discriminate.
    + intros [H _]. lia.
Defined.

(** ** The checks that close the parsing of the header fields *)

Section ParseFields.
Context {host : Host} {ext : Collaborators}.












End ParseFields.


(** The call of scenario 2 parses; the same fields under the type SIGNAL lack
    the interface a signal must carry, and the parse fails with
    malformed-message. *)
Example parse_fields_on_hello :
  (exists m,
      @bus_message_from_malloc little_endian_host reference_collaborators
        Run.hello_blob (Zlength Run.hello_blob) None None []
      = Returns ((0, Some m), [])
      /\ path m = Some 8 /\ member m = Some 24 /\ destination m = Some 40
      /\ interface m = None)
  /\ @bus_message_from_malloc little_endian_host reference_collaborators
       Run.hello_as_signal_blob (Zlength Run.hello_as_signal_blob) None None []
     = Returns ((- EBADMSG, None), []).
Proof. split; [eexists|]; vm_compute; repeat split. Qed.


(** ** Replies *)

Section Reply.
Context {host : Host}.

Lemma message_append_field_string_cases
    (m m' : sd_bus_message) (code type_ : Z) (s : cstring) (ret_ : out_ptr)
    (h h' : heap) (r : Z) :
  message_append_field_string m code type_ s ret_ h = Returns ((r, m'), h') ->
  fields_in_step m ->
  (r < 0 /\ m' = m)
  \/ (r = 0
      /\ m' = assign ret_ (ALIGN_TO (fields_size (header m)) 8 + 8)
                     (with_field m (string_field code type_ s))
      /\ fields_in_step (with_field m (string_field code type_ s))).
Proof.
  intros Hrun Hstep. unfold message_append_field_string in Hrun.
  pose proof (Zlength_nonneg s) as Hs.
  destruct (UINT32_MAX <? strlen s) eqn:L.
  { inversion Hrun. left. split; reflexivity. }
  apply Z.ltb_ge in L. unfold strlen, UINT32_MAX in *.
  unfold bind in Hrun. rewrite size_t_small in Hrun by lia.
  assert (Hl : Zlength (string_field code type_ s) = 4 + 4 + Zlength s + 1).
  { unfold string_field. rewrite !Zlength_app, !Zlength_cons, Zlength_nil.
    rewrite (Zlength_correct (store_native _ _)), store_native_length. unfold strlen. lia. }
  rewrite <- Hl in Hrun.
  destruct (message_extend_fields _ _ _ h) as [[[p m1] h1]|] eqn:E; [|discriminate].
  destruct p as [p|].
  - inversion Hrun; subst. right. split; [reflexivity|].
    apply extend_fields_then_write in E; try assumption; [|lia].
    destruct E as (-> & E & E'). split; [|assumption].
    rewrite <- E. reflexivity.
  - inversion Hrun; subst. left. split; [reflexivity|].
    eapply message_extend_fields_null; eassumption.
Qed.

Lemma message_new_fresh (bus : option sd_bus) (t : Z) (h h' : heap) (m : sd_bus_message) :
  message_new bus t h = Returns (Some m, h') ->
  fields_in_step m /\ type (header m) = t /\ flags (header m) = 0
  /\ destination m = None /\ sender m = None /\ sealed m = false.
Proof.
  unfold message_new, bind, ret, alloc.
  destruct h as [|[|junk] h0]; intros H; inversion H; subst;
    unfold fields_in_step, UINT32_MAX; cbn; repeat split; try reflexivity; lia.
Qed.

(** What [message_new_reply], and with it [new_method_return], does when
    it succeeds: the call was sealed and a METHOD_CALL; the reply has the
    type asked for, the serial of the call as its reply_serial and the
    no_reply_expected flag set. The DESTINATION field is appended to the
    fields, but the quick access pointer it is recorded under is [sender]:
    [destination] stays NULL. *)
Theorem message_new_reply_spec
    (bus : option sd_bus) (call reply : sd_bus_message) (type_ : Z) (h h' : heap) :
  message_new_reply bus (Some call) type_ h = Returns ((0, Some reply), h') ->
  sealed call = true
  /\ type (header call) = SD_BUS_MESSAGE_TYPE_METHOD_CALL
  /\ type (header reply) = type_
  /\ reply_serial reply = BUS_MESSAGE_SERIAL call
  /\ Z.land (flags (header reply)) SD_BUS_MESSAGE_NO_REPLY_EXPECTED
     = SD_BUS_MESSAGE_NO_REPLY_EXPECTED
  /\ destination reply = None
  /\ (forall s, sender call = Some s ->
      exists q, sender reply = Some q
                /\ slice (region_bytes (fields reply)) 8
                         (Zlength (string_field SD_BUS_MESSAGE_HEADER_DESTINATION
                                     SD_BUS_TYPE_STRING
                                     (cstr_at (region_bytes (fields call)) s)))
                   = string_field SD_BUS_MESSAGE_HEADER_DESTINATION SD_BUS_TYPE_STRING
                                  (cstr_at (region_bytes (fields call)) s)).
Proof.
  unfold message_new_reply.
  destruct (sealed call) eqn:Hs; cbn [negb]; [|intros H; inversion H].
  destruct (type (header call) =? SD_BUS_MESSAGE_TYPE_METHOD_CALL) eqn:Ht; cbn [negb];
    [|intros H; inversion H].
  apply Z.eqb_eq in Ht.
  unfold bind at 1.
  destruct (message_new bus type_ h) as [[[t|] h1]|] eqn:En; try (intros H; inversion H; fail).
  assert (Ht0 : t = set_header
                      (mk_header SD_BUS_NATIVE_ENDIAN type_ 0
                         (match bus with Some b => message_version b | None => 1 end) 0 0 0)
                      zero_message).
  { revert En. unfold message_new, bind, ret, alloc.
    destruct h as [|[|junk] h0]; intros H; inversion H; reflexivity. }
  clear En. subst t.
  set (t1 := set_reply_serial _ _).
  assert (Hstep1 : fields_in_step t1).
  { unfold fields_in_step, UINT32_MAX. cbn. split; [reflexivity|lia]. }
  unfold bind at 1.
  destruct (message_append_field_uint32 t1 _ _ h1) as [[[r t2] h2]|] eqn:E1; [|discriminate].
  apply message_append_field_uint32_cases in E1; [|assumption].
  destruct E1 as [[Hr ->]|(-> & -> & Hstep2)].
  { pose proof Hr as Hr'. apply Z.ltb_lt in Hr'. rewrite Hr'. intros H. inversion H. }
  cbn [Z.ltb Z.compare].
  set (t2 := with_field t1 _) in *.
  assert (Hfs2 : fields_size (header t2) = 8).
  { unfold t2, with_field, uint32_field. cbn [header set_header set_fields fields_size
                                                set_fields_size].
    rewrite Zlength_app, !Zlength_cons, Zlength_nil.
    rewrite (Zlength_correct (store_native _ _)), store_native_length. reflexivity. }
  unfold bind.
  destruct (sender call) as [s|] eqn:Hsender.
  - destruct (message_append_field_string t2 _ _ _ _ h2) as [[[r t3] h3]|] eqn:E2;
      [|discriminate].
    apply message_append_field_string_cases in E2; [|assumption].
    destruct E2 as [[Hr ->]|(-> & -> & Hstep3)].
    { pose proof Hr as Hr'. apply Z.ltb_lt in Hr'. rewrite Hr'. intros H. inversion H. }
    cbn [Z.ltb Z.compare]. intros H. inversion H; subst reply; clear H.
    repeat split; try reflexivity; try assumption.
    intros s' Hs'. inversion Hs'; subst s'. eexists. split; [reflexivity|].
    cbn [fields set_dont_send assign set_sender].
    rewrite <- (app_nil_r (region_bytes _)).
    replace 8 with (ALIGN_TO (fields_size (header t2)) 8) at 1
      by (rewrite Hfs2; reflexivity).
    apply with_field_slice. assumption.
  - unfold ret. cbn [Z.ltb Z.compare]. intros H. inversion H; subst reply; clear H.
    repeat split; try reflexivity; try assumption.
    intros s' Hs'. discriminate Hs'.
Qed.
End Reply.

(** The reply made for a received call: the call is sealed and a
    METHOD_CALL, the reply carries its serial, and no destination. *)
Lemma message_new_reply_spec_witness :
  sealed Run.received_call = true
  /\ type (header Run.received_call) = SD_BUS_MESSAGE_TYPE_METHOD_CALL
  /\ reply_serial Run.reply_to_call = @BUS_MESSAGE_SERIAL little_endian_host Run.received_call
  /\ destination Run.reply_to_call = None.
Proof.
  destruct (@message_new_reply_spec little_endian_host None Run.received_call
              Run.reply_to_call SD_BUS_MESSAGE_TYPE_METHOD_RETURN [] [])
    as (H1 & H2 & _ & H4 & _ & H6 & _).
  - vm_compute. reflexivity.
  - repeat split; assumption.
Defined.

(** C4, as the code has it. A sealed method call with the sender [:1.5] and
    serial 100, received from the wire: the reply that [new_method_return]
    makes for it has the reply_serial 100 and carries a DESTINATION field [:1.5], yet
    [get_destination] answers NULL for it and [get_sender] answers [:1.5]. *)
Lemma reply_destination_is_recorded_as_sender :
  exists reply,
    @bus_message_from_malloc little_endian_host reference_collaborators
      Run.call_blob (Zlength Run.call_blob) None None []
    = Returns ((0, Some Run.received_call), [])
    /\ option_map (cstr_at (region_bytes (fields Run.received_call)))
                  (sd_bus_message_get_sender Run.received_call)
       = Some (cstr ":1.5")
    /\ @sd_bus_message_new_method_return little_endian_host None (Some Run.received_call) []
       = Returns ((0, Some reply), [])
    /\ reply_serial reply = 100
    /\ sd_bus_message_get_destination reply = None
    /\ option_map (cstr_at (region_bytes (fields reply))) (sd_bus_message_get_sender reply)
       = Some (cstr ":1.5")
    /\ slice (region_bytes (fields reply)) 8 13
       = @string_field little_endian_host SD_BUS_MESSAGE_HEADER_DESTINATION SD_BUS_TYPE_STRING
                       (cstr ":1.5").
Proof. eexists. vm_compute. repeat split. Qed.

(** ** The depth of the container stack *)

Lemma alloc_succeeds (h : heap) :
  allocations_succeed 1 h -> exists junk, alloc h = Returns (AllocOk junk, skipn 1 h).
Proof.
  unfold allocations_succeed, alloc. destruct h as [|[|junk] h0]; cbn.
  - intros _. exists 0. reflexivity.
  - intros H. inversion H; subst. congruence.
  - intros _. exists junk. reflexivity.
Qed.

Lemma allocations_succeed_step (n : nat) (h : heap) :
  allocations_succeed (S n) h -> allocations_succeed 1 h /\ allocations_succeed n (skipn 1 h).
Proof.
  unfold allocations_succeed. destruct h as [|a h0]; cbn.
  - intros _. rewrite firstn_nil. split; constructor.
  - intros H. inversion H; subst. split; [constructor; [assumption|constructor]|assumption].
Qed.

Section Depth.
Context {host : Host} {ext : Collaborators}.

(** C3, as the code has it. On the parse path [enter_container] answers
    malformed-message whenever [BUS_CONTAINER_DEPTH] (64) containers are
    open already, so that a 65th cannot be entered, and below that depth
    it enters the container whenever the other preconditions hold: the
    allocator delivers, the current frame has a signature slot left and
    the helper of the kind of container accepts. On the build path
    [open_container] knows no depth: at any depth it opens the container
    when the allocator delivers and the helper of the kind accepts. *)
Theorem container_depth_is_bounded_on_parse_only
    (m : sd_bus_message) (type_ : Z) (contents : cstring) (h : heap) :
  (sealed m = true -> BUS_CONTAINER_DEPTH <= n_containers m ->
   sd_bus_message_enter_container m type_ (Some contents) h = Returns ((- EBADMSG, m), h))
  /\ (forall m1 a,
         sealed m = true -> n_containers m < BUS_CONTAINER_DEPTH ->
         allocations_succeed 2 h ->
         has_char (message_get_container m) = true ->
         enter_kind m (message_get_container m) type_ contents = Returns (1, m1, a) ->
         sd_bus_message_enter_container m type_ (Some contents) h
         = Returns ((1, set_containers
                          (containers m1
                             ++ [mk_container type_ (Some contents) 0 a (rindex m1)])
                          m1),
                    skipn 2 h))
  /\ (forall m1 a h',
         sealed m = false ->
         allocations_succeed 2 h ->
         open_kind m (message_get_container m) type_ contents (skipn 2 h)
         = Returns ((0, m1, a), h') ->
         sd_bus_message_open_container m type_ (Some contents) h
         = Returns ((0, set_containers
                          (containers m1 ++ [mk_container type_ (Some contents) 0 a 0])
                          m1),
                    h')).
Proof.
  split; [|split].
  - intros Hs Hd. unfold sd_bus_message_enter_container. rewrite Hs. cbn [negb].
    apply Z.leb_le in Hd. rewrite Hd. reflexivity.
  - intros m1 a Hs Hd Ha Hc Hk.
    unfold sd_bus_message_enter_container. rewrite Hs. cbn [negb].
    apply Z.leb_gt in Hd. rewrite Hd.
    apply allocations_succeed_step in Ha. destruct Ha as [Ha1 Ha2].
    destruct (alloc_succeeds _ Ha1) as [j1 E1].
    destruct (alloc_succeeds _ Ha2) as [j2 E2].
    unfold bind. rewrite E1, Hc. cbn [negb]. rewrite E2.
    unfold lift. rewrite Hk. cbn [Z.leb Z.compare]. unfold ret.
    rewrite skipn_skipn. reflexivity.
  - intros m1 a h' Hs Ha Hk.
    unfold sd_bus_message_open_container. rewrite Hs.
    apply allocations_succeed_step in Ha. destruct Ha as [Ha1 Ha2].
    destruct (alloc_succeeds _ Ha1) as [j1 E1].
    destruct (alloc_succeeds _ Ha2) as [j2 E2].
    unfold bind. rewrite E1, E2. rewrite skipn_skipn. cbn [Nat.add].
    rewrite Hk. cbn [Z.ltb Z.compare]. reflexivity.
Qed.
End Depth.

(** With 64 variants entered on the parse path, the 65th is refused. *)
Lemma container_depth_is_bounded_on_parse_only_witness :
  @sd_bus_message_enter_container little_endian_host reference_collaborators
    Run.entered_64 SD_BUS_TYPE_VARIANT (Some (cstr "y")) []
  = Returns ((- EBADMSG, Run.entered_64), []).
Proof.
  refine (proj1 (@container_depth_is_bounded_on_parse_only little_endian_host
                   reference_collaborators Run.entered_64 SD_BUS_TYPE_VARIANT (cstr "y") [])
                _ _).
  - reflexivity.
  - vm_compute. discriminate.
Defined.

(** Scenario 5 of the spec on the build path: with 64 variants open, the
    65th [open_container] succeeds and leaves 65 frames on the stack. *)
Lemma open_container_has_no_depth_bound :
  n_containers Run.nested_64 = 64
  /\ sealed Run.nested_64 = false
  /\ exists m65,
      @sd_bus_message_open_container little_endian_host reference_collaborators
        Run.nested_64 SD_BUS_TYPE_VARIANT (Some (cstr "v")) []
      = Returns ((0, m65), [])
      /\ n_containers m65 = 65.
Proof. split; [reflexivity|]. split; [reflexivity|]. eexists. vm_compute. split; reflexivity. Qed.

(** The same nesting on the parse path: 64 variants are entered one inside
    the other, and entering the 65th, which the message does hold, fails with
    malformed-message. *)
Example enter_container_stops_at_depth_64 :
  @Run.times (option sd_bus_message) 64 (Run.step Run.enter_variant_v)
             (Some Run.nested_65_sealed)
  = Some Run.entered_64
  /\ n_containers Run.entered_64 = 64
  /\ @sd_bus_message_enter_container little_endian_host reference_collaborators
       Run.entered_64 SD_BUS_TYPE_VARIANT (Some (cstr "y")) []
     = Returns ((- EBADMSG, Run.entered_64), [])
  /\ BUS_CONTAINER_DEPTH = 64.
Proof. vm_compute. repeat split. Qed.

(** ** A failed append leaves the root signature as it was *)

Lemma char_at_in_range (s : cstring) (i : Z) :
  Forall (fun x => x <> 0) s -> 0 <= i < strlen s -> char_at s i <> 0.
Proof.
  intros Hs Hi. unfold char_at, strlen in *. rewrite Zlength_correct in Hi.
  rewrite Forall_forall in Hs. apply Hs. apply nth_In. lia.
Qed.

(** A frame without a character at its cursor stands at the end of its
    signature. *)
Lemma exhausted_at_end (c : bus_container) :
  container_ok c -> has_char c = false -> index c = strlen (strempty (signature c)).
Proof.
  intros [Hi Hs] Hc. unfold has_char in Hc.
  destruct (signature c) as [s|] eqn:E; cbn [strempty] in *.
  - apply negb_false_iff, Z.eqb_eq in Hc.
    destruct (Z.eq_dec (index c) (strlen s)) as [|Hne]; [assumption|].
    exfalso. apply (char_at_in_range s (index c) Hs); [lia|assumption].
  - unfold strlen in *. rewrite Zlength_nil in *. lia.
Qed.

Lemma firstn_app_exact {A} (a b : list A) : firstn (List.length a) (a ++ b) = a.
Proof. rewrite firstn_app, firstn_all, Nat.sub_diag. cbn. apply app_nil_r. Qed.

Section AppendFailure.
Context {host : Host}.

Lemma message_extend_body_null (m m' : sd_bus_message) (align sz : Z) (h h' : heap) :
  message_extend_body m align sz h = Returns ((None, m'), h') -> m' = m.
Proof.
  unfold message_extend_body, bind, ret.
  destruct (buffer_extend _ _ _ _ h) as [[[[p f] fs] h1]|] eqn:E; [|discriminate].
  destruct p; intros H; inversion H. reflexivity.
Qed.

Lemma extended_and_truncated_root (m : sd_bus_message) (suffix : cstring) :
  container_ok (root_container m) ->
  (n_containers m = 0 -> has_char (root_container m) = false) ->
  let m' := extended_and_truncated m suffix in
  strempty (signature (root_container m')) = strempty (signature (root_container m))
  /\ index (root_container m') = index (root_container m)
  /\ body m' = body m /\ header m' = header m.
Proof.
  intros Hok Hc. unfold extended_and_truncated, truncate_signature,
    message_set_container, message_get_container.
  destruct (n_containers m =? 0) eqn:En.
  - apply Z.eqb_eq in En. specialize (Hc En).
    replace (n_containers (set_root_container _ m)) with (n_containers m) by reflexivity.
    rewrite En. cbn. repeat split.
    pose proof (exhausted_at_end _ Hok Hc) as Hidx.
    rewrite Hidx. unfold strlen. rewrite to_nat_Zlength. apply firstn_app_exact.
  - assert (Hn : forall l,
               (n_containers (set_containers (removelast (containers m) ++ l) m) =? 0) = false
               \/ l = []).
    { intros l. destruct l as [|x l]; [right; reflexivity|left].
      unfold n_containers. cbn. apply Z.eqb_neq.
      rewrite Zlength_app, Zlength_cons.
      pose proof (Zlength_nonneg (removelast (containers m))).
      pose proof (Zlength_nonneg l). lia. }
    destruct (Hn [set_signature
                    (Some (strempty (signature (last (containers m) (root_container m)))
                             ++ suffix))
                    (last (containers m) (root_container m))]) as [E|E]; [|discriminate].
    rewrite E. cbn. repeat split.
Qed.
End AppendFailure.

Section AppendBasicFailure.
Context {host : Host}.

Lemma append_slot_cases
    (m m1 : sd_bus_message) (type_ : Z) (h h1 : heap) (r : Z) (e : bool) :
  append_slot m type_ h = Returns ((r, e, m1), h1) ->
  let c := message_get_container m in
  (e = false /\ m1 = m
   /\ (r = 0 -> has_char c = true /\ char_at (strempty (signature c)) (index c) = type_))
  \/ (r = 0 /\ e = true /\ has_char c = false /\ enclosing c = 0
      /\ m1 = message_set_container m
               (set_signature (Some (strempty (signature c) ++ [type_])) c)).
Proof.
  unfold append_slot. intros Hrun. cbv zeta in *.
  set (c := message_get_container m) in *.
  destruct (has_char c) eqn:Hc.
  - destruct (char_at _ _ =? type_) eqn:Et; cbn [negb] in Hrun; inversion Hrun; subst;
      left; repeat split; try discriminate; try lia.
  - destruct (enclosing c =? 0) eqn:Ee; cbn [negb] in Hrun.
    + unfold bind, strextend, alloc, ret in Hrun. apply Z.eqb_eq in Ee.
      destruct h as [|[|junk] h0]; inversion Hrun; subst.
      * right. repeat split; assumption.
      * left. repeat split; discriminate.
      * right. repeat split; assumption.
    + inversion Hrun; subst. left. repeat split; discriminate.
Qed.

Lemma append_value_failure
    (m m' : sd_bus_message) (e : bool) (type_ align sz : Z) (bytes : list Z)
    (stored : out_ptr) (h h' : heap) (r : Z) :
  append_value m e type_ align sz bytes stored h = Returns ((r, m'), h') -> r < 0 ->
  m' = truncate_signature e m.
Proof.
  unfold append_value, bind. intros Hrun Hr.
  destruct (message_extend_body m align sz h) as [[[a m1] h1]|] eqn:E; [|discriminate].
  destruct a as [a|].
  - inversion Hrun. lia.
  - apply message_extend_body_null in E. subst m1. inversion Hrun. reflexivity.
Qed.

(** A failed [append_basic] hands back the message it was given, or that
    message with the signature of its current frame extended by the type
    and cut back again; the latter only where that frame had no character
    left at its cursor. *)
Lemma append_basic_failure_shape
    (m m' : sd_bus_message) (type_ : Z) (p : pointee) (stored : out_ptr)
    (h h' : heap) (r : Z) :
  message_append_basic m type_ p stored h = Returns ((r, m'), h') -> r < 0 ->
  m' = m
  \/ (m' = extended_and_truncated m [type_]
      /\ has_char (message_get_container m) = false).
Proof.
  intros Hrun Hr. unfold message_append_basic in Hrun.
  destruct (sealed m); [inversion Hrun; auto|].
  destruct (negb (bus_type_is_basic type_)); [inversion Hrun; auto|].
  unfold bind at 1 in Hrun.
  destruct (append_slot m type_ h) as [[[[r1 e] m1] h1]|] eqn:Es; [|discriminate].
  apply append_slot_cases in Es.
  assert (Hm' : (r1 <? 0) = false -> m' = truncate_signature e m1).
  { intros Hr1. rewrite Hr1 in Hrun.
    destruct (basic_layout type_ p) as [[r2 [[align sz] bytes]]|]; [|discriminate].
    destruct (r2 <? 0).
    - inversion Hrun. reflexivity.
    - eapply append_value_failure; eassumption. }
  destruct Es as [(-> & -> & _)|(-> & -> & Hc & _ & ->)].
  - left. destruct (r1 <? 0) eqn:Hr1.
    + inversion Hrun. reflexivity.
    + apply Hm'. reflexivity.
  - right. split; [|exact Hc]. apply Hm'. reflexivity.
Qed.

(** C8. When [append_basic] fails, for want of memory when the body
    grows, for a NULL string or for any other reason, the root signature is
    what it was before the call, also where the call had extended it by
    the type: its characters and its length are restored, and the cursor of
    the root container, the body and the header are untouched. *)
Theorem append_basic_failure_restores_root_signature
    (m m' : sd_bus_message) (type_ : Z) (p : pointee) (stored : out_ptr)
    (h h' : heap) (r : Z) :
  message_append_basic m type_ p stored h = Returns ((r, m'), h') -> r < 0 ->
  container_ok (root_container m) ->
  strempty (signature (root_container m')) = strempty (signature (root_container m))
  /\ strlen (strempty (signature (root_container m')))
     = strlen (strempty (signature (root_container m)))
  /\ index (root_container m') = index (root_container m)
  /\ body m' = body m /\ header m' = header m.
Proof.
  intros Hrun Hr Hok.
  assert (H : strempty (signature (root_container m'))
              = strempty (signature (root_container m))
              /\ index (root_container m') = index (root_container m)
              /\ body m' = body m /\ header m' = header m).
  { destruct (append_basic_failure_shape _ _ _ _ _ _ _ _ Hrun Hr) as [->|[-> Hc]].
    - repeat split.
    - apply extended_and_truncated_root; [exact Hok|].
      intros Hn. unfold message_get_container in Hc. rewrite Hn in Hc. exact Hc. }
  destruct H as (H1 & H2 & H3 & H4). rewrite H1. repeat split; assumption.
Qed.
End AppendBasicFailure.

(** The signal of scenario 1, its root signature [su] exhausted: a third
    append extends the signature, then finds no memory for the body, or
    meets a NULL string. *)
Lemma append_basic_failure_restores_root_signature_witness :
  (exists m',
      @message_append_basic little_endian_host Run.signal_su SD_BUS_TYPE_INT32 (PInt 5) None
        [AllocOk 170; AllocFails]
      = Returns ((- ENOMEM, m'), [])
      /\ strempty (signature (root_container m')) = cstr "su")
  /\ (exists m',
         @message_append_basic little_endian_host Run.signal_su SD_BUS_TYPE_STRING PNull None []
         = Returns ((- EINVAL, m'), [])
         /\ strempty (signature (root_container m')) = cstr "su").
Proof.
  assert (Hok : container_ok (root_container Run.signal_su)).
  { split; [vm_compute; split; discriminate|]. vm_compute. repeat constructor; discriminate. }
  split.
  - eexists. split; [vm_compute; reflexivity|].
    refine (proj1 (@append_basic_failure_restores_root_signature little_endian_host
                     Run.signal_su _ SD_BUS_TYPE_INT32 (PInt 5) None
                     [AllocOk 170; AllocFails] [] (- ENOMEM) _ _ Hok)).
    + vm_compute. reflexivity.
    + reflexivity.
  - eexists. split; [vm_compute; reflexivity|].
    refine (proj1 (@append_basic_failure_restores_root_signature little_endian_host
                     Run.signal_su _ SD_BUS_TYPE_STRING PNull None [] [] (- EINVAL) _ _ Hok)).
    + vm_compute. reflexivity.
    + reflexivity.
Defined.

(** The first part of that append did extend the signature, to [sui]. *)
Example append_slot_extends_the_root_signature :
  exists m1,
    @append_slot Run.signal_su SD_BUS_TYPE_INT32 [AllocOk 170; AllocFails]
    = Returns ((0, true, m1), [AllocFails])
    /\ signature (root_container m1) = Some (cstr "sui").
Proof. eexists. vm_compute. split; reflexivity. Qed.

(** ** Appending a value at the root and reading it back *)

Section AppendLayout.
Context {host : Host}.

Lemma extend_body_then_write
    (m m1 : sd_bus_message) (align : Z) (bytes : list Z) (h h1 : heap) (a : Z) :
  message_extend_body m align (Zlength bytes) h = Returns ((Some a, m1), h1) ->
  containers m = [] ->
  Zlength (region_bytes (body m)) = body_size (header m) ->
  body_size (header m) <= UINT32_MAX ->
  0 < align <= 8 -> 0 < Zlength bytes < 2 ^ 33 ->
  a = ALIGN_TO (body_size (header m)) align
  /\ set_body (Some (mem_write (region_bytes (body m1)) a bytes)) m1 = with_value m align bytes
  /\ ALIGN_TO (body_size (header m)) align + Zlength bytes <= UINT32_MAX.
Proof.
  intros Hrun Hc Hlen Hmax Halign Hdata.
  unfold message_extend_body, bind, ret in Hrun.
  destruct (buffer_extend _ _ _ _ h) as [[[[q f] fs] h2]|] eqn:E; [|discriminate].
  destruct q as [q|]; [|discriminate].
  injection Hrun as Hp Hm1 Hh. subst a m1 h1.
  unfold UINT32_MAX in Hmax.
  pose proof (Zlength_nonneg (region_bytes (body m))) as Hnn.
  apply buffer_extend_grows in E; try assumption; try lia.
  destruct E as (Hq & Hfs & Hle & junk & Hbytes).
  destruct (ALIGN_TO_spec (body_size (header m)) align) as [Hb _]; try lia.
  split; [exact Hq|].
  rewrite Hc. cbn [fold_left].
  assert (Hf : match f with Some _ => Some (region_bytes f) | None => None end = f)
    by (destruct f; reflexivity).
  rewrite Hf.
  assert (Hw : mem_write (region_bytes f) q bytes
               = region_bytes (body m)
                   ++ repeat 0 (Z.to_nat (ALIGN_TO (body_size (header m)) align
                                          - body_size (header m))) ++ bytes).
  { rewrite Hbytes, Hq.
    set (pad := repeat 0 (Z.to_nat (ALIGN_TO (body_size (header m)) align
                                    - body_size (header m)))).
    assert (Hz : Zlength (region_bytes (body m) ++ pad)
                 = ALIGN_TO (body_size (header m)) align).
    { unfold pad. rewrite Zlength_app, Zlength_repeat, Hlen. lia. }
    rewrite <- Hz. rewrite app_assoc.
    rewrite mem_write_at_end; [now rewrite <- app_assoc|].
    rewrite repeat_length. apply to_nat_Zlength. }
  split.
  - unfold with_value. cbn. rewrite Hw, Hfs, Hq. reflexivity.
  - rewrite <- Hq, <- Hfs. apply Hle. lia.
Qed.
End AppendLayout.



Section AppendAtRoot.
Context {host : Host}.


Lemma append_slot_nonpositive
    (m ms : sd_bus_message) (t : Z) (h h1 : heap) (r : Z) (e : bool) :
  append_slot m t h = Returns ((r, e, ms), h1) -> r <= 0.
Proof.
  unfold append_slot, bind, strextend, alloc, ret.
  repeat match goal with
         | |- (if ?b then _ else _) _ = _ -> _ => destruct b
         | |- (if ?b then _ else _) = _ -> _ => destruct b
         end;
    try (intros H; inversion H; subst; unfold ENXIO; lia).
  destruct h as [|[|junk] h0]; intros H; inversion H; subst; unfold ENOMEM; lia.
Qed.

End AppendAtRoot.

Section ReadAtCursor.
Context {host : Host}.

Lemma BSWAP32_native (m : sd_bus_message) (u : Z) :
  endian (header m) = SD_BUS_NATIVE_ENDIAN -> BUS_MESSAGE_BSWAP32 m u = u.
Proof. intros H. unfold BUS_MESSAGE_BSWAP32. rewrite H, Z.eqb_refl. reflexivity. Qed.



(** A peek at the end of [B], in a body that goes on with zero padding up
    to the alignment and then [rest], at the root of a message in the byte
    order of the host. *)
Lemma message_peek_body_appended
    (mr : sd_bus_message) (B pad rest : list Z) (r align n : Z) :
  containers mr = [] -> array_size (root_container mr) = None ->
  body mr = Some (B ++ pad ++ rest) ->
  endian (header mr) = SD_BUS_NATIVE_ENDIAN ->
  body_size (header mr) = Zlength (B ++ pad ++ rest) ->
  r = Zlength B -> pad = repeat 0 (Z.to_nat (ALIGN_TO r align - r)) ->
  0 < align <= 8 -> 0 <= n <= Zlength rest -> Zlength (B ++ pad ++ rest) <= UINT32_MAX ->
  message_peek_body mr r align n = (1, ALIGN_TO r align + n, ALIGN_TO r align).
Proof.
  intros Hc Ha Hb He Hsz Hr Hpad Halign Hn Hmax.
  pose proof (Zlength_nonneg B) as HB. pose proof (Zlength_nonneg rest) as Hrest.
  unfold UINT32_MAX in Hmax. rewrite !Zlength_app in Hmax.
  pose proof (Zlength_nonneg pad) as Hp.
  destruct (ALIGN_TO_spec r align) as [Hal _]; try lia.
  assert (Hpl : Zlength pad = ALIGN_TO r align - r).
  { rewrite Hpad at 1. rewrite Zlength_repeat. lia. }
  unfold message_peek_body, message_end_of_array, message_get_container, n_containers.
  rewrite Hc. cbn [Zlength Zlength_aux Z.eqb]. rewrite Ha.
  unfold BUS_MESSAGE_BODY_SIZE. rewrite BSWAP32_native by assumption.
  rewrite Hb. cbn [region_bytes].
  destruct (buffer_peek_cases (B ++ pad ++ rest) (body_size (header mr)) r align n)
    as (_ & Hok & _); try lia.
  apply Hok. split.
  - rewrite Hsz, !Zlength_app. lia.
  - intros k Hk. rewrite byte_at_app_r by lia. rewrite byte_at_app_l by lia.
    rewrite Hpad. apply byte_at_zeros.
Qed.

Lemma slice_appended (B pad bytes rest : list Z) (start : Z) :
  start = Zlength (B ++ pad) ->
  slice (B ++ pad ++ bytes ++ rest) start (Zlength bytes) = bytes.
Proof.
  intros ->. replace (B ++ pad ++ bytes ++ rest) with ((B ++ pad) ++ bytes ++ rest)
    by (rewrite <- !app_assoc; reflexivity).
  apply slice_middle.
Qed.

End ReadAtCursor.

Section RoundTrip.
Context {host : Host} {ext : Collaborators}.

Lemma at_root (m : sd_bus_message) :
  containers m = [] ->
  message_get_container m = root_container m
  /\ forall c, message_set_container m c = set_root_container c m.
Proof.
  intros Hc. unfold message_get_container, message_set_container, n_containers.
  rewrite Hc. split; [reflexivity|intros c; reflexivity].
Qed.

End RoundTrip.

Ltac type_tests T :=
  let a := eval vm_compute in (bus_type_get_alignment T) in
  change (bus_type_get_alignment T) with a in *;
  let s := eval vm_compute in (bus_type_get_size T) in
  change (bus_type_get_size T) with s in *;
  change (bus_type_is_basic T) with true in *;
  repeat match goal with
         | |- context [T =? ?b] =>
             let v := eval vm_compute in (T =? b) in change (T =? b) with v
         end;
  cbn [negb orb andb].

Section ReadValue.
Context {host : Host} {ext : Collaborators}.

End ReadValue.

(** ** Reading a string back *)

Lemma take_until_nul_app (s rest : list Z) :
  Forall (fun c => c <> 0) s -> take_until_nul (s ++ 0 :: rest) = s.
Proof.
  induction 1 as [|c s Hc _ IH]; cbn [app take_until_nul]; [reflexivity|].
  apply Z.eqb_neq in Hc. rewrite Hc, IH. reflexivity.
Qed.

Lemma cstr_at_middle (P s rest : list Z) :
  Forall (fun c => c <> 0) s -> cstr_at (P ++ s ++ 0 :: rest) (Zlength P) = s.
Proof.
  intros Hs. unfold cstr_at. rewrite to_nat_Zlength.
  rewrite skipn_app, skipn_all, Nat.sub_diag. cbn [skipn app].
  now apply take_until_nul_app.
Qed.

Lemma no_nul_inside (s : list Z) :
  Forall (fun c => c <> 0) s -> existsb (Z.eqb 0) s = false.
Proof.
  induction 1 as [|c s Hc _ IH]; cbn [existsb]; [reflexivity|].
  rewrite IH, orb_false_r. apply Z.eqb_neq. congruence.
Qed.

(** ** The layout of the types of fixed width *)

Section AppendThenRead.
Context {host : Host} {ext : Collaborators}.

End AppendThenRead.

(** ** What the writer takes and the reader does not hand out *)


(** A SIGNATURE is stored with a length byte that counts the NUL as well:
    the signature [u] appended to the same signal is not read back. *)
Example appended_signature_is_not_read_back :
  @sd_bus_message_append_basic little_endian_host Run.signal_su SD_BUS_TYPE_SIGNATURE
    (PStr (cstr "u")) []
  = Returns ((0, Run.appended SD_BUS_TYPE_SIGNATURE (PStr (cstr "u"))), [])
  /\ slice (region_bytes (body (Run.appended SD_BUS_TYPE_SIGNATURE (PStr (cstr "u"))))) 12 3
     = [2; chr "u"; 0]
  /\ @bus_message_seal little_endian_host
       (Run.appended SD_BUS_TYPE_SIGNATURE (PStr (cstr "u"))) 1 []
     = Returns ((0, Run.sealed_after SD_BUS_TYPE_SIGNATURE (PStr (cstr "u"))), [])
  /\ @sd_bus_message_read_basic little_endian_host reference_collaborators
       (at_cursor_of Run.signal_su (Run.sealed_after SD_BUS_TYPE_SIGNATURE (PStr (cstr "u"))))
       SD_BUS_TYPE_SIGNATURE
     = Returns (- EBADMSG,
                at_cursor_of Run.signal_su
                  (Run.sealed_after SD_BUS_TYPE_SIGNATURE (PStr (cstr "u"))),
                None).
Proof.
  split; [vm_compute; reflexivity|].
  split; [vm_compute; reflexivity|].
  split; vm_compute; reflexivity.
Qed.

(** UNIX_FD is a basic type and [append_basic] stores it; [read_basic] has
    no case for it and runs into its [assert_not_reached]. *)
Example appended_unix_fd_is_not_read_back :
  @sd_bus_message_append_basic little_endian_host Run.signal_su SD_BUS_TYPE_UNIX_FD (PInt 3) []
  = Returns ((0, Run.appended SD_BUS_TYPE_UNIX_FD (PInt 3)), [])
  /\ @bus_message_seal little_endian_host (Run.appended SD_BUS_TYPE_UNIX_FD (PInt 3)) 1 []
     = Returns ((0, Run.sealed_after SD_BUS_TYPE_UNIX_FD (PInt 3)), [])
  /\ @sd_bus_message_read_basic little_endian_host reference_collaborators
       (at_cursor_of Run.signal_su (Run.sealed_after SD_BUS_TYPE_UNIX_FD (PInt 3)))
       SD_BUS_TYPE_UNIX_FD
     = Undefined.
Proof.
  split; [vm_compute; reflexivity|].
  split; vm_compute; reflexivity.
Qed.

(** * Further properties of the codec *)

(** ** The no-reply flag *)

Lemma bit_of_one (n : Z) : 0 < n -> Z.testbit 1 n = false.
Proof.
  intros Hn. change 1 with (2 ^ 0). rewrite Z.pow2_bits_eqb by lia.
  apply Z.eqb_neq. lia.
Qed.

Lemma land_one (f : Z) : Z.land f 1 = if Z.testbit f 0 then 1 else 0.
Proof.
  apply Z.bits_inj'. intros n Hn. rewrite Z.land_spec.
  destruct (Z.eq_dec n 0) as [->|Hne].
  - destruct (Z.testbit f 0); reflexivity.
  - rewrite bit_of_one by lia. rewrite andb_false_r.
    destruct (Z.testbit f 0); [rewrite bit_of_one by lia|rewrite Z.bits_0]; reflexivity.
Qed.

Section NoReplyFlag.
Context {host : Host} {ext : Collaborators}.

(** [set_no_reply] is refused with -EPERM, the message left as it is, on a
    sealed message and on one that is no method call. On an unsealed method
    call it succeeds and changes the flags byte only, and in it the
    no-reply bit only: [get_no_reply] then answers 1 for a nonzero [b] and 0
    for [b = 0]. *)
Theorem set_no_reply_then_get_no_reply (m : sd_bus_message) (b : Z) :
  (sealed m = true \/ type (header m) <> SD_BUS_MESSAGE_TYPE_METHOD_CALL ->
   sd_bus_message_set_no_reply m b = (- EPERM, m))
  /\ (sealed m = false -> type (header m) = SD_BUS_MESSAGE_TYPE_METHOD_CALL ->
      exists f,
        sd_bus_message_set_no_reply m b = (0, set_header (set_flags f (header m)) m)
        /\ (forall n, 0 < n -> Z.testbit f n = Z.testbit (flags (header m)) n)
        /\ sd_bus_message_get_no_reply (set_header (set_flags f (header m)) m)
           = (if b =? 0 then 0 else 1)).
Proof.
  unfold sd_bus_message_set_no_reply. split.
  - intros [Hs|Ht].
    + rewrite Hs. reflexivity.
    + apply Z.eqb_neq in Ht. rewrite Ht. destruct (sealed m); reflexivity.
  - intros Hs Ht. rewrite Hs, Ht, Z.eqb_refl. cbn [negb]. cbv zeta.
    eexists. split; [reflexivity|].
    unfold sd_bus_message_get_no_reply, SD_BUS_MESSAGE_NO_REPLY_EXPECTED.
    cbn [header type flags set_header set_flags]. rewrite Ht, Z.eqb_refl.
    destruct (b =? 0); cbn [negb].
    + split.
      * intros n Hn. rewrite Z.land_spec, Z.lnot_spec, bit_of_one by lia.
        apply andb_true_r.
      * rewrite land_one, Z.land_spec, Z.lnot_spec by lia.
        change (Z.testbit 1 0) with true. rewrite andb_false_r. reflexivity.
    + split.
      * intros n Hn. rewrite Z.lor_spec, bit_of_one by lia. apply orb_false_r.
      * rewrite land_one, Z.lor_spec. change (Z.testbit 1 0) with true.
        rewrite orb_true_r. reflexivity.
Qed.
End NoReplyFlag.

(** ** The serial of a sealed message *)

Section Serial.
Context {host : Host} {ext : Collaborators}.

(** The fields grow without a change to the other words of the header. *)
Lemma message_extend_fields_header
    (m m' : sd_bus_message) (align sz : Z) (h h' : heap) (p : option Z) :
  message_extend_fields m align sz h = Returns ((p, m'), h') ->
  exists fs, header m' = set_fields_size fs (header m).
Proof.
  unfold message_extend_fields, bind.
  destruct (buffer_extend _ _ _ _ h) as [[[[q f] fs] h1]|]; [|discriminate].
  destruct q; unfold ret; intros H; inversion H; subst.
  - exists fs. reflexivity.
  - exists (fields_size (header m')). destruct (header m'); reflexivity.
Qed.

Lemma message_append_field_signature_header
    (m m' : sd_bus_message) (code : Z) (s : cstring) (h h' : heap) (r : Z) :
  message_append_field_signature m code s None h = Returns ((r, m'), h') ->
  exists fs, header m' = set_fields_size fs (header m).
Proof.
  unfold message_append_field_signature.
  destruct (255 <? strlen s).
  { unfold ret. intros H. inversion H; subst.
    exists (fields_size (header m')). destruct (header m'); reflexivity. }
  unfold bind.
  destruct (message_extend_fields _ _ _ h) as [[[p m1] h1]|] eqn:E; [|discriminate].
  destruct (message_extend_fields_header _ _ _ _ _ _ _ E) as [fs Hfs].
  destruct p; unfold ret; intros H; inversion H; subst; exists fs; exact Hfs.
Qed.

Lemma message_append_field_uint32_header
    (m m' : sd_bus_message) (code x : Z) (h h' : heap) (r : Z) :
  message_append_field_uint32 m code x h = Returns ((r, m'), h') ->
  exists fs, header m' = set_fields_size fs (header m).
Proof.
  unfold message_append_field_uint32, bind.
  destruct (message_extend_fields _ _ _ h) as [[[p m1] h1]|] eqn:E; [|discriminate].
  destruct (message_extend_fields_header _ _ _ _ _ _ _ E) as [fs Hfs].
  destruct p; unfold ret; intros H; inversion H; subst; exists fs; exact Hfs.
Qed.

(** What [seal] does to the header, whatever the state of the fields. *)
Lemma seal_header (m m' : sd_bus_message) (serial_ : Z) (h h' : heap) :
  bus_message_seal m serial_ h = Returns ((0, m'), h') ->
  exists fs, header m' = set_serial (u32 serial_) (set_fields_size fs (header m)).
Proof.
  assert (Hself : forall x : bus_header, x = set_fields_size (fields_size x) x)
    by (intros x; destruct x; reflexivity).
  assert (Hlast : forall m1 m2 h2 fs1,
             header m1 = set_fields_size fs1 (header m) ->
             bind (if 0 <? n_fds m1
                   then message_append_field_uint32 m1 SD_BUS_MESSAGE_HEADER_UNIX_FDS (n_fds m1)
                   else ret (0, m1))
                  (fun x => let '(r, m3) := x in
                            if r <? 0 then ret (r, m3)
                            else ret (0, setup_iovec
                                           (set_sealed true
                                              (set_header (set_serial (u32 serial_) (header m3))
                                                          m3)))) h2
             = Returns ((0, m2), h') ->
             exists fs, header m2 = set_serial (u32 serial_) (set_fields_size fs (header m))).
  { intros m1 m2 h2 fs1 Hh1 Hrun. unfold bind in Hrun.
    destruct (0 <? n_fds m1).
    - destruct (message_append_field_uint32 _ _ _ h2) as [[[r2 m3] h3]|] eqn:E2;
        [|discriminate].
      destruct (message_append_field_uint32_header _ _ _ _ _ _ _ E2) as [fs2 Hfs2].
      destruct (r2 <? 0) eqn:Hr2.
      { inversion Hrun; subst. discriminate. }
      inversion Hrun. exists fs2. cbn. rewrite Hfs2, Hh1. reflexivity.
    - cbn in Hrun. inversion Hrun. exists fs1. cbn. rewrite Hh1. reflexivity. }
  intros Hrun. unfold bus_message_seal in Hrun.
  destruct (sealed m); [inversion Hrun|].
  destruct (0 <? n_containers m); [inversion Hrun|].
  unfold bind at 1 in Hrun.
  destruct (negb (isempty (signature (root_container m)))).
  - destruct (message_append_field_signature _ _ _ _ h) as [[[r1 m1] h1]|] eqn:E1;
      [|discriminate].
    destruct (message_append_field_signature_header _ _ _ _ _ _ _ E1) as [fs1 Hfs1].
    destruct (r1 <? 0) eqn:Hr1.
    { inversion Hrun; subst. discriminate. }
    exact (Hlast m1 m' h1 fs1 Hfs1 Hrun).
  - unfold ret at 1 in Hrun. cbn [Z.ltb Z.compare] in Hrun.
    exact (Hlast m m' h _ (Hself _) Hrun).
Qed.

(** A message sealed with the serial [serial_] and laid out in the byte
    order of the host answers [get_serial] with that serial, reduced to 32
    bits; when that is 0 (the serial 0, or a multiple of 2^32) the sealed
    message has no serial and [get_serial] fails with -ENOENT. *)
Theorem seal_then_get_serial (m m' : sd_bus_message) (serial_ : Z) (h h' : heap) :
  bus_message_seal m serial_ h = Returns ((0, m'), h') ->
  endian (header m) = SD_BUS_NATIVE_ENDIAN ->
  sd_bus_message_get_serial m'
  = if serial_ mod 2 ^ 32 =? 0 then (- ENOENT, None) else (0, Some (serial_ mod 2 ^ 32)).
Proof.
  intros Hseal He. destruct (seal_header _ _ _ _ _ Hseal) as [fs Hh].
  unfold sd_bus_message_get_serial, BUS_MESSAGE_SERIAL, BUS_MESSAGE_BSWAP32.
  rewrite Hh. cbn. rewrite He, Z.eqb_refl. reflexivity.
Qed.
End Serial.

(** The signal of scenario 1 sealed with the serial 1. *)
Lemma seal_then_get_serial_witness :
  @sd_bus_message_get_serial little_endian_host Run.sealed_su = (0, Some 1).
Proof.
  exact (@seal_then_get_serial little_endian_host Run.signal_su Run.sealed_su 1 [] []
           eq_refl eq_refl).
Defined.

(** ** Sealing separates the writer from the reader *)

Section Discipline.
Context {host : Host} {ext : Collaborators}.

(** On a sealed message every operation of the writer is refused with
    -EPERM and leaves the message as it is: appending, opening and closing
    a container, setting the no-reply flag or the destination, sealing
    again. On a message that is not sealed every operation of the reader is
    refused with -EPERM: reading, entering and leaving a container, peeking
    and rewinding; and no reply can be made for it. *)
Theorem seal_separates_the_writer_from_the_reader (m : sd_bus_message) :
  (sealed m = true ->
   (forall t p stored h, message_append_basic m t p stored h = Returns ((- EPERM, m), h))
   /\ (forall t c h, sd_bus_message_open_container m t c h = Returns ((- EPERM, m), h))
   /\ sd_bus_message_close_container m = (- EPERM, m)
   /\ (forall b, sd_bus_message_set_no_reply m b = (- EPERM, m))
   /\ (forall d h, sd_bus_message_set_destination m (Some d) h = Returns ((- EPERM, m), h))
   /\ (forall s h, bus_message_seal m s h = Returns ((- EPERM, m), h)))
  /\ (sealed m = false ->
      (forall t, sd_bus_message_read_basic m t = Returns (- EPERM, m, None))
      /\ (forall t c h, sd_bus_message_enter_container m t c h = Returns ((- EPERM, m), h))
      /\ sd_bus_message_exit_container m = Returns (- EPERM, m)
      /\ (forall ty co h,
             sd_bus_message_peek_type m ty co h = Returns ((- EPERM, None, None), h))
      /\ (forall c, sd_bus_message_rewind m c = (- EPERM, m))
      /\ (forall bus t h, message_new_reply bus (Some m) t h = Returns ((- EPERM, None), h))).
Proof.
  split; intros Hs.
  - repeat split; intros;
      unfold message_append_basic, sd_bus_message_open_container,
        sd_bus_message_close_container, sd_bus_message_set_no_reply,
        sd_bus_message_set_destination, bus_message_seal;
      rewrite Hs; reflexivity.
  - repeat split; intros;
      unfold sd_bus_message_read_basic, sd_bus_message_enter_container,
        sd_bus_message_exit_container, sd_bus_message_peek_type,
        sd_bus_message_rewind, message_new_reply;
      rewrite Hs; reflexivity.
Qed.
End Discipline.

(** ** The checks on a string in a message *)

Lemma no_nul_forall (s : list Z) :
  existsb (Z.eqb 0) s = false -> Forall (fun c => c <> 0) s.
Proof.
  induction s as [|c s IH]; cbn [existsb]; intros H; constructor.
  - apply orb_false_iff in H. destruct H as [H _]. apply Z.eqb_neq in H. congruence.
  - apply IH. apply orb_false_iff in H. tauto.
Qed.

Lemma skipn_head (buf : list Z) (n : nat) :
  (n < List.length buf)%nat -> skipn n buf = nth n buf 0 :: skipn (S n) buf.
Proof.
  revert buf. induction n as [|n IH]; intros [|b buf] Hn; cbn in *; try lia.
  - reflexivity.
  - apply IH. lia.
Qed.

(** The C string at [s] is the [l] bytes there, when none of them is NUL
    and a NUL follows them. *)
Lemma cstr_at_is_slice (buf : list Z) (s l : Z) :
  0 <= s -> 0 <= l -> s + l < Zlength buf ->
  existsb (Z.eqb 0) (slice buf s l) = false -> byte_at buf (s + l) = 0 ->
  cstr_at buf s = slice buf s l.
Proof.
  intros Hs Hl Hin Hnul Hend. unfold cstr_at, slice in *.
  rewrite Zlength_correct in Hin.
  set (T := skipn (Z.to_nat s) buf) in *.
  assert (HT : T = firstn (Z.to_nat l) T ++ 0 :: skipn (S (Z.to_nat l)) T).
  { rewrite <- (firstn_skipn (Z.to_nat l) T) at 1. f_equal.
    rewrite skipn_head by (unfold T; rewrite length_skipn; lia).
    f_equal. unfold T. rewrite nth_skipn. unfold byte_at in Hend.
    rewrite <- Z2Nat.inj_add by lia. exact Hend. }
  rewrite HT at 1. apply take_until_nul_app. now apply no_nul_forall.
Qed.

Section Validate.
Context {host : Host} {ext : Collaborators}.

(** [validate_string], [validate_signature] and [validate_object_path]
    share one body ([validate_with], over the predicate each of them
    applies). For [l] bytes at [s] that lie, with the byte behind them,
    inside the buffer, the answer is yes exactly when none of the [l] bytes
    is NUL, the byte behind them is NUL, and the predicate accepts these
    [l] bytes. *)
Theorem validate_accepts_terminated_strings
    (check : cstring -> bool) (buf : list Z) (s l : Z) :
  0 <= s -> 0 <= l -> s + l < Zlength buf ->
  validate_with check buf s l
  = Returns (negb (existsb (Z.eqb 0) (slice buf s l))
             && (byte_at buf (s + l) =? 0)
             && check (slice buf s l))
  /\ validate_string buf s l = validate_with utf8_is_valid buf s l
  /\ validate_signature buf s l = validate_with (fun x => signature_is_valid x true) buf s l
  /\ validate_object_path buf s l = validate_with object_path_is_valid buf s l.
Proof.
  intros Hs Hl Hin. split; [|repeat split; reflexivity].
  unfold validate_with, validate_nul.
  destruct (existsb (Z.eqb 0) (slice buf s l)) eqn:Hnul; [reflexivity|].
  destruct (Zlength buf <=? s + l) eqn:Hle; [apply Z.leb_le in Hle; lia|].
  destruct (byte_at buf (s + l) =? 0) eqn:Hend; [|reflexivity].
  apply Z.eqb_eq in Hend. rewrite (cstr_at_is_slice buf s l) by assumption.
  reflexivity.
Qed.
End Validate.

(** In the bytes [h i NUL x NUL] the two characters at 0 are a string; the
    four characters at 0 are not, for the NUL among them. *)
Lemma validate_accepts_terminated_strings_witness :
  @validate_string reference_collaborators [104; 105; 0; 120; 0] 0 2 = Returns true
  /\ @validate_string reference_collaborators [104; 105; 0; 120; 0] 0 4 = Returns false.
Proof.
  split.
  - destruct (@validate_accepts_terminated_strings reference_collaborators
                utf8_is_valid [104; 105; 0; 120; 0] 0 2) as (H & H' & _);
      [lia|lia|reflexivity|].
    rewrite H'. exact H.
  - destruct (@validate_accepts_terminated_strings reference_collaborators
                utf8_is_valid [104; 105; 0; 120; 0] 0 4) as (H & H' & _);
      [lia|lia|reflexivity|].
    rewrite H'. exact H.
Defined.

(** ** The buffer manager *)

(** [buffer_extend] on a region of [sz] bytes always returns. When it
    returns a pointer, the pointer is the old size rounded up to the
    alignment, the region holds the old bytes, zeros up to the pointer and
    [extend] fresh bytes behind it, and its new size is within 32 bits.
    When it returns NULL the region and its size are untouched; it does so
    when the new size would exceed 32 bits, when the allocator fails, and
    also when nothing is to be added to a region that is still NULL. *)
Theorem buffer_extend_grows_or_fails (p : region) (sz align extend : Z) (h : heap) :
  Zlength (region_bytes p) = sz -> sz <= UINT32_MAX ->
  0 < align -> 0 <= extend -> sz + align + extend <= 2 ^ 64 ->
  exists q p' sz' h',
    buffer_extend p sz align extend h = Returns ((q, p', sz'), h')
    /\ match q with
       | None => p' = p /\ sz' = sz
       | Some a =>
           a = ALIGN_TO sz align /\ a mod align = 0
           /\ sz' = a + extend /\ sz' <= UINT32_MAX
           /\ exists junk,
               region_bytes p'
               = region_bytes p ++ repeat 0 (Z.to_nat (a - sz)) ++ repeat junk (Z.to_nat extend)
       end
    /\ (q = None <->
        UINT32_MAX < ALIGN_TO sz align + extend
        \/ (ALIGN_TO sz align + extend <> sz /\ hd (AllocOk 0) h = AllocFails)
        \/ (p = None /\ ALIGN_TO sz align + extend = 0)).
Proof.
  intros Hlen Hmax Halign Hext Hno.
  pose proof (Zlength_nonneg (region_bytes p)) as Hsz. rewrite Hlen in Hsz.
  destruct (ALIGN_TO_spec sz align) as [Hb Hm]; try lia.
  destruct (buffer_extend p sz align extend h) as [[[[q p'] sz'] h']|why] eqn:E.
  2:{ exfalso. revert E. unfold buffer_extend, bind, ret, alloc.
      destruct (_ =? _); [discriminate|]. destruct (_ <? _); [discriminate|].
      destruct h as [|[|junk] h0]; discriminate. }
  exists q, p', sz', h'. split; [reflexivity|]. split.
  - destruct q as [a|].
    + destruct (buffer_extend_grows _ _ _ _ _ _ _ _ _ E Hlen Halign Hext Hno)
        as (Ha & Hsz' & Hle & junk & Hbytes).
      subst a. repeat split; try assumption.
      * revert E. unfold buffer_extend, bind, ret, alloc.
        rewrite size_t_small by lia.
        destruct (_ =? _) eqn:En.
        { apply Z.eqb_eq in En. intros H. lia. }
        destruct (_ <? _) eqn:U; [discriminate|]. apply Z.ltb_ge in U. lia.
      * exists junk. exact Hbytes.
    + exact (buffer_extend_null _ _ _ _ _ _ _ _ E).
  - revert E. unfold buffer_extend, bind, ret, alloc.
    rewrite size_t_small by lia.
    destruct (ALIGN_TO sz align + extend =? sz) eqn:En.
    + apply Z.eqb_eq in En. intros H. inversion H; subst q p' sz' h'. clear H.
      destruct p as [bytes|]; cbn [ptr_add].
      * split; [discriminate|]. intros [H|[[H _]|[H _]]]; [lia|contradiction|discriminate].
      * destruct (ALIGN_TO sz align =? 0) eqn:Ez.
        -- apply Z.eqb_eq in Ez. split; [|reflexivity]. intros _. right. right.
           split; [reflexivity|]. cbn in Hlen. lia.
        -- apply Z.eqb_neq in Ez. split; [discriminate|].
           intros [H|[[H _]|[_ H]]]; [lia|contradiction|lia].
    + apply Z.eqb_neq in En.
      destruct (UINT32_MAX <? ALIGN_TO sz align + extend) eqn:U.
      * apply Z.ltb_lt in U. intros H. inversion H; subst. split; [|reflexivity]. intros _. left. assumption.
      * apply Z.ltb_ge in U.
        destruct h as [|[|junk] h0]; intros H; inversion H; subst; cbn [hd].
        -- split; [discriminate|]. intros [H1|[[_ H1]|[_ H1]]]; [lia|discriminate|].
           unfold UINT32_MAX in *. lia.
        -- split; [|reflexivity]. intros _. right. left. split; [assumption|reflexivity].
        -- split; [discriminate|]. intros [H1|[[_ H1]|[_ H1]]]; [lia|discriminate|].
           unfold UINT32_MAX in *. lia.
Qed.

(** A region of three bytes extended by a word at the alignment 4. *)
Lemma buffer_extend_grows_or_fails_witness :
  exists q p' sz' h',
    buffer_extend (Some [1; 2; 3]) 3 4 4 [AllocOk 9] = Returns ((q, p', sz'), h')
    /\ match q with
       | None => p' = Some [1; 2; 3] /\ sz' = 3
       | Some a =>
           a = ALIGN_TO 3 4 /\ a mod 4 = 0
           /\ sz' = a + 4 /\ sz' <= UINT32_MAX
           /\ exists junk,
               region_bytes p'
               = region_bytes (Some [1; 2; 3]) ++ repeat 0 (Z.to_nat (a - 3))
                   ++ repeat junk (Z.to_nat 4)
       end
    /\ (q = None <->
        UINT32_MAX < ALIGN_TO 3 4 + 4
        \/ (ALIGN_TO 3 4 + 4 <> 3 /\ hd (AllocOk 0) [AllocOk 9] = AllocFails)
        \/ (Some [1; 2; 3] = None /\ ALIGN_TO 3 4 + 4 = 0)).
Proof.
  apply (buffer_extend_grows_or_fails (Some [1; 2; 3]) 3 4 4 [AllocOk 9]);
    [reflexivity|unfold UINT32_MAX; lia|lia|lia|lia].
Defined.

(** The NULL region of no bytes, to which an alignment of 8 adds nothing:
    the pointer returned is NULL. *)
Example buffer_extend_of_nothing_to_nothing :
  buffer_extend None 0 8 0 [] = Returns ((None, None, 0), []).
Proof. reflexivity. Qed.

(** ** A struct at the start of the body *)

Lemma alloc_cases (h : heap) :
  (alloc h = Returns (AllocFails, skipn 1 h) /\ ~ allocations_succeed 1 h)
  \/ (exists junk, alloc h = Returns (AllocOk junk, skipn 1 h)).
Proof.
  unfold alloc, allocations_succeed. destruct h as [|[|junk] h0]; cbn.
  - right. exists 0. reflexivity.
  - left. split; [reflexivity|]. intros H. inversion H; subst. congruence.
  - right. exists junk. reflexivity.
Qed.

Section StructFirst.
Context {host : Host} {ext : Collaborators}.

Lemma extend_nothing_in_no_body (m : sd_bus_message) (h : heap) :
  body m = None -> body_size (header m) = 0 ->
  message_extend_body m 8 0 h = Returns ((None, m), h).
Proof.
  intros Hb Hz. unfold message_extend_body, buffer_extend, bind, ret.
  rewrite Hb, Hz. reflexivity.
Qed.

Lemma root_stays_root (m : sd_bus_message) (c : bus_container) :
  containers m = [] -> containers (message_set_container m c) = [].
Proof. intros Hc. destruct (at_root _ Hc) as [_ Hset]. rewrite Hset. exact Hc. Qed.

Lemma open_struct_in_no_body (m : sd_bus_message) (contents : cstring) (h : heap) :
  containers m = [] -> body m = None -> body_size (header m) = 0 ->
  has_char (root_container m) = false -> enclosing (root_container m) = 0 ->
  container_ok (root_container m) ->
  exists r m' h',
    bus_message_open_struct m (root_container m) contents h = Returns ((r, m'), h')
    /\ r < 0
    /\ (allocations_succeed 1 h -> signature_is_valid contents false = true ->
        r = - ENOMEM /\ h' = skipn 1 h)
    /\ containers m' = [] /\ body m' = None
    /\ strempty (signature (root_container m')) = strempty (signature (root_container m))
    /\ index (root_container m') = index (root_container m).
Proof.
  intros Hc Hb Hz Hh He Hok.
  destruct (at_root _ Hc) as [Hget Hset].
  unfold bus_message_open_struct.
  destruct (signature_is_valid contents false) eqn:Hv; cbn [negb].
  2:{ exists (- EINVAL), m, h.
      split; [reflexivity|]. split; [reflexivity|].
      split; [intros _ Habs; discriminate|repeat split; assumption]. }
  unfold open_slot. rewrite Hh, He. cbn [negb Z.eqb].
  unfold strextend, bind. cbv beta.
  destruct (alloc_cases h) as [[Ha Hno]|[junk Ha]]; rewrite Ha.
  - unfold ret. cbn [Z.ltb Z.compare Z.opp ENOMEM].
    exists (- ENOMEM), m, (skipn 1 h).
    split; [reflexivity|]. split; [reflexivity|].
    split; [intros _ _; split; reflexivity|repeat split; assumption].
  - unfold ret at 1. unfold ret at 1. cbv beta iota.
    set (m1 := message_set_container m _).
    cbn [Z.ltb Z.compare].
    rewrite (extend_nothing_in_no_body m1) by (unfold m1; rewrite Hset; assumption).
    unfold ret.
    exists (- ENOMEM), (truncate_signature true m1), (skipn 1 h).
    destruct (extended_and_truncated_root m
                ([SD_BUS_TYPE_STRUCT_BEGIN] ++ contents ++ [SD_BUS_TYPE_STRUCT_END]) Hok)
      as (Hsig & Hidx & Hbody & _); [intros _; exact Hh|].
    unfold extended_and_truncated in Hsig, Hidx, Hbody. rewrite Hget in Hsig, Hidx, Hbody.
    subst m1.
    split; [reflexivity|]. split; [reflexivity|].
    split; [intros _ _; split; reflexivity|].
    repeat split; try assumption.
    + unfold truncate_signature. apply root_stays_root. apply root_stays_root. exact Hc.
    + exact (eq_trans Hbody Hb).
Qed.

(** On a message whose body is still empty (the body pointer is NULL),
    with no container open and nothing left to fill in its signature,
    [open_container] never opens a STRUCT: the alignment of the contents
    adds no byte to the empty body, [buffer_extend] hands back the NULL
    body pointer, and the helper takes that for a failed allocation. With an
    allocator that delivers and contents that are a signature the answer is
    -ENOMEM. The message is left without a container, with its signature
    and its empty body as before. *)
Theorem open_container_refuses_a_struct_in_an_empty_body
    (m : sd_bus_message) (contents : cstring) (h : heap) :
  sealed m = false -> containers m = [] ->
  body m = None -> body_size (header m) = 0 ->
  has_char (root_container m) = false -> enclosing (root_container m) = 0 ->
  container_ok (root_container m) ->
  exists r m' h',
    sd_bus_message_open_container m SD_BUS_TYPE_STRUCT (Some contents) h
    = Returns ((r, m'), h')
    /\ r < 0
    /\ (allocations_succeed 3 h -> signature_is_valid contents false = true ->
        r = - ENOMEM /\ h' = skipn 3 h)
    /\ containers m' = [] /\ body m' = None
    /\ strempty (signature (root_container m')) = strempty (signature (root_container m))
    /\ index (root_container m') = index (root_container m).
Proof.
  intros Hs Hc Hb Hz Hh He Hok.
  destruct (at_root _ Hc) as [Hget Hset].
  unfold sd_bus_message_open_container. rewrite Hs. unfold bind.
  destruct (alloc_cases h) as [[Ha1 Hno1]|[j1 Ha1]]; rewrite Ha1.
  { exists (- ENOMEM), m, (skipn 1 h).
    split; [reflexivity|]. split; [reflexivity|].
    split; [|repeat split; assumption].
    intros Ha. apply allocations_succeed_step in Ha. tauto. }
  destruct (alloc_cases (skipn 1 h)) as [[Ha2 Hno2]|[j2 Ha2]]; rewrite Ha2.
  { exists (- ENOMEM), m, (skipn 1 (skipn 1 h)).
    split; [reflexivity|]. split; [reflexivity|].
    split; [|repeat split; assumption].
    intros Ha. apply allocations_succeed_step in Ha. destruct Ha as [_ Ha].
    apply allocations_succeed_step in Ha. tauto. }
  rewrite Hget. unfold open_kind.
  change (SD_BUS_TYPE_STRUCT =? SD_BUS_TYPE_ARRAY) with false.
  change (SD_BUS_TYPE_STRUCT =? SD_BUS_TYPE_VARIANT) with false.
  rewrite Z.eqb_refl. cbv iota. unfold bind.
  destruct (open_struct_in_no_body m contents (skipn 1 (skipn 1 h)) Hc Hb Hz Hh He Hok)
    as (r & m' & h' & Hrun & Hr & Hen & Hc' & Hb' & Hsig & Hidx).
  rewrite Hrun. unfold ret at 1. cbv beta iota.
  pose proof Hr as Hr'. apply Z.ltb_lt in Hr'. rewrite Hr'. unfold ret.
  exists r, m', h'.
  split; [reflexivity|]. split; [assumption|].
  split; [|repeat split; assumption].
  intros Ha Hv. apply allocations_succeed_step in Ha. destruct Ha as [_ Ha].
  apply allocations_succeed_step in Ha. destruct Ha as [_ Ha].
  destruct (Hen Ha Hv) as [-> ->]. split; [reflexivity|].
  rewrite !skipn_skipn. reflexivity.
Qed.
End StructFirst.

(** The call of scenario 2 as it is constructed: no value has been
    appended yet, and a struct of one [uint32_t] cannot be opened in it. *)
Lemma open_container_refuses_a_struct_in_an_empty_body_witness :
  exists r m' h',
    @sd_bus_message_open_container little_endian_host reference_collaborators
      (Run.the Run.hello) SD_BUS_TYPE_STRUCT (Some (cstr "u")) []
    = Returns ((r, m'), h')
    /\ r < 0
    /\ (allocations_succeed 3 [] ->
        @signature_is_valid reference_collaborators (cstr "u") false = true ->
        r = - ENOMEM /\ h' = skipn 3 [])
    /\ containers m' = [] /\ body m' = None
    /\ strempty (signature (root_container m'))
       = strempty (signature (root_container (Run.the Run.hello)))
    /\ index (root_container m') = index (root_container (Run.the Run.hello)).
Proof.
  apply (@open_container_refuses_a_struct_in_an_empty_body little_endian_host
           reference_collaborators (Run.the Run.hello) (cstr "u") []);
    try reflexivity.
  split; [vm_compute; split; discriminate|constructor].
Defined.

(** ** What the constructors build *)

Lemma cstring_eqb_eq (a b : cstring) : cstring_eqb a b = true <-> a = b.
Proof.
  revert b. induction a as [|x a IH]; intros [|y b]; cbn; split; intros H;
    try reflexivity; try discriminate.
  - apply andb_true_iff in H. destruct H as [Hx Hab].
    apply Z.eqb_eq in Hx. apply IH in Hab. congruence.
  - inversion H; subst. rewrite Z.eqb_refl. cbn. now apply IH.
Qed.

Lemma holds_string_cstr_at (f : list Z) (p : Z) (s : cstring) :
  holds_string f p s -> cstr_at f p = s.
Proof. intros (b & a & -> & <- & Hs). now apply cstr_at_middle. Qed.

Lemma holds_string_app (f more : list Z) (p : Z) (s : cstring) :
  holds_string f p s -> holds_string (f ++ more) p s.
Proof.
  intros (b & a & -> & Hp & Hs). exists b, (a ++ more).
  split; [|split; assumption]. rewrite <- !app_assoc. reflexivity.
Qed.

Section Constructors.
Context {host : Host} {ext : Collaborators}.

(** The string of a field that has just been appended starts eight bytes
    behind the start of the field. *)
Lemma with_field_holds_string (m : sd_bus_message) (code type_ : Z) (s : cstring) :
  fields_in_step m -> Forall (fun c => c <> 0) s ->
  holds_string (region_bytes (fields (with_field m (string_field code type_ s))))
               (ALIGN_TO (fields_size (header m)) 8 + 8) s.
Proof.
  intros [Hlen Hmax] Hs. unfold with_field, string_field. cbn [fields set_fields region_bytes].
  set (F := region_bytes (fields m)) in *.
  set (pad := repeat 0 _).
  exists (F ++ pad ++ [code; 1; type_; 0] ++ store_native 4 (strlen s)), [].
  split; [|split; [|exact Hs]].
  - rewrite <- !app_assoc. reflexivity.
  - pose proof (Zlength_nonneg F) as HF. unfold UINT32_MAX in Hmax.
    destruct (ALIGN_TO_spec (fields_size (header m)) 8) as [Hal _]; try lia.
    rewrite !Zlength_app. unfold pad. rewrite Zlength_repeat.
    rewrite (Zlength_correct (store_native _ _)), store_native_length.
    change (Zlength [code; 1; type_; 0]) with 4. lia.
Qed.

Lemma with_field_keeps_string (m : sd_bus_message) (data : list Z) (p : Z) (s : cstring) :
  holds_string (region_bytes (fields m)) p s ->
  holds_string (region_bytes (fields (with_field m data))) p s.
Proof. intros H. unfold with_field. cbn [fields set_fields region_bytes]. now apply holds_string_app. Qed.

Lemma differs_spec (m : sd_bus_message) (q : option Z) (s : cstring) (want : option cstring) :
  points_at m q s -> (differs m q want = false <-> asks_for want s).
Proof.
  intros (p & -> & Hs). unfold differs, asks_for, streq. destruct want as [w|].
  - rewrite Hs. split.
    + intros H. apply negb_false_iff, cstring_eqb_eq in H. right. congruence.
    + intros [H|H]; [discriminate|]. inversion H; subst.
      apply negb_false_iff, cstring_eqb_eq. reflexivity.
  - split; [intros _; now left|reflexivity].
Qed.

(** When [new_signal] succeeds the message is an unsealed SIGNAL whose
    [path], [interface] and [member] point at the three strings given;
    [is_signal] answers 1 exactly for the questions this interface and this
    member satisfy (a NULL asks for nothing), and [is_method_call] answers
    0. *)
Theorem new_signal_builds_the_signal_asked_for
    (bus : option sd_bus) (path_ interface_ member_ : cstring)
    (h h' : heap) (m : sd_bus_message) :
  sd_bus_message_new_signal bus (Some path_) (Some interface_) (Some member_) h
  = Returns ((0, Some m), h') ->
  Forall (fun c => c <> 0) path_ -> Forall (fun c => c <> 0) interface_ ->
  Forall (fun c => c <> 0) member_ ->
  type (header m) = SD_BUS_MESSAGE_TYPE_SIGNAL /\ sealed m = false
  /\ points_at m (sd_bus_message_get_path m) path_
  /\ points_at m (sd_bus_message_get_interface m) interface_
  /\ points_at m (sd_bus_message_get_member m) member_
  /\ (forall i mb, sd_bus_message_is_signal m i mb = 1
                   <-> asks_for i interface_ /\ asks_for mb member_)
  /\ (forall i mb, sd_bus_message_is_method_call m i mb = 0).
Proof.
  intros Hrun Hp Hi Hm. unfold sd_bus_message_new_signal in Hrun.
  unfold bind at 1 in Hrun.
  destruct (message_new bus SD_BUS_MESSAGE_TYPE_SIGNAL h) as [[[t|] h0]|] eqn:En;
    try (inversion Hrun; fail).
  apply message_new_fresh in En. destruct En as (Hstep & Ht & Hf & _ & _ & Hsealed).
  set (t1 := set_header _ t) in Hrun.
  assert (Hstep1 : fields_in_step t1) by exact Hstep.
  unfold bind at 1 in Hrun.
  destruct (message_append_field_string t1 _ _ path_ _ h0) as [[[r1 m1] h1]|] eqn:E1;
    [|discriminate].
  apply message_append_field_string_cases in E1; [|assumption].
  destruct E1 as [[Hr ->]|(-> & -> & Hstep2)].
  { apply Z.ltb_lt in Hr. rewrite Hr in Hrun. inversion Hrun. }
  cbn [Z.ltb Z.compare] in Hrun. unfold bind at 1 in Hrun.
  set (q1 := ALIGN_TO (fields_size (header t1)) 8 + 8) in *.
  set (w1 := with_field t1 _) in *.
  destruct (message_append_field_string _ _ _ interface_ _ h1) as [[[r2 m2] h2]|] eqn:E2;
    [|discriminate].
  apply message_append_field_string_cases in E2; [|exact Hstep2].
  destruct E2 as [[Hr ->]|(-> & -> & Hstep3)].
  { apply Z.ltb_lt in Hr. rewrite Hr in Hrun. inversion Hrun. }
  cbn [Z.ltb Z.compare] in Hrun. unfold bind at 1 in Hrun.
  set (q2 := ALIGN_TO (fields_size (header (assign (Some set_path) q1 w1))) 8 + 8) in *.
  set (w2 := with_field (assign (Some set_path) q1 w1) _) in *.
  destruct (message_append_field_string _ _ _ member_ _ h2) as [[[r3 m3] h3]|] eqn:E3;
    [|discriminate].
  apply message_append_field_string_cases in E3; [|exact Hstep3].
  destruct E3 as [[Hr ->]|(-> & -> & Hstep4)].
  { apply Z.ltb_lt in Hr. rewrite Hr in Hrun. inversion Hrun. }
  cbn [Z.ltb Z.compare] in Hrun. unfold ret in Hrun.
  set (q3 := ALIGN_TO (fields_size (header (assign (Some set_interface) q2 w2))) 8 + 8) in *.
  set (w3 := with_field (assign (Some set_interface) q2 w2) _) in *.
  assert (Em : m = assign (Some set_member) q3 w3) by (inversion Hrun; reflexivity).
  clear Hrun. subst m.
  assert (H1 : holds_string (region_bytes (fields w1)) q1 path_)
    by (apply with_field_holds_string; assumption).
  assert (H2 : holds_string (region_bytes (fields w2)) q2 interface_)
    by (apply with_field_holds_string; assumption).
  assert (H3 : holds_string (region_bytes (fields w3)) q3 member_)
    by (apply with_field_holds_string; assumption).
  assert (H1' : holds_string (region_bytes (fields w3)) q1 path_).
  { apply with_field_keeps_string. change (holds_string (region_bytes (fields w2)) q1 path_).
    apply with_field_keeps_string. exact H1. }
  assert (H2' : holds_string (region_bytes (fields w3)) q2 interface_).
  { apply with_field_keeps_string. exact H2. }
  set (mm := assign (Some set_member) q3 w3).
  assert (Pp : points_at mm (sd_bus_message_get_path mm) path_).
  { exists q1. split; [reflexivity|]. apply holds_string_cstr_at. exact H1'. }
  assert (Pi : points_at mm (interface mm) interface_).
  { exists q2. split; [reflexivity|]. apply holds_string_cstr_at. exact H2'. }
  assert (Pm : points_at mm (member mm) member_).
  { exists q3. split; [reflexivity|]. apply holds_string_cstr_at. exact H3. }
  assert (Hty : type (header mm) = SD_BUS_MESSAGE_TYPE_SIGNAL) by exact Ht.
  assert (Hse : sealed mm = false) by exact Hsealed.
  clearbody mm.
  split; [exact Hty|]. split; [exact Hse|].
  split; [exact Pp|]. split; [exact Pi|]. split; [exact Pm|]. split.
  - intros i mb. unfold sd_bus_message_is_signal. rewrite Hty, Z.eqb_refl. cbn [negb].
    pose proof (differs_spec _ _ _ i Pi) as Di. pose proof (differs_spec _ _ _ mb Pm) as Dm.
    destruct (differs _ _ i); [|destruct (differs _ _ mb)].
    + split; [discriminate|]. intros [A _]. apply Di in A. discriminate.
    + split; [discriminate|]. intros [_ A]. apply Dm in A. discriminate.
    + split; [|reflexivity]. intros _. split; [apply Di|apply Dm]; reflexivity.
  - intros i mb. unfold sd_bus_message_is_method_call. rewrite Hty. reflexivity.
Qed.

Lemma message_new_shape (bus : option sd_bus) (t : Z) (h h' : heap) (m : sd_bus_message) :
  message_new bus t h = Returns (Some m, h') ->
  exists v, m = set_header (mk_header SD_BUS_NATIVE_ENDIAN t 0 v 0 0 0) zero_message.
Proof.
  unfold message_new, bind, ret, alloc.
  destruct h as [|[|junk] h0]; intros H; inversion H; eexists; reflexivity.
Qed.

Lemma optional_field
    (o : option cstring) (code type_ : Z)
    (setter : option Z -> sd_bus_message -> sd_bus_message)
    (m m' : sd_bus_message) (h h' : heap) (r : Z) :
  (match o with
   | Some s => message_append_field_string m code type_ s (Some setter)
   | None => ret (0, m)
   end) h = Returns ((r, m'), h') ->
  fields_in_step m ->
  r < 0
  \/ (r = 0
      /\ match o with
         | Some s =>
             m' = setter (Some (ALIGN_TO (fields_size (header m)) 8 + 8))
                         (with_field m (string_field code type_ s))
             /\ fields_in_step (with_field m (string_field code type_ s))
         | None => m' = m
         end).
Proof.
  intros Hrun Hstep. destruct o as [s|].
  - apply message_append_field_string_cases in Hrun; [|assumption].
    destruct Hrun as [[Hr _]|(-> & -> & Hs)]; [left; assumption|right].
    split; [reflexivity|]. split; [reflexivity|assumption].
  - inversion Hrun; subst. right. split; reflexivity.
Qed.

(** When [new_method_call] succeeds the message is an unsealed
    METHOD_CALL that expects a reply; [path] and [member] point at the
    strings given, [interface] and [destination] at theirs when they were
    given and are NULL otherwise. [is_method_call] answers 1 exactly when
    the member asked for, if any, is that of the call and the interface
    asked for, if any, is the one the call was given. *)
Theorem new_method_call_builds_the_call_asked_for
    (bus : option sd_bus) (destination_ interface_ : option cstring)
    (path_ member_ : cstring) (h h' : heap) (m : sd_bus_message) :
  sd_bus_message_new_method_call bus destination_ (Some path_) interface_ (Some member_) h
  = Returns ((0, Some m), h') ->
  Forall (fun c => c <> 0) path_ -> Forall (fun c => c <> 0) member_ ->
  Forall (fun c => c <> 0) (strempty interface_) ->
  Forall (fun c => c <> 0) (strempty destination_) ->
  type (header m) = SD_BUS_MESSAGE_TYPE_METHOD_CALL /\ sealed m = false
  /\ sd_bus_message_get_no_reply m = 0
  /\ points_at m (sd_bus_message_get_path m) path_
  /\ points_at m (sd_bus_message_get_member m) member_
  /\ match interface_ with
     | Some i => points_at m (sd_bus_message_get_interface m) i
     | None => sd_bus_message_get_interface m = None
     end
  /\ match destination_ with
     | Some d => points_at m (sd_bus_message_get_destination m) d
     | None => sd_bus_message_get_destination m = None
     end
  /\ (forall i mb, sd_bus_message_is_method_call m i mb = 1
                   <-> (i = None \/ i = interface_) /\ asks_for mb member_).
Proof.
  intros Hrun Hp Hm Hi Hd. unfold sd_bus_message_new_method_call in Hrun.
  unfold bind at 1 in Hrun.
  destruct (message_new bus SD_BUS_MESSAGE_TYPE_METHOD_CALL h) as [[[t|] h0]|] eqn:En;
    try (inversion Hrun; fail).
  pose proof (message_new_fresh _ _ _ _ _ En) as (Hstep & _).
  apply message_new_shape in En. destruct En as [v ->].
  set (t := set_header _ zero_message) in *.
  (* the path *)
  unfold bind at 1 in Hrun.
  destruct (message_append_field_string t _ _ path_ _ h0) as [[[r1 m1] h1]|] eqn:E1;
    [|discriminate].
  apply message_append_field_string_cases in E1; [|assumption].
  destruct E1 as [[Hr ->]|(-> & -> & Hstep2)].
  { apply Z.ltb_lt in Hr. rewrite Hr in Hrun. inversion Hrun. }
  cbn [Z.ltb Z.compare] in Hrun.
  set (q1 := ALIGN_TO (fields_size (header t)) 8 + 8) in *.
  set (w1 := with_field t _) in *.
  (* the member *)
  unfold bind at 1 in Hrun.
  destruct (message_append_field_string _ _ _ member_ _ h1) as [[[r2 m2] h2]|] eqn:E2;
    [|discriminate].
  apply message_append_field_string_cases in E2; [|exact Hstep2].
  destruct E2 as [[Hr ->]|(-> & -> & Hstep3)].
  { apply Z.ltb_lt in Hr. rewrite Hr in Hrun. inversion Hrun. }
  cbn [Z.ltb Z.compare] in Hrun.
  set (q2 := ALIGN_TO (fields_size (header (assign (Some set_path) q1 w1))) 8 + 8) in *.
  set (w2 := with_field (assign (Some set_path) q1 w1) _) in *.
  set (a2 := assign (Some set_member) q2 w2) in *.
  assert (H1 : holds_string (region_bytes (fields a2)) q1 path_).
  { apply (with_field_keeps_string (assign (Some set_path) q1 w1)).
    apply with_field_holds_string; assumption. }
  assert (H2 : holds_string (region_bytes (fields a2)) q2 member_)
    by (apply (with_field_holds_string (assign (Some set_path) q1 w1)); assumption).
  (* the interface, if any *)
  unfold bind at 1 in Hrun.
  match type of Hrun with
  | match ?c h2 with _ => _ end = _ => destruct (c h2) as [[[r3 m3] h3]|] eqn:E3; [|discriminate]
  end.
  apply optional_field in E3; [|exact Hstep3].
  destruct E3 as [Hr|[-> E3]].
  { apply Z.ltb_lt in Hr. rewrite Hr in Hrun. inversion Hrun. }
  cbn [Z.ltb Z.compare] in Hrun.
  assert (Hstep4 : fields_in_step m3).
  { destruct interface_; [destruct E3 as [-> E3]; exact E3|subst m3; exact Hstep3]. }
  (* the destination, if any *)
  unfold bind at 1 in Hrun.
  match type of Hrun with
  | match ?c h3 with _ => _ end = _ => destruct (c h3) as [[[r4 m4] h4]|] eqn:E4; [|discriminate]
  end.
  apply optional_field in E4; [|exact Hstep4].
  destruct E4 as [Hr|[-> E4]].
  { apply Z.ltb_lt in Hr. rewrite Hr in Hrun. inversion Hrun. }
  cbn [Z.ltb Z.compare] in Hrun. unfold ret in Hrun.
  assert (Em : m = m4) by (inversion Hrun; reflexivity). clear Hrun. subst m.
  (* what the two optional fields leave of the first two *)
  assert (F3 : type (header m3) = SD_BUS_MESSAGE_TYPE_METHOD_CALL /\ sealed m3 = false
               /\ flags (header m3) = 0 /\ destination m3 = None
               /\ path m3 = Some q1 /\ member m3 = Some q2
               /\ holds_string (region_bytes (fields m3)) q1 path_
               /\ holds_string (region_bytes (fields m3)) q2 member_
               /\ match interface_ with
                  | Some i => exists q, interface m3 = Some q
                                        /\ holds_string (region_bytes (fields m3)) q i
                  | None => interface m3 = None
                  end).
  { destruct interface_ as [i|].
    - destruct E3 as [-> _]. repeat split; try reflexivity.
      + apply (with_field_keeps_string a2). exact H1.
      + apply (with_field_keeps_string a2). exact H2.
      + eexists. split; [reflexivity|].
        apply (with_field_holds_string a2); assumption.
    - subst m3. repeat split; try reflexivity; assumption. }
  destruct F3 as (T3 & S3 & G3 & D3 & P3 & M3 & HP3 & HM3 & I3).
  assert (F4 : type (header m4) = SD_BUS_MESSAGE_TYPE_METHOD_CALL /\ sealed m4 = false
               /\ flags (header m4) = 0
               /\ path m4 = Some q1 /\ member m4 = Some q2
               /\ holds_string (region_bytes (fields m4)) q1 path_
               /\ holds_string (region_bytes (fields m4)) q2 member_
               /\ match interface_ with
                  | Some i => exists q, interface m4 = Some q
                                        /\ holds_string (region_bytes (fields m4)) q i
                  | None => interface m4 = None
                  end
               /\ match destination_ with
                  | Some d => exists q, destination m4 = Some q
                                        /\ holds_string (region_bytes (fields m4)) q d
                  | None => destination m4 = None
                  end).
  { destruct destination_ as [d|].
    - destruct E4 as [-> _]. repeat split; try assumption.
      + apply (with_field_keeps_string m3). exact HP3.
      + apply (with_field_keeps_string m3). exact HM3.
      + destruct interface_ as [i|]; [|exact I3].
        destruct I3 as (q & Hq & Hh). exists q. split; [exact Hq|].
        apply (with_field_keeps_string m3). exact Hh.
      + eexists. split; [reflexivity|].
        apply (with_field_holds_string m3); assumption.
    - subst m4. repeat split; assumption. }
  destruct F4 as (T4 & S4 & G4 & P4 & M4 & HP4 & HM4 & I4 & D4).
  assert (Pm : points_at m4 (member m4) member_).
  { exists q2. split; [exact M4|]. now apply holds_string_cstr_at. }
  split; [exact T4|]. split; [exact S4|].
  split. { unfold sd_bus_message_get_no_reply. rewrite G4. now destruct (_ =? _). }
  split. { exists q1. split; [exact P4|]. now apply holds_string_cstr_at. }
  split; [exact Pm|].
  split. { destruct interface_ as [i|]; [|exact I4]. destruct I4 as (q & Hq & Hh).
           exists q. split; [exact Hq|]. now apply holds_string_cstr_at. }
  split. { destruct destination_ as [d|]; [|exact D4]. destruct D4 as (q & Hq & Hh).
           exists q. split; [exact Hq|]. now apply holds_string_cstr_at. }
  intros i mb. unfold sd_bus_message_is_method_call. rewrite T4, Z.eqb_refl. cbn [negb].
  pose proof (differs_spec _ _ _ mb Pm) as Dm.
  destruct interface_ as [i0|].
  - destruct I4 as (q & Hq & Hh).
    assert (Pi : points_at m4 (interface m4) i0).
    { exists q. split; [exact Hq|]. now apply holds_string_cstr_at. }
    pose proof (differs_spec _ _ _ i Pi) as Di. unfold asks_for in Di.
    destruct (differs _ _ i); [|destruct (differs _ _ mb)].
    + split; [discriminate|]. intros [[A|A] _].
      * assert (false = true) by (symmetry; apply Di; now left). discriminate.
      * assert (false = true) by (symmetry; apply Di; now right). discriminate.
    + split; [discriminate|]. intros [_ A]. apply Dm in A. discriminate.
    + split; [|reflexivity]. intros _. split; [|apply Dm; reflexivity].
      destruct (proj1 Di eq_refl) as [A|A]; [now left|now right].
  - unfold differs at 1. rewrite I4. destruct i as [i|].
    + split; [discriminate|]. intros [[A|A] _]; discriminate.
    + destruct (differs _ _ mb).
      * split; [discriminate|]. intros [_ A]. apply Dm in A. discriminate.
      * split; [|reflexivity]. intros _. split; [now left|apply Dm; reflexivity].
Qed.
End Constructors.

(** The signal [/foo com.example Bar] and the call of scenario 2, as the
    constructors make them. *)
Lemma new_signal_builds_the_signal_asked_for_witness :
  type (header Run.bare_signal) = SD_BUS_MESSAGE_TYPE_SIGNAL /\ sealed Run.bare_signal = false
  /\ points_at Run.bare_signal (sd_bus_message_get_path Run.bare_signal) (cstr "/foo")
  /\ points_at Run.bare_signal (sd_bus_message_get_interface Run.bare_signal)
               (cstr "com.example")
  /\ points_at Run.bare_signal (sd_bus_message_get_member Run.bare_signal) (cstr "Bar")
  /\ (forall i mb, sd_bus_message_is_signal Run.bare_signal i mb = 1
                   <-> asks_for i (cstr "com.example") /\ asks_for mb (cstr "Bar"))
  /\ (forall i mb, sd_bus_message_is_method_call Run.bare_signal i mb = 0).
Proof.
  apply (@new_signal_builds_the_signal_asked_for little_endian_host None
           (cstr "/foo") (cstr "com.example") (cstr "Bar") [] []).
  - vm_compute. reflexivity.
  - vm_compute. repeat constructor; discriminate.
  - vm_compute. repeat constructor; discriminate.
  - vm_compute. repeat constructor; discriminate.
Defined.

Lemma new_method_call_builds_the_call_asked_for_witness :
  points_at (Run.the Run.hello) (sd_bus_message_get_path (Run.the Run.hello)) (cstr "/")
  /\ points_at (Run.the Run.hello) (sd_bus_message_get_member (Run.the Run.hello))
               (cstr "Hello")
  /\ sd_bus_message_get_interface (Run.the Run.hello) = None
  /\ points_at (Run.the Run.hello) (sd_bus_message_get_destination (Run.the Run.hello))
               (cstr "o.f.DBus")
  /\ sd_bus_message_is_method_call (Run.the Run.hello) None (Some (cstr "Hello")) = 1.
Proof.
  destruct (@new_method_call_builds_the_call_asked_for little_endian_host None
              (Some (cstr "o.f.DBus")) None (cstr "/") (cstr "Hello") [] []
              (Run.the Run.hello))
    as (_ & _ & _ & Hp & Hm & Hi & Hd & Hc).
  - vm_compute. reflexivity.
  - vm_compute. repeat constructor; discriminate.
  - vm_compute. repeat constructor; discriminate.
  - constructor.
  - vm_compute. repeat constructor; discriminate.
  - split; [exact Hp|]. split; [exact Hm|]. split; [exact Hi|]. split; [exact Hd|].
    apply Hc. split; [now left|now right].
Defined.

(** ** The destination is set once *)

Section Destination.
Context {host : Host} {ext : Collaborators}.

End Destination.


(** ** The wire image of a sealed message *)

Lemma ALIGN_TO_8_padding (fs : Z) :
  0 <= fs -> fs + 8 <= 2 ^ 64 ->
  ALIGN_TO fs 8 - fs = if fs mod 8 =? 0 then 0 else 8 - fs mod 8.
Proof.
  intros Hfs Hno. unfold ALIGN_TO. rewrite size_t_small by lia.
  pose proof (Z.div_mod fs 8 ltac:(lia)) as Hdm.
  pose proof (Z.mod_pos_bound fs 8 ltac:(lia)) as Hb.
  destruct (fs mod 8 =? 0) eqn:E.
  - apply Z.eqb_eq in E.
    replace (fs + 8 - 1) with (7 + (fs / 8) * 8) by lia.
    rewrite Z.div_add by lia. change (7 / 8) with 0. lia.
  - apply Z.eqb_neq in E.
    replace (fs + 8 - 1) with ((fs mod 8 - 1 + 8) + (fs / 8) * 8) by lia.
    rewrite Z.div_add by lia.
    replace ((fs mod 8 - 1 + 8) / 8) with 1; [lia|].
    apply Z.div_unique with (r := fs mod 8 - 1); lia.
Qed.

Section Blob.
Context {host : Host} {ext : Collaborators}.

Lemma header_bytes_length (hd : bus_header) : Zlength (header_bytes hd) = 16.
Proof.
  unfold header_bytes. rewrite !Zlength_app, !(Zlength_correct (store_native _ _)),
    !store_native_length. reflexivity.
Qed.

(** What the message is like when [seal] has succeeded: the message [m2]
    with the fields that go out, then the serial, the flag and the
    vector. *)
Lemma seal_shape (m m' : sd_bus_message) (serial_ : Z) (h h' : heap) :
  bus_message_seal m serial_ h = Returns ((0, m'), h') ->
  fields_in_step m ->
  exists m2,
    m' = setup_iovec (set_sealed true (set_header (set_serial (u32 serial_) (header m2)) m2))
    /\ fields_in_step m2
    /\ body m2 = body m /\ root_container m2 = root_container m
    /\ header m2 = set_fields_size (fields_size (header m2)) (header m)
    /\ (exists more, region_bytes (fields m2) = region_bytes (fields m) ++ more)
    /\ (fields m = None -> isempty (signature (root_container m)) = true -> n_fds m <= 0 ->
        fields m2 = None).
Proof.
  assert (Hself : forall x : bus_header, x = set_fields_size (fields_size x) x)
    by (intros x; destruct x; reflexivity).
  assert (Hwf : forall (x : sd_bus_message) data,
             body (with_field x data) = body x
             /\ root_container (with_field x data) = root_container x
             /\ header (with_field x data)
                = set_fields_size (fields_size (header (with_field x data))) (header x)
             /\ n_fds (with_field x data) = n_fds x
             /\ exists more, region_bytes (fields (with_field x data))
                             = region_bytes (fields x) ++ more).
  { intros x data. repeat split. eexists. reflexivity. }
  intros Hrun Hstep. unfold bus_message_seal in Hrun.
  destruct (sealed m); [inversion Hrun|].
  destruct (0 <? n_containers m); [inversion Hrun|].
  unfold bind at 1 in Hrun.
  assert (H1 : exists m1 h1,
             fields_in_step m1 /\ body m1 = body m /\ root_container m1 = root_container m
             /\ header m1 = set_fields_size (fields_size (header m1)) (header m)
             /\ n_fds m1 = n_fds m
             /\ (exists more, region_bytes (fields m1) = region_bytes (fields m) ++ more)
             /\ (isempty (signature (root_container m)) = true -> m1 = m)
             /\ bind (if 0 <? n_fds m1
                      then message_append_field_uint32 m1 SD_BUS_MESSAGE_HEADER_UNIX_FDS
                             (n_fds m1)
                      else ret (0, m1))
                     (fun x => let '(r, m3) := x in
                               if r <? 0 then ret (r, m3)
                               else ret (0, setup_iovec
                                              (set_sealed true
                                                 (set_header
                                                    (set_serial (u32 serial_) (header m3))
                                                    m3)))) h1
                = Returns ((0, m'), h')).
  { destruct (isempty (signature (root_container m))) eqn:Hsig; cbn [negb] in Hrun.
    - unfold ret at 1 in Hrun. cbn [Z.ltb Z.compare] in Hrun.
      exists m, h. repeat split; try assumption; try apply Hstep.
      + apply Hself.
      + exists []. now rewrite app_nil_r.
    - destruct (message_append_field_signature _ _ _ _ h) as [[[r1 m1] h1]|] eqn:E1;
        [|discriminate].
      apply message_append_field_signature_cases in E1; [|assumption].
      destruct E1 as [[Hr ->]|(-> & -> & Hs1)].
      { apply Z.ltb_lt in Hr. rewrite Hr in Hrun. inversion Hrun; subst. lia. }
      cbn [Z.ltb Z.compare] in Hrun.
      destruct (Hwf m (signature_field (strempty (signature (root_container m)))))
        as (A & B & C & D & E).
      exists (with_field m (signature_field (strempty (signature (root_container m))))), h1.
      split; [exact Hs1|]. split; [exact A|]. split; [exact B|]. split; [exact C|].
      split; [exact D|]. split; [exact E|]. split; [discriminate|exact Hrun]. }
  clear Hrun. destruct H1 as (m1 & h1 & Hs1 & Hb1 & Hr1 & Hh1 & Hf1 & [more1 Hm1] & Hsame & Hrun).
  unfold bind in Hrun.
  destruct (0 <? n_fds m1) eqn:Hfds.
  - destruct (message_append_field_uint32 _ _ _ h1) as [[[r2 m2] h2]|] eqn:E2;
      [|discriminate].
    apply message_append_field_uint32_cases in E2; [|assumption].
    destruct E2 as [[Hr ->]|(-> & -> & Hs2)].
    { apply Z.ltb_lt in Hr. rewrite Hr in Hrun. inversion Hrun; subst. lia. }
    cbn [Z.ltb Z.compare] in Hrun. inversion Hrun; subst m'. clear Hrun.
    destruct (Hwf m1 (uint32_field SD_BUS_MESSAGE_HEADER_UNIX_FDS (n_fds m1)))
      as (A & B & C & D & [more2 E]).
    exists (with_field m1 (uint32_field SD_BUS_MESSAGE_HEADER_UNIX_FDS (n_fds m1))).
    split; [reflexivity|]. split; [exact Hs2|].
    split; [rewrite A; exact Hb1|]. split; [rewrite B; exact Hr1|].
    split.
    { unfold with_field. cbn [header set_header set_fields]. rewrite Hh1. reflexivity. }
    split; [exists (more1 ++ more2); rewrite E, Hm1, app_assoc; reflexivity|].
    intros _ _ Hn. apply Z.ltb_lt in Hfds. lia.
  - cbn in Hrun. inversion Hrun; subst m'. clear Hrun.
    exists m1. split; [reflexivity|]. split; [exact Hs1|].
    split; [exact Hb1|]. split; [exact Hr1|]. split; [exact Hh1|].
    split; [exists more1; exact Hm1|].
    intros Hnone Hsig _. rewrite (Hsame Hsig). exact Hnone.
Qed.

Lemma iovec_total (l : list (list Z)) (t : Z) :
  0 <= t -> t + Zlength (concat l) < 2 ^ 64 ->
  fold_left (fun t v => size_t (t + Zlength v)) l t = t + Zlength (concat l).
Proof.
  revert t. induction l as [|v l IH]; intros t Ht Hb; cbn [fold_left concat] in *.
  - change (Zlength (@nil Z)) with 0. lia.
  - rewrite Zlength_app in Hb. pose proof (Zlength_nonneg v). pose proof (Zlength_nonneg (concat l)).
    rewrite size_t_small by lia. rewrite IH by lia. rewrite Zlength_app. lia.
Qed.

Lemma firstn_whole (l : list Z) (n : Z) : Zlength l = n -> firstn (Z.to_nat n) l = l.
Proof. intros <-. rewrite to_nat_Zlength. apply firstn_all. Qed.

(** The vector of a sealed message in step is its wire image, cut in
    pieces. *)
Lemma setup_iovec_image (m : sd_bus_message) :
  in_step m -> concat (iovec (setup_iovec m)) = wire_image m.
Proof.
  intros ([Hf Hfm] & Hb & Hbm). unfold setup_iovec, wire_image.
  cbn [iovec set_iovec header fields body].
  pose proof (Zlength_nonneg (region_bytes (fields m))) as Hfn.
  unfold UINT32_MAX in *.
  rewrite ALIGN_TO_8_padding by lia.
  rewrite !concat_app. cbn [concat]. rewrite app_nil_r.
  f_equal.
  destruct (fields m) as [f|] eqn:Ef; cbn [region_bytes] in *.
  - rewrite (firstn_whole f) by exact Hf.
    destruct (fields_size (header m) mod 8 =? 0); cbn [negb concat app repeat Z.to_nat].
    + rewrite app_nil_r. f_equal.
      destruct (body m) as [b|]; cbn [region_bytes concat] in *;
        [rewrite app_nil_r; apply firstn_whole; exact Hb|reflexivity].
    + rewrite app_nil_r. rewrite <- app_assoc. f_equal. f_equal.
      destruct (body m) as [b|]; cbn [region_bytes concat] in *;
        [rewrite app_nil_r; apply firstn_whole; exact Hb|reflexivity].
  - change (Zlength (@nil Z)) with 0 in Hf. rewrite <- Hf. cbn.
    destruct (body m) as [b|]; cbn [region_bytes concat] in *;
      [rewrite app_nil_r; apply firstn_whole; exact Hb|reflexivity].
Qed.

Lemma wire_image_length (m : sd_bus_message) :
  in_step m ->
  Zlength (wire_image m)
  = 16 + ALIGN_TO (fields_size (header m)) 8 + body_size (header m).
Proof.
  intros ([Hf Hfm] & Hb & Hbm). unfold wire_image.
  pose proof (Zlength_nonneg (region_bytes (fields m))) as Hfn.
  unfold UINT32_MAX in *.
  destruct (ALIGN_TO_spec (fields_size (header m)) 8) as [Hal _]; try lia.
  rewrite !Zlength_app, header_bytes_length, Zlength_repeat. lia.
Qed.

Lemma sealed_in_step (m m' : sd_bus_message) (serial_ : Z) (h h' : heap) :
  bus_message_seal m serial_ h = Returns ((0, m'), h') -> in_step m -> in_step m'.
Proof.
  intros Hseal (Hf & Hb & Hbm).
  destruct (seal_shape _ _ _ _ _ Hseal Hf) as (m2 & -> & Hf2 & Hb2 & _ & Hh2 & _).
  unfold in_step, fields_in_step, setup_iovec.
  cbn [header fields body set_iovec set_sealed set_header set_serial fields_size body_size].
  rewrite Hb2. rewrite Hh2. cbn [body_size set_fields_size].
  repeat split; try assumption; apply Hf2.
Qed.

(** [get_blob] on a message that has been sealed with its regions in
    step: it fails with -ENOMEM when the allocator does, and otherwise
    hands out the wire image of the message, which is 16 bytes of header,
    the fields padded to a multiple of 8, and the body. *)
Theorem get_blob_is_the_wire_image
    (m m' : sd_bus_message) (serial_ : Z) (h h' h2 : heap) :
  bus_message_seal m serial_ h = Returns ((0, m'), h') -> in_step m ->
  bus_message_get_blob m' h2
  = Returns (match hd (AllocOk 0) h2 with
             | AllocFails => (- ENOMEM, None)
             | AllocOk _ => (0, Some (wire_image m', Zlength (wire_image m')))
             end, skipn 1 h2)
  /\ Zlength (wire_image m')
     = 16 + ALIGN_TO (fields_size (header m')) 8 + body_size (header m')
  /\ firstn 16 (wire_image m') = header_bytes (header m').
Proof.
  intros Hseal Hstep.
  pose proof (sealed_in_step _ _ _ _ _ Hseal Hstep) as Hstep'.
  pose proof (wire_image_length _ Hstep') as Hlen.
  assert (Hio : concat (iovec m') = wire_image m').
  { destruct Hstep as (Hf & _).
    destruct (seal_shape _ _ _ _ _ Hseal Hf) as (m2 & Hm' & _).
    rewrite Hm' in *.
    exact (setup_iovec_image
             (set_sealed true (set_header (set_serial (u32 serial_) (header m2)) m2))
             Hstep'). }
  split; [|split; [exact Hlen|]].
  - unfold bus_message_get_blob, bind, ret, alloc.
    rewrite iovec_total; [rewrite Hio|lia|rewrite Hio].
    + destruct h2 as [|[|junk] h3]; reflexivity.
    + destruct Hstep' as ([A' A] & _ & B). unfold UINT32_MAX in *.
      pose proof (Zlength_nonneg (region_bytes (fields m'))).
      destruct (ALIGN_TO_spec (fields_size (header m')) 8) as [Hal _]; lia.
  - unfold wire_image.
    assert (Hl : List.length (header_bytes (header m')) = 16%nat).
    { pose proof (header_bytes_length (header m')) as Hz.
      rewrite Zlength_correct in Hz. lia. }
    rewrite <- Hl. apply firstn_app_exact.
Qed.
End Blob.

(** The signal of scenario 1, sealed: 92 bytes. *)
Lemma get_blob_is_the_wire_image_witness :
  @bus_message_get_blob Run.sealed_su []
  = Returns ((0, Some (@wire_image little_endian_host Run.sealed_su, 92)), [])
  /\ Zlength (@wire_image little_endian_host Run.sealed_su) = 92.
Proof.
  destruct (@get_blob_is_the_wire_image little_endian_host
              Run.signal_su Run.sealed_su 1 [] [] []) as (Hrun & Hlen & _).
  - reflexivity.
  - repeat split; vm_compute; try reflexivity; discriminate.
  - assert (H92 : Zlength (@wire_image little_endian_host Run.sealed_su) = 92)
      by (vm_compute; reflexivity).
    split; [|exact H92]. rewrite Hrun. cbn [hd skipn]. rewrite H92. reflexivity.
Defined.

(** ** What the parser leaves alone *)

Lemma set_signature_self (c : bus_container) : set_signature (signature c) c = c.
Proof. destruct c; reflexivity. Qed.

Lemma same_but_quick_access_refl (m : sd_bus_message) : same_but_quick_access m m.
Proof. unfold same_but_quick_access. repeat split. apply set_signature_self. Qed.

Lemma same_but_quick_access_trans (a b c : sd_bus_message) :
  same_but_quick_access a b -> same_but_quick_access b c -> same_but_quick_access a c.
Proof.
  unfold same_but_quick_access.
  intros (A1 & A2 & A3 & A4 & A5 & A6 & A7 & A8 & A9 & A10 & A11 & A12 & A13 & A14 & A15)
         (B1 & B2 & B3 & B4 & B5 & B6 & B7 & B8 & B9 & B10 & B11 & B12 & B13 & B14 & B15).
  repeat split; try congruence.
  rewrite <- A15, <- B15. destruct (root_container c); reflexivity.
Qed.

Section ParserFrame.
Context {host : Host} {ext : Collaborators}.

Lemma parse_field_frame (m m' : sd_bus_message) (ri ri' r : Z) (h h' : heap) :
  parse_field m ri h = Returns ((r, ri', m'), h') -> same_but_quick_access m m'.
Proof.
  assert (Hq : forall q setter,
             In setter [set_path; set_interface; set_member; set_error_name;
                        set_destination; set_sender] ->
             same_but_quick_access m (assign (Some setter) q m)).
  { intros q setter Hin. cbn [In] in Hin.
    destruct Hin as [<-|[<-|[<-|[<-|[<-|[<-|[]]]]]]];
      unfold same_but_quick_access; repeat split;
      exact (set_signature_self (root_container m)). }
  assert (Hstr : forall validate setter ri0 h0 r0 ri1 m1 h1,
             In setter [set_path; set_interface; set_member; set_error_name;
                        set_destination; set_sender] ->
             ('(r, ri, q) <- lift (message_peek_field_string m (Some validate) ri0) ;;
              if r <? 0 then ret (r, ri, m) else ret (r, ri, assign (Some setter) q m)) h0
             = Returns ((r0, ri1, m1), h1) ->
             same_but_quick_access m m1).
  { intros validate setter ri0 h0 r0 ri1 m1 h1 Hin Hrun.
    unfold bind, lift in Hrun.
    destruct (message_peek_field_string m (Some validate) ri0) as [[[r1 ri2] q]|];
      [|discriminate].
    destruct (r1 <? 0); inversion Hrun; subst.
    - apply same_but_quick_access_refl.
    - apply Hq. exact Hin. }
  unfold parse_field. intros Hrun.
  destruct (message_peek_fields m ri 8 1) as [[r0 ri0] header_].
  destruct (r0 <? 0).
  { inversion Hrun. apply same_but_quick_access_refl. }
  unfold bind at 1 in Hrun. unfold lift at 1 in Hrun.
  destruct (message_peek_field_signature m ri0) as [[[r1 ri1] sig_]|]; [|discriminate].
  destruct (r1 <? 0).
  { inversion Hrun. apply same_but_quick_access_refl. }
  cbv zeta in Hrun.
  repeat match type of Hrun with
         | (if ?c then _ else _) _ = _ => destruct c
         end;
    try (inversion Hrun; apply same_but_quick_access_refl; fail);
    try (eapply Hstr; [|exact Hrun]; cbn [In]; tauto).
  - (* the signature of the body *)
    unfold bind, lift in Hrun.
    destruct (message_peek_field_signature m ri1) as [[[r2 ri2] s]|]; [|discriminate].
    destruct (r2 <? 0); [inversion Hrun; apply same_but_quick_access_refl|].
    unfold alloc in Hrun. destruct h as [|[|junk] h0]; inversion Hrun; subst;
      try apply same_but_quick_access_refl;
      unfold same_but_quick_access; repeat split;
      try exact (set_signature_self (root_container m));
      cbn; destruct (root_container m); reflexivity.
  - (* the reply serial *)
    destruct (message_peek_field_uint32 m ri1) as [[r2 ri2] x].
    destruct (r2 <? 0); [inversion Hrun; apply same_but_quick_access_refl|].
    cbv zeta in Hrun.
    destruct (_ =? 0) in Hrun; inversion Hrun; subst;
      unfold same_but_quick_access; repeat split;
      try exact (set_signature_self (root_container m));
      cbn; destruct (root_container m); reflexivity.
  - (* a field the parser does not know *)
    unfold bind, lift in Hrun.
    destruct (message_skip_fields _ _ _ _ _ _ _) as [[r2 ri2]|]; [|discriminate].
    inversion Hrun. apply same_but_quick_access_refl.
Qed.

Lemma parse_fields_loop_frame (fuel : nat) (m m' : sd_bus_message) (ri r : Z) (h h' : heap) :
  parse_fields_loop fuel m ri h = Returns ((r, m'), h') -> same_but_quick_access m m'.
Proof.
  revert m ri h. induction fuel as [|fuel IH]; intros m ri h Hrun; cbn [parse_fields_loop] in Hrun.
  - destruct (ri <? BUS_MESSAGE_FIELDS_SIZE m); [discriminate|].
    inversion Hrun. apply same_but_quick_access_refl.
  - destruct (ri <? BUS_MESSAGE_FIELDS_SIZE m).
    + unfold bind in Hrun.
      destruct (parse_field m ri h) as [[[[r1 ri1] m1] h1]|] eqn:E; [|discriminate].
      apply parse_field_frame in E.
      destruct (r1 <? 0).
      * inversion Hrun; subst. exact E.
      * eapply same_but_quick_access_trans; [exact E|]. eapply IH. exact Hrun.
    + inversion Hrun. apply same_but_quick_access_refl.
Qed.
End ParserFrame.
(** ** Reading moves the cursor and nothing else *)

Ltac cursor_only :=
  unfold same_but_cursor, rewound, message_set_container, message_get_container,
    advance, n_containers;
  cbn;
  repeat match goal with
         | |- context [if ?b then _ else _] => destruct b; cbn
         end;
  reflexivity.

Lemma same_but_cursor_refl (m : sd_bus_message) : same_but_cursor m m.
Proof. reflexivity. Qed.

Lemma same_but_cursor_trans (a b c : sd_bus_message) :
  same_but_cursor a b -> same_but_cursor b c -> same_but_cursor a c.
Proof. unfold same_but_cursor. congruence. Qed.

Lemma moved_same_but_cursor (m : sd_bus_message) (i x : Z) :
  same_but_cursor m
    (message_set_container (set_rindex x m) (advance (message_get_container m) i)).
Proof. cursor_only. Qed.

Section ReaderFrame.
Context {host : Host} {ext : Collaborators}.

Lemma read_done_same_but_cursor
    (m m' : sd_bus_message) (x : Z) (v : value) (r : Z) (o : option value) :
  read_done (set_rindex x m) v = Returns (r, m', o) -> same_but_cursor m m'.
Proof.
  unfold read_done. intros H. inversion H; subst; clear H.
  exact (moved_same_but_cursor m _ x).
Qed.

Lemma read_string_same_but_cursor
    (m m' : sd_bus_message) (width : Z) (validate : list Z -> Z -> Z -> outcome bool)
    (r : Z) (o : option value) :
  read_string m width validate = Returns (r, m', o) -> same_but_cursor m m'.
Proof.
  unfold read_string.
  destruct (message_peek_body m (rindex m) width width) as [[r1 ri1] q1].
  destruct (r1 <=? 0); [intros H; inversion H; apply same_but_cursor_refl|].
  destruct (message_peek_body m ri1 1 _) as [[r2 ri2] q2].
  destruct (r2 <? 0); [intros H; inversion H; apply same_but_cursor_refl|].
  destruct (r2 =? 0); [intros H; inversion H; apply same_but_cursor_refl|].
  destruct (validate _ _ _) as [[|]|]; try discriminate.
  - apply read_done_same_but_cursor.
  - intros H; inversion H; apply same_but_cursor_refl.
Qed.

Lemma read_basic_same_but_cursor (m m' : sd_bus_message) (t r : Z) (o : option value) :
  sd_bus_message_read_basic m t = Returns (r, m', o) -> same_but_cursor m m'.
Proof.
  unfold sd_bus_message_read_basic.
  repeat match goal with
         | |- (if ?b then _ else _) = _ -> _ => destruct b
         | |- context [message_peek_body ?a ?b ?c ?d] =>
             destruct (message_peek_body a b c d) as [[? ?] ?]
         | |- Returns (_, m, _) = _ -> _ => intros H; inversion H; apply same_but_cursor_refl
         | |- read_string _ _ _ = _ -> _ => apply read_string_same_but_cursor
         | |- read_done _ _ = _ -> _ => apply read_done_same_but_cursor
         | |- Undefined = _ -> _ => discriminate
         end.
Qed.

Lemma enter_bracketed_same_but_cursor
    (m m' : sd_bus_message) (contents : cstring) (o c : Z) (r : Z) (a : option Z) :
  enter_bracketed m (message_get_container m) contents o c = Returns (r, m', a) ->
  same_but_cursor m m'.
Proof.
  unfold enter_bracketed.
  destruct (negb (has_char _)); [intros H; inversion H; apply same_but_cursor_refl|].
  destruct (negb _); [intros H; inversion H; apply same_but_cursor_refl|].
  destruct (message_peek_body m (rindex m) 8 0) as [[r1 ri1] q1].
  destruct (r1 <=? 0); intros H; inversion H; subst; clear H.
  - apply same_but_cursor_refl.
  - exact (moved_same_but_cursor m _ ri1).
Qed.

Lemma enter_kind_same_but_cursor
    (m m' : sd_bus_message) (t : Z) (contents : cstring) (r : Z) (a : option Z) :
  enter_kind m (message_get_container m) t contents = Returns (r, m', a) ->
  same_but_cursor m m'.
Proof.
  unfold enter_kind, bus_message_enter_array, bus_message_enter_variant,
    bus_message_enter_struct, bus_message_enter_dict_entry.
  repeat match goal with
         | |- (if ?b then _ else _) = _ -> _ => destruct b
         | |- context [message_peek_body ?a ?b ?c ?d] =>
             destruct (message_peek_body a b c d) as [[? ?] ?]
         | |- match validate_signature ?a ?b ?c with _ => _ end = _ -> _ =>
             destruct (validate_signature a b c) as [[|]|]
         | |- Returns (_, m, _) = _ -> _ => intros H; inversion H; apply same_but_cursor_refl
         | |- enter_bracketed _ _ _ _ _ = _ -> _ => apply enter_bracketed_same_but_cursor
         | |- Stops _ = _ -> _ => discriminate
         | |- Returns (_, set_rindex _ _, _) = _ -> _ =>
             intros H; inversion H; subst; clear H; cursor_only
         end.
Qed.

Lemma enter_container_same_but_cursor
    (m m' : sd_bus_message) (t : Z) (contents : option cstring) (h h' : heap) (r : Z) :
  sd_bus_message_enter_container m t contents h = Returns ((r, m'), h') ->
  same_but_cursor m m'.
Proof.
  unfold sd_bus_message_enter_container, ret.
  destruct (negb (sealed m)); [intros H; inversion H; apply same_but_cursor_refl|].
  destruct contents as [contents|]; [|intros H; inversion H; apply same_but_cursor_refl].
  destruct (_ <=? _); [intros H; inversion H; apply same_but_cursor_refl|].
  unfold bind at 1. destruct (alloc h) as [[[|j1] h1]|]; try discriminate;
    [intros H; inversion H; apply same_but_cursor_refl|].
  destruct (negb (has_char _)); [intros H; inversion H; apply same_but_cursor_refl|].
  unfold bind at 1. destruct (alloc h1) as [[[|j2] h2]|]; try discriminate;
    [intros H; inversion H; apply same_but_cursor_refl|].
  unfold bind, lift.
  destruct (enter_kind m (message_get_container m) t contents) as [[[r1 m1] a]|] eqn:E;
    [|discriminate].
  apply enter_kind_same_but_cursor in E.
  destruct (r1 <=? 0); intros H; inversion H; subst; exact E.
Qed.

Lemma exit_container_same_but_cursor (m m' : sd_bus_message) (r : Z) :
  sd_bus_message_exit_container m = Returns (r, m') -> same_but_cursor m m'.
Proof.
  unfold sd_bus_message_exit_container.
  repeat match goal with
         | |- (if ?b then _ else _) = _ -> _ => destruct b
         | |- match ?o with Some _ => _ | None => _ end = _ -> _ => destruct o
         | |- Returns _ = _ -> _ => intros H; inversion H; reflexivity
         | |- Undefined = _ -> _ => discriminate
         end.
Qed.

Lemma rewind_same_but_cursor (m m' : sd_bus_message) (complete : bool) (r : Z) :
  sd_bus_message_rewind m complete = (r, m') -> same_but_cursor m m'.
Proof.
  unfold sd_bus_message_rewind.
  destruct (negb (sealed m)); [intros H; inversion H; reflexivity|].
  destruct complete; intros H; inversion H; subst; clear H.
  - reflexivity.
  - cursor_only.
Qed.

Lemma rewind_complete (m : sd_bus_message) :
  sealed m = true ->
  sd_bus_message_rewind m true
  = ((if isempty (signature (root_container m)) then 0 else 1), rewound m).
Proof.
  intros Hs. unfold sd_bus_message_rewind. rewrite Hs. reflexivity.
Qed.

(** Whatever calls of the reader have been made on a sealed message
    ([read_basic], [enter_container], [exit_container], [rewind], with any
    arguments and any results), the message differs from the one before
    them at most in its read cursor, and a complete [rewind] puts it into
    the state, and gives the answer, that a complete [rewind] before them
    would have: read index 0, no container entered, the root signature at
    its first type. *)
Theorem rewind_undoes_reading (m m' : sd_bus_message) :
  reader_calls m m' -> sealed m = true ->
  same_but_cursor m m'
  /\ sd_bus_message_rewind m' true = sd_bus_message_rewind m true
  /\ snd (sd_bus_message_rewind m' true) = rewound m.
Proof.
  intros Hcalls Hs.
  assert (Hsame : same_but_cursor m m').
  { clear Hs. induction Hcalls as [m|m m1 m' Hcall _ IH].
    - apply same_but_cursor_refl.
    - apply same_but_cursor_trans with (b := m1); [|exact IH].
      destruct Hcall as [t r v H|t c h h' r H|r H|c r H].
      + exact (read_basic_same_but_cursor _ _ _ _ _ H).
      + exact (enter_container_same_but_cursor _ _ _ _ _ _ _ H).
      + exact (exit_container_same_but_cursor _ _ _ H).
      + exact (rewind_same_but_cursor _ _ _ _ H). }
  pose proof Hsame as He. unfold same_but_cursor in He.
  assert (Hs' : sealed m' = true).
  { rewrite <- Hs. exact (f_equal sealed He). }
  assert (Hsig : signature (root_container m') = signature (root_container m)).
  { exact (f_equal (fun x => signature (root_container x)) He). }
  split; [exact Hsame|].
  rewrite (rewind_complete m' Hs'), (rewind_complete m Hs), Hsig, He.
  split; reflexivity.
Qed.
End ReaderFrame.

(** The signal of scenario 1, sealed and rewound, after its string has been
    read: the read index stands behind the string, and a complete rewind
    gives what it gives on the message as it was sealed. *)
Lemma rewind_undoes_reading_witness :
  rindex Run.sealed_su_read = 7
  /\ @sd_bus_message_rewind Run.sealed_su_read true = @sd_bus_message_rewind Run.sealed_su true.
Proof.
  split; [reflexivity|].
  refine (proj1 (proj2 (@rewind_undoes_reading little_endian_host reference_collaborators
                          Run.sealed_su Run.sealed_su_read _ eq_refl))).
  eapply calls_more;
    [eapply call_rewind with (complete := true); vm_compute; reflexivity|].
  eapply calls_more; [|apply calls_none].
  eapply call_read_basic with (t := SD_BUS_TYPE_STRING). vm_compute. reflexivity.
Defined.

(** ** A message received *)

Section Received.
Context {host : Host} {ext : Collaborators}.

Lemma read_s_frame (m m' : sd_bus_message) (r : Z) :
  sd_bus_message_read_s m (Some set_error_message) = Returns (r, m') ->
  exists m2, same_but_cursor m m2
             /\ (m' = m2 \/ exists q, m' = assign (Some set_error_message) q m2).
Proof.
  unfold sd_bus_message_read_s.
  destruct (negb (sealed m)).
  { intros H; inversion H; subst. exists m'. split; [apply same_but_cursor_refl|now left]. }
  destruct (sd_bus_message_read_basic m SD_BUS_TYPE_STRING) as [[[r1 m1] v]|] eqn:E;
    [|discriminate].
  apply read_basic_same_but_cursor in E.
  destruct (r1 <? 0);
    [intros H; inversion H; subst; exists m'; split; [exact E|now left]|].
  destruct (r1 =? 0);
    [intros H; inversion H; subst; exists m'; split; [exact E|now left]|].
  intros H. inversion H; subst; clear H.
  exists m1. split; [exact E|].
  destruct v as [[v|q]|]; [now left| |now left].
  right. exists q. reflexivity.
Qed.

Lemma message_parse_fields_frame (m0 m : sd_bus_message) (r : Z) (h h' : heap) :
  message_parse_fields m0 h = Returns ((r, m), h') -> 0 <= r ->
  exists m1 m2,
    same_but_quick_access m0 m1 /\ same_but_cursor m1 m2
    /\ (m = m2 \/ exists q, m = assign (Some set_error_message) q m2)
    /\ (type (header m0) <> SD_BUS_MESSAGE_TYPE_METHOD_ERROR -> m = m1).
Proof.
  unfold message_parse_fields, bind.
  destruct (parse_fields_loop _ m0 0 h) as [[[r1 m1] h1]|] eqn:E; [|discriminate].
  apply parse_fields_loop_frame in E.
  assert (Hh : header m1 = header m0) by (destruct E as (Hh & _); exact Hh).
  destruct (r1 <? 0) eqn:Hr1.
  { unfold ret. intros H. inversion H; subst. apply Z.ltb_lt in Hr1. lia. }
  destruct (negb (body_matches_signature m1));
    [intros H; inversion H; subst; unfold EBADMSG; lia|].
  destruct (negb (type_requirements m1));
    [intros H; inversion H; subst; unfold EBADMSG; lia|].
  destruct (type (header m1) =? SD_BUS_MESSAGE_TYPE_METHOD_ERROR) eqn:Ht.
  - unfold lift.
    destruct (sd_bus_message_read_s m1 (Some set_error_message)) as [[r2 m3]|] eqn:Es;
      [|discriminate].
    unfold ret. intros H _. inversion H; subst; clear H.
    destruct (read_s_frame _ _ _ Es) as (m2 & Hc & Hm).
    exists m1, m2. split; [exact E|]. split; [exact Hc|]. split; [exact Hm|].
    intros Hne. apply Z.eqb_eq in Ht. congruence.
  - unfold ret. intros H _. inversion H; subst; clear H.
    exists m, m. split; [exact E|]. split; [apply same_but_cursor_refl|].
    split; [now left|reflexivity].
Qed.

(** What everything after the enumeration of the fields leaves alone. *)
Lemma content_after_parse (A : Type) (get : sd_bus_message -> A) (m1 m2 m : sd_bus_message) :
  (forall x, get (rewound x) = get x) ->
  (forall q x, get (assign (Some set_error_message) q x) = get x) ->
  same_but_cursor m1 m2 ->
  (m = m2 \/ exists q, m = assign (Some set_error_message) q m2) ->
  get m = get m1.
Proof.
  intros Hrew Hass Hc Hm.
  assert (H2 : get m2 = get m1).
  { rewrite <- (Hrew m2), <- (Hrew m1). exact (f_equal get Hc). }
  destruct Hm as [->|[q ->]]; [exact H2|]. rewrite Hass. exact H2.
Qed.

(** A message that [bus_message_from_malloc] delivers is sealed and lies
    over the buffer it was made from: its header is the first 16 bytes, its
    fields and its body are the buffer from 16 and from behind the padded
    fields, its one I/O vector is the [length] bytes, and [length] is what
    the header announces. It carries the label, and the credentials when
    they were given: [get_uid] and [get_gid] answer with them and fail with
    -ENOENT without, [get_pid] answers with a pid above 0 and fails with
    -ENOENT otherwise. It always has a serial. Unless it is a METHOD_ERROR
    (whose first string the parser reads as the error message), its read
    cursor is at the start of the body. *)
Theorem from_malloc_delivers_the_buffer_and_the_credentials
    (buffer : list Z) (length_ : Z) (ucred_ : option ucred) (label_ : option cstring)
    (h h' : heap) (m : sd_bus_message) :
  bus_message_from_malloc buffer length_ ucred_ label_ h = Returns ((0, Some m), h') ->
  sealed m = true
  /\ header m = header_at buffer
  /\ fields m = Some (skipn 16 buffer)
  /\ body m = Some (skipn (Z.to_nat (16 + ALIGN_TO (BUS_MESSAGE_FIELDS_SIZE m) 8)) buffer)
  /\ iovec m = [firstn (Z.to_nat length_) buffer]
  /\ length_ = size_t (16 + ALIGN_TO (BUS_MESSAGE_FIELDS_SIZE m) 8 + BUS_MESSAGE_BODY_SIZE m)
  /\ sd_bus_message_get_label m = label_
  /\ sd_bus_message_get_uid m
     = match ucred_ with Some u => (0, Some (ucred_uid u)) | None => (- ENOENT, None) end
  /\ sd_bus_message_get_gid m
     = match ucred_ with Some u => (0, Some (ucred_gid u)) | None => (- ENOENT, None) end
  /\ sd_bus_message_get_pid m
     = match ucred_ with
       | Some u => if ucred_pid u <=? 0 then (- ENOENT, None) else (0, Some (ucred_pid u))
       | None => (- ENOENT, None)
       end
  /\ sd_bus_message_get_serial m = (0, Some (BUS_MESSAGE_SERIAL m))
  /\ (type (header m) <> SD_BUS_MESSAGE_TYPE_METHOD_ERROR ->
      rindex m = 0 /\ containers m = [] /\ index (root_container m) = 0).
Proof.
  unfold bus_message_from_malloc, ret.
  destruct (length_ <? sizeof_bus_header); [intros H; inversion H|].
  destruct (negb (version (header_at buffer) =? 1)); [intros H; inversion H|].
  destruct (serial (header_at buffer) =? 0) eqn:Hserial; [intros H; inversion H|].
  destruct (type (header_at buffer) =? _SD_BUS_MESSAGE_TYPE_INVALID);
    [intros H; inversion H|].
  cbv zeta.
  set (sizes := if endian (header_at buffer) =? SD_BUS_NATIVE_ENDIAN then _ else _).
  destruct sizes as [[fs bs]|] eqn:Hsizes; [|intros H; inversion H].
  destruct (negb (length_ =? _)) eqn:Hlen; [intros H; inversion H|].
  apply negb_false_iff, Z.eqb_eq in Hlen.
  unfold bind at 1. destruct (alloc h) as [[[|junk] h1]|]; try discriminate;
    try (intros H; inversion H; fail).
  set (m0 := mk_message _ _ _ _ _ _ _ _ _ _ _ _ _ _ _ _ _ _ _ _ _ _ _).
  unfold bind.
  destruct (message_parse_fields m0 h1) as [[[r mp] h2]|] eqn:E; [|discriminate].
  destruct (r <? 0) eqn:Hr; intros H; [inversion H|].
  injection H as Em Eh. subst mp h2.
  apply Z.ltb_ge in Hr.
  destruct (message_parse_fields_frame _ _ _ _ _ E Hr) as (m1 & m2 & Hq & Hc & Hm & Hstart).
  destruct Hq as (Q1 & Q2 & Q3 & Q4 & Q5 & Q6 & Q7 & Q8 & Q9 & Q10 & Q11 & Q12 & Q13 & Q14 & Q15).
  assert (Hheader : header m = header_at buffer).
  { rewrite (content_after_parse _ header m1 m2 m) by (try assumption; reflexivity).
    exact Q1. }
  assert (Hfs : BUS_MESSAGE_FIELDS_SIZE m = fs /\ BUS_MESSAGE_BODY_SIZE m = bs).
  { unfold BUS_MESSAGE_FIELDS_SIZE, BUS_MESSAGE_BODY_SIZE, BUS_MESSAGE_BSWAP32.
    rewrite Hheader. subst sizes.
    destruct (endian (header_at buffer) =? SD_BUS_NATIVE_ENDIAN).
    - inversion Hsizes. split; reflexivity.
    - destruct (endian (header_at buffer) =? SD_BUS_REVERSE_ENDIAN); [|discriminate].
      inversion Hsizes. split; reflexivity. }
  destruct Hfs as [Hfs Hbs].
  split. { rewrite (content_after_parse _ sealed m1 m2 m) by (try assumption; reflexivity).
           exact Q4. }
  split; [exact Hheader|].
  split. { rewrite (content_after_parse _ fields m1 m2 m) by (try assumption; reflexivity).
           exact Q2. }
  split. { rewrite (content_after_parse _ body m1 m2 m) by (try assumption; reflexivity).
           rewrite Q3, Hfs. reflexivity. }
  split. { rewrite (content_after_parse _ iovec m1 m2 m) by (try assumption; reflexivity).
           exact Q13. }
  split. { rewrite Hfs, Hbs. exact Hlen. }
  split. { unfold sd_bus_message_get_label.
           rewrite (content_after_parse _ label m1 m2 m) by (try assumption; reflexivity).
           exact Q10. }
  split. { unfold sd_bus_message_get_uid.
           rewrite (content_after_parse _ uid_valid m1 m2 m) by (try assumption; reflexivity).
           rewrite (content_after_parse _ uid m1 m2 m) by (try assumption; reflexivity).
           rewrite Q5, Q7. destruct ucred_; reflexivity. }
  split. { unfold sd_bus_message_get_gid.
           rewrite (content_after_parse _ gid_valid m1 m2 m) by (try assumption; reflexivity).
           rewrite (content_after_parse _ gid m1 m2 m) by (try assumption; reflexivity).
           rewrite Q6, Q8. destruct ucred_; reflexivity. }
  split. { unfold sd_bus_message_get_pid.
           rewrite (content_after_parse _ pid m1 m2 m) by (try assumption; reflexivity).
           rewrite Q9. destruct ucred_; reflexivity. }
  split. { unfold sd_bus_message_get_serial. rewrite Hheader, Hserial. reflexivity. }
  intros Hne. rewrite Hheader in Hne.
  rewrite (Hstart Hne).
  split; [exact Q12|]. split; [exact Q11|].
  exact (f_equal index Q15).
Qed.
End Received.

(** The call of scenario 2 received with the credentials of its sender. *)
Lemma from_malloc_delivers_the_buffer_and_the_credentials_witness :
  sealed Run.received_hello = true
  /\ sd_bus_message_get_uid Run.received_hello = (0, Some 1000)
  /\ sd_bus_message_get_pid Run.received_hello = (0, Some 42)
  /\ @sd_bus_message_get_serial little_endian_host Run.received_hello = (0, Some 1).
Proof.
  assert (E : @bus_message_from_malloc little_endian_host reference_collaborators
                Run.hello_blob (Zlength Run.hello_blob)
                (Some (mk_ucred 42 1000 100)) (Some (cstr "lbl")) []
              = Returns ((0, Some Run.received_hello), [])) by (vm_compute; reflexivity).
  destruct (@from_malloc_delivers_the_buffer_and_the_credentials
              little_endian_host reference_collaborators _ _ _ _ _ _ _ E)
    as (Hs & _ & _ & _ & _ & _ & _ & Hu & _ & Hp & Hser & _).
  split; [exact Hs|]. split; [exact Hu|]. split; [exact Hp|]. exact Hser.
Defined.

(** ** From the constructor to the receiver *)

Lemma validate_with_middle
    {ext : Collaborators} (check : cstring -> bool) (P s rest : list Z) :
  Forall (fun c => c <> 0) s -> check s = true ->
  validate_with check (P ++ s ++ 0 :: rest) (Zlength P) (Zlength s) = Returns true.
Proof.
  intros Hs Hcheck. unfold validate_with, validate_nul.
  rewrite slice_middle, (no_nul_inside _ Hs).
  rewrite !Zlength_app, Zlength_cons.
  pose proof (Zlength_nonneg s) as Hn. pose proof (Zlength_nonneg rest) as Hr.
  destruct (_ <=? _) eqn:Hle; [apply Z.leb_le in Hle; lia|].
  rewrite byte_at_app_r by lia.
  replace (Zlength P + Zlength s - Zlength P) with (Zlength s) by lia.
  rewrite byte_at_app_r by lia. rewrite Z.sub_diag. cbn.
  rewrite cstr_at_middle by exact Hs. rewrite Hcheck. reflexivity.
Qed.

Lemma peek_inside (p : list Z) (sz r al n : Z) :
  0 <= r -> 0 < al -> 0 <= n -> r + al + n <= 2 ^ 64 -> r mod al = 0 -> r + n <= sz ->
  buffer_peek p sz r al n = (1, r + n, r).
Proof.
  intros Hr Hal Hn Hno Hm Hfit.
  destruct (buffer_peek_cases p sz r al n Hr Hal Hn Hno) as (_ & Hok & _).
  rewrite (ALIGN_TO_aligned r al) in Hok by (try assumption; lia).
  apply Hok. split; [exact Hfit|]. intros k Hk. lia.
Qed.

Section WireRoundTrip.
Context {host : Host} {ext : Collaborators}.

(** One turn of the parser on a header field that holds a string, laid out
    as the writer lays it out, at the 8-aligned offset [a] behind the read
    index [ri]. *)
Lemma parse_string_field
    (m : sd_bus_message) (ri a code ty : Z) (s : cstring)
    (validate : cstring -> bool) (setter : option Z -> sd_bus_message -> sd_bus_message)
    (P R : list Z) (h : heap) :
  region_bytes (fields m) = P ++ string_field code ty s ++ R ->
  Zlength P = a -> a = ALIGN_TO ri 8 -> 0 <= ri <= a ->
  (forall k, ri <= k < a -> byte_at (region_bytes (fields m)) k = 0) ->
  endian (header m) = SD_BUS_NATIVE_ENDIAN ->
  a + 9 + strlen s <= fields_size (header m) <= UINT32_MAX ->
  Forall (fun c => c <> 0) s ->
  signature_is_valid [ty] true = true -> validate s = true ->
  In (code, ty, validate, setter)
     [ (SD_BUS_MESSAGE_HEADER_PATH, SD_BUS_TYPE_OBJECT_PATH, object_path_is_valid, set_path);
       (SD_BUS_MESSAGE_HEADER_INTERFACE, SD_BUS_TYPE_STRING, interface_name_is_valid,
        set_interface);
       (SD_BUS_MESSAGE_HEADER_MEMBER, SD_BUS_TYPE_STRING, member_name_is_valid, set_member);
       (SD_BUS_MESSAGE_HEADER_ERROR_NAME, SD_BUS_TYPE_STRING, error_name_is_valid,
        set_error_name);
       (SD_BUS_MESSAGE_HEADER_DESTINATION, SD_BUS_TYPE_STRING, service_name_is_valid,
        set_destination);
       (SD_BUS_MESSAGE_HEADER_SENDER, SD_BUS_TYPE_STRING, service_name_is_valid,
        set_sender) ] ->
  parse_field m ri h = Returns ((0, a + 9 + strlen s, setter (Some (a + 8)) m), h).
Proof.
  intros HF HP Ha Hri Hpad Hend Hfit Hs Hsig Hval Hin.
  pose proof (Zlength_nonneg s) as Hn. pose proof (Zlength_nonneg P) as HPn.
  unfold strlen, UINT32_MAX in *.
  set (F := region_bytes (fields m)) in *.
  assert (Hfs : BUS_MESSAGE_FIELDS_SIZE m = fields_size (header m)).
  { unfold BUS_MESSAGE_FIELDS_SIZE, BUS_MESSAGE_BSWAP32. rewrite Hend, Z.eqb_refl. reflexivity. }
  assert (Ham : a mod 8 = 0).
  { rewrite Ha. apply ALIGN_TO_spec; lia. }
  assert (Ha4 : (a + 4) mod 4 = 0).
  { pose proof Ham as Hd. apply Z.mod_divide in Hd; [|lia]. destruct Hd as [k Hk].
    rewrite Hk. replace (k * 8 + 4) with ((2 * k + 1) * 4) by lia. apply Z.mod_mul. lia. }
  assert (Hty : ty <> 0).
  { destruct Hin as [E|[E|[E|[E|[E|[E|[]]]]]]]; inversion E; discriminate. }
  assert (Hpk : forall r al n,
             a < r -> 0 < al <= 8 -> 0 <= n -> r mod al = 0 -> r + n <= a + 9 + Zlength s ->
             message_peek_fields m r al n = (1, r + n, r)).
  { intros r al n H1 H2 H3 H4 H5. unfold message_peek_fields. rewrite Hfs.
    apply peek_inside; lia. }
  assert (Hstore : Zlength (store_native 4 (Zlength s)) = 4).
  { rewrite Zlength_correct, store_native_length. reflexivity. }
  (* the bytes of the field *)
  assert (B0 : byte_at F a = code).
  { rewrite HF, byte_at_app_r by lia. rewrite HP, Z.sub_diag. reflexivity. }
  assert (B1 : byte_at F (a + 1) = 1).
  { rewrite HF, byte_at_app_r by lia. rewrite HP.
    replace (a + 1 - a) with 1 by lia. reflexivity. }
  assert (Bsig : F = (P ++ [code; 1]) ++ [ty] ++ 0 :: (store_native 4 (Zlength s) ++ s ++ [0] ++ R)).
  { rewrite HF. unfold string_field, strlen. rewrite <- !app_assoc. reflexivity. }
  assert (Blen : F = (P ++ [code; 1; ty; 0]) ++ store_native 4 (Zlength s) ++ (s ++ [0] ++ R)).
  { rewrite HF. unfold string_field, strlen. rewrite <- !app_assoc. reflexivity. }
  assert (Bstr : F = (P ++ [code; 1; ty; 0] ++ store_native 4 (Zlength s)) ++ s ++ 0 :: R).
  { rewrite HF. unfold string_field, strlen. rewrite <- !app_assoc. reflexivity. }
  assert (L2 : Zlength (P ++ [code; 1]) = a + 2).
  { rewrite Zlength_app, HP. reflexivity. }
  assert (L4 : Zlength (P ++ [code; 1; ty; 0]) = a + 4).
  { rewrite Zlength_app, HP. reflexivity. }
  assert (L8 : Zlength (P ++ [code; 1; ty; 0] ++ store_native 4 (Zlength s)) = a + 8).
  { rewrite !Zlength_app, HP, Hstore. change (Zlength [code; 1; ty; 0]) with 4. lia. }
  (* the code byte *)
  assert (E1 : message_peek_fields m ri 8 1 = (1, a + 1, a)).
  { unfold message_peek_fields. rewrite Hfs.
    destruct (buffer_peek_cases F (fields_size (header m)) ri 8 1) as (_ & Hok & _);
      try lia.
    rewrite <- Ha in Hok. apply Hok. split; [lia|exact Hpad]. }
  (* the signature of the variant *)
  assert (E2 : message_peek_field_signature m (a + 1) = Returns (0, a + 4, a + 2)).
  { unfold message_peek_field_signature.
    rewrite (Hpk (a + 1) 1 1) by (try lia; apply Z.mod_1_r).
    cbn [Z.ltb Z.compare]. fold F. rewrite B1.
    replace (a + 1 + 1) with (a + 2) by lia.
    rewrite (Hpk (a + 2) 1 (1 + 1)) by (try lia; apply Z.mod_1_r).
    cbn [Z.ltb Z.compare]. unfold validate_signature.
    rewrite Bsig at 1. rewrite <- L2.
    change 1 with (Zlength [ty]) at 2.
    rewrite validate_with_middle; [|repeat constructor; exact Hty|exact Hsig].
    rewrite L2. f_equal. f_equal. f_equal. lia. }
  assert (Esig : cstr_at F (a + 2) = [ty]).
  { rewrite Bsig, <- L2. apply cstr_at_middle. repeat constructor. exact Hty. }
  (* the string *)
  assert (E3 : message_peek_field_string m (Some validate) (a + 4)
               = Returns (0, a + 9 + Zlength s, a + 8)).
  { unfold message_peek_field_string, message_peek_field_uint32.
    rewrite (Hpk (a + 4) 4 4) by (try lia; exact Ha4).
    cbn [Z.ltb Z.compare]. fold F.
    unfold BUS_MESSAGE_BSWAP32. rewrite Hend, Z.eqb_refl.
    assert (Hl : load_native (slice F (a + 4) 4) = Zlength s).
    { rewrite Blen, <- L4, <- Hstore at 1. rewrite slice_middle.
      apply load_store_native. change (256 ^ Z.of_nat 4) with (2 ^ 32). lia. }
    rewrite Hl. rewrite u32_small by lia.
    replace (a + 4 + 4) with (a + 8) by lia.
    rewrite (Hpk (a + 8) 1 (Zlength s + 1)) by (try lia; apply Z.mod_1_r).
    cbn [Z.ltb Z.compare].
    rewrite Bstr at 1. rewrite <- L8.
    rewrite validate_with_middle by assumption.
    rewrite L8. f_equal. f_equal. f_equal. lia. }
  unfold parse_field. rewrite E1. cbn [Z.ltb Z.compare].
  unfold bind at 1. unfold lift at 1. rewrite E2. cbn [Z.ltb Z.compare]. cbv zeta.
  fold F. rewrite Esig, B0.
  cbn [In] in Hin.
  destruct Hin as [E|[E|[E|[E|[E|[E|[]]]]]]]; inversion E; subst code ty validate setter;
    clear E;
    repeat match goal with
           | |- context [?x =? ?y] =>
               let v := eval vm_compute in (x =? y) in change (x =? y) with v
           end;
    cbv iota;
    match goal with
    | |- context [streq ?x ?y] =>
        let v := eval vm_compute in (streq x y) in change (streq x y) with v
    end;
    cbn [negb]; unfold bind, lift; rewrite E3; cbn [Z.ltb Z.compare]; reflexivity.
Qed.
End WireRoundTrip.

Lemma after_field_length (F data : list Z) :
  Zlength F + 8 <= 2 ^ 64 ->
  Zlength (after_field F data) = ALIGN_TO (Zlength F) 8 + Zlength data.
Proof.
  intros Hb. pose proof (Zlength_nonneg F) as HF.
  destruct (ALIGN_TO_spec (Zlength F) 8) as [Hal _]; try lia.
  unfold after_field. rewrite !Zlength_app, Zlength_repeat. lia.
Qed.

Lemma byte_at_padding (B : list Z) (n : nat) (rest : list Z) (k : Z) :
  Zlength B <= k < Zlength B + Z.of_nat n -> byte_at ((B ++ repeat 0 n) ++ rest) k = 0.
Proof.
  intros Hk. pose proof (Zlength_nonneg B) as HB.
  rewrite byte_at_app_l by (rewrite Zlength_app, Zlength_repeat; lia).
  rewrite byte_at_app_r by lia. apply byte_at_zeros.
Qed.

Section WireLoop.
Context {host : Host} {ext : Collaborators}.

Lemma string_field_length (code ty : Z) (s : cstring) :
  Zlength (string_field code ty s) = 9 + Zlength s.
Proof.
  unfold string_field. rewrite !Zlength_app.
  rewrite (Zlength_correct (store_native _ _)), store_native_length.
  change (Zlength [code; 1; ty; 0]) with 4. change (Zlength [0]) with 1.
  change (Z.of_nat 4) with 4. lia.
Qed.

Lemma with_field_after_field (m : sd_bus_message) (data : list Z) :
  fields_in_step m ->
  region_bytes (fields (with_field m data)) = after_field (region_bytes (fields m)) data
  /\ fields_size (header (with_field m data))
     = Zlength (after_field (region_bytes (fields m)) data).
Proof.
  intros [Hl Hmax]. unfold UINT32_MAX in Hmax.
  pose proof (Zlength_nonneg (region_bytes (fields m))) as Hn.
  rewrite after_field_length by lia.
  unfold with_field, after_field. cbn [fields set_fields region_bytes header set_header
                                         fields_size set_fields_size].
  rewrite Hl. split; reflexivity.
Qed.

(** One turn of the loop of the parser, on a field that the writer has
    appended behind the bytes [B]. *)
Lemma loop_after_field
    (fuel : nat) (m : sd_bus_message) (h : heap) (B : list Z) (code ty : Z) (s : cstring)
    (validate : cstring -> bool) (setter : option Z -> sd_bus_message -> sd_bus_message) :
  (exists R, region_bytes (fields m) = after_field B (string_field code ty s) ++ R) ->
  endian (header m) = SD_BUS_NATIVE_ENDIAN ->
  Zlength (after_field B (string_field code ty s)) <= fields_size (header m) <= UINT32_MAX ->
  Forall (fun c => c <> 0) s ->
  signature_is_valid [ty] true = true -> validate s = true ->
  In (code, ty, validate, setter)
     [ (SD_BUS_MESSAGE_HEADER_PATH, SD_BUS_TYPE_OBJECT_PATH, object_path_is_valid, set_path);
       (SD_BUS_MESSAGE_HEADER_INTERFACE, SD_BUS_TYPE_STRING, interface_name_is_valid,
        set_interface);
       (SD_BUS_MESSAGE_HEADER_MEMBER, SD_BUS_TYPE_STRING, member_name_is_valid, set_member);
       (SD_BUS_MESSAGE_HEADER_ERROR_NAME, SD_BUS_TYPE_STRING, error_name_is_valid,
        set_error_name);
       (SD_BUS_MESSAGE_HEADER_DESTINATION, SD_BUS_TYPE_STRING, service_name_is_valid,
        set_destination);
       (SD_BUS_MESSAGE_HEADER_SENDER, SD_BUS_TYPE_STRING, service_name_is_valid,
        set_sender) ] ->
  parse_fields_loop (S fuel) m (Zlength B) h
  = parse_fields_loop fuel (setter (Some (ALIGN_TO (Zlength B) 8 + 8)) m)
      (Zlength (after_field B (string_field code ty s))) h.
Proof.
  intros [R HF] Hend Hfit Hs Hsig Hval Hin.
  pose proof (Zlength_nonneg B) as HB. pose proof (Zlength_nonneg s) as Hn.
  unfold UINT32_MAX in Hfit.
  assert (Hsmall : Zlength B + 8 <= 2 ^ 64).
  { destruct (Z.le_gt_cases (Zlength B + 8) (2 ^ 64)) as [H|H]; [exact H|].
    exfalso. unfold after_field in Hfit. rewrite !Zlength_app in Hfit.
    pose proof (Zlength_nonneg (repeat 0 (Z.to_nat (ALIGN_TO (Zlength B) 8 - Zlength B)))).
    pose proof (Zlength_nonneg (string_field code ty s)). lia. }
  destruct (ALIGN_TO_spec (Zlength B) 8) as [Hal _]; try lia.
  rewrite after_field_length, string_field_length in * by lia.
  set (a := ALIGN_TO (Zlength B) 8) in *.
  assert (Hrun : parse_field m (Zlength B) h
                 = Returns ((0, a + 9 + strlen s, setter (Some (a + 8)) m), h)).
  { apply parse_string_field
      with (code := code) (ty := ty) (validate := validate)
           (P := B ++ repeat 0 (Z.to_nat (a - Zlength B))) (R := R);
      try assumption.
    - rewrite HF. unfold after_field. fold a. rewrite <- !app_assoc. reflexivity.
    - rewrite Zlength_app, Zlength_repeat. lia.
    - reflexivity.
    - lia.
    - intros k Hk. rewrite HF. unfold after_field. fold a.
      rewrite (app_assoc B). rewrite <- (app_assoc (B ++ _)).
      apply byte_at_padding. lia.
    - unfold strlen, UINT32_MAX. lia. }
  cbn [parse_fields_loop].
  assert (Hfs : BUS_MESSAGE_FIELDS_SIZE m = fields_size (header m)).
  { unfold BUS_MESSAGE_FIELDS_SIZE, BUS_MESSAGE_BSWAP32. rewrite Hend, Z.eqb_refl. reflexivity. }
  rewrite Hfs.
  destruct (Zlength B <? fields_size (header m)) eqn:E; [|apply Z.ltb_ge in E; lia].
  unfold bind. rewrite Hrun. cbn [Z.ltb Z.compare]. unfold strlen.
  replace (a + 9 + Zlength s) with (a + (9 + Zlength s)) by lia. reflexivity.
Qed.

Lemma loop_at_the_end (fuel : nat) (m : sd_bus_message) (ri : Z) (h : heap) :
  BUS_MESSAGE_FIELDS_SIZE m <= ri -> parse_fields_loop fuel m ri h = Returns ((0, m), h).
Proof.
  intros H. apply Z.ltb_ge in H. destruct fuel; cbn [parse_fields_loop]; rewrite H; reflexivity.
Qed.
End WireLoop.

Section WireImage.
Context {host : Host} {ext : Collaborators}.

Lemma header_at_header_bytes (hd : bus_header) (rest : list Z) :
  0 <= body_size hd < 2 ^ 32 -> 0 <= serial hd < 2 ^ 32 -> 0 <= fields_size hd < 2 ^ 32 ->
  header_at (header_bytes hd ++ rest) = hd.
Proof.
  intros Hb Hs Hf. unfold header_at, header_bytes.
  set (sb := store_native 4 (body_size hd)).
  set (ss := store_native 4 (serial hd)).
  set (sf := store_native 4 (fields_size hd)).
  assert (Lb : Zlength sb = 4) by (unfold sb; rewrite Zlength_correct, store_native_length; reflexivity).
  assert (Ls : Zlength ss = 4) by (unfold ss; rewrite Zlength_correct, store_native_length; reflexivity).
  assert (Lf : Zlength sf = 4) by (unfold sf; rewrite Zlength_correct, store_native_length; reflexivity).
  set (A := [endian hd; type hd; flags hd; version hd]).
  assert (E1 : slice ((A ++ sb ++ ss ++ sf) ++ rest) 4 4 = sb).
  { replace ((A ++ sb ++ ss ++ sf) ++ rest) with (A ++ sb ++ (ss ++ sf ++ rest))
      by (rewrite <- !app_assoc; reflexivity).
    change 4 with (Zlength A) at 1. rewrite <- Lb at 1. apply slice_middle. }
  assert (E2 : slice ((A ++ sb ++ ss ++ sf) ++ rest) 8 4 = ss).
  { replace ((A ++ sb ++ ss ++ sf) ++ rest) with ((A ++ sb) ++ ss ++ (sf ++ rest))
      by (rewrite <- !app_assoc; reflexivity).
    replace 8 with (Zlength (A ++ sb)) by (rewrite Zlength_app, Lb; reflexivity).
    rewrite <- Ls at 1. apply slice_middle. }
  assert (E3 : slice ((A ++ sb ++ ss ++ sf) ++ rest) 12 4 = sf).
  { replace ((A ++ sb ++ ss ++ sf) ++ rest) with ((A ++ sb ++ ss) ++ sf ++ rest)
      by (rewrite <- !app_assoc; reflexivity).
    replace 12 with (Zlength (A ++ sb ++ ss)) by (rewrite !Zlength_app, Lb, Ls; reflexivity).
    rewrite <- Lf at 1. apply slice_middle. }
  rewrite E1, E2, E3. unfold sb, ss, sf.
  rewrite !load_store_native by (change (256 ^ Z.of_nat 4) with (2 ^ 32); assumption).
  destruct hd; reflexivity.
Qed.

Lemma skipn_header_bytes (hd : bus_header) (rest : list Z) :
  skipn (Z.to_nat sizeof_bus_header) (header_bytes hd ++ rest) = rest.
Proof.
  assert (H : Z.to_nat sizeof_bus_header = List.length (header_bytes hd)).
  { unfold header_bytes. rewrite !length_app, !store_native_length. reflexivity. }
  rewrite H, skipn_app, skipn_all, Nat.sub_diag. reflexivity.
Qed.

(** What [bus_message_from_malloc] hands to the parser when it is given
    the wire image of a header in native byte order. *)
Lemma from_malloc_of_image
    (hd : bus_header) (F tail : list Z) (ucred_ : option ucred) (label_ : option cstring)
    (h : heap) :
  endian hd = SD_BUS_NATIVE_ENDIAN -> version hd = 1 -> serial hd <> 0 ->
  type hd <> _SD_BUS_MESSAGE_TYPE_INVALID ->
  0 <= serial hd < 2 ^ 32 -> 0 <= body_size hd < 2 ^ 32 ->
  fields_size hd = Zlength F -> Zlength F <= UINT32_MAX ->
  allocations_succeed 1 h ->
  exists m0,
    bus_message_from_malloc (header_bytes hd ++ F ++ tail)
      (16 + ALIGN_TO (Zlength F) 8 + body_size hd) ucred_ label_ h
    = ('(r, m) <- message_parse_fields m0 ;;
       if r <? 0 then ret (r, None) else ret (0, Some m)) (skipn 1 h)
    /\ header m0 = hd /\ fields m0 = Some (F ++ tail) /\ sealed m0 = true
    /\ root_container m0 = mk_container 0 None 0 None 0.
Proof.
  intros Hend Hver Hser Hty Hsr Hbr Hfs Hmax Halloc.
  pose proof (Zlength_nonneg F) as HF. unfold UINT32_MAX in Hmax.
  destruct (ALIGN_TO_spec (Zlength F) 8) as [Hal _]; try lia.
  unfold bus_message_from_malloc.
  rewrite header_at_header_bytes by (try assumption; lia).
  destruct (_ <? sizeof_bus_header) eqn:E; [apply Z.ltb_lt in E; unfold sizeof_bus_header in E; lia|].
  rewrite Hver. cbn [Z.eqb Pos.eqb negb].
  destruct (serial hd =? 0) eqn:E0; [apply Z.eqb_eq in E0; contradiction|].
  destruct (type hd =? _SD_BUS_MESSAGE_TYPE_INVALID) eqn:E1;
    [apply Z.eqb_eq in E1; contradiction|].
  cbv zeta. rewrite Hend, Z.eqb_refl. rewrite Hfs.
  unfold sizeof_bus_header at 1.
  rewrite size_t_small by lia. rewrite Z.eqb_refl. cbn [negb].
  unfold bind at 1.
  destruct (alloc_cases h) as [[_ Hno]|[junk Ha]]; [contradiction|]. rewrite Ha.
  rewrite skipn_header_bytes.
  eexists. split; [reflexivity|]. repeat split.
Qed.
End WireImage.

Section SignalOnTheWire.
Context {host : Host} {ext : Collaborators}.

Lemma message_new_is (bus : option sd_bus) (t : Z) (h h' : heap) (m : sd_bus_message) :
  message_new bus t h = Returns (Some m, h') ->
  m = set_header
        (mk_header SD_BUS_NATIVE_ENDIAN t 0
                   (match bus with Some b => message_version b | None => 1 end) 0 0 0)
        zero_message.
Proof.
  unfold message_new, bind, ret, alloc.
  destruct h as [|[|junk] h0]; intros H; inversion H; reflexivity.
Qed.

(** The fields a signal is constructed with. *)
Lemma new_signal_shape
    (bus : option sd_bus) (path_ interface_ member_ : cstring)
    (h h' : heap) (m : sd_bus_message) :
  sd_bus_message_new_signal bus (Some path_) (Some interface_) (Some member_) h
  = Returns ((0, Some m), h') ->
  let B1 := after_field [] (string_field SD_BUS_MESSAGE_HEADER_PATH
                                         SD_BUS_TYPE_OBJECT_PATH path_) in
  let B2 := after_field B1 (string_field SD_BUS_MESSAGE_HEADER_INTERFACE
                                         SD_BUS_TYPE_STRING interface_) in
  let B3 := after_field B2 (string_field SD_BUS_MESSAGE_HEADER_MEMBER
                                         SD_BUS_TYPE_STRING member_) in
  region_bytes (fields m) = B3
  /\ header m = mk_header SD_BUS_NATIVE_ENDIAN SD_BUS_MESSAGE_TYPE_SIGNAL
                          SD_BUS_MESSAGE_NO_REPLY_EXPECTED
                          (match bus with Some b => message_version b | None => 1 end)
                          0 0 (Zlength B3)
  /\ Zlength B3 <= UINT32_MAX
  /\ body m = None /\ sealed m = false /\ containers m = []
  /\ signature (root_container m) = None /\ n_fds m = 0.
Proof.
  intros Hrun. cbv zeta. unfold sd_bus_message_new_signal in Hrun.
  unfold bind at 1 in Hrun.
  destruct (message_new bus SD_BUS_MESSAGE_TYPE_SIGNAL h) as [[[t|] h0]|] eqn:En;
    try (inversion Hrun; fail).
  apply message_new_is in En. subst t.
  set (t1 := set_header _ _) in Hrun.
  assert (Hstep1 : fields_in_step t1) by (split; [reflexivity|unfold UINT32_MAX; cbn; lia]).
  unfold bind at 1 in Hrun.
  destruct (message_append_field_string t1 _ _ path_ _ h0) as [[[r1 m1] h1]|] eqn:E1;
    [|discriminate].
  apply message_append_field_string_cases in E1; [|assumption].
  destruct E1 as [[Hr ->]|(-> & -> & Hstep2)].
  { apply Z.ltb_lt in Hr. rewrite Hr in Hrun. inversion Hrun. }
  cbn [Z.ltb Z.compare] in Hrun. unfold bind at 1 in Hrun.
  set (q1 := ALIGN_TO (fields_size (header t1)) 8 + 8) in *.
  set (w1 := with_field t1 _) in *.
  destruct (message_append_field_string _ _ _ interface_ _ h1) as [[[r2 m2] h2]|] eqn:E2;
    [|discriminate].
  apply message_append_field_string_cases in E2; [|exact Hstep2].
  destruct E2 as [[Hr ->]|(-> & -> & Hstep3)].
  { apply Z.ltb_lt in Hr. rewrite Hr in Hrun. inversion Hrun. }
  cbn [Z.ltb Z.compare] in Hrun. unfold bind at 1 in Hrun.
  set (q2 := ALIGN_TO (fields_size (header (assign (Some set_path) q1 w1))) 8 + 8) in *.
  set (w2 := with_field (assign (Some set_path) q1 w1) _) in *.
  destruct (message_append_field_string _ _ _ member_ _ h2) as [[[r3 m3] h3]|] eqn:E3;
    [|discriminate].
  apply message_append_field_string_cases in E3; [|exact Hstep3].
  destruct E3 as [[Hr ->]|(-> & -> & Hstep4)].
  { apply Z.ltb_lt in Hr. rewrite Hr in Hrun. inversion Hrun. }
  cbn [Z.ltb Z.compare] in Hrun. unfold ret in Hrun.
  set (q3 := ALIGN_TO (fields_size (header (assign (Some set_interface) q2 w2))) 8 + 8) in *.
  set (w3 := with_field (assign (Some set_interface) q2 w2) _) in *.
  assert (Em : m = assign (Some set_member) q3 w3) by (inversion Hrun; reflexivity).
  clear Hrun. subst m.
  destruct (with_field_after_field t1 (string_field SD_BUS_MESSAGE_HEADER_PATH
                                         SD_BUS_TYPE_OBJECT_PATH path_) Hstep1) as [F1 S1].
  fold w1 in F1, S1. change (region_bytes (fields t1)) with (@nil Z) in F1, S1.
  destruct (with_field_after_field (assign (Some set_path) q1 w1)
              (string_field SD_BUS_MESSAGE_HEADER_INTERFACE SD_BUS_TYPE_STRING interface_)
              Hstep2) as [F2 S2].
  fold w2 in F2, S2.
  change (region_bytes (fields (assign (Some set_path) q1 w1)))
    with (region_bytes (fields w1)) in F2, S2.
  rewrite F1 in F2, S2.
  destruct (with_field_after_field (assign (Some set_interface) q2 w2)
              (string_field SD_BUS_MESSAGE_HEADER_MEMBER SD_BUS_TYPE_STRING member_)
              Hstep3) as [F3 S3].
  fold w3 in F3, S3.
  change (region_bytes (fields (assign (Some set_interface) q2 w2)))
    with (region_bytes (fields w2)) in F3, S3.
  rewrite F2 in F3, S3.
  split; [exact F3|].
  split.
  { change (header (assign (Some set_member) q3 w3)) with (header w3).
    rewrite <- S3. reflexivity. }
  split.
  { rewrite <- S3. apply Hstep4. }
  repeat split.
Qed.

Lemma get_blob_image
    (pre : sd_bus_message) (h h' : heap) (r : Z) (blob : list Z) (sz : Z) :
  in_step pre ->
  bus_message_get_blob (setup_iovec pre) h = Returns ((r, Some (blob, sz)), h') ->
  blob = wire_image pre
  /\ sz = 16 + ALIGN_TO (fields_size (header pre)) 8 + body_size (header pre).
Proof.
  intros Hstep. pose proof (setup_iovec_image pre Hstep) as Himg.
  pose proof (wire_image_length pre Hstep) as Hlen.
  destruct Hstep as ([Hf Hfm] & Hb & Hbm). unfold UINT32_MAX in *.
  pose proof (Zlength_nonneg (region_bytes (fields pre))) as Hfn.
  pose proof (Zlength_nonneg (region_bytes (body pre))) as Hbn.
  destruct (ALIGN_TO_spec (fields_size (header pre)) 8) as [Hal _]; try lia.
  unfold bus_message_get_blob, bind, ret.
  set (io := iovec (setup_iovec pre)) in *. clearbody io.
  destruct (alloc h) as [[[|junk] h1]|]; intros H; inversion H; subst.
  split; [exact Himg|].
  rewrite iovec_total; [rewrite Himg, Hlen; lia|lia|rewrite Himg, Hlen; lia].
Qed.

(** The parser on the fields of a signal. *)
Lemma received_signal_parses
    (m0 : sd_bus_message) (path_ interface_ member_ : cstring) (tail : list Z) (h : heap) :
  let B1 := after_field [] (string_field SD_BUS_MESSAGE_HEADER_PATH
                                         SD_BUS_TYPE_OBJECT_PATH path_) in
  let B2 := after_field B1 (string_field SD_BUS_MESSAGE_HEADER_INTERFACE
                                         SD_BUS_TYPE_STRING interface_) in
  let B3 := after_field B2 (string_field SD_BUS_MESSAGE_HEADER_MEMBER
                                         SD_BUS_TYPE_STRING member_) in
  region_bytes (fields m0) = B3 ++ tail ->
  endian (header m0) = SD_BUS_NATIVE_ENDIAN ->
  type (header m0) = SD_BUS_MESSAGE_TYPE_SIGNAL ->
  fields_size (header m0) = Zlength B3 -> Zlength B3 <= UINT32_MAX ->
  body_size (header m0) = 0 -> signature (root_container m0) = None ->
  Forall (fun c => c <> 0) path_ -> Forall (fun c => c <> 0) interface_ ->
  Forall (fun c => c <> 0) member_ ->
  object_path_is_valid path_ = true -> interface_name_is_valid interface_ = true ->
  member_name_is_valid member_ = true ->
  signature_is_valid [SD_BUS_TYPE_OBJECT_PATH] true = true ->
  signature_is_valid [SD_BUS_TYPE_STRING] true = true ->
  message_parse_fields m0 h
  = Returns ((0, set_member (Some (ALIGN_TO (Zlength B2) 8 + 8))
                   (set_interface (Some (ALIGN_TO (Zlength B1) 8 + 8))
                      (set_path (Some 8) m0))), h).
Proof.
  intros B1 B2 B3 HF Hend Hty Hfs Hmax Hbs Hsig Hp Hi Hm Vp Vi Vm So Ss.
  pose proof (Zlength_nonneg B1) as L1. pose proof (Zlength_nonneg B2) as L2.
  assert (L12 : Zlength B1 <= Zlength B2 <= Zlength B3).
  { unfold B3, B2, after_field. rewrite !Zlength_app.
    repeat match goal with
           | |- context [Zlength ?l] =>
               lazymatch goal with
               | _ : 0 <= Zlength l |- _ => fail
               | _ => pose proof (Zlength_nonneg l)
               end
           end.
    lia. }
  assert (Hfsm : BUS_MESSAGE_FIELDS_SIZE m0 = Zlength B3).
  { unfold BUS_MESSAGE_FIELDS_SIZE, BUS_MESSAGE_BSWAP32. rewrite Hend, Z.eqb_refl. exact Hfs. }
  pose proof (string_field_length SD_BUS_MESSAGE_HEADER_PATH SD_BUS_TYPE_OBJECT_PATH path_) as S1.
  pose proof (Zlength_nonneg path_) as Np.
  assert (Hfuel : exists k, Z.to_nat (BUS_MESSAGE_FIELDS_SIZE m0) = S (S (S k))).
  { exists (Z.to_nat (Zlength B3) - 3)%nat. rewrite Hfsm.
    assert (9 <= Zlength B1).
    { unfold B1, after_field. rewrite !Zlength_app, S1.
      pose proof (Zlength_nonneg (repeat 0 (Z.to_nat (ALIGN_TO (Zlength (@nil Z)) 8
                                                       - Zlength (@nil Z))))).
      change (Zlength (@nil Z)) with 0 in *. lia. }
    assert (9 <= Zlength B2 - Zlength B1).
    { unfold B2, after_field. rewrite !Zlength_app, string_field_length.
      pose proof (Zlength_nonneg interface_).
      pose proof (Zlength_nonneg (repeat 0 (Z.to_nat (ALIGN_TO (Zlength B1) 8 - Zlength B1)))).
      lia. }
    assert (9 <= Zlength B3 - Zlength B2).
    { unfold B3, after_field. rewrite !Zlength_app, string_field_length.
      pose proof (Zlength_nonneg member_).
      pose proof (Zlength_nonneg (repeat 0 (Z.to_nat (ALIGN_TO (Zlength B2) 8 - Zlength B2)))).
      lia. }
    lia. }
  destruct Hfuel as [k Hk].
  unfold message_parse_fields. rewrite Hk. unfold bind at 1.
  change 0 with (Zlength (@nil Z)) at 1.
  rewrite (loop_after_field (S (S k)) m0 h []
             SD_BUS_MESSAGE_HEADER_PATH SD_BUS_TYPE_OBJECT_PATH path_
             object_path_is_valid set_path);
    try assumption; try (cbn [In]; tauto).
  2:{ eexists. rewrite HF. unfold B3, B2. fold B1. unfold after_field at 1 2.
      rewrite <- !app_assoc. reflexivity. }
  2:{ fold B1. rewrite Hfs. lia. }
  fold B1.
  rewrite (loop_after_field (S k) _ h B1
             SD_BUS_MESSAGE_HEADER_INTERFACE SD_BUS_TYPE_STRING interface_
             interface_name_is_valid set_interface);
    try assumption; try (cbn [In]; tauto).
  2:{ eexists. change (region_bytes (fields (set_path _ m0))) with (region_bytes (fields m0)).
      rewrite HF. unfold B3. fold B2. unfold after_field at 1.
      rewrite <- !app_assoc. reflexivity. }
  2:{ fold B2. change (fields_size (header (set_path _ m0))) with (fields_size (header m0)).
      rewrite Hfs. lia. }
  fold B2.
  rewrite (loop_after_field k _ h B2
             SD_BUS_MESSAGE_HEADER_MEMBER SD_BUS_TYPE_STRING member_
             member_name_is_valid set_member);
    try assumption; try (cbn [In]; tauto).
  2:{ exists tail. exact HF. }
  2:{ fold B3.
      change (fields_size (header (set_interface _ (set_path _ m0))))
        with (fields_size (header m0)).
      rewrite Hfs. lia. }
  fold B3.
  rewrite loop_at_the_end.
  2:{ change (BUS_MESSAGE_FIELDS_SIZE (set_member _ (set_interface _ (set_path _ m0))))
        with (BUS_MESSAGE_FIELDS_SIZE m0).
      rewrite Hfsm. lia. }
  cbn [Z.ltb Z.compare].
  set (mr := set_member _ _).
  assert (R1 : body_matches_signature mr = true).
  { unfold body_matches_signature, BUS_MESSAGE_BODY_SIZE, BUS_MESSAGE_BSWAP32.
    change (header mr) with (header m0). change (root_container mr) with (root_container m0).
    rewrite Hsig, Hend, Z.eqb_refl, Hbs. reflexivity. }
  assert (R2 : type_requirements mr = true).
  { unfold type_requirements. change (header mr) with (header m0). rewrite Hty. reflexivity. }
  rewrite R1, R2. cbn [negb].
  change (header mr) with (header m0). rewrite Hty.
  change (ALIGN_TO (Zlength (@nil Z)) 8 + 8) with 8 in mr. reflexivity.
Qed.
End SignalOnTheWire.

Lemma after_field_holds_string
    {host : Host} (B : list Z) (code ty : Z) (s : cstring) :
  Zlength B + 8 <= 2 ^ 64 -> Forall (fun c => c <> 0) s ->
  holds_string (after_field B (string_field code ty s)) (ALIGN_TO (Zlength B) 8 + 8) s.
Proof.
  intros Hb Hs. pose proof (Zlength_nonneg B) as HB.
  destruct (ALIGN_TO_spec (Zlength B) 8) as [Hal _]; try lia.
  unfold after_field, string_field.
  set (pad := repeat 0 _).
  exists (B ++ pad ++ [code; 1; ty; 0] ++ store_native 4 (strlen s)), [].
  split; [|split; [|exact Hs]].
  - rewrite <- !app_assoc. reflexivity.
  - rewrite !Zlength_app. unfold pad. rewrite Zlength_repeat.
    rewrite (Zlength_correct (store_native _ _)), store_native_length.
    change (Zlength [code; 1; ty; 0]) with 4. lia.
Qed.

Lemma after_field_grows (F data : list Z) : Zlength F <= Zlength (after_field F data).
Proof.
  unfold after_field. rewrite !Zlength_app.
  pose proof (Zlength_nonneg (repeat 0 (Z.to_nat (ALIGN_TO (Zlength F) 8 - Zlength F)))).
  pose proof (Zlength_nonneg data). lia.
Qed.

Lemma holds_string_after_field (F data : list Z) (p : Z) (s : cstring) :
  holds_string F p s -> holds_string (after_field F data) p s.
Proof. intros H. unfold after_field. now apply holds_string_app. Qed.

Section SignalRoundTrip.
Context {host : Host} {ext : Collaborators}.

(** A signal that is constructed, sealed and taken out as a blob is
    accepted by [bus_message_from_malloc] on the other side, provided the
    message version of the bus is 1, the serial is not 0 in 32 bits, the
    three strings are C strings that pass the checks of the parser (the
    constructor applies none), and the allocation of the message succeeds.
    The message received has the header of the message sealed, its path,
    interface and member point at the three strings, [is_signal] answers 1
    for this interface and member, and [get_serial] gives the serial. *)
Theorem a_signal_survives_the_wire
    (bus : option sd_bus) (path_ interface_ member_ : cstring) (serial_ : Z)
    (ucred_ : option ucred) (label_ : option cstring)
    (h0 h1 h2 h3 : heap) (m ms : sd_bus_message) (blob : list Z) (sz : Z) :
  sd_bus_message_new_signal bus (Some path_) (Some interface_) (Some member_) h0
  = Returns ((0, Some m), h1) ->
  bus_message_seal m serial_ h1 = Returns ((0, ms), h2) ->
  bus_message_get_blob ms h2 = Returns ((0, Some (blob, sz)), h3) ->
  match bus with Some b => message_version b = 1 | None => True end ->
  u32 serial_ <> 0 ->
  Forall (fun c => c <> 0) path_ -> Forall (fun c => c <> 0) interface_ ->
  Forall (fun c => c <> 0) member_ ->
  object_path_is_valid path_ = true -> interface_name_is_valid interface_ = true ->
  member_name_is_valid member_ = true ->
  signature_is_valid [SD_BUS_TYPE_OBJECT_PATH] true = true ->
  signature_is_valid [SD_BUS_TYPE_STRING] true = true ->
  allocations_succeed 1 h3 ->
  exists mr,
    bus_message_from_malloc blob sz ucred_ label_ h3 = Returns ((0, Some mr), skipn 1 h3)
    /\ header mr = header ms
    /\ points_at mr (sd_bus_message_get_path mr) path_
    /\ points_at mr (sd_bus_message_get_interface mr) interface_
    /\ points_at mr (sd_bus_message_get_member mr) member_
    /\ sd_bus_message_is_signal mr (Some interface_) (Some member_) = 1
    /\ sd_bus_message_get_serial mr = (0, Some (u32 serial_)).
Proof.
  intros Hnew Hseal Hblob Hver Hserial Hp Hi Hm Vp Vi Vm So Ss Halloc.
  destruct (new_signal_shape _ _ _ _ _ _ _ Hnew)
    as (HF & Hh & Hmax & Hbody & Hsealed & Hcont & Hsig & Hfds).
  cbv zeta in HF, Hh, Hmax.
  set (B1 := after_field [] (string_field SD_BUS_MESSAGE_HEADER_PATH
                                          SD_BUS_TYPE_OBJECT_PATH path_)) in *.
  set (B2 := after_field B1 (string_field SD_BUS_MESSAGE_HEADER_INTERFACE
                                          SD_BUS_TYPE_STRING interface_)) in *.
  set (B3 := after_field B2 (string_field SD_BUS_MESSAGE_HEADER_MEMBER
                                          SD_BUS_TYPE_STRING member_)) in *.
  pose proof (Zlength_nonneg B1) as L1. pose proof (Zlength_nonneg B2) as L2.
  pose proof (Zlength_nonneg B3) as L3.
  assert (L12 : Zlength B1 <= Zlength B2 <= Zlength B3).
  { split; apply after_field_grows. }
  unfold UINT32_MAX in Hmax.
  assert (Hsr : 0 <= u32 serial_ < 2 ^ 32) by (unfold u32; apply Z.mod_pos_bound; lia).
  set (pre := set_sealed true (set_header (set_serial (u32 serial_) (header m)) m)).
  assert (Ems : ms = setup_iovec pre).
  { unfold bus_message_seal in Hseal. rewrite Hsealed in Hseal.
    unfold n_containers in Hseal. rewrite Hcont in Hseal.
    change (0 <? Zlength (@nil bus_container)) with false in Hseal.
    rewrite Hsig in Hseal. cbn [isempty negb] in Hseal.
    unfold bind at 1 in Hseal. unfold ret at 1 in Hseal. cbn [Z.ltb Z.compare] in Hseal.
    rewrite Hfds in Hseal. change (0 <? 0) with false in Hseal.
    unfold bind, ret in Hseal. cbn [Z.ltb Z.compare] in Hseal.
    inversion Hseal. reflexivity. }
  assert (Hstep : in_step pre).
  { unfold in_step, fields_in_step, pre.
    cbn [header fields body set_sealed set_header]. rewrite HF, Hh, Hbody.
    cbn [fields_size body_size set_serial region_bytes]. unfold UINT32_MAX.
    change (Zlength (@nil Z)) with 0. repeat split; lia. }
  subst ms.
  destruct (get_blob_image pre _ _ _ _ _ Hstep Hblob) as [-> ->].
  set (hd := header pre).
  assert (Ehd : hd = mk_header SD_BUS_NATIVE_ENDIAN SD_BUS_MESSAGE_TYPE_SIGNAL
                               SD_BUS_MESSAGE_NO_REPLY_EXPECTED
                               (match bus with Some b => message_version b | None => 1 end)
                               0 (u32 serial_) (Zlength B3)).
  { unfold hd, pre. cbn [header set_sealed set_header]. rewrite Hh. reflexivity. }
  unfold wire_image. fold hd.
  change (region_bytes (fields pre)) with (region_bytes (fields m)).
  change (region_bytes (body pre)) with (region_bytes (body m)).
  rewrite HF, Hbody. cbn [region_bytes].
  set (tail := repeat 0 _ ++ []).
  assert (Hfs : fields_size hd = Zlength B3) by (rewrite Ehd; reflexivity).
  assert (Hbs : body_size hd = 0) by (rewrite Ehd; reflexivity).
  rewrite Hfs.
  destruct (from_malloc_of_image hd B3 tail ucred_ label_ h3)
    as (m0 & Hrun & Hh0 & Hf0 & Hs0 & Hr0);
    [ rewrite Ehd; reflexivity
    | rewrite Ehd; cbn [version]; destruct bus; [exact Hver|reflexivity]
    | rewrite Ehd; exact Hserial
    | rewrite Ehd; discriminate
    | rewrite Ehd; exact Hsr
    | rewrite Hbs; lia
    | exact Hfs
    | unfold UINT32_MAX; lia
    | exact Halloc
    | ].
  rewrite Hrun. unfold bind.
  rewrite (received_signal_parses m0 path_ interface_ member_ tail (skipn 1 h3));
    [ | rewrite Hf0; reflexivity
      | rewrite Hh0, Ehd; reflexivity
      | rewrite Hh0, Ehd; reflexivity
      | rewrite Hh0; exact Hfs
      | unfold UINT32_MAX; fold B1 B2 B3; lia
      | rewrite Hh0; exact Hbs
      | rewrite Hr0; reflexivity
      | assumption.. ].
  fold B1 B2. cbn [Z.ltb Z.compare]. unfold ret.
  set (mr := set_member _ _).
  assert (H1 : holds_string (B3 ++ tail) 8 path_).
  { apply holds_string_app. apply holds_string_after_field. apply holds_string_after_field.
    exact (after_field_holds_string [] _ _ path_ ltac:(cbn; lia) Hp). }
  assert (H2 : holds_string (B3 ++ tail) (ALIGN_TO (Zlength B1) 8 + 8) interface_).
  { apply holds_string_app. apply holds_string_after_field.
    apply after_field_holds_string; [lia|exact Hi]. }
  assert (H3 : holds_string (B3 ++ tail) (ALIGN_TO (Zlength B2) 8 + 8) member_).
  { apply holds_string_app. apply after_field_holds_string; [lia|exact Hm]. }
  assert (Hfr : region_bytes (fields mr) = B3 ++ tail).
  { change (fields mr) with (fields m0). rewrite Hf0. reflexivity. }
  assert (Pp : points_at mr (sd_bus_message_get_path mr) path_).
  { exists 8. split; [reflexivity|]. rewrite Hfr. apply holds_string_cstr_at. exact H1. }
  assert (Pi : points_at mr (sd_bus_message_get_interface mr) interface_).
  { eexists. split; [reflexivity|]. rewrite Hfr. apply holds_string_cstr_at. exact H2. }
  assert (Pm : points_at mr (sd_bus_message_get_member mr) member_).
  { eexists. split; [reflexivity|]. rewrite Hfr. apply holds_string_cstr_at. exact H3. }
  assert (Hhr : header mr = hd) by exact Hh0.
  clearbody mr.
  exists mr. split; [reflexivity|].
  split; [exact Hhr|]. split; [exact Pp|]. split; [exact Pi|]. split; [exact Pm|].
  split.
  - unfold sd_bus_message_is_signal. rewrite Hhr, Ehd. cbn [type].
    rewrite Z.eqb_refl. cbn [negb].
    assert (Di : differs mr (interface mr) (Some interface_) = false).
    { apply (differs_spec mr _ _ (Some interface_) Pi). right. reflexivity. }
    assert (Dm : differs mr (member mr) (Some member_) = false).
    { apply (differs_spec mr _ _ (Some member_) Pm). right. reflexivity. }
    rewrite Di, Dm. reflexivity.
  - unfold sd_bus_message_get_serial, BUS_MESSAGE_SERIAL, BUS_MESSAGE_BSWAP32.
    rewrite Hhr, Ehd. cbn [serial endian]. rewrite Z.eqb_refl.
    destruct (u32 serial_ =? 0) eqn:E; [apply Z.eqb_eq in E; contradiction|reflexivity].
Qed.
End SignalRoundTrip.

(** The signal [/foo com.example Bar], sealed with the serial 7, on its way
    through [get_blob] and [bus_message_from_malloc]. *)
Lemma a_signal_survives_the_wire_witness :
  exists mr,
    @bus_message_from_malloc little_endian_host reference_collaborators
      Run.bare_signal_blob (Zlength Run.bare_signal_blob) None None []
    = Returns ((0, Some mr), [])
    /\ @sd_bus_message_is_signal mr (Some (cstr "com.example")) (Some (cstr "Bar")) = 1
    /\ @sd_bus_message_get_serial little_endian_host mr = (0, Some 7).
Proof.
  assert (Hnz : forall s : string, existsb (Z.eqb 0) (cstr s) = false ->
                                   Forall (fun c => c <> 0) (cstr s))
    by (intros s; apply no_nul_forall).
  destruct (@a_signal_survives_the_wire little_endian_host reference_collaborators
              None (cstr "/foo") (cstr "com.example") (cstr "Bar") 7 None None
              [] [] [] [] Run.bare_signal Run.sealed_bare_signal
              Run.bare_signal_blob (Zlength Run.bare_signal_blob))
    as (mr & Hrun & _ & _ & _ & _ & Hsig & Hser);
    [ vm_compute; reflexivity | vm_compute; reflexivity | vm_compute; reflexivity
    | exact I | vm_compute; discriminate
    | apply Hnz; reflexivity | apply Hnz; reflexivity | apply Hnz; reflexivity
    | reflexivity | reflexivity | reflexivity | reflexivity | reflexivity
    | constructor | ].
  exists mr. split; [exact Hrun|]. split; [exact Hsig|exact Hser].
Defined.

(** ** Fields the parser does not take *)

Lemma validate_with_at
    {ext : Collaborators} (check : cstring -> bool) (P s rest : list Z) :
  Forall (fun c => c <> 0) s ->
  validate_with check (P ++ s ++ 0 :: rest) (Zlength P) (Zlength s) = Returns (check s).
Proof.
  intros Hs. unfold validate_with, validate_nul.
  rewrite slice_middle, (no_nul_inside _ Hs).
  rewrite !Zlength_app, Zlength_cons.
  pose proof (Zlength_nonneg s) as Hn. pose proof (Zlength_nonneg rest) as Hr.
  destruct (_ <=? _) eqn:Hle; [apply Z.leb_le in Hle; lia|].
  rewrite byte_at_app_r by lia.
  replace (Zlength P + Zlength s - Zlength P) with (Zlength s) by lia.
  rewrite byte_at_app_r by lia. rewrite Z.sub_diag. cbn.
  rewrite cstr_at_middle by exact Hs. reflexivity.
Qed.

Ltac decide_tests :=
  repeat match goal with
         | |- context [?x =? ?y] =>
             let v := eval vm_compute in (x =? y) in
             lazymatch v with
             | true => change (x =? y) with true
             | false => change (x =? y) with false
             end
         end.

Section OtherFields.
Context {host : Host} {ext : Collaborators}.

(** The start of every turn of the parser: the code byte at the aligned
    offset [a] and the signature of one type that follows it. *)
Lemma field_prelude
    (m : sd_bus_message) (ri a code ty : Z) (P R : list Z) :
  region_bytes (fields m) = P ++ [code; 1; ty; 0] ++ R ->
  Zlength P = a -> a = ALIGN_TO ri 8 -> 0 <= ri <= a ->
  (forall k, ri <= k < a -> byte_at (region_bytes (fields m)) k = 0) ->
  endian (header m) = SD_BUS_NATIVE_ENDIAN ->
  a + 4 <= fields_size (header m) <= UINT32_MAX ->
  ty <> 0 ->
  message_peek_fields m ri 8 1 = (1, a + 1, a)
  /\ byte_at (region_bytes (fields m)) a = code
  /\ message_peek_field_signature m (a + 1)
     = Returns (if signature_is_valid [ty] true then (0, a + 4, a + 2)
                else (- EBADMSG, a + 4, 0))
  /\ cstr_at (region_bytes (fields m)) (a + 2) = [ty]
  /\ BUS_MESSAGE_FIELDS_SIZE m = fields_size (header m).
Proof.
  intros HF HP Ha Hri Hpad Hend Hfit Hty.
  pose proof (Zlength_nonneg P) as HPn. unfold UINT32_MAX in *.
  set (F := region_bytes (fields m)) in *.
  assert (Hfs : BUS_MESSAGE_FIELDS_SIZE m = fields_size (header m)).
  { unfold BUS_MESSAGE_FIELDS_SIZE, BUS_MESSAGE_BSWAP32. rewrite Hend, Z.eqb_refl. reflexivity. }
  assert (Hpk : forall r n,
             a < r -> 0 <= n -> r + n <= a + 4 ->
             message_peek_fields m r 1 n = (1, r + n, r)).
  { intros r n H1 H3 H5. unfold message_peek_fields. rewrite Hfs.
    apply peek_inside; try lia. apply Z.mod_1_r. }
  assert (B0 : byte_at F a = code).
  { rewrite HF, byte_at_app_r by lia. rewrite HP, Z.sub_diag. reflexivity. }
  assert (B1 : byte_at F (a + 1) = 1).
  { rewrite HF, byte_at_app_r by lia. rewrite HP.
    replace (a + 1 - a) with 1 by lia. reflexivity. }
  assert (Bsig : F = (P ++ [code; 1]) ++ [ty] ++ 0 :: R).
  { rewrite HF. rewrite <- !app_assoc. reflexivity. }
  assert (L2 : Zlength (P ++ [code; 1]) = a + 2).
  { rewrite Zlength_app, HP. reflexivity. }
  split.
  { unfold message_peek_fields. rewrite Hfs.
    destruct (buffer_peek_cases F (fields_size (header m)) ri 8 1) as (_ & Hok & _);
      try lia.
    rewrite <- Ha in Hok. apply Hok. split; [lia|exact Hpad]. }
  split; [exact B0|].
  split.
  { unfold message_peek_field_signature.
    rewrite (Hpk (a + 1) 1) by lia.
    cbn [Z.ltb Z.compare]. fold F. rewrite B1.
    replace (a + 1 + 1) with (a + 2) by lia.
    rewrite (Hpk (a + 2) (1 + 1)) by lia.
    cbn [Z.ltb Z.compare]. unfold validate_signature.
    rewrite Bsig at 1. rewrite <- L2.
    change 1 with (Zlength [ty]) at 2.
    rewrite validate_with_at by (repeat constructor; exact Hty).
    rewrite L2. replace (a + 2 + (1 + 1)) with (a + 4) by lia.
    destruct (signature_is_valid [ty] true); reflexivity. }
  split; [|exact Hfs].
  rewrite Bsig, <- L2. apply cstr_at_middle. repeat constructor. exact Hty.
Qed.

(** A header field whose code the parser does not know (any code above
    SIGNATURE, among them UNIX_FDS, which [seal] writes) and whose value is
    of a fixed-width type is stepped over: the turn of the parser succeeds,
    the read index goes behind the value, and the message is left as it
    is. *)
Theorem an_unknown_field_is_skipped
    (m : sd_bus_message) (ri a code t v : Z) (P R : list Z) (h : heap) :
  region_bytes (fields m) = P ++ [code; 1; t; 0] ++ R ->
  Zlength P = a -> a = ALIGN_TO ri 8 -> 0 <= ri <= a ->
  (forall k, ri <= k < a -> byte_at (region_bytes (fields m)) k = 0) ->
  endian (header m) = SD_BUS_NATIVE_ENDIAN ->
  SD_BUS_MESSAGE_HEADER_SIGNATURE < code ->
  In t [ SD_BUS_TYPE_BYTE; SD_BUS_TYPE_BOOLEAN; SD_BUS_TYPE_INT16; SD_BUS_TYPE_UINT16;
         SD_BUS_TYPE_INT32; SD_BUS_TYPE_UINT32; SD_BUS_TYPE_INT64; SD_BUS_TYPE_UINT64;
         SD_BUS_TYPE_DOUBLE; SD_BUS_TYPE_UNIX_FD ] ->
  signature_is_valid [t] true = true ->
  v = ALIGN_TO (a + 4) (bus_type_get_alignment t) -> a + 4 <= v ->
  (forall k, a + 4 <= k < v -> byte_at (region_bytes (fields m)) k = 0) ->
  v + bus_type_get_size t <= fields_size (header m) <= UINT32_MAX ->
  parse_field m ri h = Returns ((0, v + bus_type_get_size t, m), h).
Proof.
  intros HF HP Ha Hri Hpad Hend Hcode Hin Hsig Hv Hav Hpad2 Hfit.
  pose proof (Zlength_nonneg P) as HPn. unfold UINT32_MAX in *.
  assert (Hal : 0 < bus_type_get_alignment t <= 8 /\ 0 < bus_type_get_size t <= 8
                /\ t <> 0 /\ bus_type_is_basic t = true
                /\ (t =? SD_BUS_TYPE_STRING) = false
                /\ (t =? SD_BUS_TYPE_OBJECT_PATH) = false
                /\ (t =? SD_BUS_TYPE_SIGNATURE) = false).
  { cbn [In] in Hin.
    destruct Hin as [<-|[<-|[<-|[<-|[<-|[<-|[<-|[<-|[<-|[<-|[]]]]]]]]]]];
      vm_compute; intuition congruence. }
  destruct Hal as (Halign & Hsize & Hty & Hbasic & Ns & No & Ng).
  destruct (ALIGN_TO_spec (a + 4) (bus_type_get_alignment t)) as [Hvr Hvm]; try lia.
  rewrite <- Hv in Hvr, Hvm.
  destruct (field_prelude m ri a code t P R HF HP Ha Hri Hpad Hend ltac:(unfold UINT32_MAX; lia) Hty)
    as (E1 & B0 & E2 & Esig & Hfs).
  rewrite Hsig in E2.
  assert (E3 : message_peek_fields m (a + 4) (bus_type_get_alignment t) (bus_type_get_size t)
               = (1, v + bus_type_get_size t, v)).
  { unfold message_peek_fields. rewrite Hfs.
    destruct (buffer_peek_cases (region_bytes (fields m)) (fields_size (header m)) (a + 4)
                (bus_type_get_alignment t) (bus_type_get_size t)) as (_ & Hok & _);
      try lia.
    rewrite <- Hv in Hok. apply Hok. split; [lia|exact Hpad2]. }
  unfold parse_field. rewrite E1. cbn [Z.ltb Z.compare].
  unfold bind at 1. unfold lift at 1. rewrite E2. cbn [Z.ltb Z.compare]. cbv zeta.
  rewrite Esig, B0.
  unfold SD_BUS_MESSAGE_HEADER_SIGNATURE in Hcode.
  repeat match goal with
         | |- context [code =? ?c] =>
             replace (code =? c) with false by (symmetry; apply Z.eqb_neq; vm_compute; lia)
         end.
  cbv iota. unfold bind, lift.
  destruct (Z.to_nat (256 * (BUS_MESSAGE_FIELDS_SIZE m + 1))) as [|[|fuel]] eqn:Ef;
    [rewrite Hfs in Ef; lia|rewrite Hfs in Ef; lia|].
  cbn [message_skip_fields].
  change (UINT32_MAX =? UINT32_MAX) with true. cbn [negb andb]. cbv zeta.
  replace (t =? 0) with false by (symmetry; apply Z.eqb_neq; exact Hty).
  rewrite Ns, No, Ng, Hbasic, E3.
  cbn [Z.ltb Z.compare]. unfold sig_advance.
  change (strlen [t] <? 1) with false. cbv iota.
  change (str_from [t] 1) with (@nil Z).
  reflexivity.
Qed.
End OtherFields.

Section WrongType.
Context {host : Host} {ext : Collaborators}.

(** A header field with the code 0, or with a code the parser knows and a
    value of another type than the one that code stands for (PATH an
    object path, SIGNATURE a signature, REPLY_SERIAL a [uint32_t], the
    others a string), ends the parse with -EBADMSG: the value is not
    looked at and the message is left as it is. *)
Theorem a_field_of_the_wrong_type_is_refused
    (m : sd_bus_message) (ri a code ty expected : Z) (P R : list Z) (h : heap) :
  region_bytes (fields m) = P ++ [code; 1; ty; 0] ++ R ->
  Zlength P = a -> a = ALIGN_TO ri 8 -> 0 <= ri <= a ->
  (forall k, ri <= k < a -> byte_at (region_bytes (fields m)) k = 0) ->
  endian (header m) = SD_BUS_NATIVE_ENDIAN ->
  a + 4 <= fields_size (header m) <= UINT32_MAX ->
  ty <> 0 ->
  code = _SD_BUS_MESSAGE_HEADER_INVALID
  \/ (ty <> expected
      /\ In (code, expected)
            [ (SD_BUS_MESSAGE_HEADER_PATH, SD_BUS_TYPE_OBJECT_PATH);
              (SD_BUS_MESSAGE_HEADER_INTERFACE, SD_BUS_TYPE_STRING);
              (SD_BUS_MESSAGE_HEADER_MEMBER, SD_BUS_TYPE_STRING);
              (SD_BUS_MESSAGE_HEADER_ERROR_NAME, SD_BUS_TYPE_STRING);
              (SD_BUS_MESSAGE_HEADER_REPLY_SERIAL, SD_BUS_TYPE_UINT32);
              (SD_BUS_MESSAGE_HEADER_DESTINATION, SD_BUS_TYPE_STRING);
              (SD_BUS_MESSAGE_HEADER_SENDER, SD_BUS_TYPE_STRING);
              (SD_BUS_MESSAGE_HEADER_SIGNATURE, SD_BUS_TYPE_SIGNATURE) ]) ->
  parse_field m ri h = Returns ((- EBADMSG, a + 4, m), h).
Proof.
  intros HF HP Ha Hri Hpad Hend Hfit Hty Hcase.
  destruct (field_prelude m ri a code ty P R HF HP Ha Hri Hpad Hend Hfit Hty)
    as (E1 & B0 & E2 & Esig & Hfs).
  unfold parse_field. rewrite E1. cbn [Z.ltb Z.compare].
  unfold bind at 1. unfold lift at 1. rewrite E2.
  destruct (signature_is_valid [ty] true); [|reflexivity].
  cbn [Z.ltb Z.compare]. cbv zeta. rewrite Esig, B0.
  assert (Hne : forall e, ty <> e -> streq [ty] [e] = false).
  { intros e He. unfold streq. cbn [cstring_eqb].
    apply Z.eqb_neq in He. rewrite He. reflexivity. }
  destruct Hcase as [->|[Hne' Hin]]; [reflexivity|].
  cbn [In] in Hin.
  destruct Hin as [E|[E|[E|[E|[E|[E|[E|[E|[]]]]]]]]]; inversion E; subst code expected;
    clear E; decide_tests; cbv iota; rewrite (Hne _ Hne'); reflexivity.
Qed.
End WrongType.

(** The UNIX_FDS field of two descriptors is stepped over. *)
Lemma an_unknown_field_is_skipped_witness :
  @parse_field little_endian_host reference_collaborators Run.only_unix_fds 0 []
  = Returns ((0, 8, Run.only_unix_fds), []).
Proof.
  apply (@an_unknown_field_is_skipped little_endian_host reference_collaborators
           Run.only_unix_fds 0 0 SD_BUS_MESSAGE_HEADER_UNIX_FDS SD_BUS_TYPE_UINT32 4
           [] [2; 0; 0; 0] []).
  - reflexivity.
  - reflexivity.
  - reflexivity.
  - lia.
  - intros k Hk. lia.
  - reflexivity.
  - reflexivity.
  - cbn [In]. tauto.
  - reflexivity.
  - reflexivity.
  - lia.
  - intros k Hk. lia.
  - vm_compute. split; discriminate.
Defined.

(** A PATH field that holds the string [/foo] is refused. *)
Lemma a_field_of_the_wrong_type_is_refused_witness :
  @parse_field little_endian_host reference_collaborators Run.path_as_string 0 []
  = Returns ((- EBADMSG, 4, Run.path_as_string), []).
Proof.
  apply (@a_field_of_the_wrong_type_is_refused little_endian_host reference_collaborators
           Run.path_as_string 0 0 SD_BUS_MESSAGE_HEADER_PATH SD_BUS_TYPE_STRING
           SD_BUS_TYPE_OBJECT_PATH [] [4; 0; 0; 0; 47; 102; 111; 111; 0] []).
  - reflexivity.
  - reflexivity.
  - reflexivity.
  - lia.
  - intros k Hk. lia.
  - reflexivity.
  - vm_compute. split; discriminate.
  - discriminate.
  - right. split; [discriminate|]. cbn [In]. tauto.
Defined.

(** ** The writer of the body leaves the rest alone *)

Ltac body_only :=
  unfold same_but_body, without_body, truncate_signature, message_set_container,
    message_get_container, advance, n_containers, assign, set_error_message;
  cbn;
  repeat match goal with
         | |- context [if ?b then _ else _] => destruct b; cbn
         end;
  reflexivity.

Lemma same_but_body_refl (m : sd_bus_message) : same_but_body m m.
Proof. reflexivity. Qed.

Lemma same_but_body_trans (a b c : sd_bus_message) :
  same_but_body a b -> same_but_body b c -> same_but_body a c.
Proof. unfold same_but_body. congruence. Qed.

Lemma set_container_same_but_body (m : sd_bus_message) (c : bus_container) :
  same_but_body m (message_set_container m c).
Proof. body_only. Qed.

Lemma truncate_same_but_body (m : sd_bus_message) (e : bool) :
  same_but_body m (truncate_signature e m).
Proof. body_only. Qed.

Section WriterFrame.
Context {host : Host} {ext : Collaborators}.

Lemma extend_body_same_but_body
    (m m' : sd_bus_message) (align sz : Z) (h h' : heap) (p : option Z) :
  message_extend_body m align sz h = Returns ((p, m'), h') -> same_but_body m m'.
Proof.
  unfold message_extend_body, bind.
  destruct (buffer_extend _ _ _ _ h) as [[[[q b] bs] h1]|]; [|discriminate].
  destruct q; unfold ret; intros H; inversion H; subst; reflexivity.
Qed.

Lemma append_slot_same_but_body
    (m m' : sd_bus_message) (t : Z) (h h' : heap) (r : Z) (e : bool) :
  append_slot m t h = Returns ((r, e, m'), h') -> same_but_body m m'.
Proof.
  unfold append_slot.
  destruct (has_char _).
  { destruct (negb _); intros H; inversion H; apply same_but_body_refl. }
  destruct (negb _); [intros H; inversion H; apply same_but_body_refl|].
  unfold bind.
  destruct (strextend _ _ h) as [[[s|] h1]|]; try discriminate;
    intros H; inversion H; subst.
  - apply set_container_same_but_body.
  - apply same_but_body_refl.
Qed.

Lemma open_slot_same_but_body
    (m m' : sd_bus_message) (c : bus_container) (matches : bool) (expected : cstring)
    (h h' : heap) (r n : Z) (e : bool) :
  open_slot m c matches expected h = Returns ((r, e, n, m'), h') -> same_but_body m m'.
Proof.
  unfold open_slot.
  destruct (has_char _).
  { destruct (negb _); intros H; inversion H; apply same_but_body_refl. }
  destruct (negb _); [intros H; inversion H; apply same_but_body_refl|].
  unfold bind.
  destruct (strextend _ _ h) as [[[s|] h1]|]; try discriminate;
    intros H; inversion H; subst.
  - apply set_container_same_but_body.
  - apply same_but_body_refl.
Qed.

Lemma append_value_same_but_body
    (m m' : sd_bus_message) (e : bool) (t align sz : Z) (bytes : list Z) (stored : out_ptr)
    (h h' : heap) (r : Z) :
  stored = None \/ stored = Some set_error_message ->
  append_value m e t align sz bytes stored h = Returns ((r, m'), h') -> same_but_body m m'.
Proof.
  intros Hst. unfold append_value, bind.
  destruct (message_extend_body m align sz h) as [[[a m1] h1]|] eqn:E; [|discriminate].
  apply extend_body_same_but_body in E.
  destruct a as [a|]; unfold ret; intros H; inversion H; subst; clear H;
    (eapply same_but_body_trans; [exact E|]).
  - destruct Hst as [->| ->]; body_only.
  - apply truncate_same_but_body.
Qed.

Lemma append_basic_same_but_body
    (m m' : sd_bus_message) (t : Z) (p : pointee) (stored : out_ptr) (h h' : heap) (r : Z) :
  stored = None \/ stored = Some set_error_message ->
  message_append_basic m t p stored h = Returns ((r, m'), h') -> same_but_body m m'.
Proof.
  intros Hst. unfold message_append_basic.
  destruct (sealed m); [intros H; inversion H; apply same_but_body_refl|].
  destruct (negb _); [intros H; inversion H; apply same_but_body_refl|].
  unfold bind.
  destruct (append_slot m t h) as [[[[r1 e] m1] h1]|] eqn:E; [|discriminate].
  apply append_slot_same_but_body in E.
  destruct (r1 <? 0); [unfold ret; intros H; inversion H; subst; exact E|].
  destruct (basic_layout t p) as [[r2 [[align sz] bytes]]|]; [|discriminate].
  destruct (r2 <? 0).
  - unfold ret. intros H. inversion H; subst.
    eapply same_but_body_trans; [exact E|apply truncate_same_but_body].
  - intros H. apply append_value_same_but_body in H; [|exact Hst].
    eapply same_but_body_trans; eassumption.
Qed.

Lemma open_array_same_but_body
    (m m' : sd_bus_message) (c : bus_container) (contents : cstring) (h h' : heap)
    (r : Z) (a : option Z) :
  bus_message_open_array m c contents h = Returns ((r, m', a), h') -> same_but_body m m'.
Proof.
  unfold bus_message_open_array.
  destruct (negb _); [intros H; inversion H; apply same_but_body_refl|].
  cbv zeta.
  destruct (_ <? 0); [intros H; inversion H; apply same_but_body_refl|].
  unfold bind at 1.
  destruct (open_slot m c _ _ h) as [[[[[r1 e] n] m1] h1]|] eqn:E; [|discriminate].
  apply open_slot_same_but_body in E.
  destruct (r1 <? 0); [unfold ret; intros H; inversion H; subst; exact E|].
  unfold bind at 1.
  destruct (message_extend_body m1 4 4 h1) as [[[q m2] h2]|] eqn:E2; [|discriminate].
  apply extend_body_same_but_body in E2.
  destruct q as [q|].
  2:{ unfold ret. intros H. inversion H; subst.
      eapply same_but_body_trans; [exact E|].
      eapply same_but_body_trans; [exact E2|apply truncate_same_but_body]. }
  unfold bind.
  destruct (message_extend_body m2 _ 0 h2) as [[[q3 m3] h3]|] eqn:E3; [|discriminate].
  apply extend_body_same_but_body in E3.
  assert (E13 : same_but_body m m3).
  { eapply same_but_body_trans; [exact E|].
    eapply same_but_body_trans; [exact E2|exact E3]. }
  destruct q3; unfold ret; intros H; inversion H; subst; clear H;
    (eapply same_but_body_trans; [exact E13|]); body_only.
Qed.

Lemma open_variant_same_but_body
    (m m' : sd_bus_message) (c : bus_container) (contents : cstring) (h h' : heap) (r : Z) :
  bus_message_open_variant m c contents h = Returns ((r, m'), h') -> same_but_body m m'.
Proof.
  unfold bus_message_open_variant.
  destruct (negb _); [intros H; inversion H; apply same_but_body_refl|].
  destruct (_ =? _); [intros H; inversion H; apply same_but_body_refl|].
  cbv zeta. unfold bind at 1.
  destruct (open_slot m c _ _ h) as [[[[[r1 e] n] m1] h1]|] eqn:E; [|discriminate].
  apply open_slot_same_but_body in E.
  destruct (r1 <? 0); [unfold ret; intros H; inversion H; subst; exact E|].
  unfold bind.
  destruct (message_extend_body m1 _ _ h1) as [[[q m2] h2]|] eqn:E2; [|discriminate].
  apply extend_body_same_but_body in E2.
  assert (E12 : same_but_body m m2) by (eapply same_but_body_trans; eassumption).
  destruct q; unfold ret; intros H; inversion H; subst; clear H;
    (eapply same_but_body_trans; [exact E12|]); body_only.
Qed.

Lemma open_struct_same_but_body
    (m m' : sd_bus_message) (c : bus_container) (contents : cstring) (h h' : heap) (r : Z) :
  bus_message_open_struct m c contents h = Returns ((r, m'), h') -> same_but_body m m'.
Proof.
  unfold bus_message_open_struct.
  destruct (negb _); [intros H; inversion H; apply same_but_body_refl|].
  cbv zeta. unfold bind at 1.
  destruct (open_slot m c _ _ h) as [[[[[r1 e] n] m1] h1]|] eqn:E; [|discriminate].
  apply open_slot_same_but_body in E.
  destruct (r1 <? 0); [unfold ret; intros H; inversion H; subst; exact E|].
  unfold bind.
  destruct (message_extend_body m1 _ _ h1) as [[[q m2] h2]|] eqn:E2; [|discriminate].
  apply extend_body_same_but_body in E2.
  assert (E12 : same_but_body m m2) by (eapply same_but_body_trans; eassumption).
  destruct q; unfold ret; intros H; inversion H; subst; clear H;
    (eapply same_but_body_trans; [exact E12|]); body_only.
Qed.

Lemma open_dict_entry_same_but_body
    (m m' : sd_bus_message) (c : bus_container) (contents : cstring) (h h' : heap) (r : Z) :
  bus_message_open_dict_entry m c contents h = Returns ((r, m'), h') -> same_but_body m m'.
Proof.
  unfold bus_message_open_dict_entry.
  destruct (negb _); [intros H; inversion H; apply same_but_body_refl|].
  destruct (negb _); [intros H; inversion H; apply same_but_body_refl|].
  destruct (has_char c); [|intros H; inversion H; apply same_but_body_refl].
  cbv zeta.
  destruct (negb _); [intros H; inversion H; apply same_but_body_refl|].
  unfold bind.
  destruct (message_extend_body m _ _ h) as [[[q m2] h2]|] eqn:E2; [|discriminate].
  apply extend_body_same_but_body in E2.
  destruct q; unfold ret; intros H; inversion H; subst; clear H.
  - eapply same_but_body_trans; [exact E2|]. body_only.
  - exact E2.
Qed.

Lemma open_container_same_but_body
    (m m' : sd_bus_message) (t : Z) (contents : option cstring) (h h' : heap) (r : Z) :
  sd_bus_message_open_container m t contents h = Returns ((r, m'), h') -> same_but_body m m'.
Proof.
  unfold sd_bus_message_open_container, ret.
  destruct (sealed m); [intros H; inversion H; apply same_but_body_refl|].
  destruct contents as [contents|]; [|intros H; inversion H; apply same_but_body_refl].
  unfold bind at 1. destruct (alloc h) as [[[|j1] h1]|]; try discriminate;
    try (intros H; inversion H; apply same_but_body_refl).
  unfold bind at 1. destruct (alloc h1) as [[[|j2] h2]|]; try discriminate;
    try (intros H; inversion H; apply same_but_body_refl).
  unfold bind at 1.
  destruct (open_kind m (message_get_container m) t contents h2) as [[[[r1 m1] a] h3]|] eqn:E;
    [|discriminate].
  assert (E1 : same_but_body m m1).
  { revert E. unfold open_kind.
    destruct (t =? SD_BUS_TYPE_ARRAY); [apply open_array_same_but_body|].
    destruct (t =? SD_BUS_TYPE_VARIANT).
    { unfold bind, ret.
      destruct (bus_message_open_variant _ _ _ _) as [[[r2 m2] h4]|] eqn:E2; [|discriminate].
      intros H; inversion H; subst. eapply open_variant_same_but_body; eassumption. }
    destruct (t =? SD_BUS_TYPE_STRUCT).
    { unfold bind, ret.
      destruct (bus_message_open_struct _ _ _ _) as [[[r2 m2] h4]|] eqn:E2; [|discriminate].
      intros H; inversion H; subst. eapply open_struct_same_but_body; eassumption. }
    destruct (t =? SD_BUS_TYPE_DICT_ENTRY).
    { unfold bind, ret.
      destruct (bus_message_open_dict_entry _ _ _ _) as [[[r2 m2] h4]|] eqn:E2; [|discriminate].
      intros H; inversion H; subst. eapply open_dict_entry_same_but_body; eassumption. }
    unfold ret. intros H; inversion H; apply same_but_body_refl. }
  destruct (r1 <? 0); intros H; inversion H; subst; exact E1.
Qed.

Lemma close_container_same_but_body (m m' : sd_bus_message) (r : Z) :
  sd_bus_message_close_container m = (r, m') -> same_but_body m m'.
Proof.
  unfold sd_bus_message_close_container.
  repeat match goal with
         | |- (if ?b then _ else _) = _ -> _ => destruct b
         end;
    intros H; inversion H; reflexivity.
Qed.

(** Whatever calls of the writer of the body have been made on a message
    ([append_basic], [open_container], [close_container], with any arguments
    and any results), the message differs from the one before them at most
    in the body and what belongs to it. The header apart from the size of
    the body, the fields and the pointers into them are as before, and so
    the type tests give the answers they gave. *)
Theorem the_writer_leaves_the_envelope_alone (m m' : sd_bus_message) :
  writer_calls m m' ->
  same_but_body m m'
  /\ fields m' = fields m
  /\ set_body_size 0 (header m') = set_body_size 0 (header m)
  /\ sd_bus_message_get_path m' = sd_bus_message_get_path m
  /\ (forall i mb, sd_bus_message_is_signal m' i mb = sd_bus_message_is_signal m i mb)
  /\ (forall i mb, sd_bus_message_is_method_call m' i mb = sd_bus_message_is_method_call m i mb)
  /\ (forall n, sd_bus_message_is_method_error m' n = sd_bus_message_is_method_error m n).
Proof.
  intros Hcalls.
  assert (Hsame : same_but_body m m').
  { induction Hcalls as [m|m m1 m' Hcall _ IH].
    - apply same_but_body_refl.
    - apply same_but_body_trans with (b := m1); [|exact IH].
      destruct Hcall as [t p h h' r H|t c h h' r H|r H].
      + unfold sd_bus_message_append_basic in H.
        eapply append_basic_same_but_body; [left; reflexivity|exact H].
      + exact (open_container_same_but_body _ _ _ _ _ _ _ H).
      + exact (close_container_same_but_body _ _ _ H). }
  pose proof Hsame as He. unfold same_but_body in He.
  assert (Hf : fields m' = fields m) by exact (f_equal fields He).
  assert (Hh : set_body_size 0 (header m') = set_body_size 0 (header m))
    by exact (f_equal header He).
  assert (Ht : type (header m') = type (header m)) by exact (f_equal type Hh).
  assert (Hp : path m' = path m) by exact (f_equal path He).
  assert (Hi : interface m' = interface m) by exact (f_equal interface He).
  assert (Hm : member m' = member m) by exact (f_equal member He).
  assert (Hn : name (error m') = name (error m))
    by exact (f_equal (fun x => name (error x)) He).
  split; [exact Hsame|]. split; [exact Hf|]. split; [exact Hh|]. split; [exact Hp|].
  unfold sd_bus_message_is_signal, sd_bus_message_is_method_call,
    sd_bus_message_is_method_error, differs.
  rewrite Ht, Hf, Hi, Hm, Hn. repeat split.
Qed.
End WriterFrame.

(** The signal of scenario 1 before and after its two values have been
    appended. *)
Lemma the_writer_leaves_the_envelope_alone_witness :
  fields Run.signal_su = fields Run.bare_signal
  /\ sd_bus_message_is_signal Run.signal_su (Some (cstr "com.example")) (Some (cstr "Bar"))
     = sd_bus_message_is_signal Run.bare_signal (Some (cstr "com.example"))
                                (Some (cstr "Bar")).
Proof.
  destruct (@the_writer_leaves_the_envelope_alone little_endian_host reference_collaborators
              Run.bare_signal Run.signal_su) as (_ & Hf & _ & _ & Hs & _).
  - eapply writes_more;
      [eapply call_append_basic
         with (t := SD_BUS_TYPE_STRING) (p := PStr (cstr "hi")) (h := []);
       vm_compute; reflexivity|].
    eapply writes_more;
      [eapply call_append_basic with (t := SD_BUS_TYPE_UINT32) (p := PInt 7) (h := []);
       vm_compute; reflexivity|].
    apply writes_none.
  - split; [exact Hf|apply Hs].
Defined.

(** ** Error replies *)

Section ErrorReply.
Context {host : Host} {ext : Collaborators}.

(** The reply as [message_new_reply] hands it out: nothing in its body
    yet. *)
Lemma message_new_reply_shape
    (bus : option sd_bus) (call reply : sd_bus_message) (type_ : Z) (h h' : heap) :
  message_new_reply bus (Some call) type_ h = Returns ((0, Some reply), h') ->
  fields_in_step reply /\ type (header reply) = type_
  /\ sealed reply = false /\ containers reply = []
  /\ body reply = None /\ body_size (header reply) = 0
  /\ root_container reply = mk_container 0 None 0 None 0
  /\ error reply = mk_error None None
  /\ reply_serial reply = BUS_MESSAGE_SERIAL call.
Proof.
  unfold message_new_reply.
  destruct (sealed call) eqn:Hs; cbn [negb]; [|intros H; inversion H].
  destruct (type (header call) =? SD_BUS_MESSAGE_TYPE_METHOD_CALL) eqn:Ht; cbn [negb];
    [|intros H; inversion H].
  unfold bind at 1.
  destruct (message_new bus type_ h) as [[[t|] h1]|] eqn:En; try (intros H; inversion H; fail).
  apply message_new_is in En. subst t.
  set (t1 := set_reply_serial _ _).
  assert (Hstep1 : fields_in_step t1).
  { unfold fields_in_step, UINT32_MAX. cbn. split; [reflexivity|lia]. }
  unfold bind at 1.
  destruct (message_append_field_uint32 t1 _ _ h1) as [[[r t2] h2]|] eqn:E1; [|discriminate].
  apply message_append_field_uint32_cases in E1; [|assumption].
  destruct E1 as [[Hr ->]|(-> & -> & Hstep2)].
  { pose proof Hr as Hr'. apply Z.ltb_lt in Hr'. rewrite Hr'. intros H. inversion H. }
  cbn [Z.ltb Z.compare].
  set (t2 := with_field t1 _) in *.
  unfold bind.
  destruct (sender call) as [s|].
  - destruct (message_append_field_string t2 _ _ _ _ h2) as [[[r t3] h3]|] eqn:E2;
      [|discriminate].
    apply message_append_field_string_cases in E2; [|assumption].
    destruct E2 as [[Hr ->]|(-> & -> & Hstep3)].
    { pose proof Hr as Hr'. apply Z.ltb_lt in Hr'. rewrite Hr'. intros H. inversion H. }
    cbn [Z.ltb Z.compare]. unfold ret. intros H. inversion H; subst; clear H.
    split; [exact Hstep3|]. repeat split.
  - unfold ret. cbn [Z.ltb Z.compare]. intros H. inversion H; subst; clear H.
    split; [exact Hstep2|]. repeat split.
Qed.

(** The error message goes into the empty body of the reply as its first
    string. *)
Lemma append_error_message
    (t m : sd_bus_message) (msg : cstring) (h h' : heap) (r : Z) :
  sealed t = false -> containers t = [] -> body t = None -> body_size (header t) = 0 ->
  root_container t = mk_container 0 None 0 None 0 ->
  strlen msg < 2 ^ 32 ->
  message_append_basic t SD_BUS_TYPE_STRING (PStr msg) (Some set_error_message) h
  = Returns ((r, m), h') ->
  0 <= r ->
  message (error m) = Some 4
  /\ region_bytes (body m) = store_native 4 (strlen msg) ++ msg ++ [0]
  /\ signature (root_container m) = Some [SD_BUS_TYPE_STRING].
Proof.
  intros Hs Hc Hb Hbs Hroot Hlen Hrun Hr.
  pose proof (Zlength_nonneg msg) as Hn. unfold strlen in *.
  destruct (at_root _ Hc) as [Hget Hset].
  unfold message_append_basic in Hrun. rewrite Hs in Hrun.
  change (bus_type_is_basic SD_BUS_TYPE_STRING) with true in Hrun. cbn [negb] in Hrun.
  unfold bind at 1 in Hrun. unfold append_slot in Hrun.
  rewrite Hget, Hroot in Hrun.
  change (has_char (mk_container 0 None 0 None 0)) with false in Hrun.
  cbn [enclosing Z.eqb negb signature] in Hrun.
  unfold bind at 1 in Hrun. unfold strextend in Hrun. unfold bind at 1 in Hrun.
  destruct (alloc_cases h) as [[Ha _]|[junk Ha]]; rewrite Ha in Hrun.
  { unfold ret in Hrun. cbn [Z.ltb Z.compare Z.opp ENOMEM] in Hrun.
    inversion Hrun; subst. unfold ENOMEM in Hr. lia. }
  unfold ret at 1 in Hrun. unfold ret at 1 in Hrun. cbv beta iota in Hrun.
  cbn [Z.ltb Z.compare] in Hrun.
  set (ms := message_set_container t _) in Hrun.
  unfold basic_layout in Hrun.
  change ((SD_BUS_TYPE_STRING =? SD_BUS_TYPE_STRING)
          || (SD_BUS_TYPE_STRING =? SD_BUS_TYPE_OBJECT_PATH)) with true in Hrun.
  cbv iota zeta in Hrun. cbn [Z.ltb Z.compare] in Hrun.
  unfold strlen in Hrun. rewrite size_t_small in Hrun by lia.
  replace (4 + Zlength msg + 1 - 5) with (Zlength msg) in Hrun by lia.
  rewrite u32_small in Hrun by lia.
  set (bytes := store_native 4 (Zlength msg) ++ msg ++ [0]) in Hrun.
  assert (Hbl : Zlength bytes = 4 + Zlength msg + 1).
  { unfold bytes. rewrite !Zlength_app.
    rewrite (Zlength_correct (store_native _ _)), store_native_length.
    change (Zlength [0]) with 1. change (Z.of_nat 4) with 4. lia. }
  rewrite <- Hbl in Hrun.
  unfold append_value, bind in Hrun.
  destruct (message_extend_body ms 4 (Zlength bytes) (skipn 1 h)) as [[[a mb] h3]|] eqn:Ee;
    [|discriminate].
  destruct a as [a|].
  2:{ unfold ret in Hrun. inversion Hrun; subst. unfold ENOMEM in Hr. lia. }
  assert (Hms : containers ms = [] /\ body ms = None /\ header ms = header t).
  { unfold ms. rewrite Hset. repeat split; assumption. }
  destruct Hms as (Hcm & Hbm & Hhm).
  apply extend_body_then_write in Ee; try lia; try assumption.
  2:{ rewrite Hbm, Hhm, Hbs. reflexivity. }
  2:{ rewrite Hhm, Hbs. unfold UINT32_MAX. lia. }
  destruct Ee as (Ea & Hw & _).
  rewrite Hhm, Hbs in Ea. change (ALIGN_TO 0 4) with 0 in Ea. subst a.
  rewrite Hw in Hrun.
  change ((SD_BUS_TYPE_STRING =? SD_BUS_TYPE_STRING)
          || (SD_BUS_TYPE_STRING =? SD_BUS_TYPE_OBJECT_PATH)) with true in Hrun.
  cbv iota in Hrun. unfold ret in Hrun.
  assert (Em : m = message_set_container
                     (assign (Some set_error_message) (0 + 4) (with_value ms 4 bytes))
                     (advance (message_get_container
                                 (assign (Some set_error_message) (0 + 4)
                                         (with_value ms 4 bytes)))
                              (index (message_get_container
                                        (assign (Some set_error_message) (0 + 4)
                                                (with_value ms 4 bytes))) + 1)))
    by (inversion Hrun; reflexivity).
  clear Hrun. subst m.
  set (mv := assign _ _ (with_value ms 4 bytes)).
  assert (Hcv : containers mv = []) by exact Hcm.
  destruct (at_root _ Hcv) as [Hgetv Hsetv].
  rewrite Hsetv, Hgetv.
  assert (Hbody : region_bytes (body mv) = bytes).
  { unfold mv, with_value, assign, set_error_message.
    cbn [body set_error set_body set_header region_bytes].
    rewrite Hbm, Hhm, Hbs. change (ALIGN_TO 0 4 - 0) with 0. reflexivity. }
  split; [reflexivity|]. split; [exact Hbody|].
  unfold advance. destruct (_ =? SD_BUS_TYPE_ARRAY);
    cbn [root_container set_root_container signature set_index];
    unfold mv, with_value, assign, set_error_message, ms;
    rewrite Hset; reflexivity.
Qed.

(** When [new_method_error] succeeds the reply is an unsealed METHOD_ERROR
    with the serial of the call as its reply serial; its error name points
    at the name given, and [is_method_error] answers 1 exactly for this
    name or for no name. Without an error message the body stays empty;
    with one the body is that string, the root signature is [s], and the
    error message of the reply points at it. *)
Theorem new_method_error_names_the_error
    (bus : option sd_bus) (call m : sd_bus_message) (e_name : cstring)
    (e_message : option cstring) (h h' : heap) :
  sd_bus_message_new_method_error bus (Some call) (Some (mk_error (Some e_name) e_message)) h
  = Returns ((0, Some m), h') ->
  Forall (fun c => c <> 0) e_name ->
  type (header m) = SD_BUS_MESSAGE_TYPE_METHOD_ERROR /\ sealed m = false
  /\ reply_serial m = BUS_MESSAGE_SERIAL call
  /\ points_at m (name (error m)) e_name
  /\ (forall n, sd_bus_message_is_method_error m n = 1 <-> asks_for n e_name)
  /\ match e_message with
     | None => message (error m) = None /\ body m = None
     | Some msg =>
         strlen msg < 2 ^ 32 -> Forall (fun c => c <> 0) msg ->
         exists q, message (error m) = Some q
                   /\ cstr_at (region_bytes (body m)) q = msg
                   /\ signature (root_container m) = Some [SD_BUS_TYPE_STRING]
     end.
Proof.
  intros Hrun Hname. unfold sd_bus_message_new_method_error in Hrun.
  unfold bind at 1 in Hrun.
  destruct (message_new_reply bus (Some call) _ h) as [[[r0 [t|]] h0]|] eqn:En;
    try (inversion Hrun; fail).
  destruct (r0 <? 0) eqn:Hr0; [inversion Hrun|].
  assert (r0 = 0).
  { revert En. unfold message_new_reply, bind, ret.
    repeat match goal with
           | |- (if ?b then _ else _) _ = _ -> _ => destruct b
           | |- match ?x with _ => _ end = _ -> _ => destruct x
           | |- match ?x with _ => _ end _ = _ -> _ => destruct x
           end; intros H; inversion H; reflexivity. }
  subst r0.
  apply message_new_reply_shape in En.
  destruct En as (Hstep & Hty & Hsealed & Hcont & Hbody & Hbs & Hroot & Herr & Hrs).
  unfold bind at 1 in Hrun.
  destruct (message_append_field_string t _ _ e_name _ h0) as [[[r1 t2] h1]|] eqn:E1;
    [|discriminate].
  apply message_append_field_string_cases in E1; [|assumption].
  destruct E1 as [[Hr ->]|(-> & -> & Hstep2)].
  { apply Z.ltb_lt in Hr. rewrite Hr in Hrun. inversion Hrun. }
  cbn [Z.ltb Z.compare] in Hrun.
  set (q := ALIGN_TO (fields_size (header t)) 8 + 8) in *.
  set (w := with_field t _) in *.
  set (t2 := assign (Some set_error_name) q w) in *.
  assert (Hhold : holds_string (region_bytes (fields t2)) q e_name).
  { apply with_field_holds_string; assumption. }
  assert (F2 : type (header t2) = SD_BUS_MESSAGE_TYPE_METHOD_ERROR /\ sealed t2 = false
               /\ reply_serial t2 = BUS_MESSAGE_SERIAL call
               /\ name (error t2) = Some q /\ message (error t2) = None
               /\ containers t2 = [] /\ body t2 = None /\ body_size (header t2) = 0
               /\ root_container t2 = mk_container 0 None 0 None 0).
  { unfold t2, w, with_field, assign, set_error_name.
    cbn [header set_header set_fields set_error type set_fields_size sealed reply_serial
         error name message containers body body_size root_container].
    rewrite Herr. repeat split; assumption. }
  destruct F2 as (T2 & S2 & R2 & N2 & M2 & C2 & B2 & Z2 & Root2).
  assert (Hfinal : forall mm,
             type (header mm) = SD_BUS_MESSAGE_TYPE_METHOD_ERROR ->
             fields mm = fields t2 -> name (error mm) = Some q ->
             points_at mm (name (error mm)) e_name
             /\ (forall n, sd_bus_message_is_method_error mm n = 1 <-> asks_for n e_name)).
  { intros mm Tm Fm Nm.
    assert (Pn : points_at mm (name (error mm)) e_name).
    { exists q. split; [exact Nm|]. rewrite Fm. apply holds_string_cstr_at. exact Hhold. }
    split; [exact Pn|].
    intros n. unfold sd_bus_message_is_method_error. rewrite Tm, Z.eqb_refl. cbn [negb].
    pose proof (differs_spec _ _ _ n Pn) as Dn.
    destruct (differs _ _ n).
    - split; [discriminate|]. intros A. apply Dn in A. discriminate.
    - split; [|reflexivity]. intros _. apply Dn. reflexivity. }
  unfold bind in Hrun.
  destruct e_message as [msg|].
  - destruct (message_append_basic t2 _ _ _ h1) as [[[r2 m2] h2]|] eqn:E2; [|discriminate].
    destruct (r2 <? 0) eqn:Hr2; [inversion Hrun|].
    apply Z.ltb_ge in Hr2.
    assert (Em : m = m2) by (inversion Hrun; reflexivity). subst m2. clear Hrun.
    pose proof (append_basic_same_but_body _ _ _ _ _ _ _ _ (or_intror eq_refl) E2) as Hframe.
    unfold same_but_body in Hframe.
    assert (Tm : type (header m) = SD_BUS_MESSAGE_TYPE_METHOD_ERROR).
    { rewrite <- T2. exact (f_equal (fun x => type (header x)) Hframe). }
    assert (Fm : fields m = fields t2) by exact (f_equal fields Hframe).
    assert (Nm : name (error m) = Some q).
    { rewrite <- N2. exact (f_equal (fun x => name (error x)) Hframe). }
    destruct (Hfinal m Tm Fm Nm) as [Pn Hiff].
    split; [exact Tm|].
    split. { rewrite <- S2. exact (f_equal sealed Hframe). }
    split. { rewrite <- R2. exact (f_equal reply_serial Hframe). }
    split; [exact Pn|]. split; [exact Hiff|].
    intros Hlen Hmsg.
    destruct (append_error_message t2 m msg h1 h2 r2 S2 C2 B2 Z2 Root2 Hlen E2 Hr2)
      as (Hq & Hb & Hsig).
    exists 4. split; [exact Hq|]. split; [|exact Hsig].
    rewrite Hb.
    replace 4 with (Zlength (store_native 4 (strlen msg)))
      by (rewrite Zlength_correct, store_native_length; reflexivity).
    change (msg ++ [0]) with (msg ++ 0 :: []).
    apply cstr_at_middle. exact Hmsg.
  - unfold ret in Hrun. cbn [Z.ltb Z.compare] in Hrun.
    assert (Em : m = t2) by (inversion Hrun; reflexivity). subst m. clear Hrun.
    destruct (Hfinal t2 T2 eq_refl N2) as [Pn Hiff].
    repeat split; try assumption; apply Hiff.
Qed.
End ErrorReply.

(** The error reply to the call of scenario 2. *)
Lemma new_method_error_names_the_error_witness :
  type (header Run.error_reply) = SD_BUS_MESSAGE_TYPE_METHOD_ERROR
  /\ sd_bus_message_is_method_error Run.error_reply (Some (cstr "org.example.Failed")) = 1
  /\ (exists q, message (error Run.error_reply) = Some q
                /\ cstr_at (region_bytes (body Run.error_reply)) q = cstr "boom"
                /\ signature (root_container Run.error_reply) = Some [SD_BUS_TYPE_STRING]).
Proof.
  assert (E : @sd_bus_message_new_method_error little_endian_host
                None (Some Run.sealed_hello)
                (Some (mk_error (Some (cstr "org.example.Failed")) (Some (cstr "boom")))) []
              = Returns ((0, Some Run.error_reply), [])) by (vm_compute; reflexivity).
  destruct (new_method_error_names_the_error _ _ _ _ _ _ _ E)
    as (Ht & _ & _ & _ & Hiff & Hmsg).
  { apply no_nul_forall. reflexivity. }
  split; [exact Ht|]. split; [apply Hiff; right; reflexivity|].
  apply Hmsg; [reflexivity|apply no_nul_forall; reflexivity].
Defined.

(** ** Peeking before reading *)

Section Peek.
Context {host : Host} {ext : Collaborators}.

Lemma message_peek_body_result
    (m : sd_bus_message) (ri al n r ri' q : Z) :
  message_peek_body m ri al n = (r, ri', q) ->
  (r = 1 \/ r = 0 \/ r = - EBADMSG)
  /\ (message_end_of_array m ri = false -> r <> 0)
  /\ (message_end_of_array m ri = true -> r = 0).
Proof.
  unfold message_peek_body, buffer_peek.
  destruct (message_end_of_array m ri).
  { intros H; inversion H. split; [tauto|]. split; [discriminate|reflexivity]. }
  destruct (_ <? _); [intros H; inversion H; split; [tauto|split; discriminate]|].
  destruct (negb _); intros H; inversion H; (split; [tauto|split; discriminate]).
Qed.

Lemma read_string_of_the_type_there
    (m m' : sd_bus_message) (width : Z) (validate : list Z -> Z -> Z -> outcome bool)
    (r : Z) (v : option value) :
  message_end_of_array m (rindex m) = false ->
  read_string m width validate = Returns (r, m', v) ->
  r = 1 \/ (r = - EBADMSG /\ m' = m).
Proof.
  intros Hend. unfold read_string.
  destruct (message_peek_body m (rindex m) width width) as [[r1 ri1] q1] eqn:E1.
  apply message_peek_body_result in E1. destruct E1 as (V1 & N1 & _).
  specialize (N1 Hend).
  destruct (r1 <=? 0) eqn:L1.
  { apply Z.leb_le in L1. intros H; inversion H; subst.
    right. split; [unfold EBADMSG in *; lia|reflexivity]. }
  destruct (message_peek_body m ri1 1 _) as [[r2 ri2] q2] eqn:E2.
  destruct (r2 <? 0) eqn:L2.
  { apply message_peek_body_result in E2. destruct E2 as (V2 & _).
    apply Z.ltb_lt in L2. intros H; inversion H; subst.
    right. split; [unfold EBADMSG in *; lia|reflexivity]. }
  destruct (r2 =? 0); [intros H; inversion H; right; split; reflexivity|].
  destruct (validate _ _ _) as [[|]|]; try discriminate.
  - unfold read_done. intros H; inversion H. left. reflexivity.
  - intros H; inversion H. right. split; reflexivity.
Qed.

Lemma read_basic_of_the_type_there
    (m m' : sd_bus_message) (t r : Z) (v : option value) :
  message_end_of_array m (rindex m) = false ->
  sd_bus_message_read_basic m t = Returns (r, m', v) ->
  char_at (strempty (signature (message_get_container m))) (index (message_get_container m))
  = t ->
  has_char (message_get_container m) = true -> bus_type_is_basic t = true ->
  sealed m = true ->
  r = 1 \/ (r = - EBADMSG /\ m' = m).
Proof.
  intros Hend Hrun Hch Hhas Hbasic Hs. revert Hrun.
  unfold sd_bus_message_read_basic. rewrite Hs, Hbasic, Hhas, Hch, Z.eqb_refl.
  cbn [negb]. cbv zeta.
  destruct (t =? SD_BUS_TYPE_STRING); [apply read_string_of_the_type_there; exact Hend|].
  destruct (t =? SD_BUS_TYPE_OBJECT_PATH); [apply read_string_of_the_type_there; exact Hend|].
  destruct (t =? SD_BUS_TYPE_SIGNATURE); [apply read_string_of_the_type_there; exact Hend|].
  destruct (message_peek_body m (rindex m) _ _) as [[r1 ri1] q1] eqn:E1.
  apply message_peek_body_result in E1. destruct E1 as (V1 & N1 & _).
  specialize (N1 Hend).
  destruct (r1 <=? 0) eqn:L1.
  { apply Z.leb_le in L1. intros H; inversion H; subst.
    right. split; [unfold EBADMSG in *; lia|reflexivity]. }
  unfold read_done.
  repeat match goal with
         | |- (if ?b then _ else _) = _ -> _ => destruct b
         end;
    intros H; inversion H; left; reflexivity.
Qed.

Lemma read_basic_at_the_end
    (m : sd_bus_message) (t : Z) :
  sealed m = true -> bus_type_is_basic t = true ->
  has_char (message_get_container m) = false
  \/ message_end_of_array m (rindex m) = true ->
  sd_bus_message_read_basic m t = Returns (0, m, None)
  \/ sd_bus_message_read_basic m t = Returns (- ENXIO, m, None).
Proof.
  intros Hs Hbasic Hend. unfold sd_bus_message_read_basic. rewrite Hs, Hbasic. cbn [negb].
  cbv zeta.
  destruct (has_char _) eqn:Hhas; cbn [negb]; [|left; reflexivity].
  destruct Hend as [Hend|Hend]; [discriminate|].
  destruct (negb _); [right; reflexivity|]. left.
  assert (Hpk : forall al n, message_peek_body m (rindex m) al n = (0, rindex m, 0)).
  { intros al n. unfold message_peek_body. rewrite Hend. reflexivity. }
  unfold read_string. rewrite !Hpk. cbn [Z.leb Z.compare].
  repeat match goal with
         | |- (if ?b then _ else _) = _ => destruct b
         end; reflexivity.
Qed.

(** On a sealed message [peek_type], asked for the type only, takes
    nothing from the allocator and answers 1, 0 or -EINVAL. When it answers
    0 (the end of the container or of the array) the type it gives is that
    of the enclosing container, and [read_basic] then reads nothing, whatever
    basic type it is asked for: it answers 0 or, for a type that is not the
    one in the signature, -ENXIO, and leaves the message alone. When it
    answers 1 with the type [ty], [read_basic] for any other basic type
    answers -ENXIO and leaves the message alone; for [ty] itself it does
    not say that there is nothing to read: if it returns, it has read the
    value (1), or it found the message malformed (-EBADMSG) and left it
    alone. *)
Theorem peek_type_foretells_read_basic (m : sd_bus_message) (h : heap) :
  sealed m = true ->
  exists r ty,
    sd_bus_message_peek_type m true false h = Returns ((r, ty, None), h)
    /\ (r = 0 \/ r = 1 \/ r = - EINVAL)
    /\ (r = 0 ->
        ty = Some (enclosing (message_get_container m))
        /\ forall t, bus_type_is_basic t = true ->
                     sd_bus_message_read_basic m t = Returns (0, m, None)
                     \/ sd_bus_message_read_basic m t = Returns (- ENXIO, m, None))
    /\ (r = 1 ->
        exists k, ty = Some k
        /\ forall t, bus_type_is_basic t = true ->
             (t <> k -> sd_bus_message_read_basic m t = Returns (- ENXIO, m, None))
             /\ (t = k -> forall r' m' v,
                   sd_bus_message_read_basic m t = Returns (r', m', v) ->
                   r' = 1 \/ (r' = - EBADMSG /\ m' = m))).
Proof.
  intros Hs. unfold sd_bus_message_peek_type. rewrite Hs. cbn [negb]. cbv zeta.
  unfold stored_through.
  destruct (has_char (message_get_container m)) eqn:Hhas; cbn [negb].
  2:{ eexists _, _. split; [reflexivity|]. split; [tauto|].
      split; [|discriminate]. intros _. split; [reflexivity|].
      intros t Ht. apply read_basic_at_the_end; auto. }
  destruct (message_end_of_array m (rindex m)) eqn:Hend.
  { eexists _, _. split; [reflexivity|]. split; [tauto|].
    split; [|discriminate]. intros _. split; [reflexivity|].
    intros t Ht. apply read_basic_at_the_end; auto. }
  set (c := message_get_container m) in *.
  set (k := char_at (strempty (signature c)) (index c)).
  assert (Hother : forall t, bus_type_is_basic t = true -> t <> k ->
                             sd_bus_message_read_basic m t = Returns (- ENXIO, m, None)).
  { intros t Ht Hne. unfold sd_bus_message_read_basic. rewrite Hs, Ht. cbn [negb].
    cbv zeta. fold c. rewrite Hhas. cbn [negb]. fold k.
    destruct (k =? t) eqn:E; [apply Z.eqb_eq in E; congruence|]. reflexivity. }
  destruct (bus_type_is_basic k) eqn:Hk.
  { eexists _, _. split; [reflexivity|]. split; [tauto|].
    split; [discriminate|]. intros _. exists k. split; [reflexivity|].
    intros t Ht. split; [apply Hother; exact Ht|].
    intros -> r' m' v Hrun.
    eapply read_basic_of_the_type_there; try eassumption. reflexivity. }
  assert (Hcont : forall kind,
             bus_type_is_basic kind = false ->
             exists r ty,
               @ret (Z * option Z * option peeked) (1, Some kind, None) h
               = Returns ((r, ty, None), h)
               /\ (r = 0 \/ r = 1 \/ r = - EINVAL)
               /\ (r = 0 ->
                   ty = Some (enclosing c)
                   /\ forall t, bus_type_is_basic t = true ->
                                sd_bus_message_read_basic m t = Returns (0, m, None)
                                \/ sd_bus_message_read_basic m t = Returns (- ENXIO, m, None))
               /\ (r = 1 ->
                   exists k', ty = Some k'
                   /\ forall t, bus_type_is_basic t = true ->
                        (t <> k' ->
                         sd_bus_message_read_basic m t = Returns (- ENXIO, m, None))
                        /\ (t = k' -> forall r' m' v,
                              sd_bus_message_read_basic m t = Returns (r', m', v) ->
                              r' = 1 \/ (r' = - EBADMSG /\ m' = m)))).
  { intros kind Hkind. exists 1, (Some kind). split; [reflexivity|]. split; [tauto|].
    split; [discriminate|]. intros _. exists kind. split; [reflexivity|].
    intros t Ht.
    assert (Hne : t <> k) by (intros ->; congruence).
    split; [intros _; apply Hother; assumption|].
    intros ->. congruence. }
  destruct (k =? SD_BUS_TYPE_ARRAY); [apply Hcont; reflexivity|].
  destruct ((k =? SD_BUS_TYPE_STRUCT_BEGIN) || (k =? SD_BUS_TYPE_DICT_ENTRY_BEGIN)).
  { destruct (k =? SD_BUS_TYPE_STRUCT_BEGIN); apply Hcont; reflexivity. }
  destruct (k =? SD_BUS_TYPE_VARIANT); [apply Hcont; reflexivity|].
  eexists _, _. split; [reflexivity|]. split; [tauto|]. split; discriminate.
Qed.
End Peek.

(** In the signal of scenario 1, after its string has been read, a
    [uint32_t] is next: a string cannot be read there. *)
Lemma peek_type_foretells_read_basic_witness :
  @sd_bus_message_read_basic little_endian_host reference_collaborators
    Run.sealed_su_read SD_BUS_TYPE_STRING
  = Returns (- ENXIO, Run.sealed_su_read, None).
Proof.
  destruct (@peek_type_foretells_read_basic little_endian_host reference_collaborators
              Run.sealed_su_read [] eq_refl) as (r & ty & Hpeek & _ & _ & H1).
  vm_compute in Hpeek.
  assert (Hr : r = 1) by (inversion Hpeek; reflexivity).
  assert (Hty : ty = Some SD_BUS_TYPE_UINT32) by (inversion Hpeek; reflexivity).
  destruct (H1 Hr) as (k & Hk & Hall).
  assert (Ek : k = SD_BUS_TYPE_UINT32) by congruence.
  apply (Hall SD_BUS_TYPE_STRING eq_refl). rewrite Ek. discriminate.
Defined.

(** ** Arrays *)

Lemma mem_write_middle (P old new R : list Z) :
  List.length old = List.length new ->
  mem_write (P ++ old ++ R) (Zlength P) new = P ++ new ++ R.
Proof.
  intros Hlen. unfold mem_write. rewrite to_nat_Zlength.
  rewrite firstn_app, firstn_all, Nat.sub_diag. cbn [firstn]. rewrite app_nil_r.
  f_equal. f_equal.
  rewrite skipn_app.
  rewrite skipn_all2 by lia. cbn [app].
  replace (List.length P + List.length new - List.length P)%nat with (List.length old) by lia.
  rewrite skipn_app, skipn_all, Nat.sub_diag. reflexivity.
Qed.

Section ArrayWriter.
Context {host : Host} {ext : Collaborators}.

Lemma concat_store_length (xs : list Z) :
  Zlength (concat (map (store_native 4) xs)) = 4 * Zlength xs.
Proof.
  induction xs as [|x xs IH]; [reflexivity|].
  cbn [map concat]. rewrite Zlength_app, Zlength_cons, IH.
  rewrite (Zlength_correct (store_native _ _)), store_native_length. lia.
Qed.

Lemma array_u32_bytes_length (B xs : list Z) :
  Zlength B + 4 <= 2 ^ 64 ->
  Zlength (array_u32_bytes B xs) = ALIGN_TO (Zlength B) 4 + 4 + 4 * Zlength xs.
Proof.
  intros Hb. pose proof (Zlength_nonneg B) as HB.
  destruct (ALIGN_TO_spec (Zlength B) 4) as [Hal _]; try lia.
  unfold array_u32_bytes. rewrite !Zlength_app, Zlength_repeat.
  rewrite (Zlength_correct (store_native _ _)), store_native_length.
  rewrite concat_store_length. lia.
Qed.

(** One more element goes into the open array: the length in front of
    the elements grows by its four bytes. *)
Lemma append_u32_in_array
    (m m' : sd_bus_message) (B xs : list Z) (x : Z) (h h' : heap) :
  array_u32_open m B xs ->
  sd_bus_message_append_basic m SD_BUS_TYPE_UINT32 (PInt x) h = Returns ((0, m'), h') ->
  array_u32_open m' B (xs ++ [x]) /\ same_but_body m m'.
Proof.
  intros (Hs & Hc & Hb & Hbs & Hmax) Hrun.
  split; [|eapply append_basic_same_but_body; [left; reflexivity|exact Hrun]].
  pose proof (Zlength_nonneg B) as HB. pose proof (Zlength_nonneg xs) as Hxs.
  unfold UINT32_MAX in Hmax.
  assert (HBs : Zlength B + 4 <= 2 ^ 64).
  { rewrite Hbs in Hmax. unfold array_u32_bytes in Hmax. rewrite Zlength_app in Hmax.
    pose proof (Zlength_nonneg
                  (repeat 0 (Z.to_nat (ALIGN_TO (Zlength B) 4 - Zlength B))
                     ++ store_native 4 (4 * Zlength xs) ++ concat (map (store_native 4) xs))).
    lia. }
  pose proof (array_u32_bytes_length B xs HBs) as Hlen.
  destruct (ALIGN_TO_spec (Zlength B) 4) as [Hal Ham]; try lia.
  set (a := ALIGN_TO (Zlength B) 4) in *.
  set (bs := body_size (header m)) in *.
  assert (Hbsv : bs = a + 4 + 4 * Zlength xs) by (rewrite Hbs; exact Hlen).
  assert (Hbm : bs mod 4 = 0).
  { rewrite Hbsv. apply Z.mod_divide in Ham; [|lia]. destruct Ham as [k Hk]. rewrite Hk.
    replace (k * 4 + 4 + 4 * Zlength xs) with ((k + 1 + Zlength xs) * 4) by lia.
    apply Z.mod_mul. lia. }
  unfold sd_bus_message_append_basic, message_append_basic in Hrun.
  rewrite Hs in Hrun. change (bus_type_is_basic SD_BUS_TYPE_UINT32) with true in Hrun.
  cbn [negb] in Hrun.
  assert (Hget : forall mm, containers mm = [array_u32_frame B] ->
                            message_get_container mm = array_u32_frame B).
  { intros mm Hmm. unfold message_get_container, n_containers. rewrite Hmm. reflexivity. }
  assert (Hslot : append_slot m SD_BUS_TYPE_UINT32 h = Returns ((0, false, m), h)).
  { unfold append_slot. rewrite (Hget m Hc). reflexivity. }
  unfold bind at 1 in Hrun. rewrite Hslot in Hrun. cbn [Z.ltb Z.compare] in Hrun.
  assert (Hlay : basic_layout SD_BUS_TYPE_UINT32 (PInt x)
                 = Returns (0, (4, 4, store_native 4 x))) by reflexivity.
  rewrite Hlay in Hrun. cbn [Z.ltb Z.compare] in Hrun.
  unfold append_value, bind in Hrun. unfold message_extend_body, bind in Hrun.
  fold bs in Hrun.
  destruct (buffer_extend (body m) bs 4 4 h) as [[[[q p'] sz'] h1]|] eqn:E; [|discriminate].
  destruct q as [q|]; [|unfold ret in Hrun; inversion Hrun].
  apply buffer_extend_grows in E; try lia.
  2:{ rewrite Hb. cbn [region_bytes]. fold bs. symmetry. exact Hbs. }
  destruct E as (Hq & Hsz & Hle & junk & Hbytes).
  rewrite (ALIGN_TO_aligned bs 4) in Hq by lia. subst q.
  specialize (Hle ltac:(lia)). unfold UINT32_MAX in Hle.
  rewrite Z.sub_diag in Hbytes.
  change (repeat 0 (Z.to_nat 0) ++ repeat junk (Z.to_nat 4)) with (repeat junk 4%nat)
    in Hbytes.
  rewrite Hb in Hbytes. cbn [region_bytes] in Hbytes.
  unfold ret in Hrun. rewrite Hc in Hrun. cbn [fold_left array_u32_frame array_size] in Hrun.
  fold a in Hrun.
  destruct p' as [bytes|]; cbn [region_bytes] in Hbytes, Hrun.
  2:{ exfalso. apply (f_equal (@List.length Z)) in Hbytes.
      rewrite length_app, repeat_length in Hbytes. cbn in Hbytes. lia. }
  subst bytes.
  replace (sz' - bs) with 4 in Hrun by lia. change (size_t 4) with 4 in Hrun.
  set (P := B ++ repeat 0 (Z.to_nat (a - Zlength B))) in *.
  set (elems := concat (map (store_native 4) xs)) in *.
  assert (HP : Zlength P = a).
  { unfold P. rewrite Zlength_app, Zlength_repeat. lia. }
  assert (Hst : forall v, List.length (store_native 4 v) = 4%nat)
    by (intros v; apply store_native_length).
  assert (Hab : array_u32_bytes B xs = P ++ store_native 4 (4 * Zlength xs) ++ elems).
  { unfold array_u32_bytes, P, elems. fold a. rewrite <- !app_assoc. reflexivity. }
  assert (Hadd : array_size_add (array_u32_bytes B xs ++ repeat junk 4) a 4
                 = (P ++ store_native 4 (4 * Zlength xs + 4) ++ elems)
                     ++ repeat junk 4).
  { unfold array_size_add. rewrite Hab. rewrite <- !app_assoc.
    rewrite <- HP.
    replace (slice (P ++ store_native 4 (4 * Zlength xs) ++ elems ++ repeat junk 4)
                   (Zlength P) 4)
      with (store_native 4 (4 * Zlength xs)).
    2:{ symmetry.
        replace 4 with (Zlength (store_native 4 (4 * Zlength xs))) at 2
          by (rewrite Zlength_correct, Hst; reflexivity).
        apply slice_middle. }
    rewrite load_store_native by (change (256 ^ Z.of_nat 4) with (2 ^ 32); lia).
    rewrite u32_small by lia.
    apply mem_write_middle. rewrite !Hst. reflexivity. }
  rewrite Hadd in Hrun.
  cbn [body set_body region_bytes] in Hrun.
  assert (Hw : mem_write ((P ++ store_native 4 (4 * Zlength xs + 4) ++ elems)
                            ++ repeat junk 4) bs (store_native 4 x)
               = (P ++ store_native 4 (4 * Zlength xs + 4) ++ elems) ++ store_native 4 x).
  { replace bs with (Zlength (P ++ store_native 4 (4 * Zlength xs + 4) ++ elems)).
    - apply mem_write_at_end. rewrite repeat_length, Hst. reflexivity.
    - rewrite Hbsv, !Zlength_app, HP. rewrite (Zlength_correct (store_native _ _)), Hst.
      unfold elems. rewrite concat_store_length. lia. }
  rewrite Hw in Hrun.
  change ((SD_BUS_TYPE_UINT32 =? SD_BUS_TYPE_STRING)
          || (SD_BUS_TYPE_UINT32 =? SD_BUS_TYPE_OBJECT_PATH)) with false in Hrun.
  change (SD_BUS_TYPE_UINT32 =? SD_BUS_TYPE_SIGNATURE) with false in Hrun.
  cbv iota in Hrun. unfold assign in Hrun.
  set (mv := set_body _ _) in Hrun.
  assert (Hcv : containers mv = [array_u32_frame B]) by exact Hc.
  rewrite (Hget mv Hcv) in Hrun.
  change (advance (array_u32_frame B) (index (array_u32_frame B) + 1))
    with (array_u32_frame B) in Hrun.
  assert (Hsetv : message_set_container mv (array_u32_frame B)
                  = set_containers [array_u32_frame B] mv).
  { unfold message_set_container, n_containers. rewrite Hcv. reflexivity. }
  rewrite Hsetv in Hrun.
  assert (Em : m' = set_containers [array_u32_frame B] mv) by (inversion Hrun; reflexivity).
  subst m'. unfold array_u32_open.
  assert (Hnew : array_u32_bytes B (xs ++ [x])
                 = (P ++ store_native 4 (4 * Zlength xs + 4) ++ elems) ++ store_native 4 x).
  { unfold array_u32_bytes, P. fold a.
    rewrite Zlength_app. change (Zlength [x]) with 1.
    replace (4 * (Zlength xs + 1)) with (4 * Zlength xs + 4) by lia.
    rewrite map_app, concat_app. cbn [map concat]. rewrite app_nil_r.
    fold elems. rewrite <- !app_assoc. reflexivity. }
  split; [exact Hs|]. split; [reflexivity|].
  split. { unfold mv. cbn [body set_body set_containers]. rewrite Hnew. reflexivity. }
  assert (Hnl : Zlength (array_u32_bytes B (xs ++ [x])) = sz').
  { rewrite array_u32_bytes_length by exact HBs. fold a.
    rewrite Zlength_app. change (Zlength [x]) with 1. lia. }
  split.
  { unfold mv. cbn [header set_body set_header body_size set_body_size set_containers].
    symmetry. exact Hnl. }
  unfold mv. cbn [header set_body set_header body_size set_body_size set_containers].
  unfold UINT32_MAX. lia.
Qed.
End ArrayWriter.

Section ArrayOpen.
Context {host : Host} {ext : Collaborators}.

(** The body grows at the root: where the new bytes lie, and what stays. *)
Lemma extend_body_at_root
    (m m' : sd_bus_message) (align sz : Z) (h h' : heap) (q : Z) :
  message_extend_body m align sz h = Returns ((Some q, m'), h') ->
  containers m = [] ->
  Zlength (region_bytes (body m)) = body_size (header m) ->
  body_size (header m) <= UINT32_MAX ->
  0 < align <= 8 -> 0 <= sz < 2 ^ 33 ->
  q = ALIGN_TO (body_size (header m)) align
  /\ body_size (header m') = q + sz
  /\ (0 < sz -> q + sz <= UINT32_MAX)
  /\ (exists junk,
         region_bytes (body m')
         = region_bytes (body m) ++ repeat 0 (Z.to_nat (q - body_size (header m)))
             ++ repeat junk (Z.to_nat sz))
  /\ sealed m' = sealed m /\ containers m' = [] /\ root_container m' = root_container m.
Proof.
  intros Hrun Hc Hlen Hmax Halign Hsz.
  unfold message_extend_body, bind, ret in Hrun.
  destruct (buffer_extend _ _ _ _ h) as [[[[p f] fs] h2]|] eqn:E; [|discriminate].
  destruct p as [p|]; [|discriminate].
  assert (Ep : p = q) by (inversion Hrun; reflexivity).
  assert (Em : m' = set_body
                      (match f with
                       | Some _ =>
                           Some (fold_left
                                   (fun b c => match array_size c with
                                               | Some a =>
                                                   array_size_add b a
                                                     (size_t (fs - body_size (header m)))
                                               | None => b
                                               end)
                                   (containers m) (region_bytes f))
                       | None => None
                       end)
                      (set_header (set_body_size fs (header m)) m))
    by (inversion Hrun; reflexivity).
  clear Hrun. subst p m'.
  unfold UINT32_MAX in Hmax.
  pose proof (Zlength_nonneg (region_bytes (body m))) as Hnn.
  apply buffer_extend_grows in E; try assumption; try lia.
  destruct E as (Hq & Hfs & Hle & junk & Hbytes).
  split; [exact Hq|]. split; [exact Hfs|]. split; [rewrite <- Hfs; exact Hle|].
  split.
  { exists junk. rewrite Hc. cbn [fold_left body set_body].
    rewrite <- Hbytes. destruct f; reflexivity. }
  split; [reflexivity|]. split; [exact Hc|reflexivity].
Qed.

Lemma message_append_basic_nonpositive
    (m m' : sd_bus_message) (t : Z) (p : pointee) (stored : out_ptr) (h h' : heap) (r : Z) :
  message_append_basic m t p stored h = Returns ((r, m'), h') -> r <= 0.
Proof.
  unfold message_append_basic.
  destruct (sealed m); [intros H; inversion H; unfold EPERM; lia|].
  destruct (negb _); [intros H; inversion H; unfold EINVAL; lia|].
  unfold bind.
  destruct (append_slot m t h) as [[[[r1 e] m1] h1]|] eqn:E; [|discriminate].
  apply append_slot_nonpositive in E.
  destruct (r1 <? 0) eqn:L; [unfold ret; intros H; inversion H; subst; exact E|].
  destruct (basic_layout t p) as [[r2 [[align sz] bytes]]|]; [|discriminate].
  destruct (r2 <? 0) eqn:L2.
  { apply Z.ltb_lt in L2. unfold ret. intros H; inversion H; subst. lia. }
  unfold append_value, bind.
  destruct (message_extend_body _ _ _ _) as [[[a mb] h3]|]; [|discriminate].
  destruct a; unfold ret; intros H; inversion H; subst; unfold ENOMEM; lia.
Qed.

(** All the elements go into the open array. *)
Lemma append_each_in_array
    (ys : list Z) (m m' : sd_bus_message) (B xs : list Z) (h h' : heap) :
  array_u32_open m B xs ->
  append_each m SD_BUS_TYPE_UINT32 ys h = Returns ((0, m'), h') ->
  array_u32_open m' B (xs ++ ys) /\ same_but_body m m'
  /\ root_container m' = root_container m.
Proof.
  revert m xs h. induction ys as [|y ys IH]; intros m xs h Hopen Hrun.
  - cbn [append_each] in Hrun. inversion Hrun; subst. rewrite app_nil_r.
    split; [exact Hopen|]. split; [apply same_but_body_refl|reflexivity].
  - cbn [append_each] in Hrun. unfold bind in Hrun.
    destruct (sd_bus_message_append_basic m SD_BUS_TYPE_UINT32 (PInt y) h)
      as [[[r m1] h1]|] eqn:E; [|discriminate].
    pose proof E as Hr. unfold sd_bus_message_append_basic in Hr.
    apply message_append_basic_nonpositive in Hr.
    destruct (r <? 0) eqn:L.
    { unfold ret in Hrun. inversion Hrun; subst. discriminate. }
    apply Z.ltb_ge in L. assert (r = 0) by lia. subst r.
    assert (Hroot : root_container m1 = root_container m).
    { revert E. unfold sd_bus_message_append_basic, message_append_basic.
      destruct Hopen as (Hs & Hc & _). rewrite Hs.
      change (bus_type_is_basic SD_BUS_TYPE_UINT32) with true. cbn [negb].
      assert (Hget : message_get_container m = array_u32_frame B).
      { unfold message_get_container, n_containers. rewrite Hc. reflexivity. }
      unfold bind at 1. unfold append_slot. rewrite Hget.
      change (has_char (array_u32_frame B)) with true.
      change (char_at (strempty (signature (array_u32_frame B))) (index (array_u32_frame B))
              =? SD_BUS_TYPE_UINT32) with true.
      cbn [negb]. unfold ret at 1. cbn [Z.ltb Z.compare].
      change (basic_layout SD_BUS_TYPE_UINT32 (PInt y))
        with (Returns (0, (4, 4, store_native 4 y))).
      cbn [Z.ltb Z.compare]. unfold append_value, bind, message_extend_body, bind.
      destruct (buffer_extend _ _ _ _ h) as [[[[q f] fs] h2]|]; [|discriminate].
      destruct q; unfold ret; [|intros H; inversion H].
      intros H. inversion H; subst; clear H.
      unfold message_set_container, n_containers, assign.
      change ((SD_BUS_TYPE_UINT32 =? SD_BUS_TYPE_STRING)
              || (SD_BUS_TYPE_UINT32 =? SD_BUS_TYPE_OBJECT_PATH)) with false.
      change (SD_BUS_TYPE_UINT32 =? SD_BUS_TYPE_SIGNATURE) with false. cbv iota.
      cbn [containers set_body set_header]. rewrite Hc. reflexivity. }
    destruct (append_u32_in_array m m1 B xs y h h1 Hopen E) as [Hopen1 Hsame1].
    destruct (IH m1 (xs ++ [y]) h1 Hopen1 Hrun) as (Hopen2 & Hsame2 & Hroot2).
    rewrite <- app_assoc in Hopen2. cbn [app] in Hopen2.
    split; [exact Hopen2|].
    split; [eapply same_but_body_trans; eassumption|].
    rewrite Hroot2. exact Hroot.
Qed.
End ArrayOpen.

Section ArrayOpenClose.
Context {host : Host} {ext : Collaborators}.

(** An array of [uint32_t] is opened at the root, at the end of the
    signature. *)
Lemma open_array_u32_at_root (m m1 : sd_bus_message) (h h1 : heap) :
  building m -> has_char (root_container m) = false ->
  sd_bus_message_open_container m SD_BUS_TYPE_ARRAY (Some [SD_BUS_TYPE_UINT32]) h
  = Returns ((0, m1), h1) ->
  array_u32_open m1 (region_bytes (body m)) []
  /\ signature (root_container m1)
     = Some (strempty (signature (root_container m))
               ++ [SD_BUS_TYPE_ARRAY; SD_BUS_TYPE_UINT32])
  /\ index (root_container m1)
     = strlen (strempty (signature (root_container m))
                 ++ [SD_BUS_TYPE_ARRAY; SD_BUS_TYPE_UINT32])
  /\ array_size (root_container m1) = None
  /\ enclosing (root_container m1) = 0
  /\ signature_is_single [SD_BUS_TYPE_UINT32] = true.
Proof.
  intros (Hs & Hc & He & Hlen & Hmax & Hf & Hok & Ha) Hhas Hrun.
  destruct (at_root _ Hc) as [Hget Hset].
  pose proof (Zlength_nonneg (region_bytes (body m))) as HB.
  unfold sd_bus_message_open_container in Hrun. rewrite Hs in Hrun.
  unfold bind at 1 in Hrun.
  destruct (alloc_cases h) as [[Ha1 _]|[j1 Ha1]]; rewrite Ha1 in Hrun; [inversion Hrun|].
  unfold bind at 1 in Hrun.
  destruct (alloc_cases (skipn 1 h)) as [[Ha2 _]|[j2 Ha2]]; rewrite Ha2 in Hrun;
    [inversion Hrun|].
  rewrite Hget in Hrun. unfold open_kind in Hrun.
  change (SD_BUS_TYPE_ARRAY =? SD_BUS_TYPE_ARRAY) with true in Hrun. cbv iota in Hrun.
  unfold bind in Hrun.
  destruct (bus_message_open_array m (root_container m) [SD_BUS_TYPE_UINT32]
              (skipn 1 (skipn 1 h))) as [[[[r ma] asz] h3]|] eqn:Eo; [|discriminate].
  destruct (r <? 0) eqn:Lr; unfold ret in Hrun; [inversion Hrun; subst; discriminate|].
  assert (Em1 : m1 = set_containers
                       (containers ma
                          ++ [mk_container SD_BUS_TYPE_ARRAY (Some [SD_BUS_TYPE_UINT32])
                                           0 asz 0]) ma)
    by (inversion Hrun; reflexivity).
  clear Hrun. subst m1.
  unfold bus_message_open_array in Eo.
  destruct (signature_is_single [SD_BUS_TYPE_UINT32]) eqn:Esing; cbn [negb] in Eo;
    [|unfold ret in Eo; inversion Eo; subst; discriminate].
  change (bus_type_get_alignment (char_at [SD_BUS_TYPE_UINT32] 0)) with 4 in Eo.
  change (4 <? 0) with false in Eo. cbv iota zeta in Eo.
  unfold bind at 1 in Eo. unfold open_slot in Eo. rewrite Hhas in Eo.
  destruct (enclosing (root_container m) =? 0) eqn:Een; cbn [negb] in Eo;
    [|unfold ret in Eo; inversion Eo; subst; discriminate].
  unfold bind at 1 in Eo. unfold strextend in Eo. unfold bind at 1 in Eo.
  destruct (alloc_cases (skipn 1 (skipn 1 h))) as [[Ha3 _]|[j3 Ha3]]; rewrite Ha3 in Eo;
    [unfold ret in Eo; inversion Eo; subst; discriminate|].
  unfold ret at 1 in Eo. unfold ret at 1 in Eo. cbv beta iota in Eo.
  cbn [Z.ltb Z.compare] in Eo.
  rewrite Hset in Eo.
  set (s := strempty (signature (root_container m))
              ++ [SD_BUS_TYPE_ARRAY; SD_BUS_TYPE_UINT32]) in *.
  unfold bind at 1 in Eo.
  destruct (message_extend_body _ 4 4 _) as [[[qa m_a] h4]|] eqn:Ea; [|discriminate].
  destruct qa as [qa|]; [|unfold ret in Eo; inversion Eo; subst; discriminate].
  apply extend_body_at_root in Ea; [|exact Hc|exact Hlen|exact Hmax|lia|lia].
  destruct Ea as (Hqa & Hbsa & Hlea & [junk Hba] & Hsa & Hca & Hra).
  cbn [header body set_root_container sealed root_container] in Hqa, Hba, Hsa, Hra.
  specialize (Hlea ltac:(lia)). unfold UINT32_MAX in Hlea, Hmax.
  destruct (ALIGN_TO_spec (body_size (header m)) 4) as [Hal Ham]; try lia.
  unfold bind in Eo.
  destruct (message_extend_body m_a 4 0 h4) as [[[qb m_b] h5]|] eqn:Eb; [|discriminate].
  destruct qb as [qb|]; [|unfold ret in Eo; inversion Eo; subst; discriminate].
  apply extend_body_at_root in Eb; try assumption; try lia.
  2:{ rewrite Hba, Hbsa, !Zlength_app, !Zlength_repeat, Hlen. lia. }
  2:{ rewrite Hbsa. unfold UINT32_MAX. lia. }
  destruct Eb as (Hqb & Hbsb & _ & [junk' Hbb] & Hsb & Hcb & Hrb).
  rewrite Hbsa in Hqb, Hbb.
  assert (Hal4 : ALIGN_TO (qa + 4) 4 = qa + 4).
  { apply ALIGN_TO_aligned; try lia. rewrite Hqa.
    apply Z.mod_divide in Ham; [|lia]. destruct Ham as [k Hk]. rewrite Hk.
    replace (k * 4 + 4) with ((k + 1) * 4) by lia. apply Z.mod_mul. lia. }
  rewrite Hal4 in Hqb. rewrite Hqb in Hbsb, Hbb.
  rewrite Z.sub_diag in Hbb. cbn [Z.to_nat repeat app] in Hbb. rewrite app_nil_r in Hbb.
  unfold ret in Eo.
  destruct (at_root _ Hcb) as [Hgetb Hsetb].
  rewrite Hgetb, Hsetb in Eo.
  assert (Ema : ma = set_body
                       (Some (mem_write (region_bytes
                                           (body (set_root_container
                                                    (advance (root_container m_b) (strlen s))
                                                    m_b)))
                                        qa (store_native 4 0)))
                       (set_root_container (advance (root_container m_b) (strlen s)) m_b))
    by (inversion Eo; reflexivity).
  assert (Easz : asz = Some qa) by (inversion Eo; reflexivity).
  clear Eo. subst ma asz.
  cbn [body set_root_container] in *.
  assert (Hbody : mem_write (region_bytes (body m_b)) qa (store_native 4 0)
                  = array_u32_bytes (region_bytes (body m)) []).
  { rewrite Hbb, Hba. unfold array_u32_bytes.
    rewrite Hlen, <- Hqa.
    change (4 * Zlength (@nil Z)) with 0. cbn [map concat]. rewrite app_nil_r.
    rewrite app_assoc.
    replace qa with (Zlength (region_bytes (body m)
                                ++ repeat 0 (Z.to_nat (qa - body_size (header m))))) at 2
      by (rewrite Zlength_app, Zlength_repeat, Hlen; lia).
    rewrite mem_write_at_end; [rewrite <- app_assoc; reflexivity|].
    rewrite repeat_length, store_native_length. reflexivity. }
  assert (Hroot : root_container m_b = set_signature (Some s) (root_container m)).
  { rewrite Hrb, Hra. reflexivity. }
  assert (Hadv : advance (root_container m_b) (strlen s)
                 = set_index (strlen s) (set_signature (Some s) (root_container m))).
  { unfold advance. rewrite Hroot. cbn [enclosing set_signature].
    apply Z.eqb_eq in Een. rewrite Een. reflexivity. }
  rewrite Hadv.
  split.
  { unfold array_u32_open, array_u32_frame.
    cbn [sealed containers body header set_containers set_body set_root_container
         body_size].
    rewrite Hsb, Hsa, Hcb, Hbody, Hlen, <- Hqa.
    split; [exact Hs|]. split; [reflexivity|]. split; [reflexivity|].
    rewrite array_u32_bytes_length by lia. rewrite Hlen, <- Hqa.
    change (Zlength (@nil Z)) with 0. rewrite Hbsb. unfold UINT32_MAX. split; lia. }
  cbn [root_container set_containers set_body set_root_container signature index
       set_index set_signature array_size enclosing].
  apply Z.eqb_eq in Een.
  repeat split; assumption.
Qed.
End ArrayOpenClose.

Section ArrayWritten.
Context {host : Host} {ext : Collaborators}.

Lemma char_at_the_end (s : cstring) : char_at s (strlen s) = 0.
Proof.
  unfold char_at, strlen. rewrite to_nat_Zlength. apply nth_overflow. lia.
Qed.

(** What opening, filling and closing an array of [uint32_t] at the root
    has done. *)
Lemma array_u32_written
    (m m1 m2 : sd_bus_message) (xs : list Z) (h0 h1 h2 : heap) :
  building m -> has_char (root_container m) = false ->
  sd_bus_message_open_container m SD_BUS_TYPE_ARRAY (Some [SD_BUS_TYPE_UINT32]) h0
  = Returns ((0, m1), h1) ->
  append_each m1 SD_BUS_TYPE_UINT32 xs h1 = Returns ((0, m2), h2) ->
  exists m3,
    sd_bus_message_close_container m2 = (0, m3)
    /\ body m3 = Some (array_u32_bytes (region_bytes (body m)) xs)
    /\ body_size (header m3) = ALIGN_TO (body_size (header m)) 4 + 4 + 4 * Zlength xs
    /\ array_length m3 (ALIGN_TO (body_size (header m)) 4) = 4 * Zlength xs
    /\ signature (root_container m3)
       = Some (strempty (signature (root_container m))
                 ++ [SD_BUS_TYPE_ARRAY; SD_BUS_TYPE_UINT32])
    /\ building m3 /\ has_char (root_container m3) = false
    /\ same_but_body m m3
    /\ index (root_container m3)
       = strlen (strempty (signature (root_container m))) + 2
    /\ enclosing (root_container m3) = 0
    /\ signature_is_single [SD_BUS_TYPE_UINT32] = true.
Proof.
  intros Hb Hhas Hopen Happ.
  pose proof Hb as (Hs & Hc & He & Hlen & Hmax & Hf & Hok & Ha).
  pose proof (open_container_same_but_body _ _ _ _ _ _ _ Hopen) as Hsame1.
  destruct (open_array_u32_at_root m m1 h0 h1 Hb Hhas Hopen) as (Hopen1 & Hsig1 & Hidx1 & Has1 & Hen1 & Hsing).
  destruct (append_each_in_array xs m1 m2 _ [] h1 h2 Hopen1 Happ)
    as (Hopen2 & Hsame2 & Hroot2).
  cbn [app] in Hopen2.
  destruct Hopen2 as (Hs2 & Hc2 & Hb2 & Hbs2 & Hmax2).
  set (B := region_bytes (body m)) in *.
  pose proof (Zlength_nonneg B) as HB. pose proof (Zlength_nonneg xs) as Hxs.
  unfold UINT32_MAX in Hmax, Hmax2.
  assert (Hbl : Zlength (array_u32_bytes B xs)
                = ALIGN_TO (body_size (header m)) 4 + 4 + 4 * Zlength xs).
  { rewrite array_u32_bytes_length by lia. rewrite Hlen. reflexivity. }
  destruct (ALIGN_TO_spec (body_size (header m)) 4) as [Hal Ham]; try lia.
  exists (set_containers [] m2).
  assert (Hsame : same_but_body m (set_containers [] m2)).
  { eapply same_but_body_trans; [exact Hsame1|]. exact Hsame2. }
  pose proof Hsame as Heq. unfold same_but_body in Heq.
  assert (Hend : endian (header m2) = SD_BUS_NATIVE_ENDIAN).
  { rewrite <- He. exact (f_equal (fun x => endian (header x)) Heq). }
  split.
  { unfold sd_bus_message_close_container. rewrite Hs2.
    unfold n_containers, message_get_container, n_containers. rewrite Hc2. reflexivity. }
  split; [exact Hb2|].
  split; [cbn [header set_containers]; rewrite Hbs2; exact Hbl|].
  split.
  { unfold array_length. rewrite BSWAP32_native by exact Hend.
    cbn [body set_containers]. rewrite Hb2. cbn [region_bytes].
    unfold array_u32_bytes. rewrite app_assoc.
    set (P := B ++ repeat 0 (Z.to_nat (ALIGN_TO (Zlength B) 4 - Zlength B))).
    set (st := store_native 4 (4 * Zlength xs)).
    assert (HP : Zlength P = ALIGN_TO (body_size (header m)) 4).
    { unfold P. rewrite Zlength_app, Zlength_repeat, Hlen. lia. }
    assert (Hst : Zlength st = 4).
    { unfold st. rewrite Zlength_correct, store_native_length. reflexivity. }
    rewrite <- HP.
    replace (slice (P ++ st ++ concat (map (store_native 4) xs)) (Zlength P) 4)
      with (slice (P ++ st ++ concat (map (store_native 4) xs)) (Zlength P) (Zlength st))
      by (rewrite Hst; reflexivity).
    rewrite slice_middle. unfold st.
    apply load_store_native. change (256 ^ Z.of_nat 4) with (2 ^ 32). lia. }
  split; [cbn [root_container set_containers]; rewrite Hroot2; exact Hsig1|].
  assert (Hroot3 : root_container (set_containers [] m2) = root_container m1)
    by exact Hroot2.
  split.
  { unfold building. rewrite Hroot3.
    cbn [sealed containers header body set_containers].
    split; [exact Hs2|]. split; [reflexivity|]. split; [exact Hend|].
    split; [rewrite Hb2; cbn [region_bytes]; symmetry; exact Hbs2|].
    split; [unfold UINT32_MAX; lia|].
    split.
    { unfold fields_in_step.
      replace (fields (set_containers [] m2)) with (fields m)
        by (symmetry; exact (f_equal fields Heq)).
      replace (fields_size (header (set_containers [] m2))) with (fields_size (header m))
        by (symmetry; exact (f_equal (fun x => fields_size (header x)) Heq)).
      exact Hf. }
    split; [|exact Has1].
    unfold container_ok. rewrite Hsig1, Hidx1. cbn [strempty].
    split; [pose proof (Zlength_nonneg
                          (strempty (signature (root_container m))
                             ++ [SD_BUS_TYPE_ARRAY; SD_BUS_TYPE_UINT32]));
            unfold strlen; lia|].
    apply Forall_app. split; [apply Hok|].
    repeat constructor; discriminate. }
  split.
  { rewrite Hroot3. unfold has_char. rewrite Hsig1, Hidx1.
    rewrite char_at_the_end. reflexivity. }
  split; [exact Hsame|].
  rewrite Hroot3, Hidx1, Hen1.
  split; [unfold strlen; rewrite Zlength_app; reflexivity|].
  split; [reflexivity|exact Hsing].
Qed.

(** An array of [uint32_t] that is opened at the end of the root
    signature of a message under construction, filled with the elements
    [xs] and closed: the body has grown by zeros up to a multiple of 4, the
    length of the array in bytes, which is four times the number of
    elements, and the elements; the root signature has grown by [au]; and
    the message is again under construction with no container open, the
    header apart from the size of the body and the fields as before. *)
Theorem an_array_counts_its_bytes
    (m m1 m2 : sd_bus_message) (xs : list Z) (h0 h1 h2 : heap) :
  building m -> has_char (root_container m) = false ->
  sd_bus_message_open_container m SD_BUS_TYPE_ARRAY (Some [SD_BUS_TYPE_UINT32]) h0
  = Returns ((0, m1), h1) ->
  append_each m1 SD_BUS_TYPE_UINT32 xs h1 = Returns ((0, m2), h2) ->
  exists m3,
    sd_bus_message_close_container m2 = (0, m3)
    /\ body m3 = Some (array_u32_bytes (region_bytes (body m)) xs)
    /\ body_size (header m3) = ALIGN_TO (body_size (header m)) 4 + 4 + 4 * Zlength xs
    /\ array_length m3 (ALIGN_TO (body_size (header m)) 4) = 4 * Zlength xs
    /\ signature (root_container m3)
       = Some (strempty (signature (root_container m))
                 ++ [SD_BUS_TYPE_ARRAY; SD_BUS_TYPE_UINT32])
    /\ building m3 /\ has_char (root_container m3) = false
    /\ same_but_body m m3.
Proof.
  intros Hb Hhas Hopen Happ.
  destruct (array_u32_written m m1 m2 xs h0 h1 h2 Hb Hhas Hopen Happ)
    as (m3 & H1 & H2 & H3 & H4 & H5 & H6 & H7 & H8 & _).
  exists m3.
  exact (conj H1 (conj H2 (conj H3 (conj H4 (conj H5 (conj H6 (conj H7 H8))))))).
Qed.
End ArrayWritten.

(** The array of 5 and 6 in the call of scenario 2: eight bytes of
    elements behind the length 8. *)
Lemma an_array_counts_its_bytes_witness :
  exists m3,
    sd_bus_message_close_container Run.array_filled = (0, m3)
    /\ body m3 = Some [8; 0; 0; 0; 5; 0; 0; 0; 6; 0; 0; 0]
    /\ @array_length little_endian_host m3 0 = 8.
Proof.
  destruct (@an_array_counts_its_bytes little_endian_host reference_collaborators
              (Run.the Run.hello) Run.array_opened Run.array_filled [5; 6] [] [] [])
    as (m3 & Hclose & Hbody & _ & Hlen & _).
  - unfold building, fields_in_step, container_ok.
    repeat split; try (vm_compute; reflexivity); try (vm_compute; discriminate).
    vm_compute. constructor.
  - reflexivity.
  - vm_compute. reflexivity.
  - vm_compute. reflexivity.
  - exists m3. split; [exact Hclose|]. split; [exact Hbody|exact Hlen].
Defined.

Section ArrayReader.
Context {host : Host} {ext : Collaborators}.

Lemma array_u32_bytes_split (B done ys : list Z) :
  array_u32_bytes B (done ++ ys)
  = (B ++ repeat 0 (Z.to_nat (ALIGN_TO (Zlength B) 4 - Zlength B))
       ++ store_native 4 (4 * Zlength (done ++ ys)) ++ concat (map (store_native 4) done))
      ++ concat (map (store_native 4) ys).
Proof.
  unfold array_u32_bytes. rewrite map_app, concat_app, <- !app_assoc. reflexivity.
Qed.

Lemma array_u32_length_slot (B xs rest : list Z) :
  Zlength B + 4 <= 2 ^ 64 -> 0 <= 4 * Zlength xs < 2 ^ 32 ->
  load_native (slice (array_u32_bytes B xs ++ rest) (ALIGN_TO (Zlength B) 4) 4)
  = 4 * Zlength xs.
Proof.
  intros Hb Hx. pose proof (Zlength_nonneg B) as HB.
  destruct (ALIGN_TO_spec (Zlength B) 4) as [Hal _]; try lia.
  unfold array_u32_bytes. rewrite <- !app_assoc. rewrite app_assoc.
  set (P := B ++ repeat 0 (Z.to_nat (ALIGN_TO (Zlength B) 4 - Zlength B))).
  set (st := store_native 4 (4 * Zlength xs)).
  assert (HP : Zlength P = ALIGN_TO (Zlength B) 4).
  { unfold P. rewrite Zlength_app, Zlength_repeat. lia. }
  assert (Hst : Zlength st = 4).
  { unfold st. rewrite Zlength_correct, store_native_length. reflexivity. }
  rewrite <- HP.
  replace (slice (P ++ st ++ concat (map (store_native 4) xs) ++ rest) (Zlength P) 4)
    with (slice (P ++ st ++ concat (map (store_native 4) xs) ++ rest) (Zlength P) (Zlength st))
    by (rewrite Hst; reflexivity).
  rewrite slice_middle. unfold st.
  apply load_store_native. change (256 ^ Z.of_nat 4) with (2 ^ 32). lia.
Qed.

(** The next element of the array is read. *)
Lemma read_u32_in_array
    (m : sd_bus_message) (B done ys rest : list Z) (x : Z) :
  array_u32_entered m B (done ++ x :: ys) rest (Zlength done) ->
  0 <= x < 2 ^ 32 ->
  exists m',
    sd_bus_message_read_basic m SD_BUS_TYPE_UINT32 = Returns (1, m', Some (VInt x))
    /\ array_u32_entered m' B (done ++ x :: ys) rest (Zlength done + 1)
    /\ root_container m' = root_container m.
Proof.
  intros (Hs & Hc & Hb & He & Hbs & Hmax & Hri) Hx.
  set (xs := done ++ x :: ys) in *.
  pose proof (Zlength_nonneg B) as HB. pose proof (Zlength_nonneg done) as Hd.
  pose proof (Zlength_nonneg ys) as Hys. pose proof (Zlength_nonneg rest) as Hrest.
  unfold UINT32_MAX in Hmax.
  assert (Hxl : Zlength xs = Zlength done + 1 + Zlength ys).
  { unfold xs. rewrite Zlength_app, Zlength_cons. lia. }
  assert (HBs : Zlength B + 4 <= 2 ^ 64).
  { rewrite Hbs in Hmax. unfold array_u32_bytes in Hmax. rewrite <- app_assoc in Hmax.
    rewrite Zlength_app in Hmax.
    match type of Hmax with
    | Zlength B + Zlength ?l <= _ => pose proof (Zlength_nonneg l)
    end. lia. }
  pose proof (array_u32_bytes_length B xs HBs) as Hlen.
  destruct (ALIGN_TO_spec (Zlength B) 4) as [Hal Ham]; try lia.
  set (a := ALIGN_TO (Zlength B) 4) in *.
  assert (Htot : body_size (header m) = a + 4 + 4 * Zlength xs + Zlength rest).
  { rewrite Hbs, Zlength_app, Hlen. reflexivity. }
  assert (Hget : forall mm, containers mm = [array_u32_entered_frame B] ->
                            message_get_container mm = array_u32_entered_frame B).
  { intros mm Hmm. unfold message_get_container, n_containers. rewrite Hmm. reflexivity. }
  assert (Hslot : load_native (slice (array_u32_bytes B xs ++ rest) a 4) = 4 * Zlength xs).
  { apply array_u32_length_slot; lia. }
  set (pos := a + 4 + 4 * Zlength done) in *.
  assert (Hpm : pos mod 4 = 0).
  { unfold pos. apply Z.mod_divide in Ham; [|lia]. destruct Ham as [k Hk]. rewrite Hk.
    replace (k * 4 + 4 + 4 * Zlength done) with ((k + 1 + Zlength done) * 4) by lia.
    apply Z.mod_mul. lia. }
  assert (Hpeek : message_peek_body m pos 4 4 = (1, pos + 4, pos)).
  { unfold message_peek_body, message_end_of_array. rewrite (Hget m Hc).
    cbn [array_size array_u32_entered_frame begin]. fold a.
    rewrite BSWAP32_native by exact He. rewrite Hb. cbn [region_bytes]. rewrite Hslot.
    rewrite size_t_small by lia.
    destruct (a + 4 + 4 * Zlength xs <=? pos) eqn:L; [apply Z.leb_le in L; unfold pos in L; lia|].
    unfold BUS_MESSAGE_BODY_SIZE. rewrite BSWAP32_native by exact He.
    apply peek_inside; lia. }
  assert (Helem : load_native (slice (array_u32_bytes B xs ++ rest) pos 4) = x).
  { unfold xs. rewrite array_u32_bytes_split.
    match goal with
    | |- load_native (slice ((?p ++ _) ++ _) _ _) = _ => set (P := p)
    end.
    cbn [map concat]. set (st := store_native 4 x).
    rewrite <- !app_assoc.
    assert (HP : Zlength P = pos).
    { unfold P. rewrite !Zlength_app, Zlength_repeat, concat_store_length.
      rewrite (Zlength_correct (store_native _ _)), store_native_length.
      unfold pos. fold a. change (Z.of_nat 4) with 4. lia. }
    assert (Hst : Zlength st = 4).
    { unfold st. rewrite Zlength_correct, store_native_length. reflexivity. }
    rewrite <- HP.
    match goal with
    | |- load_native (slice ?l _ _) = _ =>
        replace (slice l (Zlength P) 4) with (slice l (Zlength P) (Zlength st))
          by (rewrite Hst; reflexivity)
    end.
    rewrite slice_middle. unfold st.
    apply load_store_native. change (256 ^ Z.of_nat 4) with (2 ^ 32). exact Hx. }
  unfold sd_bus_message_read_basic. rewrite Hs.
  change (bus_type_is_basic SD_BUS_TYPE_UINT32) with true. cbn [negb]. cbv zeta.
  rewrite (Hget m Hc).
  change (has_char (array_u32_entered_frame B)) with true.
  change (char_at (strempty (signature (array_u32_entered_frame B)))
                  (index (array_u32_entered_frame B)) =? SD_BUS_TYPE_UINT32) with true.
  cbn [negb].
  type_tests SD_BUS_TYPE_UINT32.
  rewrite Hri. fold pos. rewrite Hpeek. cbn [Z.leb Z.compare].
  rewrite Hb. cbn [region_bytes].
  rewrite BSWAP32_native by exact He. rewrite Helem.
  unfold read_done.
  assert (Hcr : containers (set_rindex (pos + 4) m) = [array_u32_entered_frame B]) by exact Hc.
  rewrite (Hget _ Hcr).
  change (advance (array_u32_entered_frame B) (index (array_u32_entered_frame B) + 1))
    with (array_u32_entered_frame B).
  unfold message_set_container, n_containers. rewrite Hcr.
  change (Zlength [array_u32_entered_frame B] =? 0) with false.
  cbn [removelast app]. cbv iota.
  eexists. split; [reflexivity|]. split; [|reflexivity].
  unfold array_u32_entered.
  cbn [sealed containers body header rindex set_containers set_rindex].
  fold xs. fold a.
  repeat split; try assumption; try (unfold UINT32_MAX; lia).
Qed.

(** All the elements that are left are read, one after the other. *)
Lemma read_each_in_array
    (ys : list Z) (m : sd_bus_message) (B done rest : list Z) :
  array_u32_entered m B (done ++ ys) rest (Zlength done) ->
  Forall (fun x => 0 <= x < 2 ^ 32) ys ->
  exists m',
    read_each m SD_BUS_TYPE_UINT32 (List.length ys) = Some (map VInt ys, m')
    /\ array_u32_entered m' B (done ++ ys) rest (Zlength (done ++ ys))
    /\ root_container m' = root_container m.
Proof.
  revert m done. induction ys as [|y ys IH]; intros m done Hent Hr.
  - exists m. split; [reflexivity|]. rewrite app_nil_r in *. split; [exact Hent|reflexivity].
  - inversion Hr as [|? ? Hy Hys]; subst.
    destruct (read_u32_in_array m B done ys rest y Hent Hy) as (m1 & Hread & Hent1 & Hroot1).
    replace (done ++ y :: ys) with ((done ++ [y]) ++ ys) in *
      by (rewrite <- app_assoc; reflexivity).
    replace (Zlength done + 1) with (Zlength (done ++ [y])) in Hent1
      by (rewrite Zlength_app; reflexivity).
    destruct (IH m1 (done ++ [y]) Hent1 Hys) as (m2 & Hrest & Hent2 & Hroot2).
    exists m2. split; [|split; [exact Hent2|congruence]].
    cbn [List.length read_each]. rewrite Hread, Hrest. reflexivity.
Qed.

(** Behind the last element there is nothing to read, and the array can
    be left. *)
Lemma array_u32_at_its_end (m : sd_bus_message) (B xs rest : list Z) :
  array_u32_entered m B xs rest (Zlength xs) ->
  sd_bus_message_read_basic m SD_BUS_TYPE_UINT32 = Returns (0, m, None)
  /\ sd_bus_message_exit_container m
     = Returns (1, set_containers [] m).
Proof.
  intros (Hs & Hc & Hb & He & Hbs & Hmax & Hri).
  pose proof (Zlength_nonneg B) as HB. pose proof (Zlength_nonneg xs) as Hxs.
  pose proof (Zlength_nonneg rest) as Hrest.
  unfold UINT32_MAX in Hmax.
  assert (HBs : Zlength B + 4 <= 2 ^ 64).
  { rewrite Hbs in Hmax. unfold array_u32_bytes in Hmax. rewrite <- app_assoc in Hmax.
    rewrite Zlength_app in Hmax.
    match type of Hmax with
    | Zlength B + Zlength ?l <= _ => pose proof (Zlength_nonneg l)
    end. lia. }
  pose proof (array_u32_bytes_length B xs HBs) as Hlen.
  destruct (ALIGN_TO_spec (Zlength B) 4) as [Hal Ham]; try lia.
  set (a := ALIGN_TO (Zlength B) 4) in *.
  assert (Htot : body_size (header m) = a + 4 + 4 * Zlength xs + Zlength rest).
  { rewrite Hbs, Zlength_app, Hlen. reflexivity. }
  assert (Hget : message_get_container m = array_u32_entered_frame B).
  { unfold message_get_container, n_containers. rewrite Hc. reflexivity. }
  assert (Hslot : load_native (slice (array_u32_bytes B xs ++ rest) a 4) = 4 * Zlength xs).
  { apply array_u32_length_slot; lia. }
  assert (Hend : message_end_of_array m (rindex m) = true).
  { unfold message_end_of_array. rewrite Hget.
    cbn [array_size array_u32_entered_frame begin]. fold a.
    rewrite BSWAP32_native by exact He. rewrite Hb. cbn [region_bytes]. rewrite Hslot.
    rewrite size_t_small by lia. apply Z.leb_le. lia. }
  split.
  - unfold sd_bus_message_read_basic. rewrite Hs.
    change (bus_type_is_basic SD_BUS_TYPE_UINT32) with true. cbn [negb]. cbv zeta.
    rewrite Hget.
    change (has_char (array_u32_entered_frame B)) with true.
    change (char_at (strempty (signature (array_u32_entered_frame B)))
                    (index (array_u32_entered_frame B)) =? SD_BUS_TYPE_UINT32) with true.
    cbn [negb].
    type_tests SD_BUS_TYPE_UINT32.
    unfold message_peek_body. rewrite Hend. reflexivity.
  - unfold sd_bus_message_exit_container. rewrite Hs. cbn [negb].
    unfold n_containers. rewrite Hc.
    change (Zlength [array_u32_entered_frame B] <=? 0) with false. cbv iota zeta.
    rewrite Hget.
    change (enclosing (array_u32_entered_frame B) =? SD_BUS_TYPE_ARRAY) with true.
    cbn [array_size array_u32_entered_frame begin]. fold a.
    rewrite BSWAP32_native by exact He. rewrite Hb. cbn [region_bytes]. rewrite Hslot.
    rewrite size_t_small by lia. rewrite Hri, Z.eqb_refl. reflexivity.
Qed.

Lemma read_each_same_but_cursor (n : nat) (m m' : sd_bus_message) (t : Z) (vs : list value) :
  read_each m t n = Some (vs, m') -> same_but_cursor m m'.
Proof.
  revert m vs. induction n as [|n IH]; intros m vs; cbn [read_each].
  - intros H. inversion H. apply same_but_cursor_refl.
  - destruct (sd_bus_message_read_basic m t) as [[[r m1] o]|] eqn:E; [|discriminate].
    pose proof (read_basic_same_but_cursor _ _ _ _ _ E) as Hstep.
    destruct r as [|[p|p|]|p]; try discriminate.
    destruct o as [v|]; [|discriminate].
    destruct (read_each m1 t n) as [[vs' m2]|] eqn:E2; [|discriminate].
    intros H. inversion H; subst.
    exact (same_but_cursor_trans _ _ _ Hstep (IH _ _ E2)).
Qed.
End ArrayReader.

Section ArrayEnter.
Context {host : Host} {ext : Collaborators}.

Lemma char_at_behind (pre rest : cstring) (x : Z) :
  char_at (pre ++ x :: rest) (Zlength pre) = x.
Proof.
  unfold char_at. rewrite to_nat_Zlength.
  rewrite app_nth2, Nat.sub_diag by lia. reflexivity.
Qed.

Lemma str_from_behind (pre rest : cstring) (x : Z) :
  str_from (pre ++ x :: rest) (Zlength pre + 1) = rest.
Proof.
  unfold str_from. pose proof (Zlength_nonneg pre).
  replace (Z.to_nat (Zlength pre + 1)) with (List.length (pre ++ [x]))
    by (rewrite length_app, Zlength_correct; cbn [List.length]; lia).
  replace (pre ++ x :: rest) with ((pre ++ [x]) ++ rest)
    by (rewrite <- app_assoc; reflexivity).
  rewrite skipn_app, skipn_all, Nat.sub_diag. reflexivity.
Qed.

Lemma startswith_nothing (s : cstring) : startswith s [] = true.
Proof. destruct s; reflexivity. Qed.

(** The reader before an array of [uint32_t]: the cursor of the root
    signature at [au], the read index at the end of [B]. The array is
    entered, unless it is longer than [BUS_ARRAY_MAX_SIZE]. *)
Lemma enter_array_u32
    (m : sd_bus_message) (B xs rest pre post : list Z) (h : heap) :
  sealed m = true -> containers m = [] ->
  array_size (root_container m) = None -> enclosing (root_container m) = 0 ->
  signature (root_container m)
  = Some (pre ++ SD_BUS_TYPE_ARRAY :: SD_BUS_TYPE_UINT32 :: post) ->
  index (root_container m) = Zlength pre ->
  body m = Some (array_u32_bytes B xs ++ rest) ->
  endian (header m) = SD_BUS_NATIVE_ENDIAN ->
  body_size (header m) = Zlength (array_u32_bytes B xs ++ rest) ->
  body_size (header m) <= UINT32_MAX ->
  rindex m = Zlength B ->
  signature_is_single [SD_BUS_TYPE_UINT32] = true ->
  allocations_succeed 2 h ->
  exists r m',
    sd_bus_message_enter_container m SD_BUS_TYPE_ARRAY (Some [SD_BUS_TYPE_UINT32]) h
    = Returns ((r, m'), skipn 2 h)
    /\ (BUS_ARRAY_MAX_SIZE < 4 * Zlength xs -> r = - EBADMSG /\ m' = m)
    /\ (4 * Zlength xs <= BUS_ARRAY_MAX_SIZE ->
        r = 1 /\ array_u32_entered m' B xs rest 0
        /\ root_container m' = set_index (Zlength pre + 2) (root_container m)).
Proof.
  intros Hs Hc Ha Hen Hsig Hidx Hb He Hbs Hmax Hri Hsing Halloc.
  destruct (at_root _ Hc) as [Hget Hset].
  pose proof (Zlength_nonneg B) as HB. pose proof (Zlength_nonneg xs) as Hxs.
  pose proof (Zlength_nonneg rest) as Hrest. pose proof (Zlength_nonneg pre) as Hpre.
  assert (Hmax' : body_size (header m) <= 4294967295) by exact Hmax.
  assert (HBs : Zlength B + 4 <= 2 ^ 64).
  { rewrite Hbs in Hmax'. unfold array_u32_bytes in Hmax'. rewrite <- app_assoc in Hmax'.
    rewrite Zlength_app in Hmax'.
    match type of Hmax' with
    | Zlength B + Zlength ?l <= _ => pose proof (Zlength_nonneg l)
    end. lia. }
  pose proof (array_u32_bytes_length B xs HBs) as Hlen.
  destruct (ALIGN_TO_spec (Zlength B) 4) as [Hal Ham]; try lia.
  assert (Htot : body_size (header m)
                 = ALIGN_TO (Zlength B) 4 + 4 + 4 * Zlength xs + Zlength rest).
  { rewrite Hbs, Zlength_app, Hlen. reflexivity. }
  assert (Hslot : load_native (slice (array_u32_bytes B xs ++ rest) (ALIGN_TO (Zlength B) 4) 4)
                  = 4 * Zlength xs).
  { apply array_u32_length_slot; lia. }
  assert (Hpeek1 : message_peek_body m (Zlength B) 4 4
                   = (1, ALIGN_TO (Zlength B) 4 + 4, ALIGN_TO (Zlength B) 4)).
  { apply (message_peek_body_appended m B
             (repeat 0 (Z.to_nat (ALIGN_TO (Zlength B) 4 - Zlength B)))
             (store_native 4 (4 * Zlength xs) ++ concat (map (store_native 4) xs) ++ rest));
      [ exact Hc | exact Ha
      | rewrite Hb; unfold array_u32_bytes; rewrite <- !app_assoc; reflexivity
      | exact He
      | rewrite Hbs; unfold array_u32_bytes; rewrite <- !app_assoc; reflexivity
      | reflexivity | reflexivity | lia
      | rewrite Zlength_app, (Zlength_correct (store_native _ _)), store_native_length;
        pose proof (Zlength_nonneg (concat (map (store_native 4) xs) ++ rest));
        change (Z.of_nat 4) with 4; lia
      | ].
    replace (B ++ repeat 0 (Z.to_nat (ALIGN_TO (Zlength B) 4 - Zlength B))
               ++ store_native 4 (4 * Zlength xs) ++ concat (map (store_native 4) xs) ++ rest)
      with (array_u32_bytes B xs ++ rest)
      by (unfold array_u32_bytes; rewrite <- !app_assoc; reflexivity).
    rewrite <- Hbs. exact Hmax. }
  assert (Hmod : (ALIGN_TO (Zlength B) 4 + 4) mod 4 = 0).
  { apply Z.mod_divide in Ham; [|lia]. destruct Ham as [k Hk]. rewrite Hk.
    replace (k * 4 + 4) with ((k + 1) * 4) by lia. apply Z.mod_mul. lia. }
  assert (Hpeek2 : message_peek_body m (ALIGN_TO (Zlength B) 4 + 4) 4 0
                   = (1, ALIGN_TO (Zlength B) 4 + 4, ALIGN_TO (Zlength B) 4 + 4)).
  { unfold message_peek_body, message_end_of_array. rewrite Hget, Ha.
    unfold BUS_MESSAGE_BODY_SIZE. rewrite BSWAP32_native by exact He.
    rewrite (peek_inside _ _ (ALIGN_TO (Zlength B) 4 + 4) 4 0) by lia.
    rewrite Z.add_0_r. reflexivity. }
  unfold sd_bus_message_enter_container. rewrite Hs. cbn [negb].
  unfold n_containers. rewrite Hc.
  change (BUS_CONTAINER_DEPTH <=? Zlength (@nil bus_container)) with false. cbv iota.
  apply allocations_succeed_step in Halloc. destruct Halloc as [Hal1 Halloc].
  apply allocations_succeed_step in Halloc. destruct Halloc as [Hal2 _].
  destruct (alloc_succeeds _ Hal1) as [j1 Ea1].
  destruct (alloc_succeeds _ Hal2) as [j2 Ea2].
  unfold bind at 1. rewrite Ea1. cbv zeta. rewrite Hget.
  assert (Hhas : has_char (root_container m) = true).
  { unfold has_char. rewrite Hsig, Hidx, char_at_behind. reflexivity. }
  rewrite Hhas. cbn [negb].
  unfold bind at 1. rewrite Ea2.
  rewrite skipn_skipn. change (1 + 1)%nat with 2%nat.
  unfold enter_kind. change (SD_BUS_TYPE_ARRAY =? SD_BUS_TYPE_ARRAY) with true. cbv iota.
  unfold bus_message_enter_array. rewrite Hsing. cbn [negb].
  change (bus_type_get_alignment (char_at [SD_BUS_TYPE_UINT32] 0)) with 4.
  change (4 <? 0) with false. cbv iota zeta.
  rewrite Hhas. cbn [negb].
  rewrite Hsig. cbn [strempty]. rewrite Hidx, char_at_behind.
  change (SD_BUS_TYPE_ARRAY =? SD_BUS_TYPE_ARRAY) with true. cbn [negb].
  rewrite str_from_behind. cbn [startswith]. rewrite startswith_nothing.
  change (SD_BUS_TYPE_UINT32 =? SD_BUS_TYPE_UINT32) with true. cbn [andb negb].
  rewrite Hri, Hpeek1. change (1 <=? 0) with false. cbv iota.
  rewrite BSWAP32_native by exact He. rewrite Hb. cbn [region_bytes]. rewrite Hslot.
  destruct (BUS_ARRAY_MAX_SIZE <? 4 * Zlength xs) eqn:Lmax.
  - apply Z.ltb_lt in Lmax.
    exists (- EBADMSG), m. split; [reflexivity|].
    split; [intros _; split; reflexivity|intros Hle; lia].
  - apply Z.ltb_ge in Lmax. rewrite Hpeek2.
    change (1 <? 0) with false. change (1 =? 0) with false. cbv iota.
    rewrite Hset.
    unfold advance. rewrite Hen. change (0 =? SD_BUS_TYPE_ARRAY) with false. cbv iota.
    unfold lift, bind, ret. change (1 <=? 0) with false. cbv iota.
    eexists 1, _. split; [reflexivity|].
    split; [intros Hgt; lia|intros _].
    split; [reflexivity|].
    cbn [containers set_rindex set_root_container rindex app root_container set_containers].
    rewrite Hc. cbn [app].
    split.
    + unfold array_u32_entered, array_u32_entered_frame.
      cbn [sealed containers body header rindex set_containers set_rindex
           set_root_container].
      repeat split; try assumption. lia.
    + f_equal.
Qed.
End ArrayEnter.

Section ArrayRoundTrip.
Context {host : Host} {ext : Collaborators}.

(** An array of [uint32_t] that was opened at the end of the root
    signature of a message under construction, filled with the elements
    [xs] (each within 32 bits) and closed, is read back once the message is
    sealed and the read cursor stands where the array was opened. With an
    allocator that delivers, [enter_container] enters the array; then
    [read_basic] hands out the elements of [xs] one after the other, each
    time with 1; then it answers 0, for the end of the array;
    [exit_container] leaves the array with 1, and the reader stands at the
    end of the body and of the signature. This holds for arrays of up to
    [BUS_ARRAY_MAX_SIZE] bytes; a longer one, which the writer has
    accepted, is refused by [enter_container] with -EBADMSG. *)
Theorem an_array_is_read_back
    (m m1 m2 m3 m4 : sd_bus_message) (xs : list Z) (h0 h1 h2 h3 h : heap) (serial_ : Z) :
  building m -> has_char (root_container m) = false ->
  sd_bus_message_open_container m SD_BUS_TYPE_ARRAY (Some [SD_BUS_TYPE_UINT32]) h0
  = Returns ((0, m1), h1) ->
  append_each m1 SD_BUS_TYPE_UINT32 xs h1 = Returns ((0, m2), h2) ->
  sd_bus_message_close_container m2 = (0, m3) ->
  bus_message_seal m3 serial_ h2 = Returns ((0, m4), h3) ->
  Forall (fun x => 0 <= x < 2 ^ 32) xs ->
  allocations_succeed 2 h ->
  (BUS_ARRAY_MAX_SIZE < 4 * Zlength xs ->
   sd_bus_message_enter_container (at_cursor_of m m4) SD_BUS_TYPE_ARRAY
     (Some [SD_BUS_TYPE_UINT32]) h
   = Returns ((- EBADMSG, at_cursor_of m m4), skipn 2 h))
  /\ (4 * Zlength xs <= BUS_ARRAY_MAX_SIZE ->
      exists m5 m6 m7,
        sd_bus_message_enter_container (at_cursor_of m m4) SD_BUS_TYPE_ARRAY
          (Some [SD_BUS_TYPE_UINT32]) h
        = Returns ((1, m5), skipn 2 h)
        /\ read_each m5 SD_BUS_TYPE_UINT32 (List.length xs) = Some (map VInt xs, m6)
        /\ sd_bus_message_read_basic m6 SD_BUS_TYPE_UINT32 = Returns (0, m6, None)
        /\ sd_bus_message_exit_container m6 = Returns (1, m7)
        /\ containers m7 = []
        /\ rindex m7 = body_size (header m4)
        /\ has_char (root_container m7) = false
        /\ same_but_cursor m4 m7).
Proof.
  intros Hb Hhas Hopen Happ Hclose Hseal Hxs Halloc.
  pose proof Hb as (Hs & Hc & He & Hlen & Hmax & Hf & Hok & Ha).
  destruct (array_u32_written m m1 m2 xs h0 h1 h2 Hb Hhas Hopen Happ)
    as (m3' & Hclose' & Hbody3 & Hbs3 & _ & Hsig3 & Hb3 & Hhas3 & Hsame3 & Hidx3 & Hen3
        & Hsing).
  assert (Em3 : m3' = m3) by congruence. subst m3'.
  destruct Hb3 as (Hs3 & Hc3 & He3 & Hlen3 & Hmax3 & Hf3 & Hok3 & Ha3).
  destruct (seal_effect m3 m4 serial_ h2 h3 Hseal Hf3)
    as (_ & Hs4 & _ & _ & _ & _ & Hbody4 & Hroot4 & Hc4 & Hbs4 & He4 & _).
  set (B := region_bytes (body m)) in *.
  set (mr := at_cursor_of m m4).
  pose proof (exhausted_at_end _ Hok Hhas) as Hend.
  assert (Hbmr : body mr = Some (array_u32_bytes B xs ++ [])).
  { rewrite app_nil_r. unfold mr, at_cursor_of. cbn [body set_rindex set_root_container].
    rewrite Hbody4. exact Hbody3. }
  assert (Hbsmr : body_size (header mr) = Zlength (array_u32_bytes B xs ++ [])).
  { rewrite app_nil_r. unfold mr, at_cursor_of. cbn [header set_rindex set_root_container].
    rewrite Hbs4, <- Hlen3, Hbody3. reflexivity. }
  destruct (enter_array_u32 mr B xs [] (strempty (signature (root_container m))) [] h)
    as (r & m5 & Henter & Hlong & Hshort);
    [ exact Hs4 | exact Hc4
    | unfold mr, at_cursor_of; cbn [root_container set_rindex set_root_container array_size
                                     set_index]; rewrite Hroot4; exact Ha3
    | unfold mr, at_cursor_of; cbn [root_container set_rindex set_root_container enclosing
                                     set_index]; rewrite Hroot4; exact Hen3
    | unfold mr, at_cursor_of; cbn [root_container set_rindex set_root_container signature
                                     set_index]; rewrite Hroot4; exact Hsig3
    | unfold mr, at_cursor_of; cbn [root_container set_rindex set_root_container index
                                     set_index]; exact Hend
    | exact Hbmr
    | unfold mr, at_cursor_of; cbn [header set_rindex set_root_container];
      rewrite He4; exact He3
    | exact Hbsmr
    | unfold mr, at_cursor_of; cbn [header set_rindex set_root_container];
      rewrite Hbs4; exact Hmax3
    | unfold mr, at_cursor_of; cbn [rindex set_rindex]; symmetry; exact Hlen
    | exact Hsing | exact Halloc | ].
  split.
  - intros Hgt. destruct (Hlong Hgt) as [-> ->]. exact Henter.
  - intros Hle. destruct (Hshort Hle) as (-> & Hent & Hroot5).
    destruct (read_each_in_array xs m5 B [] [] Hent Hxs) as (m6 & Hreads & Hent6 & Hroot6).
    cbn [app] in Hent6.
    destruct (array_u32_at_its_end m6 B xs [] Hent6) as [Hnone Hexit].
    exists m5, m6, (set_containers [] m6).
    split; [exact Henter|]. split; [exact Hreads|]. split; [exact Hnone|].
    split; [exact Hexit|]. split; [reflexivity|].
    destruct Hent6 as (_ & _ & _ & _ & _ & _ & Hri6).
    cbn [rindex set_containers root_container].
    split.
    { rewrite Hri6, Hbs4, Hbs3, Hlen. reflexivity. }
    split.
    { rewrite Hroot6, Hroot5. unfold has_char.
      unfold mr, at_cursor_of.
      cbn [root_container set_rindex set_root_container signature index set_index].
      rewrite Hroot4, Hsig3.
      replace (Zlength (strempty (signature (root_container m))) + 2)
        with (strlen (strempty (signature (root_container m))
                        ++ [SD_BUS_TYPE_ARRAY; SD_BUS_TYPE_UINT32]))
        by (unfold strlen; rewrite Zlength_app; reflexivity).
      rewrite char_at_the_end. reflexivity. }
    eapply same_but_cursor_trans; [|eapply exit_container_same_but_cursor; exact Hexit].
    eapply same_but_cursor_trans;
      [|eapply read_each_same_but_cursor; exact Hreads].
    eapply same_but_cursor_trans;
      [|eapply enter_container_same_but_cursor; exact Henter].
    unfold mr, at_cursor_of. cursor_only.
Qed.
End ArrayRoundTrip.

(** The array of 5 and 6 in the call of scenario 2, sealed with the serial
    1: the reader enters it, reads 5 and 6, finds the end and leaves. *)
Lemma an_array_is_read_back_witness :
  exists m5 m6 m7,
    @sd_bus_message_enter_container little_endian_host reference_collaborators
      (at_cursor_of (Run.the Run.hello) Run.array_sealed)
      SD_BUS_TYPE_ARRAY (Some [SD_BUS_TYPE_UINT32]) []
    = Returns ((1, m5), [])
    /\ @read_each little_endian_host reference_collaborators m5 SD_BUS_TYPE_UINT32 2
       = Some ([VInt 5; VInt 6], m6)
    /\ @sd_bus_message_read_basic little_endian_host reference_collaborators
         m6 SD_BUS_TYPE_UINT32
       = Returns (0, m6, None)
    /\ @sd_bus_message_exit_container little_endian_host m6 = Returns (1, m7)
    /\ rindex m7 = 12.
Proof.
  destruct (@an_array_is_read_back little_endian_host reference_collaborators
              (Run.the Run.hello) Run.array_opened Run.array_filled Run.array_closed
              Run.array_sealed [5; 6] [] [] [] [] [] 1)
    as [_ Hread].
  - unfold building, fields_in_step, container_ok.
    repeat split; try (vm_compute; reflexivity); try (vm_compute; discriminate).
    vm_compute. constructor.
  - reflexivity.
  - vm_compute. reflexivity.
  - vm_compute. reflexivity.
  - vm_compute. reflexivity.
  - vm_compute. reflexivity.
  - repeat constructor; lia.
  - constructor.
  - destruct Hread as (m5 & m6 & m7 & H1 & H2 & H3 & H4 & _ & H6 & _);
      [vm_compute; discriminate|].
    exists m5, m6, m7.
    split; [exact H1|]. split; [exact H2|]. split; [exact H3|]. split; [exact H4|].
    exact H6.
Defined.

(** ** Variants and structs *)

Section OneValueWriter.
Context {host : Host} {ext : Collaborators}.

Lemma in_one_frame (m : sd_bus_message) (c : bus_container) :
  containers m = [c] ->
  message_get_container m = c
  /\ forall c', message_set_container m c' = set_containers [c'] m.
Proof.
  intros Hc. unfold message_get_container, message_set_container, n_containers.
  rewrite Hc. split; [reflexivity|intros c'; reflexivity].
Qed.

Lemma no_array_to_grow (cs : list bus_container) (b : list Z) (added : Z) :
  Forall (fun c => array_size c = None) cs ->
  fold_left (fun b c => match array_size c with
                        | Some a => array_size_add b a added
                        | None => b
                        end) cs b = b.
Proof.
  intros H. revert b. induction H as [|c cs Hc _ IH]; intros b; cbn [fold_left];
    [reflexivity|].
  rewrite Hc. apply IH.
Qed.

Lemma buffer_extend_not_null
    (p f : region) (sz align extend fs q : Z) (h h' : heap) :
  Zlength (region_bytes p) = sz -> 0 < align <= 8 ->
  buffer_extend p sz align extend h = Returns ((Some q, f, fs), h') -> f <> None.
Proof.
  intros Hlen Halign. unfold buffer_extend, bind, ret.
  destruct (_ =? sz).
  - destruct p as [b|]; cbn [ptr_add]; [intros H; inversion H; discriminate|].
    cbn [region_bytes] in Hlen. rewrite Zlength_nil in Hlen. subst sz.
    rewrite (ALIGN_TO_aligned 0 align) by (try lia; apply Z.mod_0_l; lia).
    cbn [Z.eqb]. intros H. inversion H.
  - destruct (UINT32_MAX <? _); [intros H; inversion H|].
    destruct (alloc_cases h) as [[-> _]|[junk ->]]; intros H; inversion H.
    discriminate.
Qed.

Lemma buffer_extend_bounded
    (p f : region) (sz align extend fs q : Z) (h h' : heap) :
  sz <= UINT32_MAX ->
  buffer_extend p sz align extend h = Returns ((Some q, f, fs), h') -> fs <= UINT32_MAX.
Proof.
  intros Hsz. unfold buffer_extend, bind, ret.
  destruct (_ =? sz).
  - intros H. inversion H; subst. exact Hsz.
  - destruct (UINT32_MAX <? _) eqn:U; [intros H; inversion H|].
    apply Z.ltb_ge in U.
    destruct (alloc_cases h) as [[-> _]|[junk ->]]; intros H; inversion H; subst.
    exact U.
Qed.

(** The body grows while no array is open: where the new bytes lie, and
    what stays. *)
Lemma extend_body_without_arrays
    (m m' : sd_bus_message) (align sz : Z) (h h' : heap) (q : Z) :
  message_extend_body m align sz h = Returns ((Some q, m'), h') ->
  Forall (fun c => array_size c = None) (containers m) ->
  Zlength (region_bytes (body m)) = body_size (header m) ->
  body_size (header m) <= UINT32_MAX ->
  0 < align <= 8 -> 0 <= sz < 2 ^ 33 ->
  exists junk,
    q = ALIGN_TO (body_size (header m)) align
    /\ q + sz <= UINT32_MAX
    /\ m' = set_body
              (Some (region_bytes (body m)
                       ++ repeat 0 (Z.to_nat (q - body_size (header m)))
                       ++ repeat junk (Z.to_nat sz)))
              (set_header (set_body_size (q + sz) (header m)) m).
Proof.
  intros Hrun Hc Hlen Hmax Halign Hsz.
  unfold message_extend_body, bind, ret in Hrun.
  destruct (buffer_extend _ _ _ _ h) as [[[[p f] fs] h2]|] eqn:E; [|discriminate].
  destruct p as [p|]; [|discriminate].
  rewrite no_array_to_grow in Hrun by exact Hc.
  assert (Ep : p = q) by (inversion Hrun; reflexivity).
  assert (Em : m' = set_body (match f with Some _ => Some (region_bytes f) | None => None end)
                      (set_header (set_body_size fs (header m)) m))
    by (inversion Hrun; reflexivity).
  clear Hrun. subst p m'.
  pose proof (buffer_extend_not_null _ _ _ _ _ _ _ _ _ Hlen Halign E) as Hf.
  pose proof (buffer_extend_bounded _ _ _ _ _ _ _ _ _ Hmax E) as Hbound.
  unfold UINT32_MAX in Hmax.
  pose proof (Zlength_nonneg (region_bytes (body m))) as Hnn.
  apply buffer_extend_grows in E; try assumption; try lia.
  destruct E as (Hq & Hfs & Hle & junk & Hbytes).
  exists junk.
  split; [exact Hq|]. split; [rewrite <- Hfs; exact Hbound|].
  destruct f as [f|]; [|congruence].
  cbn [region_bytes] in Hbytes. rewrite Hbytes, Hfs. reflexivity.
Qed.

Lemma Zlength_store_native (n : nat) (v : Z) : Zlength (store_native n v) = Z.of_nat n.
Proof. rewrite Zlength_correct, store_native_length. reflexivity. Qed.

(** The one value goes into the frame of a variant or a struct. *)
Lemma append_u32_in_frame
    (m m' : sd_bus_message) (k x : Z) (P : list Z) (h h' : heap) :
  sealed m = false -> containers m = [u32_frame k 0 0] ->
  (k =? SD_BUS_TYPE_ARRAY) = false ->
  body m = Some P -> body_size (header m) = Zlength P ->
  body_size (header m) <= UINT32_MAX ->
  sd_bus_message_append_basic m SD_BUS_TYPE_UINT32 (PInt x) h = Returns ((0, m'), h') ->
  m' = set_containers [u32_frame k 1 0]
         (set_body (Some (u32_behind P x))
            (set_header (set_body_size (Zlength (u32_behind P x)) (header m)) m))
  /\ Zlength (u32_behind P x) = ALIGN_TO (Zlength P) 4 + 4
  /\ Zlength (u32_behind P x) <= UINT32_MAX.
Proof.
  intros Hs Hc Hk Hb Hbs Hmax Hrun.
  destruct (in_one_frame _ _ Hc) as [Hget Hset].
  pose proof (Zlength_nonneg P) as HP.
  assert (Hmax' : Zlength P <= 4294967295) by (rewrite <- Hbs; exact Hmax).
  destruct (ALIGN_TO_spec (Zlength P) 4) as [Hal Ham]; try lia.
  assert (Hlen : Zlength (u32_behind P x) = ALIGN_TO (Zlength P) 4 + 4).
  { unfold u32_behind. rewrite !Zlength_app, Zlength_repeat, Zlength_store_native.
    change (Z.of_nat 4) with 4. lia. }
  unfold sd_bus_message_append_basic, message_append_basic in Hrun.
  rewrite Hs in Hrun. change (bus_type_is_basic SD_BUS_TYPE_UINT32) with true in Hrun.
  cbn [negb] in Hrun.
  assert (Hslot : append_slot m SD_BUS_TYPE_UINT32 h = Returns ((0, false, m), h)).
  { unfold append_slot. rewrite Hget. reflexivity. }
  unfold bind at 1 in Hrun. rewrite Hslot in Hrun. cbn [Z.ltb Z.compare] in Hrun.
  assert (Hlay : basic_layout SD_BUS_TYPE_UINT32 (PInt x)
                 = Returns (0, (4, 4, store_native 4 x))) by reflexivity.
  rewrite Hlay in Hrun. cbn [Z.ltb Z.compare] in Hrun.
  unfold append_value, bind in Hrun.
  destruct (message_extend_body m 4 4 h) as [[[a mb] h1]|] eqn:E; [|discriminate].
  destruct a as [a|]; [|unfold ret in Hrun; inversion Hrun].
  apply extend_body_without_arrays in E;
    [ | rewrite Hc; repeat constructor
      | rewrite Hb; cbn [region_bytes]; symmetry; exact Hbs
      | exact Hmax | lia | lia ].
  destruct E as (junk & Ha & Hle & Emb).
  rewrite Hb, Hbs in Emb. cbn [region_bytes] in Emb. rewrite Hbs in Ha.
  change ((SD_BUS_TYPE_UINT32 =? SD_BUS_TYPE_STRING)
          || (SD_BUS_TYPE_UINT32 =? SD_BUS_TYPE_OBJECT_PATH)) with false in Hrun.
  change (SD_BUS_TYPE_UINT32 =? SD_BUS_TYPE_SIGNATURE) with false in Hrun.
  cbv iota in Hrun. unfold assign in Hrun.
  assert (Hw : mem_write (region_bytes (body mb)) a (store_native 4 x) = u32_behind P x).
  { rewrite Emb. cbn [body set_body region_bytes]. unfold u32_behind.
    rewrite app_assoc. rewrite <- Ha.
    replace a with (Zlength (P ++ repeat 0 (Z.to_nat (a - Zlength P)))) at 2
      by (rewrite Zlength_app, Zlength_repeat; lia).
    rewrite mem_write_at_end; [rewrite <- app_assoc; reflexivity|].
    rewrite repeat_length, store_native_length. reflexivity. }
  rewrite Hw in Hrun.
  set (mv := set_body (Some (u32_behind P x)) mb) in Hrun.
  assert (Hcv : containers mv = [u32_frame k 0 0]) by (unfold mv; rewrite Emb; exact Hc).
  destruct (in_one_frame _ _ Hcv) as [Hgetv Hsetv].
  rewrite Hgetv, Hsetv in Hrun.
  unfold advance in Hrun. cbn [enclosing u32_frame] in Hrun. rewrite Hk in Hrun.
  unfold ret in Hrun.
  split; [|split; [exact Hlen|rewrite Hlen, <- Ha; exact Hle]].
  assert (Em : m' = set_containers
                      [set_index (index (mk_container k (Some [SD_BUS_TYPE_UINT32]) 0 None 0) + 1)
                                 (mk_container k (Some [SD_BUS_TYPE_UINT32]) 0 None 0)] mv)
    by (inversion Hrun; reflexivity).
  rewrite Em. unfold mv. rewrite Emb, Hlen, <- Ha. reflexivity.
Qed.
End OneValueWriter.

Section OneValueOpen.
Context {host : Host} {ext : Collaborators}.

(** A container was opened: the helper of its kind accepted, and the new
    frame lies on the stack. *)
Lemma open_container_opened
    (m m1 : sd_bus_message) (t : Z) (contents : cstring) (h h1 : heap) :
  sd_bus_message_open_container m t (Some contents) h = Returns ((0, m1), h1) ->
  sealed m = false
  /\ exists r ma asz h2,
      open_kind m (message_get_container m) t contents h2 = Returns ((r, ma, asz), h1)
      /\ (r <? 0) = false
      /\ m1 = set_containers (containers ma ++ [mk_container t (Some contents) 0 asz 0]) ma.
Proof.
  intros Hrun. unfold sd_bus_message_open_container in Hrun.
  destruct (sealed m); [inversion Hrun|]. split; [reflexivity|].
  unfold bind at 1 in Hrun.
  destruct (alloc_cases h) as [[Ha1 _]|[j1 Ha1]]; rewrite Ha1 in Hrun; [inversion Hrun|].
  unfold bind at 1 in Hrun.
  destruct (alloc_cases (skipn 1 h)) as [[Ha2 _]|[j2 Ha2]]; rewrite Ha2 in Hrun;
    [inversion Hrun|].
  unfold bind in Hrun.
  destruct (open_kind m (message_get_container m) t contents (skipn 1 (skipn 1 h)))
    as [[[[r ma] asz] h3]|] eqn:Eo; [|discriminate].
  destruct (r <? 0) eqn:Lr; unfold ret in Hrun; [inversion Hrun; subst; discriminate|].
  exists r, ma, asz, (skipn 1 (skipn 1 h)).
  inversion Hrun; subst. split; [exact Eo|]. split; [exact Lr|reflexivity].
Qed.

(** A variant of one [uint32_t] is opened at the root, at the end of the
    signature: the signature of the contents goes into the body. *)
Lemma open_variant_u32_at_root (m m1 : sd_bus_message) (h h1 : heap) :
  building m -> has_char (root_container m) = false ->
  sd_bus_message_open_container m SD_BUS_TYPE_VARIANT (Some [SD_BUS_TYPE_UINT32]) h
  = Returns ((0, m1), h1) ->
  let B := region_bytes (body m) in
  let s := strempty (signature (root_container m)) ++ [SD_BUS_TYPE_VARIANT] in
  sealed m1 = false
  /\ containers m1 = [u32_frame SD_BUS_TYPE_VARIANT 0 0]
  /\ body m1 = Some (B ++ [1; SD_BUS_TYPE_UINT32; 0])
  /\ body_size (header m1) = Zlength (B ++ [1; SD_BUS_TYPE_UINT32; 0])
  /\ body_size (header m1) <= UINT32_MAX
  /\ root_container m1 = set_index (strlen s) (set_signature (Some s) (root_container m))
  /\ enclosing (root_container m) = 0
  /\ signature_is_single [SD_BUS_TYPE_UINT32] = true.
Proof.
  intros (Hs & Hc & He & Hlen & Hmax & Hf & Hok & Ha) Hhas Hrun B s.
  destruct (at_root _ Hc) as [Hget Hset].
  pose proof (Zlength_nonneg B) as HB.
  pose proof (exhausted_at_end _ Hok Hhas) as Hend.
  destruct (open_container_opened _ _ _ _ _ _ Hrun) as (_ & r & ma & asz & h2 & Eo & Lr & Em1).
  clear Hrun. subst m1.
  rewrite Hget in Eo. unfold open_kind in Eo.
  change (SD_BUS_TYPE_VARIANT =? SD_BUS_TYPE_ARRAY) with false in Eo.
  change (SD_BUS_TYPE_VARIANT =? SD_BUS_TYPE_VARIANT) with true in Eo. cbv iota in Eo.
  unfold bind at 1 in Eo.
  destruct (bus_message_open_variant m (root_container m) [SD_BUS_TYPE_UINT32] h2)
    as [[[r' mv] h3]|] eqn:Ev; [|discriminate].
  unfold ret in Eo.
  assert (Er : r' = r) by (inversion Eo; reflexivity).
  assert (Ema : ma = mv) by (inversion Eo; reflexivity).
  assert (Easz : asz = None) by (inversion Eo; reflexivity).
  clear Eo. subst r' ma asz.
  unfold bus_message_open_variant in Ev.
  destruct (signature_is_single [SD_BUS_TYPE_UINT32]) eqn:Esing; cbn [negb] in Ev;
    [|unfold ret in Ev; inversion Ev; subst; discriminate].
  change (char_at [SD_BUS_TYPE_UINT32] 0 =? SD_BUS_TYPE_DICT_ENTRY_BEGIN) with false in Ev.
  cbv iota zeta in Ev.
  unfold bind at 1 in Ev. unfold open_slot in Ev. rewrite Hhas in Ev.
  destruct (enclosing (root_container m) =? 0) eqn:Een; cbn [negb] in Ev;
    [|unfold ret in Ev; inversion Ev; subst; discriminate].
  apply Z.eqb_eq in Een.
  unfold bind at 1 in Ev. unfold strextend in Ev. unfold bind at 1 in Ev.
  destruct (alloc_cases h2) as [[Ha3 _]|[j3 Ha3]]; rewrite Ha3 in Ev;
    [unfold ret in Ev; inversion Ev; subst; discriminate|].
  unfold ret at 1 in Ev. unfold ret at 1 in Ev. cbv beta iota in Ev.
  cbn [Z.ltb Z.compare] in Ev.
  rewrite Hset in Ev. fold s in Ev.
  change (size_t (1 + strlen [SD_BUS_TYPE_UINT32] + 1)) with 3 in Ev.
  unfold bind in Ev.
  destruct (message_extend_body _ 1 3 _) as [[[qa m_a] h4]|] eqn:Ea; [|discriminate].
  destruct qa as [qa|]; [|unfold ret in Ev; inversion Ev; subst; discriminate].
  apply extend_body_without_arrays in Ea;
    [ | cbn [containers set_root_container]; rewrite Hc; constructor
      | exact Hlen | exact Hmax | lia | lia ].
  destruct Ea as (junk & Hqa & Hlea & Ema).
  cbn [header body set_root_container] in Hqa, Hlea, Ema.
  unfold UINT32_MAX in Hlea, Hmax.
  assert (Hal1 : ALIGN_TO (body_size (header m)) 1 = body_size (header m)).
  { apply ALIGN_TO_aligned; [lia|rewrite <- Hlen; exact HB|lia|apply Z.mod_1_r]. }
  rewrite Hal1 in Hqa.
  subst qa. rewrite Z.sub_diag in Ema. fold B in Ema.
  change (repeat 0 (Z.to_nat 0) ++ repeat junk (Z.to_nat 3)) with (repeat junk 3%nat) in Ema.
  unfold ret in Ev.
  assert (Hw : mem_write (region_bytes (body m_a)) (body_size (header m))
                 ([u8 (strlen [SD_BUS_TYPE_UINT32])] ++ [SD_BUS_TYPE_UINT32] ++ [0])
               = B ++ [1; SD_BUS_TYPE_UINT32; 0]).
  { rewrite Ema. cbn [body set_body region_bytes]. rewrite <- Hlen. fold B.
    apply mem_write_at_end. reflexivity. }
  rewrite Hw in Ev.
  set (mw := set_body (Some (B ++ [1; SD_BUS_TYPE_UINT32; 0])) m_a) in Ev.
  assert (Hcw : containers mw = []) by (unfold mw; rewrite Ema; exact Hc).
  destruct (at_root _ Hcw) as [Hgetw Hsetw].
  rewrite Hgetw, Hsetw in Ev.
  assert (Hrw : root_container mw = set_signature (Some s) (root_container m))
    by (unfold mw; rewrite Ema; reflexivity).
  rewrite Hrw in Ev. unfold advance in Ev. cbn [enclosing set_signature] in Ev.
  rewrite Een in Ev. change (0 =? SD_BUS_TYPE_ARRAY) with false in Ev. cbv iota in Ev.
  cbn [index set_signature] in Ev.
  assert (Emv : mv = set_root_container
                       (set_index (index (root_container m) + 1)
                                  (set_signature (Some s) (root_container m))) mw)
    by (inversion Ev; reflexivity).
  clear Ev. subst mv.
  assert (Hsl : strlen s = index (root_container m) + 1).
  { unfold s, strlen. rewrite Zlength_app. unfold strlen in Hend. rewrite Hend. reflexivity. }
  rewrite Hsl.
  unfold mw. rewrite Ema.
  cbn [sealed containers body header root_container set_containers set_root_container
       set_body set_header body_size set_body_size app].
  rewrite Hc. cbn [app].
  assert (Hl3 : Zlength (B ++ [1; SD_BUS_TYPE_UINT32; 0]) = body_size (header m) + 3).
  { rewrite Zlength_app. unfold B. rewrite Hlen. reflexivity. }
  rewrite Hl3.
  split; [exact Hs|]. split; [reflexivity|]. split; [reflexivity|].
  split; [reflexivity|]. split; [unfold UINT32_MAX; lia|].
  split; [reflexivity|]. split; [exact Een|reflexivity].
Qed.

(** A struct of one [uint32_t] is opened at the root, at the end of the
    signature: the body is padded to a multiple of 8. *)
Lemma open_struct_u32_at_root (m m1 : sd_bus_message) (h h1 : heap) :
  building m -> has_char (root_container m) = false ->
  sd_bus_message_open_container m SD_BUS_TYPE_STRUCT (Some [SD_BUS_TYPE_UINT32]) h
  = Returns ((0, m1), h1) ->
  let B := region_bytes (body m) in
  let P := B ++ repeat 0 (Z.to_nat (ALIGN_TO (Zlength B) 8 - Zlength B)) in
  let s := strempty (signature (root_container m))
             ++ [SD_BUS_TYPE_STRUCT_BEGIN; SD_BUS_TYPE_UINT32; SD_BUS_TYPE_STRUCT_END] in
  sealed m1 = false
  /\ containers m1 = [u32_frame SD_BUS_TYPE_STRUCT 0 0]
  /\ body m1 = Some P
  /\ body_size (header m1) = Zlength P
  /\ body_size (header m1) <= UINT32_MAX
  /\ root_container m1 = set_index (strlen s) (set_signature (Some s) (root_container m))
  /\ enclosing (root_container m) = 0
  /\ signature_is_valid [SD_BUS_TYPE_UINT32] false = true.
Proof.
  intros (Hs & Hc & He & Hlen & Hmax & Hf & Hok & Ha) Hhas Hrun B P s.
  destruct (at_root _ Hc) as [Hget Hset].
  pose proof (Zlength_nonneg B) as HB.
  destruct (open_container_opened _ _ _ _ _ _ Hrun) as (_ & r & ma & asz & h2 & Eo & Lr & Em1).
  clear Hrun. subst m1.
  rewrite Hget in Eo. unfold open_kind in Eo.
  change (SD_BUS_TYPE_STRUCT =? SD_BUS_TYPE_ARRAY) with false in Eo.
  change (SD_BUS_TYPE_STRUCT =? SD_BUS_TYPE_VARIANT) with false in Eo.
  change (SD_BUS_TYPE_STRUCT =? SD_BUS_TYPE_STRUCT) with true in Eo. cbv iota in Eo.
  unfold bind at 1 in Eo.
  destruct (bus_message_open_struct m (root_container m) [SD_BUS_TYPE_UINT32] h2)
    as [[[r' mv] h3]|] eqn:Ev; [|discriminate].
  unfold ret in Eo.
  assert (Er : r' = r) by (inversion Eo; reflexivity).
  assert (Ema : ma = mv) by (inversion Eo; reflexivity).
  assert (Easz : asz = None) by (inversion Eo; reflexivity).
  clear Eo. subst r' ma asz.
  unfold bus_message_open_struct in Ev.
  destruct (signature_is_valid [SD_BUS_TYPE_UINT32] false) eqn:Eval; cbn [negb] in Ev;
    [|unfold ret in Ev; inversion Ev; subst; discriminate].
  cbv zeta in Ev.
  unfold bind at 1 in Ev. unfold open_slot in Ev. rewrite Hhas in Ev.
  destruct (enclosing (root_container m) =? 0) eqn:Een; cbn [negb] in Ev;
    [|unfold ret in Ev; inversion Ev; subst; discriminate].
  apply Z.eqb_eq in Een.
  unfold bind at 1 in Ev. unfold strextend in Ev. unfold bind at 1 in Ev.
  destruct (alloc_cases h2) as [[Ha3 _]|[j3 Ha3]]; rewrite Ha3 in Ev;
    [unfold ret in Ev; inversion Ev; subst; discriminate|].
  unfold ret at 1 in Ev. unfold ret at 1 in Ev. cbv beta iota in Ev.
  cbn [Z.ltb Z.compare] in Ev.
  rewrite Hset in Ev.
  change ([SD_BUS_TYPE_STRUCT_BEGIN] ++ [SD_BUS_TYPE_UINT32] ++ [SD_BUS_TYPE_STRUCT_END])
    with [SD_BUS_TYPE_STRUCT_BEGIN; SD_BUS_TYPE_UINT32; SD_BUS_TYPE_STRUCT_END] in Ev.
  fold s in Ev.
  unfold bind in Ev.
  destruct (message_extend_body _ 8 0 _) as [[[qa m_a] h4]|] eqn:Ea; [|discriminate].
  destruct qa as [qa|]; [|unfold ret in Ev; inversion Ev; subst; discriminate].
  apply extend_body_without_arrays in Ea;
    [ | cbn [containers set_root_container]; rewrite Hc; constructor
      | exact Hlen | exact Hmax | lia | lia ].
  destruct Ea as (junk & Hqa & Hlea & Ema).
  cbn [header body set_root_container] in Hqa, Ema.
  unfold UINT32_MAX in Hmax.
  destruct (ALIGN_TO_spec (body_size (header m)) 8) as [Hal Ham];
    [lia|rewrite <- Hlen; exact HB|lia|].
  rewrite <- Hqa in Hal, Ham.
  change (repeat junk (Z.to_nat 0)) with (@nil Z) in Ema. rewrite app_nil_r in Ema.
  rewrite Z.add_0_r in Ema.
  unfold ret in Ev.
  assert (Hcw : containers m_a = []) by (rewrite Ema; exact Hc).
  destruct (at_root _ Hcw) as [Hgetw Hsetw].
  rewrite Hgetw, Hsetw in Ev.
  assert (Hrw : root_container m_a = set_signature (Some s) (root_container m))
    by (rewrite Ema; reflexivity).
  rewrite Hrw in Ev. unfold advance in Ev. cbn [enclosing set_signature] in Ev.
  rewrite Een in Ev. change (0 =? SD_BUS_TYPE_ARRAY) with false in Ev. cbv iota in Ev.
  assert (Emv : mv = set_root_container
                       (set_index (strlen s) (set_signature (Some s) (root_container m))) m_a)
    by (inversion Ev; reflexivity).
  clear Ev. subst mv.
  rewrite Ema.
  cbn [sealed containers body header root_container set_containers set_root_container
       set_body set_header body_size set_body_size app].
  rewrite Hc. cbn [app].
  assert (HP : P = region_bytes (body m) ++ repeat 0 (Z.to_nat (qa - body_size (header m)))).
  { unfold P, B. rewrite Hlen, <- Hqa. reflexivity. }
  rewrite <- HP.
  assert (HPl : Zlength P = qa).
  { rewrite HP, Zlength_app, Zlength_repeat, Hlen. lia. }
  split; [exact Hs|]. split; [reflexivity|]. split; [reflexivity|].
  split; [symmetry; exact HPl|].
  split; [rewrite Z.add_0_r in Hlea; exact Hlea|].
  split; [reflexivity|]. split; [exact Een|reflexivity].
Qed.
End OneValueOpen.

Section OneValueFrames.
Context {host : Host} {ext : Collaborators}.

Lemma u32_behind_length (P : list Z) (x : Z) :
  Zlength P + 4 <= 2 ^ 64 ->
  Zlength (u32_behind P x) = ALIGN_TO (Zlength P) 4 + 4.
Proof.
  intros HP. pose proof (Zlength_nonneg P).
  destruct (ALIGN_TO_spec (Zlength P) 4) as [Hal _]; try lia.
  unfold u32_behind. rewrite !Zlength_app, Zlength_repeat, Zlength_store_native.
  change (Z.of_nat 4) with 4. lia.
Qed.

(** What appending the value and closing the container has done. *)
Lemma u32_container_written
    (m m1 m2 : sd_bus_message) (k x : Z) (P suffix : list Z) (h1 h2 : heap) :
  building m -> has_char (root_container m) = false ->
  same_but_body m m1 ->
  sealed m1 = false -> containers m1 = [u32_frame k 0 0] ->
  (k =? SD_BUS_TYPE_ARRAY) = false ->
  body m1 = Some P -> body_size (header m1) = Zlength P ->
  body_size (header m1) <= UINT32_MAX ->
  root_container m1
  = set_index (strlen (strempty (signature (root_container m)) ++ suffix))
      (set_signature (Some (strempty (signature (root_container m)) ++ suffix))
                     (root_container m)) ->
  Forall (fun c => c <> 0) suffix ->
  sd_bus_message_append_basic m1 SD_BUS_TYPE_UINT32 (PInt x) h1 = Returns ((0, m2), h2) ->
  sd_bus_message_close_container m1 = (- EINVAL, m1)
  /\ exists m3,
      sd_bus_message_close_container m2 = (0, m3)
      /\ body m3 = Some (u32_behind P x)
      /\ body_size (header m3) = Zlength (u32_behind P x)
      /\ root_container m3 = root_container m1
      /\ building m3 /\ has_char (root_container m3) = false
      /\ same_but_body m m3.
Proof.
  intros Hb Hhas Hsame1 Hs1 Hc1 Hk Hb1 Hbs1 Hmax1 Hroot1 Hsuf Happ.
  pose proof Hb as (Hs & Hc & He & Hlen & Hmax & Hf & Hok & Ha).
  destruct (in_one_frame _ _ Hc1) as [Hget1 _].
  split.
  { unfold sd_bus_message_close_container. rewrite Hs1.
    unfold n_containers. rewrite Hc1.
    change (Zlength [u32_frame k 0 0] <=? 0) with false. cbv iota zeta.
    rewrite Hget1. cbn [enclosing u32_frame]. rewrite Hk. reflexivity. }
  pose proof (append_basic_same_but_body _ _ _ _ _ _ _ _ (or_introl eq_refl) Happ) as Hsame2.
  destruct (append_u32_in_frame _ _ _ _ _ _ _ Hs1 Hc1 Hk Hb1 Hbs1 Hmax1 Happ)
    as (Em2 & Hl & Hle).
  exists (set_containers [] m2).
  assert (Hsame3 : same_but_body m (set_containers [] m2)).
  { eapply same_but_body_trans; [exact Hsame1|].
    eapply same_but_body_trans; [exact Hsame2|]. reflexivity. }
  pose proof Hsame3 as Heq. unfold same_but_body in Heq.
  split.
  { unfold sd_bus_message_close_container. rewrite Em2.
    cbn [sealed set_containers set_body set_header]. rewrite Hs1.
    unfold n_containers, message_get_container, n_containers.
    cbn [containers set_containers]. cbn [Zlength Zlength_aux].
    change (Z.succ 0 <=? 0) with false. change (Z.succ 0 =? 0) with false. cbv iota zeta.
    cbn [last enclosing u32_frame]. rewrite Hk. reflexivity. }
  rewrite Em2.
  cbn [body header root_container set_containers set_body set_header body_size
       set_body_size].
  split; [reflexivity|]. split; [reflexivity|]. split; [reflexivity|].
  set (s := strempty (signature (root_container m)) ++ suffix) in *.
  split.
  { unfold building.
    cbn [sealed containers body header root_container set_containers set_body set_header
         body_size set_body_size region_bytes].
    split; [exact Hs1|]. split; [reflexivity|].
    split.
    { rewrite <- He. rewrite Em2 in Heq.
      exact (f_equal (fun y => endian (header y)) Heq). }
    split; [reflexivity|]. split; [exact Hle|].
    split.
    { unfold fields_in_step.
      cbn [fields header set_containers set_body set_header fields_size set_body_size].
      rewrite Em2 in Heq.
      replace (fields m1) with (fields m)
        by (symmetry; exact (f_equal fields Heq)).
      replace (fields_size (header m1)) with (fields_size (header m))
        by (symmetry; exact (f_equal (fun y => fields_size (header y)) Heq)).
      exact Hf. }
    rewrite Hroot1. cbn [array_size set_index set_signature].
    split; [|exact Ha].
    unfold container_ok. cbn [index signature set_index set_signature strempty].
    split; [pose proof (Zlength_nonneg s); unfold strlen; lia|].
    apply Forall_app. split; [apply Hok|exact Hsuf]. }
  split; [|rewrite Em2 in Hsame3; exact Hsame3].
  rewrite Hroot1. unfold has_char. cbn [index signature set_index set_signature].
  rewrite char_at_the_end. reflexivity.
Qed.

(** A peek at the end of [B], in a body that goes on with zero padding up
    to the alignment and then [rest], in a frame that is no array. *)
Lemma message_peek_body_in_frame
    (mr : sd_bus_message) (B rest : list Z) (align n : Z) :
  array_size (message_get_container mr) = None ->
  body mr
  = Some (B ++ repeat 0 (Z.to_nat (ALIGN_TO (Zlength B) align - Zlength B)) ++ rest) ->
  endian (header mr) = SD_BUS_NATIVE_ENDIAN ->
  body_size (header mr)
  = Zlength (B ++ repeat 0 (Z.to_nat (ALIGN_TO (Zlength B) align - Zlength B)) ++ rest) ->
  body_size (header mr) <= UINT32_MAX ->
  0 < align <= 8 -> 0 <= n <= Zlength rest ->
  message_peek_body mr (Zlength B) align n
  = (1, ALIGN_TO (Zlength B) align + n, ALIGN_TO (Zlength B) align).
Proof.
  intros Ha Hb He Hsz Hmax Halign Hn.
  set (pad := repeat 0 (Z.to_nat (ALIGN_TO (Zlength B) align - Zlength B))) in *.
  pose proof (Zlength_nonneg B) as HB. pose proof (Zlength_nonneg rest) as Hrest.
  pose proof (Zlength_nonneg pad) as Hp.
  unfold UINT32_MAX in Hmax. rewrite Hsz, !Zlength_app in Hmax.
  destruct (ALIGN_TO_spec (Zlength B) align) as [Hal _]; try lia.
  assert (Hpl : Zlength pad = ALIGN_TO (Zlength B) align - Zlength B).
  { unfold pad. rewrite Zlength_repeat. lia. }
  unfold message_peek_body, message_end_of_array. rewrite Ha.
  unfold BUS_MESSAGE_BODY_SIZE. rewrite BSWAP32_native by assumption.
  rewrite Hb. cbn [region_bytes].
  destruct (buffer_peek_cases (B ++ pad ++ rest) (body_size (header mr)) (Zlength B) align n)
    as (_ & Hok & _); try lia.
  apply Hok. split.
  - rewrite Hsz, !Zlength_app. lia.
  - intros k Hk. rewrite byte_at_app_r by lia. rewrite byte_at_app_l by lia.
    apply byte_at_zeros.
Qed.

(** The reader inside a variant or a struct of one [uint32_t]: the
    container cannot be left before the value is read; the value is read;
    then there is nothing more to read, and the container is left. *)
Lemma u32_container_read
    (m : sd_bus_message) (k x bg : Z) (P rest : list Z) :
  sealed m = true -> containers m = [u32_frame k 0 bg] ->
  (k =? SD_BUS_TYPE_ARRAY) = false ->
  body m = Some (u32_behind P x ++ rest) ->
  endian (header m) = SD_BUS_NATIVE_ENDIAN ->
  body_size (header m) = Zlength (u32_behind P x ++ rest) ->
  body_size (header m) <= UINT32_MAX ->
  rindex m = Zlength P -> 0 <= x < 2 ^ 32 ->
  let m' := set_containers [u32_frame k 1 bg] (set_rindex (Zlength (u32_behind P x)) m) in
  sd_bus_message_exit_container m = Returns (- EINVAL, m)
  /\ sd_bus_message_read_basic m SD_BUS_TYPE_UINT32 = Returns (1, m', Some (VInt x))
  /\ sd_bus_message_read_basic m' SD_BUS_TYPE_UINT32 = Returns (0, m', None)
  /\ sd_bus_message_exit_container m' = Returns (1, set_containers [] m').
Proof.
  intros Hs Hc Hk Hb He Hbs Hmax Hri Hx m'.
  destruct (in_one_frame _ _ Hc) as [Hget Hset].
  pose proof (Zlength_nonneg P) as HP. pose proof (Zlength_nonneg rest) as Hrest.
  assert (Hmax' : Zlength (u32_behind P x ++ rest) <= 4294967295)
    by (rewrite <- Hbs; exact Hmax).
  assert (HPs : Zlength P + 4 <= 2 ^ 64).
  { unfold u32_behind in Hmax'. rewrite <- !app_assoc, Zlength_app in Hmax'.
    match type of Hmax' with
    | Zlength P + Zlength ?l <= _ => pose proof (Zlength_nonneg l)
    end. lia. }
  pose proof (u32_behind_length P x HPs) as Hlen.
  assert (Hbody : u32_behind P x ++ rest
                  = P ++ repeat 0 (Z.to_nat (ALIGN_TO (Zlength P) 4 - Zlength P))
                      ++ store_native 4 x ++ rest).
  { unfold u32_behind. rewrite <- !app_assoc. reflexivity. }
  assert (Hpeek : message_peek_body m (Zlength P) 4 4
                  = (1, ALIGN_TO (Zlength P) 4 + 4, ALIGN_TO (Zlength P) 4)).
  { apply (message_peek_body_in_frame m P (store_native 4 x ++ rest));
      [ rewrite Hget; reflexivity
      | rewrite Hb, Hbody; reflexivity
      | exact He
      | rewrite Hbs, Hbody; reflexivity
      | exact Hmax | lia
      | rewrite Zlength_app, Zlength_store_native; change (Z.of_nat 4) with 4; lia ]. }
  assert (Hload : load_native (slice (u32_behind P x ++ rest) (ALIGN_TO (Zlength P) 4) 4) = x).
  { rewrite Hbody.
    replace 4 with (Zlength (store_native 4 x)) at 3 by apply Zlength_store_native.
    rewrite slice_appended.
    - apply load_store_native. change (256 ^ Z.of_nat 4) with (2 ^ 32). exact Hx.
    - destruct (ALIGN_TO_spec (Zlength P) 4) as [Hal _]; try lia.
      rewrite Zlength_app, Zlength_repeat. lia. }
  split.
  { unfold sd_bus_message_exit_container. rewrite Hs. cbn [negb].
    unfold n_containers. rewrite Hc.
    change (Zlength [u32_frame k 0 bg] <=? 0) with false. cbv iota zeta.
    rewrite Hget. cbn [enclosing u32_frame]. rewrite Hk. reflexivity. }
  split.
  { unfold sd_bus_message_read_basic. rewrite Hs.
    change (bus_type_is_basic SD_BUS_TYPE_UINT32) with true. cbn [negb]. cbv zeta.
    rewrite Hget.
    change (has_char (u32_frame k 0 bg)) with true.
    change (char_at (strempty (signature (u32_frame k 0 bg))) (index (u32_frame k 0 bg))
            =? SD_BUS_TYPE_UINT32) with true.
    cbn [negb].
    type_tests SD_BUS_TYPE_UINT32.
    rewrite Hri, Hpeek. cbn [Z.leb Z.compare].
    rewrite Hb. cbn [region_bytes].
    rewrite BSWAP32_native by exact He. rewrite Hload.
    unfold read_done.
    assert (Hcr : containers (set_rindex (ALIGN_TO (Zlength P) 4 + 4) m)
                  = [u32_frame k 0 bg]) by exact Hc.
    destruct (in_one_frame _ _ Hcr) as [Hgetr Hsetr].
    rewrite Hgetr, Hsetr.
    unfold advance. cbn [enclosing u32_frame]. rewrite Hk.
    unfold m'. rewrite Hlen. reflexivity. }
  assert (Hc' : containers m' = [u32_frame k 1 bg]) by reflexivity.
  destruct (in_one_frame _ _ Hc') as [Hget' _].
  split.
  { unfold sd_bus_message_read_basic.
    change (sealed m') with (sealed m). rewrite Hs.
    change (bus_type_is_basic SD_BUS_TYPE_UINT32) with true. cbn [negb]. cbv zeta.
    rewrite Hget'. reflexivity. }
  unfold sd_bus_message_exit_container.
  change (sealed m') with (sealed m). rewrite Hs. cbn [negb].
  unfold n_containers. rewrite Hc'.
  change (Zlength [u32_frame k 1 bg] <=? 0) with false. cbv iota zeta.
  rewrite Hget'. cbn [enclosing u32_frame]. rewrite Hk. reflexivity.
Qed.
End OneValueFrames.

Section OneValueEnter.
Context {host : Host} {ext : Collaborators}.

Lemma peek_at_root (m : sd_bus_message) (r al n : Z) :
  containers m = [] -> array_size (root_container m) = None ->
  endian (header m) = SD_BUS_NATIVE_ENDIAN ->
  0 <= r -> 0 < al -> 0 <= n -> r + al + n <= 2 ^ 64 -> r mod al = 0 ->
  r + n <= body_size (header m) ->
  message_peek_body m r al n = (1, r + n, r).
Proof.
  intros Hc Ha He Hr Hal Hn Hno Hm Hfit.
  destruct (at_root _ Hc) as [Hget _].
  unfold message_peek_body, message_end_of_array. rewrite Hget, Ha.
  unfold BUS_MESSAGE_BODY_SIZE. rewrite BSWAP32_native by exact He.
  apply peek_inside; assumption.
Qed.

Lemma char_at_two_behind (pre rest : cstring) (x y z : Z) :
  char_at (pre ++ x :: y :: z :: rest) (Zlength pre + 1 + 1) = z.
Proof.
  replace (pre ++ x :: y :: z :: rest) with ((pre ++ [x; y]) ++ z :: rest)
    by (rewrite <- app_assoc; reflexivity).
  replace (Zlength pre + 1 + 1) with (Zlength (pre ++ [x; y]))
    by (rewrite Zlength_app; change (Zlength [x; y]) with 2; lia).
  apply char_at_behind.
Qed.

(** The reader before a variant of one [uint32_t]: the cursor of the root
    signature at [v], the read index at the end of [B]. *)
Lemma enter_variant_u32
    (m : sd_bus_message) (B rest pre post : list Z) (h : heap) :
  sealed m = true -> containers m = [] ->
  array_size (root_container m) = None -> enclosing (root_container m) = 0 ->
  signature (root_container m) = Some (pre ++ SD_BUS_TYPE_VARIANT :: post) ->
  index (root_container m) = Zlength pre ->
  body m = Some ((B ++ [1; SD_BUS_TYPE_UINT32; 0]) ++ rest) ->
  endian (header m) = SD_BUS_NATIVE_ENDIAN ->
  body_size (header m) = Zlength ((B ++ [1; SD_BUS_TYPE_UINT32; 0]) ++ rest) ->
  body_size (header m) <= UINT32_MAX ->
  rindex m = Zlength B ->
  signature_is_single [SD_BUS_TYPE_UINT32] = true ->
  signature_is_valid [SD_BUS_TYPE_UINT32] true = true ->
  allocations_succeed 2 h ->
  exists m',
    sd_bus_message_enter_container m SD_BUS_TYPE_VARIANT (Some [SD_BUS_TYPE_UINT32]) h
    = Returns ((1, m'), skipn 2 h)
    /\ sealed m' = true
    /\ containers m' = [u32_frame SD_BUS_TYPE_VARIANT 0 (Zlength B + 3)]
    /\ body m' = body m /\ header m' = header m
    /\ rindex m' = Zlength B + 3
    /\ root_container m' = set_index (Zlength pre + 1) (root_container m).
Proof.
  intros Hs Hc Ha Hen Hsig Hidx Hb He Hbs Hmax Hri Hsing Hvalid Halloc.
  destruct (at_root _ Hc) as [Hget Hset].
  pose proof (Zlength_nonneg B) as HB. pose proof (Zlength_nonneg rest) as Hrest.
  assert (Htot : body_size (header m) = Zlength B + 3 + Zlength rest).
  { rewrite Hbs, !Zlength_app. reflexivity. }
  assert (Hmax' : body_size (header m) <= 4294967295) by exact Hmax.
  assert (Hpeek1 : message_peek_body m (Zlength B) 1 1 = (1, Zlength B + 1, Zlength B)).
  { apply peek_at_root; try assumption; try lia. apply Z.mod_1_r. }
  assert (Hpeek2 : message_peek_body m (Zlength B + 1) 1 (1 + 1)
                   = (1, Zlength B + 1 + (1 + 1), Zlength B + 1)).
  { apply peek_at_root; try assumption; try lia. apply Z.mod_1_r. }
  assert (Hl : byte_at ((B ++ [1; SD_BUS_TYPE_UINT32; 0]) ++ rest) (Zlength B) = 1).
  { rewrite <- app_assoc. rewrite byte_at_app_r by lia. rewrite Z.sub_diag. reflexivity. }
  assert (Hbody : (B ++ [1; SD_BUS_TYPE_UINT32; 0]) ++ rest
                  = (B ++ [1]) ++ [SD_BUS_TYPE_UINT32] ++ 0 :: rest).
  { rewrite <- !app_assoc. reflexivity. }
  assert (Hq : Zlength B + 1 = Zlength (B ++ [1])).
  { rewrite Zlength_app. reflexivity. }
  assert (Hnz : Forall (fun c => c <> 0) [SD_BUS_TYPE_UINT32])
    by (repeat constructor; discriminate).
  assert (Hv : validate_signature ((B ++ [1; SD_BUS_TYPE_UINT32; 0]) ++ rest)
                                  (Zlength B + 1) 1 = Returns true).
  { rewrite Hbody, Hq. unfold validate_signature.
    apply (validate_with_middle (fun s => signature_is_valid s true)
                                (B ++ [1]) [SD_BUS_TYPE_UINT32] rest Hnz Hvalid). }
  assert (Hstr : cstr_at ((B ++ [1; SD_BUS_TYPE_UINT32; 0]) ++ rest) (Zlength B + 1)
                 = [SD_BUS_TYPE_UINT32]).
  { rewrite Hbody, Hq. apply cstr_at_middle. exact Hnz. }
  unfold sd_bus_message_enter_container. rewrite Hs. cbn [negb].
  unfold n_containers. rewrite Hc.
  change (BUS_CONTAINER_DEPTH <=? Zlength (@nil bus_container)) with false. cbv iota.
  apply allocations_succeed_step in Halloc. destruct Halloc as [Hal1 Halloc].
  apply allocations_succeed_step in Halloc. destruct Halloc as [Hal2 _].
  destruct (alloc_succeeds _ Hal1) as [j1 Ea1].
  destruct (alloc_succeeds _ Hal2) as [j2 Ea2].
  unfold bind at 1. rewrite Ea1. cbv zeta. rewrite Hget.
  assert (Hhas : has_char (root_container m) = true).
  { unfold has_char. rewrite Hsig, Hidx, char_at_behind. reflexivity. }
  rewrite Hhas. cbn [negb].
  unfold bind at 1. rewrite Ea2.
  rewrite skipn_skipn. change (1 + 1)%nat with 2%nat.
  unfold enter_kind.
  change (SD_BUS_TYPE_VARIANT =? SD_BUS_TYPE_ARRAY) with false.
  change (SD_BUS_TYPE_VARIANT =? SD_BUS_TYPE_VARIANT) with true. cbv iota.
  unfold bus_message_enter_variant. rewrite Hsing. cbn [negb].
  change (char_at [SD_BUS_TYPE_UINT32] 0 =? SD_BUS_TYPE_DICT_ENTRY_BEGIN) with false.
  cbv iota. rewrite Hhas. cbn [negb].
  rewrite Hsig. cbn [strempty]. rewrite Hidx, char_at_behind.
  change (SD_BUS_TYPE_VARIANT =? SD_BUS_TYPE_VARIANT) with true. cbn [negb]. cbv zeta.
  rewrite Hri, Hpeek1. change (1 <=? 0) with false. cbv iota.
  rewrite Hb. cbn [region_bytes]. rewrite Hl, Hpeek2.
  change (1 <? 0) with false. change (1 =? 0) with false. cbv iota.
  rewrite Hv, Hstr.
  change (streq [SD_BUS_TYPE_UINT32] [SD_BUS_TYPE_UINT32]) with true. cbn [negb].
  rewrite Hset.
  unfold advance. rewrite Hen. change (0 =? SD_BUS_TYPE_ARRAY) with false. cbv iota.
  unfold lift, bind, ret. change (1 <=? 0) with false. cbv iota.
  eexists. split; [reflexivity|].
  cbn [sealed containers body header rindex root_container set_containers set_rindex
       set_root_container].
  rewrite Hc. cbn [app].
  replace (Zlength B + 1 + (1 + 1)) with (Zlength B + 3) by lia.
  repeat split; solve [assumption|reflexivity].
Qed.

(** The reader before a struct of one [uint32_t]: the cursor of the root
    signature at [(u)], the read index at the end of [B]. *)
Lemma enter_struct_u32
    (m : sd_bus_message) (B rest pre post : list Z) (h : heap) :
  let P := B ++ repeat 0 (Z.to_nat (ALIGN_TO (Zlength B) 8 - Zlength B)) in
  sealed m = true -> containers m = [] ->
  array_size (root_container m) = None -> enclosing (root_container m) = 0 ->
  signature (root_container m)
  = Some (pre ++ SD_BUS_TYPE_STRUCT_BEGIN :: SD_BUS_TYPE_UINT32 :: SD_BUS_TYPE_STRUCT_END
              :: post) ->
  index (root_container m) = Zlength pre ->
  body m = Some (P ++ rest) ->
  endian (header m) = SD_BUS_NATIVE_ENDIAN ->
  body_size (header m) = Zlength (P ++ rest) ->
  body_size (header m) <= UINT32_MAX ->
  rindex m = Zlength B ->
  signature_is_valid [SD_BUS_TYPE_UINT32] false = true ->
  allocations_succeed 2 h ->
  exists m',
    sd_bus_message_enter_container m SD_BUS_TYPE_STRUCT (Some [SD_BUS_TYPE_UINT32]) h
    = Returns ((1, m'), skipn 2 h)
    /\ sealed m' = true
    /\ containers m' = [u32_frame SD_BUS_TYPE_STRUCT 0 (Zlength P)]
    /\ body m' = body m /\ header m' = header m
    /\ rindex m' = Zlength P
    /\ root_container m' = set_index (Zlength pre + 3) (root_container m).
Proof.
  intros P Hs Hc Ha Hen Hsig Hidx Hb He Hbs Hmax Hri Hvalid Halloc.
  destruct (at_root _ Hc) as [Hget Hset].
  pose proof (Zlength_nonneg B) as HB. pose proof (Zlength_nonneg rest) as Hrest.
  assert (Hmax' : body_size (header m) <= 4294967295) by exact Hmax.
  assert (HBs : Zlength B + 8 <= 2 ^ 64).
  { rewrite Hbs in Hmax'. unfold P in Hmax'. rewrite <- app_assoc, Zlength_app in Hmax'.
    match type of Hmax' with
    | Zlength B + Zlength ?l <= _ => pose proof (Zlength_nonneg l)
    end. lia. }
  destruct (ALIGN_TO_spec (Zlength B) 8) as [Hal Ham]; try lia.
  assert (HP : Zlength P = ALIGN_TO (Zlength B) 8).
  { unfold P. rewrite Zlength_app, Zlength_repeat. lia. }
  assert (Hpeek : message_peek_body m (Zlength B) 8 0
                  = (1, ALIGN_TO (Zlength B) 8 + 0, ALIGN_TO (Zlength B) 8)).
  { apply (message_peek_body_in_frame m B rest);
      [ rewrite Hget; exact Ha
      | rewrite Hb; unfold P; rewrite <- app_assoc; reflexivity
      | exact He
      | rewrite Hbs; unfold P; rewrite <- app_assoc; reflexivity
      | exact Hmax | lia | lia ]. }
  unfold sd_bus_message_enter_container. rewrite Hs. cbn [negb].
  unfold n_containers. rewrite Hc.
  change (BUS_CONTAINER_DEPTH <=? Zlength (@nil bus_container)) with false. cbv iota.
  apply allocations_succeed_step in Halloc. destruct Halloc as [Hal1 Halloc].
  apply allocations_succeed_step in Halloc. destruct Halloc as [Hal2 _].
  destruct (alloc_succeeds _ Hal1) as [j1 Ea1].
  destruct (alloc_succeeds _ Hal2) as [j2 Ea2].
  unfold bind at 1. rewrite Ea1. cbv zeta. rewrite Hget.
  assert (Hhas : has_char (root_container m) = true).
  { unfold has_char. rewrite Hsig, Hidx, char_at_behind. reflexivity. }
  rewrite Hhas. cbn [negb].
  unfold bind at 1. rewrite Ea2.
  rewrite skipn_skipn. change (1 + 1)%nat with 2%nat.
  unfold enter_kind.
  change (SD_BUS_TYPE_STRUCT =? SD_BUS_TYPE_ARRAY) with false.
  change (SD_BUS_TYPE_STRUCT =? SD_BUS_TYPE_VARIANT) with false.
  change (SD_BUS_TYPE_STRUCT =? SD_BUS_TYPE_STRUCT) with true. cbv iota.
  unfold bus_message_enter_struct. rewrite Hvalid. cbn [negb].
  unfold enter_bracketed. rewrite Hhas. cbn [negb]. cbv zeta.
  rewrite Hsig. cbn [strempty]. rewrite Hidx, char_at_behind.
  change (strlen [SD_BUS_TYPE_UINT32]) with 1.
  rewrite str_from_behind, char_at_two_behind. cbn [startswith].
  change (SD_BUS_TYPE_STRUCT_BEGIN =? SD_BUS_TYPE_STRUCT_BEGIN) with true.
  change (SD_BUS_TYPE_UINT32 =? SD_BUS_TYPE_UINT32) with true.
  change (SD_BUS_TYPE_STRUCT_END =? SD_BUS_TYPE_STRUCT_END) with true.
  cbn [andb negb].
  rewrite Hri, Hpeek. change (1 <=? 0) with false. cbv iota.
  assert (Hcr : containers (set_rindex (ALIGN_TO (Zlength B) 8 + 0) m) = []) by exact Hc.
  destruct (at_root _ Hcr) as [_ Hsetr]. rewrite Hsetr.
  unfold advance. rewrite Hen. change (0 =? SD_BUS_TYPE_ARRAY) with false. cbv iota.
  unfold lift, bind, ret. change (1 <=? 0) with false. cbv iota.
  eexists. split; [reflexivity|].
  cbn [sealed containers body header rindex root_container set_containers set_rindex
       set_root_container].
  rewrite Hc, HP, Z.add_0_r. cbn [app].
  replace (Zlength pre + (1 + 1 + 1)) with (Zlength pre + 3) by lia.
  repeat split; solve [assumption|reflexivity].
Qed.
End OneValueEnter.

Section VariantRoundTrip.
Context {host : Host} {ext : Collaborators}.

(** A variant that holds one [uint32_t] (within 32 bits), opened at the
    end of the root signature of a message under construction, filled and
    closed: the body has grown by the signature [u] of the contents, with
    its length 1 in front and its NUL behind, by zeros up to a multiple of 4
    and by the value; the root signature has grown by [v]. The variant
    cannot be closed before the value is appended (-EINVAL). Once the message
    is sealed and the read cursor stands where the variant was opened, with a
    signature grammar that accepts [u] and an allocator that delivers,
    [enter_container] enters the variant, which cannot be left before the
    value is read (-EINVAL); [read_basic] hands out the value, then answers 0
    for the end of the variant; [exit_container] leaves it, and the reader
    stands at the end of the body and of the root signature. *)
Theorem a_variant_is_read_back
    (m m1 m2 m3 m4 : sd_bus_message) (x : Z) (h0 h1 h2 h3 h : heap) (serial_ : Z) :
  building m -> has_char (root_container m) = false ->
  sd_bus_message_open_container m SD_BUS_TYPE_VARIANT (Some [SD_BUS_TYPE_UINT32]) h0
  = Returns ((0, m1), h1) ->
  sd_bus_message_append_basic m1 SD_BUS_TYPE_UINT32 (PInt x) h1 = Returns ((0, m2), h2) ->
  sd_bus_message_close_container m2 = (0, m3) ->
  bus_message_seal m3 serial_ h2 = Returns ((0, m4), h3) ->
  0 <= x < 2 ^ 32 ->
  signature_is_valid [SD_BUS_TYPE_UINT32] true = true ->
  allocations_succeed 2 h ->
  sd_bus_message_close_container m1 = (- EINVAL, m1)
  /\ body m4 = Some (variant_u32_bytes (region_bytes (body m)) x)
  /\ signature (root_container m4)
     = Some (strempty (signature (root_container m)) ++ [SD_BUS_TYPE_VARIANT])
  /\ exists m5 m6 m7,
      sd_bus_message_enter_container (at_cursor_of m m4) SD_BUS_TYPE_VARIANT
        (Some [SD_BUS_TYPE_UINT32]) h
      = Returns ((1, m5), skipn 2 h)
      /\ sd_bus_message_exit_container m5 = Returns (- EINVAL, m5)
      /\ sd_bus_message_read_basic m5 SD_BUS_TYPE_UINT32 = Returns (1, m6, Some (VInt x))
      /\ sd_bus_message_read_basic m6 SD_BUS_TYPE_UINT32 = Returns (0, m6, None)
      /\ sd_bus_message_exit_container m6 = Returns (1, m7)
      /\ containers m7 = []
      /\ rindex m7 = body_size (header m4)
      /\ has_char (root_container m7) = false
      /\ same_but_cursor m4 m7.
Proof.
  intros Hb Hhas Hopen Happ Hclose Hseal Hx Hvalid Halloc.
  pose proof Hb as (Hs & Hc & He & Hlen & Hmax & Hf & Hok & Ha).
  pose proof (open_container_same_but_body _ _ _ _ _ _ _ Hopen) as Hsame1.
  pose proof (open_variant_u32_at_root m m1 h0 h1 Hb Hhas Hopen) as Ho. cbv zeta in Ho.
  destruct Ho as (Hs1 & Hc1 & Hb1 & Hbs1 & Hmax1 & Hroot1 & Hen & Hsing).
  set (B := region_bytes (body m)) in *.
  set (s := strempty (signature (root_container m)) ++ [SD_BUS_TYPE_VARIANT]) in *.
  destruct (u32_container_written m m1 m2 SD_BUS_TYPE_VARIANT x
              (B ++ [1; SD_BUS_TYPE_UINT32; 0]) [SD_BUS_TYPE_VARIANT] h1 h2
              Hb Hhas Hsame1 Hs1 Hc1 eq_refl Hb1 Hbs1 Hmax1 Hroot1
              ltac:(repeat constructor; discriminate) Happ)
    as (Hearly & m3' & Hclose' & Hb3 & Hbs3 & Hroot3 & Hbuild3 & Hhas3 & Hsame3).
  assert (Em3 : m3' = m3) by congruence. subst m3'.
  destruct Hbuild3 as (Hs3 & Hc3 & He3 & Hlen3 & Hmax3 & Hf3 & Hok3 & Ha3).
  destruct (seal_effect m3 m4 serial_ h2 h3 Hseal Hf3)
    as (_ & Hs4 & _ & _ & _ & _ & Hbody4 & Hroot4 & Hc4 & Hbs4 & He4 & _).
  pose proof (exhausted_at_end _ Hok Hhas) as Hend.
  split; [exact Hearly|].
  split; [rewrite Hbody4; exact Hb3|].
  split; [rewrite Hroot4, Hroot3, Hroot1; reflexivity|].
  set (mr := at_cursor_of m m4).
  assert (Hrmr : root_container mr = set_index (index (root_container m)) (root_container m4))
    by reflexivity.
  assert (Hbmr : body mr = Some (u32_behind (B ++ [1; SD_BUS_TYPE_UINT32; 0]) x))
    by (unfold mr, at_cursor_of; cbn [body set_rindex set_root_container];
        rewrite Hbody4; exact Hb3).
  assert (Hhmr : header mr = header m4) by reflexivity.
  destruct (enter_variant_u32 mr B
              (repeat 0 (Z.to_nat (ALIGN_TO (Zlength (B ++ [1; SD_BUS_TYPE_UINT32; 0])) 4
                                   - Zlength (B ++ [1; SD_BUS_TYPE_UINT32; 0])))
                 ++ store_native 4 x)
              (strempty (signature (root_container m))) [] h)
    as (m5 & Henter & Hs5 & Hc5 & Hb5 & Hh5 & Hri5 & Hroot5);
    [ exact Hs4 | exact Hc4
    | rewrite Hrmr, Hroot4, Hroot3, Hroot1; exact Ha
    | rewrite Hrmr, Hroot4, Hroot3, Hroot1; exact Hen
    | rewrite Hrmr, Hroot4, Hroot3, Hroot1; reflexivity
    | rewrite Hrmr; exact Hend
    | exact Hbmr
    | rewrite Hhmr, He4; exact He3
    | rewrite Hhmr, Hbs4; exact Hbs3
    | rewrite Hhmr, Hbs4; exact Hmax3
    | unfold mr, at_cursor_of; cbn [rindex set_rindex]; symmetry; exact Hlen
    | exact Hsing | exact Hvalid | exact Halloc | ].
  assert (HPl : Zlength B + 3 = Zlength (B ++ [1; SD_BUS_TYPE_UINT32; 0]))
    by (rewrite Zlength_app; reflexivity).
  rewrite HPl in Hc5, Hri5.
  pose proof (u32_container_read m5 SD_BUS_TYPE_VARIANT x _
                (B ++ [1; SD_BUS_TYPE_UINT32; 0]) [] Hs5 Hc5 eq_refl) as Hr.
  cbv zeta in Hr. rewrite app_nil_r in Hr.
  destruct Hr as (Hstay & Hread & Hnone & Hexit);
    [ rewrite Hb5; exact Hbmr
    | rewrite Hh5, Hhmr, He4; exact He3
    | rewrite Hh5, Hhmr, Hbs4; exact Hbs3
    | rewrite Hh5, Hhmr, Hbs4; exact Hmax3
    | exact Hri5 | exact Hx | ].
  eexists m5, _, _.
  split; [exact Henter|]. split; [exact Hstay|]. split; [exact Hread|].
  split; [exact Hnone|]. split; [exact Hexit|].
  cbn [containers rindex root_container set_containers set_rindex].
  split; [reflexivity|].
  split; [rewrite Hbs4; symmetry; exact Hbs3|].
  split.
  { rewrite Hroot5, Hrmr, Hroot4, Hroot3, Hroot1. unfold has_char.
    cbn [signature index set_index set_signature].
    replace (Zlength (strempty (signature (root_container m))) + 1) with (strlen s)
      by (unfold s, strlen; rewrite Zlength_app; reflexivity).
    rewrite char_at_the_end. reflexivity. }
  eapply same_but_cursor_trans; [|eapply exit_container_same_but_cursor; exact Hexit].
  eapply same_but_cursor_trans; [|eapply read_basic_same_but_cursor; exact Hread].
  eapply same_but_cursor_trans; [|eapply enter_container_same_but_cursor; exact Henter].
  unfold mr, at_cursor_of. cursor_only.
Qed.
End VariantRoundTrip.

Section StructRoundTrip.
Context {host : Host} {ext : Collaborators}.

(** A struct that holds one [uint32_t] (within 32 bits), opened at the
    end of the root signature of a message under construction, filled and
    closed: the body has grown by zeros up to a multiple of 8 and by the
    value; the root signature has grown by [(u)]. The struct cannot be
    closed before the value is appended (-EINVAL). Once the message is sealed
    and the read cursor stands where the struct was opened, with an allocator
    that delivers, [enter_container] enters the struct, which cannot be left
    before the value is read (-EINVAL); [read_basic] hands out the value,
    then answers 0 for the end of the struct; [exit_container] leaves it,
    and the reader stands at the end of the body and of the root
    signature. *)
Theorem a_struct_is_read_back
    (m m1 m2 m3 m4 : sd_bus_message) (x : Z) (h0 h1 h2 h3 h : heap) (serial_ : Z) :
  building m -> has_char (root_container m) = false ->
  sd_bus_message_open_container m SD_BUS_TYPE_STRUCT (Some [SD_BUS_TYPE_UINT32]) h0
  = Returns ((0, m1), h1) ->
  sd_bus_message_append_basic m1 SD_BUS_TYPE_UINT32 (PInt x) h1 = Returns ((0, m2), h2) ->
  sd_bus_message_close_container m2 = (0, m3) ->
  bus_message_seal m3 serial_ h2 = Returns ((0, m4), h3) ->
  0 <= x < 2 ^ 32 ->
  allocations_succeed 2 h ->
  sd_bus_message_close_container m1 = (- EINVAL, m1)
  /\ body m4 = Some (struct_u32_bytes (region_bytes (body m)) x)
  /\ signature (root_container m4)
     = Some (strempty (signature (root_container m))
               ++ [SD_BUS_TYPE_STRUCT_BEGIN; SD_BUS_TYPE_UINT32; SD_BUS_TYPE_STRUCT_END])
  /\ exists m5 m6 m7,
      sd_bus_message_enter_container (at_cursor_of m m4) SD_BUS_TYPE_STRUCT
        (Some [SD_BUS_TYPE_UINT32]) h
      = Returns ((1, m5), skipn 2 h)
      /\ sd_bus_message_exit_container m5 = Returns (- EINVAL, m5)
      /\ sd_bus_message_read_basic m5 SD_BUS_TYPE_UINT32 = Returns (1, m6, Some (VInt x))
      /\ sd_bus_message_read_basic m6 SD_BUS_TYPE_UINT32 = Returns (0, m6, None)
      /\ sd_bus_message_exit_container m6 = Returns (1, m7)
      /\ containers m7 = []
      /\ rindex m7 = body_size (header m4)
      /\ has_char (root_container m7) = false
      /\ same_but_cursor m4 m7.
Proof.
  intros Hb Hhas Hopen Happ Hclose Hseal Hx Halloc.
  pose proof Hb as (Hs & Hc & He & Hlen & Hmax & Hf & Hok & Ha).
  pose proof (open_container_same_but_body _ _ _ _ _ _ _ Hopen) as Hsame1.
  pose proof (open_struct_u32_at_root m m1 h0 h1 Hb Hhas Hopen) as Ho. cbv zeta in Ho.
  destruct Ho as (Hs1 & Hc1 & Hb1 & Hbs1 & Hmax1 & Hroot1 & Hen & Hvalid).
  set (B := region_bytes (body m)) in *.
  set (P := B ++ repeat 0 (Z.to_nat (ALIGN_TO (Zlength B) 8 - Zlength B))) in *.
  set (s := strempty (signature (root_container m))
              ++ [SD_BUS_TYPE_STRUCT_BEGIN; SD_BUS_TYPE_UINT32; SD_BUS_TYPE_STRUCT_END]) in *.
  destruct (u32_container_written m m1 m2 SD_BUS_TYPE_STRUCT x P
              [SD_BUS_TYPE_STRUCT_BEGIN; SD_BUS_TYPE_UINT32; SD_BUS_TYPE_STRUCT_END] h1 h2
              Hb Hhas Hsame1 Hs1 Hc1 eq_refl Hb1 Hbs1 Hmax1 Hroot1
              ltac:(repeat constructor; discriminate) Happ)
    as (Hearly & m3' & Hclose' & Hb3 & Hbs3 & Hroot3 & Hbuild3 & Hhas3 & Hsame3).
  assert (Em3 : m3' = m3) by congruence. subst m3'.
  destruct Hbuild3 as (Hs3 & Hc3 & He3 & Hlen3 & Hmax3 & Hf3 & Hok3 & Ha3).
  destruct (seal_effect m3 m4 serial_ h2 h3 Hseal Hf3)
    as (_ & Hs4 & _ & _ & _ & _ & Hbody4 & Hroot4 & Hc4 & Hbs4 & He4 & _).
  pose proof (exhausted_at_end _ Hok Hhas) as Hend.
  split; [exact Hearly|].
  split; [rewrite Hbody4; exact Hb3|].
  split; [rewrite Hroot4, Hroot3, Hroot1; reflexivity|].
  set (mr := at_cursor_of m m4).
  assert (Hrmr : root_container mr = set_index (index (root_container m)) (root_container m4))
    by reflexivity.
  assert (Hbmr : body mr = Some (u32_behind P x))
    by (unfold mr, at_cursor_of; cbn [body set_rindex set_root_container];
        rewrite Hbody4; exact Hb3).
  assert (Hhmr : header mr = header m4) by reflexivity.
  pose proof (enter_struct_u32 mr B
                (repeat 0 (Z.to_nat (ALIGN_TO (Zlength P) 4 - Zlength P)) ++ store_native 4 x)
                (strempty (signature (root_container m))) [] h) as Hin.
  cbv zeta in Hin. fold P in Hin.
  destruct Hin as (m5 & Henter & Hs5 & Hc5 & Hb5 & Hh5 & Hri5 & Hroot5);
    [ exact Hs4 | exact Hc4
    | rewrite Hrmr, Hroot4, Hroot3, Hroot1; exact Ha
    | rewrite Hrmr, Hroot4, Hroot3, Hroot1; exact Hen
    | rewrite Hrmr, Hroot4, Hroot3, Hroot1; reflexivity
    | rewrite Hrmr; exact Hend
    | exact Hbmr
    | rewrite Hhmr, He4; exact He3
    | rewrite Hhmr, Hbs4; exact Hbs3
    | rewrite Hhmr, Hbs4; exact Hmax3
    | unfold mr, at_cursor_of; cbn [rindex set_rindex]; symmetry; exact Hlen
    | exact Hvalid | exact Halloc | ].
  pose proof (u32_container_read m5 SD_BUS_TYPE_STRUCT x _ P [] Hs5 Hc5 eq_refl) as Hr.
  cbv zeta in Hr. rewrite app_nil_r in Hr.
  destruct Hr as (Hstay & Hread & Hnone & Hexit);
    [ rewrite Hb5; exact Hbmr
    | rewrite Hh5, Hhmr, He4; exact He3
    | rewrite Hh5, Hhmr, Hbs4; exact Hbs3
    | rewrite Hh5, Hhmr, Hbs4; exact Hmax3
    | exact Hri5 | exact Hx | ].
  eexists m5, _, _.
  split; [exact Henter|]. split; [exact Hstay|]. split; [exact Hread|].
  split; [exact Hnone|]. split; [exact Hexit|].
  cbn [containers rindex root_container set_containers set_rindex].
  split; [reflexivity|].
  split; [rewrite Hbs4; symmetry; exact Hbs3|].
  split.
  { rewrite Hroot5, Hrmr, Hroot4, Hroot3, Hroot1. unfold has_char.
    cbn [signature index set_index set_signature].
    replace (Zlength (strempty (signature (root_container m))) + 3) with (strlen s)
      by (unfold s, strlen; rewrite Zlength_app; reflexivity).
    rewrite char_at_the_end. reflexivity. }
  eapply same_but_cursor_trans; [|eapply exit_container_same_but_cursor; exact Hexit].
  eapply same_but_cursor_trans; [|eapply read_basic_same_but_cursor; exact Hread].
  eapply same_but_cursor_trans; [|eapply enter_container_same_but_cursor; exact Henter].
  unfold mr, at_cursor_of. cursor_only.
Qed.
End StructRoundTrip.

(** The call of scenario 2 with the variant of 7 in its body: three bytes
    of signature, one of padding, four of value. *)
Lemma a_variant_is_read_back_witness :
  body Run.variant_sealed = Some [1; 117; 0; 0; 7; 0; 0; 0]
  /\ exists m5 m6 m7,
      @sd_bus_message_enter_container little_endian_host reference_collaborators
        (at_cursor_of (Run.the Run.hello) Run.variant_sealed)
        SD_BUS_TYPE_VARIANT (Some [SD_BUS_TYPE_UINT32]) []
      = Returns ((1, m5), [])
      /\ @sd_bus_message_read_basic little_endian_host reference_collaborators
           m5 SD_BUS_TYPE_UINT32
         = Returns (1, m6, Some (VInt 7))
      /\ @sd_bus_message_exit_container little_endian_host m6 = Returns (1, m7)
      /\ rindex m7 = 8.
Proof.
  destruct (@a_variant_is_read_back little_endian_host reference_collaborators
              (Run.the Run.hello) Run.variant_opened Run.variant_filled Run.variant_closed
              Run.variant_sealed 7 [] [] [] [] [] 1)
    as (_ & Hbody & _ & m5 & m6 & m7 & H1 & _ & H3 & _ & H5 & _ & H7 & _).
  - unfold building, fields_in_step, container_ok.
    repeat split; try (vm_compute; reflexivity); try (vm_compute; discriminate).
    vm_compute. constructor.
  - reflexivity.
  - vm_compute. reflexivity.
  - vm_compute. reflexivity.
  - vm_compute. reflexivity.
  - vm_compute. reflexivity.
  - lia.
  - reflexivity.
  - constructor.
  - split; [exact Hbody|]. exists m5, m6, m7.
    split; [exact H1|]. split; [exact H3|]. split; [exact H5|exact H7].
Defined.

(** The signal of scenario 1 with the struct of 9 behind its twelve bytes:
    four bytes of padding, four of value. *)
Lemma a_struct_is_read_back_witness :
  body Run.struct_sealed
  = Some [2; 0; 0; 0; 104; 105; 0; 0; 7; 0; 0; 0; 0; 0; 0; 0; 9; 0; 0; 0]
  /\ exists m5 m6 m7,
      @sd_bus_message_enter_container little_endian_host reference_collaborators
        (at_cursor_of Run.signal_su Run.struct_sealed)
        SD_BUS_TYPE_STRUCT (Some [SD_BUS_TYPE_UINT32]) []
      = Returns ((1, m5), [])
      /\ @sd_bus_message_read_basic little_endian_host reference_collaborators
           m5 SD_BUS_TYPE_UINT32
         = Returns (1, m6, Some (VInt 9))
      /\ @sd_bus_message_exit_container little_endian_host m6 = Returns (1, m7)
      /\ rindex m7 = 20.
Proof.
  destruct (@a_struct_is_read_back little_endian_host reference_collaborators
              Run.signal_su Run.struct_opened Run.struct_filled Run.struct_closed
              Run.struct_sealed 9 [] [] [] [] [] 1)
    as (_ & Hbody & _ & m5 & m6 & m7 & H1 & _ & H3 & _ & H5 & _ & H7 & _).
  - unfold building, fields_in_step, container_ok.
    repeat split; try (vm_compute; reflexivity); try (vm_compute; discriminate).
    vm_compute. repeat constructor; discriminate.
  - reflexivity.
  - vm_compute. reflexivity.
  - vm_compute. reflexivity.
  - vm_compute. reflexivity.
  - vm_compute. reflexivity.
  - lia.
  - constructor.
  - split; [exact Hbody|]. exists m5, m6, m7.
    split; [exact H1|]. split; [exact H3|]. split; [exact H5|exact H7].
Defined.

(** ** Dict entries *)

Section DictEntry.
Context {host : Host} {ext : Collaborators}.

(** A dict entry lives directly in an array. Where the current frame is
    no array (at the root of a message, in a struct, in a variant),
    [open_container] never opens a DICT_ENTRY and [enter_container] never
    enters one: both leave the message as it is, the first with a negative
    answer, the second with one that is not positive. With an allocator
    that delivers the answer is -ENXIO for contents that are a pair of
    types (a basic type, then a single complete type) and -EINVAL for any
    other contents: on the write path for every message that is not sealed,
    on the read path for every sealed message below the depth limit whose
    current frame has a type left. *)
Theorem a_dict_entry_lives_in_an_array
    (m : sd_bus_message) (contents : cstring) (h : heap) :
  (enclosing (message_get_container m) =? SD_BUS_TYPE_ARRAY) = false ->
  (exists r h',
      sd_bus_message_open_container m SD_BUS_TYPE_DICT_ENTRY (Some contents) h
      = Returns ((r, m), h')
      /\ r < 0
      /\ (sealed m = false -> allocations_succeed 2 h ->
          r = if signature_is_pair contents then - ENXIO else - EINVAL))
  /\ (exists r h',
         sd_bus_message_enter_container m SD_BUS_TYPE_DICT_ENTRY (Some contents) h
         = Returns ((r, m), h')
         /\ r <= 0
         /\ (sealed m = true -> n_containers m < BUS_CONTAINER_DEPTH ->
             has_char (message_get_container m) = true -> allocations_succeed 2 h ->
             r = if signature_is_pair contents then - ENXIO else - EINVAL)).
Proof.
  intros Hk. split.
  - unfold sd_bus_message_open_container.
    destruct (sealed m) eqn:Hs.
    { exists (- EPERM), h. split; [reflexivity|]. split; [reflexivity|discriminate]. }
    unfold bind at 1.
    destruct (alloc_cases h) as [[Ha1 Hno1]|[j1 Ha1]]; rewrite Ha1.
    { exists (- ENOMEM), (skipn 1 h). split; [reflexivity|]. split; [reflexivity|].
      intros _ Ha. apply allocations_succeed_step in Ha. tauto. }
    unfold bind at 1.
    destruct (alloc_cases (skipn 1 h)) as [[Ha2 Hno2]|[j2 Ha2]]; rewrite Ha2.
    { exists (- ENOMEM), (skipn 1 (skipn 1 h)).
      split; [reflexivity|]. split; [reflexivity|].
      intros _ Ha. apply allocations_succeed_step in Ha. destruct Ha as [_ Ha].
      apply allocations_succeed_step in Ha. tauto. }
    unfold open_kind.
    change (SD_BUS_TYPE_DICT_ENTRY =? SD_BUS_TYPE_ARRAY) with false.
    change (SD_BUS_TYPE_DICT_ENTRY =? SD_BUS_TYPE_VARIANT) with false.
    change (SD_BUS_TYPE_DICT_ENTRY =? SD_BUS_TYPE_STRUCT) with false.
    change (SD_BUS_TYPE_DICT_ENTRY =? SD_BUS_TYPE_DICT_ENTRY) with true. cbv iota.
    unfold bus_message_open_dict_entry. rewrite Hk. cbn [negb].
    destruct (signature_is_pair contents); cbn [negb].
    + exists (- ENXIO), (skipn 1 (skipn 1 h)).
      split; [reflexivity|]. split; [reflexivity|]. intros _ _. reflexivity.
    + exists (- EINVAL), (skipn 1 (skipn 1 h)).
      split; [reflexivity|]. split; [reflexivity|]. intros _ _. reflexivity.
  - unfold sd_bus_message_enter_container.
    destruct (sealed m) eqn:Hs; cbn [negb].
    2:{ exists (- EPERM), h. split; [reflexivity|].
        split; [unfold EPERM; lia|discriminate]. }
    destruct (BUS_CONTAINER_DEPTH <=? n_containers m) eqn:Hd.
    { apply Z.leb_le in Hd. exists (- EBADMSG), h. split; [reflexivity|].
      split; [unfold EBADMSG; lia|]. intros _ Hlt. lia. }
    unfold bind at 1.
    destruct (alloc_cases h) as [[Ha1 Hno1]|[j1 Ha1]]; rewrite Ha1.
    { exists (- ENOMEM), (skipn 1 h). split; [reflexivity|].
      split; [unfold ENOMEM; lia|].
      intros _ _ _ Ha. apply allocations_succeed_step in Ha. tauto. }
    cbv zeta.
    destruct (has_char (message_get_container m)) eqn:Hh; cbn [negb].
    2:{ exists 0, (skipn 1 h). split; [reflexivity|]. split; [lia|discriminate]. }
    unfold bind at 1.
    destruct (alloc_cases (skipn 1 h)) as [[Ha2 Hno2]|[j2 Ha2]]; rewrite Ha2.
    { exists (- ENOMEM), (skipn 1 (skipn 1 h)).
      split; [reflexivity|]. split; [unfold ENOMEM; lia|].
      intros _ _ _ Ha. apply allocations_succeed_step in Ha. destruct Ha as [_ Ha].
      apply allocations_succeed_step in Ha. tauto. }
    unfold enter_kind.
    change (SD_BUS_TYPE_DICT_ENTRY =? SD_BUS_TYPE_ARRAY) with false.
    change (SD_BUS_TYPE_DICT_ENTRY =? SD_BUS_TYPE_VARIANT) with false.
    change (SD_BUS_TYPE_DICT_ENTRY =? SD_BUS_TYPE_STRUCT) with false.
    change (SD_BUS_TYPE_DICT_ENTRY =? SD_BUS_TYPE_DICT_ENTRY) with true. cbv iota.
    unfold bus_message_enter_dict_entry. rewrite Hk. cbn [negb].
    destruct (signature_is_pair contents); cbn [negb].
    + exists (- ENXIO), (skipn 1 (skipn 1 h)).
      split; [reflexivity|]. split; [unfold ENXIO; lia|]. intros _ _ _ _. reflexivity.
    + exists (- EINVAL), (skipn 1 (skipn 1 h)).
      split; [reflexivity|]. split; [unfold EINVAL; lia|]. intros _ _ _ _. reflexivity.
Qed.
End DictEntry.

(** At the root of the call of scenario 2 the dict entry of a string and
    a [uint32_t] is not opened. *)
Lemma a_dict_entry_lives_in_an_array_witness :
  exists h',
    @sd_bus_message_open_container little_endian_host reference_collaborators
      (Run.the Run.hello) SD_BUS_TYPE_DICT_ENTRY (Some (cstr "su")) []
    = Returns ((- ENXIO, Run.the Run.hello), h').
Proof.
  destruct (@a_dict_entry_lives_in_an_array little_endian_host reference_collaborators
              (Run.the Run.hello) (cstr "su") [])
    as [(r & h' & Hrun & _ & Hr) _]; [reflexivity|].
  exists h'. rewrite Hrun.
  rewrite (Hr eq_refl ltac:(constructor)). reflexivity.
Defined.

(** ** Reading an array once more *)

Section PartialRewind.
Context {host : Host} {ext : Collaborators}.

(** Inside an array of [uint32_t] that the reader has entered, wherever
    it stands among the elements, a rewind that is not complete answers 1
    and puts the reader back before the first element, still inside the
    array: reading then hands out all the elements again, from the first
    to the last. A complete rewind leaves the array as well. *)
Theorem a_partial_rewind_restarts_the_array
    (m : sd_bus_message) (B xs rest : list Z) (j : Z) :
  array_u32_entered m B xs rest j ->
  Forall (fun x => 0 <= x < 2 ^ 32) xs ->
  exists m1 m2,
    sd_bus_message_rewind m false = (1, m1)
    /\ array_u32_entered m1 B xs rest 0
    /\ read_each m1 SD_BUS_TYPE_UINT32 (List.length xs) = Some (map VInt xs, m2)
    /\ array_u32_entered m2 B xs rest (Zlength xs)
    /\ containers (snd (sd_bus_message_rewind m true)) = []
    /\ rindex (snd (sd_bus_message_rewind m true)) = 0.
Proof.
  intros Hent Hxs.
  pose proof Hent as (Hs & Hc & Hb & He & Hbs & Hmax & Hri).
  destruct (in_one_frame _ _ Hc) as [Hget Hset].
  set (m1 := set_rindex (ALIGN_TO (Zlength B) 4 + 4)
              (set_containers [array_u32_entered_frame B] m)).
  assert (Hent1 : array_u32_entered m1 B xs rest 0).
  { unfold array_u32_entered, m1.
    cbn [sealed containers body header rindex set_containers set_rindex].
    repeat split; try assumption. lia. }
  destruct (read_each_in_array xs m1 B [] rest Hent1 Hxs) as (m2 & Hreads & Hent2 & _).
  exists m1, m2.
  split.
  { unfold sd_bus_message_rewind. rewrite Hs. cbn [negb]. rewrite Hget, Hset.
    cbn [begin index set_index array_u32_entered_frame].
    assert (Hc' : containers (set_rindex (ALIGN_TO (Zlength B) 4 + 4)
                                (set_containers [array_u32_entered_frame B] m))
                  = [array_u32_entered_frame B]) by reflexivity.
    destruct (in_one_frame _ _ Hc') as [Hget' _].
    unfold set_index. cbn [enclosing signature index array_size begin array_u32_entered_frame].
    fold (array_u32_entered_frame B). rewrite Hget'. reflexivity. }
  split; [exact Hent1|]. split; [exact Hreads|]. split; [exact Hent2|].
  unfold sd_bus_message_rewind. rewrite Hs. cbn [negb snd]. split; reflexivity.
Qed.
End PartialRewind.

(** The array of 5 and 6 after both elements have been read: the partial
    rewind lets them be read once more. *)
Lemma a_partial_rewind_restarts_the_array_witness :
  exists m1 m2,
    sd_bus_message_rewind Run.inside_array false = (1, m1)
    /\ @read_each little_endian_host reference_collaborators m1 SD_BUS_TYPE_UINT32 2
       = Some ([VInt 5; VInt 6], m2).
Proof.
  destruct (@a_partial_rewind_restarts_the_array little_endian_host reference_collaborators
              Run.inside_array [] [5; 6] [] 2)
    as (m1 & m2 & Hrew & _ & Hreads & _).
  - unfold array_u32_entered.
    repeat split; try (vm_compute; reflexivity); try (vm_compute; discriminate).
  - repeat constructor; lia.
  - exists m1, m2. split; [exact Hrew|exact Hreads].
Defined.

(** ** Reading a message right after it is sealed *)

Section SealedNotRewound.
Context {host : Host} {ext : Collaborators}.

(** [seal] leaves the cursor of the root signature where the writer left
    it, at the end of the signature. A message under construction whose
    signature the writer has used up therefore reads as empty right after
    it is sealed: [read_basic] answers 0 for every basic type,
    [enter_container] answers 0 for every kind of container, and
    [peek_type] answers 0, all without a change to the message. A rewind
    puts the cursor back to the start of the signature, the complete one
    and, no container being entered, the other one as well: the first
    gives the rewound message, the second sets the cursor of the root
    signature to 0 and the read index to the begin of the root container;
    both answer 1 when the signature is not empty and 0 when it is. *)
Theorem a_sealed_message_reads_as_empty_until_rewound
    (m m' : sd_bus_message) (serial_ : Z) (h h' : heap) :
  building m -> has_char (root_container m) = false ->
  bus_message_seal m serial_ h = Returns ((0, m'), h') ->
  (forall t, bus_type_is_basic t = true ->
             sd_bus_message_read_basic m' t = Returns (0, m', None))
  /\ (forall t contents h1,
         allocations_succeed 1 h1 ->
         sd_bus_message_enter_container m' t (Some contents) h1 = Returns ((0, m'), skipn 1 h1))
  /\ (forall h1,
         sd_bus_message_peek_type m' true true h1
         = Returns ((0, Some (enclosing (root_container m)), Some PeekNull), h1))
  /\ sd_bus_message_rewind m' true
     = ((if isempty (signature (root_container m)) then 0 else 1), rewound m')
  /\ sd_bus_message_rewind m' false
     = ((if isempty (signature (root_container m)) then 0 else 1),
        set_rindex (begin (root_container m))
          (set_root_container (set_index 0 (root_container m)) m'))
  /\ (begin (root_container m) = 0 ->
      snd (sd_bus_message_rewind m' false) = rewound m')
  /\ index (root_container (rewound m')) = 0
  /\ index (root_container m') = strlen (strempty (signature (root_container m))).
Proof.
  intros Hb Hhas Hseal.
  pose proof Hb as (Hs & Hc & He & Hlen & Hmax & Hf & Hok & Ha).
  destruct (seal_effect m m' serial_ h h' Hseal Hf)
    as (_ & Hs' & _ & _ & _ & _ & Hbody & Hroot & Hc' & _).
  destruct (at_root _ Hc') as [Hget Hset].
  assert (Hfalse : sd_bus_message_rewind m' false
                   = ((if isempty (signature (root_container m)) then 0 else 1),
                      set_rindex (begin (root_container m))
                        (set_root_container (set_index 0 (root_container m)) m'))).
  { unfold sd_bus_message_rewind. rewrite Hs'. cbn [negb]. rewrite Hget, Hset.
    unfold message_get_container, n_containers.
    cbn [containers set_rindex set_root_container]. rewrite Hc'.
    cbn [Zlength Z.eqb root_container set_rindex set_root_container].
    rewrite Hroot. reflexivity. }
  split.
  { intros t Ht. unfold sd_bus_message_read_basic.
    rewrite Hs', Ht. cbn [negb]. cbv zeta. rewrite Hget, Hroot, Hhas. reflexivity. }
  split.
  { intros t contents h1 Hal. unfold sd_bus_message_enter_container.
    rewrite Hs'. cbn [negb]. unfold n_containers. rewrite Hc'.
    change (BUS_CONTAINER_DEPTH <=? Zlength (@nil bus_container)) with false. cbv iota.
    destruct (alloc_succeeds _ Hal) as [j Ea].
    unfold bind. rewrite Ea. cbv zeta. rewrite Hget, Hroot, Hhas. reflexivity. }
  split.
  { intros h1. unfold sd_bus_message_peek_type.
    rewrite Hs'. cbn [negb]. cbv zeta. rewrite Hget, Hroot, Hhas. reflexivity. }
  split.
  { rewrite (rewind_complete m' Hs'), Hroot. reflexivity. }
  split; [exact Hfalse|].
  split.
  { intros Hbegin. rewrite Hfalse, Hbegin. cbn [snd]. unfold rewound.
    rewrite <- Hroot, <- Hc'. destruct m'; reflexivity. }
  split; [reflexivity|].
  rewrite Hroot. exact (exhausted_at_end _ Hok Hhas).
Qed.
End SealedNotRewound.

(** The signal of scenario 1 with its string and its [uint32_t], sealed
    with the serial 1: no string is read from it before it is rewound, and
    either rewind puts it back to its start. *)
Lemma a_sealed_message_reads_as_empty_until_rewound_witness :
  @sd_bus_message_read_basic little_endian_host reference_collaborators
    Run.sealed_su SD_BUS_TYPE_STRING
  = Returns (0, Run.sealed_su, None)
  /\ sd_bus_message_rewind Run.sealed_su true = (1, rewound Run.sealed_su)
  /\ sd_bus_message_rewind Run.sealed_su false = (1, rewound Run.sealed_su).
Proof.
  destruct (@a_sealed_message_reads_as_empty_until_rewound little_endian_host
              reference_collaborators Run.signal_su Run.sealed_su 1 [] [])
    as (Hread & _ & _ & Hrew & Hpart & _).
  - unfold building, fields_in_step, container_ok.
    repeat split; try (vm_compute; reflexivity); try (vm_compute; discriminate).
    vm_compute. repeat constructor; discriminate.
  - reflexivity.
  - vm_compute. reflexivity.
  - split; [exact (Hread SD_BUS_TYPE_STRING eq_refl)|]. split; [exact Hrew|].
    rewrite Hpart. reflexivity.
Defined.

(** * The round trip of a basic value, anywhere in the body *)

(** ** Bytes that stay where they are *)

Lemma Zlength_slice (b : list Z) (x len : Z) :
  0 <= x -> 0 <= len -> x + len <= Zlength b -> Zlength (slice b x len) = len.
Proof.
  intros Hx Hl Hb. unfold slice. rewrite Zlength_correct in *.
  rewrite length_firstn, length_skipn. lia.
Qed.

Lemma byte_at_slice (b : list Z) (x len i : Z) :
  0 <= x -> 0 <= i < len -> byte_at (slice b x len) i = byte_at b (x + i).
Proof.
  intros Hx Hi. unfold byte_at, slice. rewrite nth_firstn.
  destruct (Nat.ltb_spec (Z.to_nat i) (Z.to_nat len)) as [_|H]; [|lia].
  rewrite nth_skipn. f_equal. lia.
Qed.

(** Two buffers that hold the same bytes from [x] on, [len] of them, have
    the same slice there. *)
Lemma slice_ext (b b' : list Z) (x len : Z) :
  0 <= x -> 0 <= len -> x + len <= Zlength b -> x + len <= Zlength b' ->
  (forall i, x <= i < x + len -> byte_at b' i = byte_at b i) ->
  slice b' x len = slice b x len.
Proof.
  intros Hx Hl Hb Hb' H.
  apply (nth_ext _ _ 0 0).
  - apply Nat2Z.inj. rewrite <- !Zlength_correct, !Zlength_slice by assumption. reflexivity.
  - intros n Hn.
    assert (Hn' : 0 <= Z.of_nat n < len).
    { rewrite <- (Zlength_slice b' x len), Zlength_correct by assumption. lia. }
    pose proof (byte_at_slice b' x len (Z.of_nat n) Hx Hn') as E1.
    pose proof (byte_at_slice b x len (Z.of_nat n) Hx Hn') as E2.
    pose proof (H (x + Z.of_nat n) ltac:(lia)) as E3.
    unfold byte_at in E1, E2, E3. rewrite Nat2Z.id in E1, E2.
    rewrite E1, E2. exact E3.
Qed.



Lemma byte_at_mem_write_outside (b bs : list Z) (off i : Z) :
  0 <= off <= Zlength b -> 0 <= i -> i < off \/ off + Zlength bs <= i ->
  byte_at (mem_write b off bs) i = byte_at b i.
Proof.
  intros Hoff Hi Hout. unfold byte_at, mem_write. rewrite !Zlength_correct in *.
  destruct Hout as [Hlt|Hge].
  - rewrite app_nth1 by (rewrite length_firstn; lia).
    rewrite nth_firstn.
    destruct (Nat.ltb_spec (Z.to_nat i) (Z.to_nat off)) as [_|H]; [reflexivity|lia].
  - rewrite app_nth2 by (rewrite length_firstn; lia).
    rewrite length_firstn. rewrite app_nth2 by lia.
    rewrite nth_skipn. f_equal. lia.
Qed.

Lemma byte_at_mem_write_inside (b bs : list Z) (off i : Z) :
  0 <= off <= Zlength b -> off <= i < off + Zlength bs ->
  byte_at (mem_write b off bs) i = byte_at bs (i - off).
Proof.
  intros Hoff Hi. unfold byte_at, mem_write. rewrite !Zlength_correct in *.
  rewrite app_nth2 by (rewrite length_firstn; lia).
  rewrite length_firstn. rewrite app_nth1 by lia. f_equal. lia.
Qed.

Lemma Zlength_mem_write (b bs : list Z) (off : Z) :
  0 <= off -> off + Zlength bs <= Zlength b -> Zlength (mem_write b off bs) = Zlength b.
Proof.
  intros Hoff Hfit. unfold mem_write. rewrite !Zlength_correct in *.
  rewrite !length_app, length_firstn, length_skipn. lia.
Qed.

Lemma Zlength_realloc (p : region) (n junk : Z) : 0 <= n -> Zlength (realloc p n junk) = n.
Proof.
  intros Hn. unfold realloc.
  rewrite Zlength_correct, length_firstn, length_app, repeat_length. lia.
Qed.

Lemma byte_at_realloc (p : region) (n junk i : Z) :
  0 <= i < n -> i < Zlength (region_bytes p) ->
  byte_at (realloc p n junk) i = byte_at (region_bytes p) i.
Proof.
  intros Hi Hp. unfold byte_at, realloc. rewrite Zlength_correct in Hp.
  rewrite nth_firstn.
  destruct (Nat.ltb_spec (Z.to_nat i) (Z.to_nat n)) as [_|H]; [|lia].
  apply app_nth1. lia.
Qed.

(** ** What [buffer_extend] keeps of a region that is at least as long as
    its size field says *)

Lemma buffer_extend_keeps
    (p : region) (sz align extend : Z) (h h' : heap) (r : option Z) (p' : region) (sz' : Z) :
  buffer_extend p sz align extend h = Returns ((r, p', sz'), h') ->
  0 <= sz <= Zlength (region_bytes p) -> sz <= UINT32_MAX ->
  0 < align <= 8 -> 0 <= extend <= 2 ^ 63 + 8 ->
  sz <= sz' <= Zlength (region_bytes p') /\ sz' <= UINT32_MAX
  /\ (forall i, 0 <= i < sz -> byte_at (region_bytes p') i = byte_at (region_bytes p) i)
  /\ match r with
     | Some q => q = ALIGN_TO sz align /\ sz <= q /\ sz' = q + extend
                 /\ (forall i, sz <= i < q -> byte_at (region_bytes p') i = 0)
     | None => p' = p /\ sz' = sz
     end.
Proof.
  intros Hrun Hsz Hmax Halign Hext.
  assert (Hu : UINT32_MAX = 4294967295) by reflexivity.
  destruct (ALIGN_TO_spec sz align) as [Hb Hm]; [lia|lia|lia|].
  revert Hrun. unfold buffer_extend, bind, ret.
  rewrite size_t_small by lia.
  set (start := ALIGN_TO sz align) in *.
  destruct (start + extend =? sz) eqn:E.
  { apply Z.eqb_eq in E. intros H.
    assert (Hp : p' = p /\ sz' = sz /\ r = ptr_add p start) by (inversion H; auto).
    destruct Hp as (-> & -> & ->).
    split; [lia|]. split; [lia|]. split; [reflexivity|].
    destruct (ptr_add p start) as [q|] eqn:Eq; [|auto].
    assert (q = start).
    { destruct p; cbn [ptr_add] in Eq; [|destruct (start =? 0)]; congruence. }
    subst q. repeat split; try lia. }
  apply Z.eqb_neq in E.
  destruct (UINT32_MAX <? start + extend) eqn:U.
  { intros H. inversion H; subst. repeat split; try lia. }
  apply Z.ltb_ge in U.
  destruct (alloc_cases h) as [[Ha _]|[junk Ha]]; rewrite Ha.
  { intros H. inversion H; subst. repeat split; try lia. }
  intros H. inversion H; subst; clear H. cbn [region_bytes].
  set (k := realloc p (start + extend) junk).
  assert (Hk : Zlength k = start + extend) by (apply Zlength_realloc; lia).
  assert (Hk' : Zlength (if sz <? start then memset k sz 0 (start - sz) else k)
                = start + extend).
  { destruct (sz <? start) eqn:Ep; [|exact Hk].
    unfold memset. rewrite Zlength_mem_write; [exact Hk|lia|].
    rewrite Zlength_repeat. lia. }
  split; [lia|]. split; [lia|]. split; [|repeat split; try lia].
  - intros i Hi. destruct (sz <? start) eqn:Ep.
    + unfold memset. rewrite byte_at_mem_write_outside by lia.
      apply byte_at_realloc; lia.
    + apply byte_at_realloc; lia.
  - intros i Hi. destruct (sz <? start) eqn:Ep; [|apply Z.ltb_ge in Ep; lia].
    unfold memset. rewrite byte_at_mem_write_inside.
    + apply byte_at_zeros.
    + lia.
    + rewrite Zlength_repeat. lia.
Qed.

(** The length slots of the open arrays grow by [added]: the body keeps its
    length, and every byte outside the slots. *)
Lemma array_sizes_added {host : Host}
    (added bound : Z) (cs : list bus_container) (b : list Z) :
  Forall (slot_within bound) cs -> bound <= Zlength b ->
  let b' := fold_left
              (fun b c => match array_size c with
                          | Some a => array_size_add b a added
                          | None => b
                          end)
              cs b in
  Zlength b' = Zlength b
  /\ forall i, 0 <= i -> Forall (slot_outside i (i + 1)) cs -> byte_at b' i = byte_at b i.
Proof.
  intros Hcs. revert b. induction Hcs as [|c cs Hc _ IH]; intros b Hb; cbn [fold_left].
  - split; [reflexivity|]. intros; reflexivity.
  - unfold slot_within in Hc. destruct (array_size c) as [a|] eqn:Ea.
    + assert (Hlen : Zlength (array_size_add b a added) = Zlength b).
      { unfold array_size_add. apply Zlength_mem_write; [lia|].
        rewrite Zlength_correct, store_native_length. cbn. lia. }
      destruct (IH (array_size_add b a added)) as [Hl Hbytes]; [lia|].
      split; [lia|]. intros i Hi Hout. inversion Hout as [|? ? Hc' Hout']; subst.
      rewrite Hbytes by assumption.
      unfold slot_outside in Hc'. rewrite Ea in Hc'.
      unfold array_size_add. apply byte_at_mem_write_outside; [lia|lia|].
      rewrite Zlength_correct, store_native_length. cbn. lia.
    + destruct (IH b Hb) as [Hl Hbytes]. split; [exact Hl|].
      intros i Hi Hout. inversion Hout; subst. apply Hbytes; assumption.
Qed.


Lemma alignment_cases (c : Z) :
  0 <= bus_type_get_alignment c -> 0 < bus_type_get_alignment c <= 8.
Proof.
  unfold bus_type_get_alignment, EINVAL.
  repeat match goal with |- context [if ?b then _ else _] => destruct b end; lia.
Qed.

Lemma slot_within_array_size (bound : Z) (c1 c2 : bus_container) :
  array_size c1 = array_size c2 -> slot_within bound c1 -> slot_within bound c2.
Proof. unfold slot_within. intros ->. exact (fun H => H). Qed.

Lemma slot_outside_array_size (lo hi : Z) (c1 c2 : bus_container) :
  array_size c1 = array_size c2 -> slot_outside lo hi c1 -> slot_outside lo hi c2.
Proof. unfold slot_outside. intros ->. exact (fun H => H). Qed.

(** ** The current frame *)

Lemma get_container_set (m : sd_bus_message) (c : bus_container) :
  message_get_container (message_set_container m c) = c.
Proof.
  unfold message_get_container, message_set_container, n_containers.
  destruct (Zlength (containers m) =? 0) eqn:E.
  - cbn. rewrite E. reflexivity.
  - cbn. rewrite Zlength_app.
    pose proof (Zlength_nonneg (removelast (containers m))).
    change (Zlength [c]) with 1.
    destruct (_ + 1 =? 0) eqn:E2; [apply Z.eqb_eq in E2; lia|].
    apply last_last.
Qed.

Lemma get_container_same (m m' : sd_bus_message) :
  containers m' = containers m -> root_container m' = root_container m ->
  message_get_container m' = message_get_container m.
Proof. unfold message_get_container, n_containers. intros -> ->. reflexivity. Qed.

Lemma set_container_fields (m : sd_bus_message) (c : bus_container) :
  header (message_set_container m c) = header m
  /\ body (message_set_container m c) = body m
  /\ sealed (message_set_container m c) = sealed m
  /\ root_container (message_set_container m c)
     = (if n_containers m =? 0 then c else root_container m)
  /\ (containers m = [] -> containers (message_set_container m c) = []).
Proof.
  unfold message_set_container. destruct (n_containers m =? 0) eqn:E; cbn.
  - repeat split. exact (fun H => H).
  - repeat split. intros Hc. unfold n_containers in E. rewrite Hc in E. discriminate.
Qed.

Lemma set_container_frames (P : bus_container -> Prop) (m : sd_bus_message) (c : bus_container) :
  (forall c1 c2, array_size c1 = array_size c2 -> P c1 -> P c2) ->
  array_size c = array_size (message_get_container m) ->
  Forall P (containers m) -> Forall P (containers (message_set_container m c)).
Proof.
  intros HP Ha HF. unfold message_set_container, message_get_container in *.
  destruct (n_containers m =? 0) eqn:E; cbn; [exact HF|].
  assert (Hne : containers m <> []).
  { intros Hn. unfold n_containers in E. rewrite Hn in E. discriminate. }
  rewrite (app_removelast_last (root_container m) Hne) in HF.
  apply Forall_app in HF. destruct HF as [H1 H2]. apply Forall_app. split; [exact H1|].
  constructor; [|constructor]. inversion H2; subst.
  eapply HP; [|eassumption]. symmetry. exact Ha.
Qed.

(** ** The signature of the root container keeps a type it holds *)

Lemma char_at_inside (s : cstring) (i : Z) : char_at s i <> 0 -> 0 <= i -> i < strlen s.
Proof.
  unfold char_at, strlen. intros H Hi. rewrite Zlength_correct.
  destruct (Nat.lt_ge_cases (Z.to_nat i) (List.length s)) as [Hlt|Hge]; [lia|].
  exfalso. apply H. apply nth_overflow. exact Hge.
Qed.

Lemma holds_type_extended (i t : Z) (c : bus_container) (suffix : cstring) :
  holds_type i t c ->
  holds_type i t (set_signature (Some (strempty (signature c) ++ suffix)) c).
Proof.
  intros (Ht & Hi & Hc & Hx & Ha). unfold holds_type. cbn.
  repeat split; try assumption.
  assert (Hin : i < strlen (strempty (signature c))) by (apply char_at_inside; [congruence|lia]).
  unfold char_at, strlen in *. rewrite Zlength_correct in Hin.
  rewrite app_nth1 by lia. exact Hc.
Qed.

Lemma holds_type_truncated (i t : Z) (c : bus_container) :
  holds_type i t c -> enclosing c = 0 ->
  holds_type i t
    (set_signature (Some (firstn (Z.to_nat (index c)) (strempty (signature c)))) c).
Proof.
  intros (Ht & Hi & Hc & Hx & Ha) He. unfold holds_type. cbn.
  repeat split; try assumption.
  specialize (Hx He). unfold char_at in *. rewrite nth_firstn.
  destruct (Nat.ltb_spec (Z.to_nat i) (Z.to_nat (index c))) as [_|H]; [exact Hc|lia].
Qed.

Lemma holds_type_advanced (i t : Z) (c : bus_container) (n : Z) :
  holds_type i t c ->
  index c <= n \/ strlen (strempty (signature c)) <= n ->
  holds_type i t (advance c n).
Proof.
  intros (Ht & Hi & Hc & Hx & Ha) Hn. unfold advance.
  destruct (enclosing c =? SD_BUS_TYPE_ARRAY); [repeat split; assumption|].
  unfold holds_type. cbn. repeat split; try assumption.
  intros He. specialize (Hx He).
  assert (Hin : i < strlen (strempty (signature c))) by (apply char_at_inside; [congruence|lia]).
  lia.
Qed.

Lemma advance_fields (c : bus_container) (n : Z) :
  array_size (advance c n) = array_size c /\ enclosing (advance c n) = enclosing c
  /\ signature (advance c n) = signature c.
Proof. unfold advance. destruct (_ =? _); cbn; repeat split. Qed.

Section Anywhere.
Context {host : Host} {ext : Collaborators}.

Lemma set_container_kept
    (lo hi : Z) (V : list Z) (o : option (Z * Z)) (m : sd_bus_message) (c : bus_container) :
  kept lo hi V o m ->
  array_size c = array_size (message_get_container m) ->
  (forall i t, o = Some (i, t) ->
               holds_type i t (message_get_container m) -> holds_type i t c) ->
  kept lo hi V o (message_set_container m c).
Proof.
  intros (He & Hr & Hm & Hs & Hw & Ho & Hroot) Ha Hc.
  destruct (set_container_fields m c) as (Eh & Eb & _ & Er & _).
  unfold kept. rewrite Eh, Eb.
  split; [exact He|]. split; [exact Hr|]. split; [exact Hm|]. split; [exact Hs|].
  split; [apply set_container_frames;
          [apply slot_within_array_size|exact Ha|exact Hw]|].
  split; [apply set_container_frames;
          [apply slot_outside_array_size|exact Ha|exact Ho]|].
  destruct o as [[i t]|]; [|exact I]. rewrite Er.
  unfold message_get_container in Hc.
  destruct (n_containers m =? 0); [apply (Hc i t eq_refl); exact Hroot|exact Hroot].
Qed.

Lemma truncate_kept
    (lo hi : Z) (V : list Z) (o : option (Z * Z)) (m : sd_bus_message) (e : bool) :
  kept lo hi V o m ->
  (e = true -> enclosing (message_get_container m) = 0) ->
  kept lo hi V o (truncate_signature e m).
Proof.
  intros Hk He. unfold truncate_signature. destruct e; [|exact Hk].
  apply set_container_kept; [exact Hk|reflexivity|].
  intros i t _ Hh. apply holds_type_truncated; [exact Hh|apply He; reflexivity].
Qed.

Lemma truncate_fields (m : sd_bus_message) (e : bool) :
  header (truncate_signature e m) = header m
  /\ body (truncate_signature e m) = body m
  /\ sealed (truncate_signature e m) = sealed m.
Proof.
  unfold truncate_signature. destruct e; [|repeat split].
  destruct (set_container_fields m
              (set_signature
                 (Some (firstn (Z.to_nat (index (message_get_container m)))
                               (strempty (signature (message_get_container m)))))
                 (message_get_container m))) as (H1 & H2 & H3 & _).
  repeat split; assumption.
Qed.

(** Bytes written behind the value leave it alone. *)
Lemma write_kept
    (lo hi : Z) (V : list Z) (o : option (Z * Z)) (m : sd_bus_message) (q : Z) (bytes : list Z) :
  kept lo hi V o m -> hi <= q ->
  q + Zlength bytes <= Zlength (region_bytes (body m)) ->
  kept lo hi V o (set_body (Some (mem_write (region_bytes (body m)) q bytes)) m).
Proof.
  intros (He & Hr & Hm & Hs & Hw & Ho & Hroot) Hq Hfit.
  pose proof (Zlength_nonneg bytes) as Hb.
  unfold kept. cbn.
  rewrite Zlength_mem_write by lia.
  split; [exact He|]. split; [exact Hr|]. split; [exact Hm|].
  split; [|split; [exact Hw|split; [exact Ho|exact Hroot]]].
  rewrite <- Hs. apply slice_ext; try lia.
  - rewrite Zlength_mem_write by lia. lia.
  - intros i Hi. apply byte_at_mem_write_outside; lia.
Qed.


(** The body grows: the value stays, and so do the frames. *)
Lemma extend_body_kept
    (lo hi : Z) (V : list Z) (o : option (Z * Z)) (m m' : sd_bus_message)
    (align sz : Z) (h h' : heap) (p : option Z) :
  kept lo hi V o m -> 0 < align <= 8 -> 0 <= sz <= 2 ^ 63 + 8 ->
  message_extend_body m align sz h = Returns ((p, m'), h') ->
  kept lo hi V o m'
  /\ containers m' = containers m /\ root_container m' = root_container m
  /\ sealed m' = sealed m
  /\ body_size (header m) <= body_size (header m')
  /\ match p with
     | Some q => body_size (header m) <= q
                 /\ q = ALIGN_TO (body_size (header m)) align
                 /\ body_size (header m') = q + sz
                 /\ (forall i, body_size (header m) <= i < q ->
                               byte_at (region_bytes (body m')) i = 0)
     | None => m' = m
     end.
Proof.
  intros Hk Halign Hsz Hrun.
  pose proof Hk as (He & Hr & Hm & Hs & Hw & Ho & Hroot).
  unfold message_extend_body, bind in Hrun.
  destruct (buffer_extend _ _ _ _ h) as [[[[r b] bs'] h1]|] eqn:E; [|discriminate].
  apply buffer_extend_keeps in E; [|lia|lia|lia|lia].
  destruct E as (Hbs & Hmax & Hlow & Hcase).
  destruct r as [q|]; unfold ret in Hrun; inversion Hrun; subst; clear Hrun.
  2:{ repeat split; try assumption; try lia. }
  destruct Hcase as (Hq & Hle & Hbs' & Hpad).
  set (added := size_t (bs' - body_size (header m))) in *.
  destruct (array_sizes_added added (body_size (header m)) (containers m) (region_bytes b)
              Hw ltac:(lia)) as [Hlen Hbytes].
  set (b' := fold_left _ (containers m) (region_bytes b)) in *.
  assert (Hin : forall i, 0 <= i -> Forall (slot_outside i (i + 1)) (containers m) ->
                          byte_at b' i = byte_at (region_bytes b) i) by exact Hbytes.
  assert (Hbelow : forall i, body_size (header m) <= i ->
                             Forall (slot_outside i (i + 1)) (containers m)).
  { intros i Hi. eapply Forall_impl; [|exact Hw].
    intros c Hc. unfold slot_within, slot_outside in *.
    destruct (array_size c); [lia|exact I]. }
  assert (Hvalue : forall i, lo <= i < hi ->
                             Forall (slot_outside i (i + 1)) (containers m)).
  { intros i Hi. eapply Forall_impl; [|exact Ho].
    intros c Hc. unfold slot_outside in *.
    destruct (array_size c); [lia|exact I]. }
  unfold kept.
  cbn [header body containers root_container sealed set_body set_header
         set_body_size endian body_size].
  match goal with
  | |- context [Zlength (region_bytes ?x)] => set (B := region_bytes x)
  end.
  assert (HB : B = b').
  { unfold B. destruct b as [k|]; [reflexivity|]. cbn [region_bytes] in *.
    rewrite Zlength_nil in Hlen. apply Zlength_nil_inv in Hlen. symmetry. exact Hlen. }
  rewrite HB. clear HB B.
  split.
  { rewrite Hlen.
    split; [exact He|]. split; [lia|]. split; [lia|].
    split; [|split; [|split; [exact Ho|exact Hroot]]].
    - apply slice_ext; try lia.
      intros i Hi. rewrite Hin by (try apply Hvalue; lia). apply Hlow. lia.
    - eapply Forall_impl; [|exact Hw]. intros c Hc. unfold slot_within in *.
      destruct (array_size c); [lia|exact I]. }
  repeat split; try lia.
  intros i Hi. rewrite Hin by (try apply Hbelow; lia). apply Hpad. lia.
Qed.
End Anywhere.

(** ** The writer leaves a value in the body alone *)

Section Writer.
Context {host : Host} {ext : Collaborators}.

Lemma strextend_cases (x : option cstring) (suffix : cstring) (h h' : heap) (e : option cstring) :
  strextend x suffix h = Returns (e, h') -> e = None \/ e = Some (strempty x ++ suffix).
Proof.
  unfold strextend, bind, alloc, ret.
  destruct h as [|[|junk] h0]; intros H; inversion H; auto.
Qed.

Lemma truncate_frames (P : bus_container -> Prop) (m : sd_bus_message) (e : bool) :
  (forall c1 c2, array_size c1 = array_size c2 -> P c1 -> P c2) ->
  Forall P (containers m) -> Forall P (containers (truncate_signature e m)).
Proof.
  intros HP HF. unfold truncate_signature. destruct e; [|exact HF].
  apply set_container_frames; [exact HP|reflexivity|exact HF].
Qed.

Lemma restore_kept
    (lo hi : Z) (V : list Z) (o : option (Z * Z)) (m : sd_bus_message) (saved : Z) :
  kept lo hi V o m -> hi <= saved <= body_size (header m) ->
  Forall (slot_within saved) (containers m) ->
  kept lo hi V o (set_header (set_body_size saved (header m)) m).
Proof.
  intros (He & Hr & Hm & Hs & Hw & Ho & Hroot) Hsaved Hslots.
  unfold kept.
  cbn [header body containers root_container set_header set_body_size endian body_size].
  repeat split; try assumption; lia.
Qed.

Lemma push_kept
    (lo hi : Z) (V : list Z) (o : option (Z * Z)) (m : sd_bus_message) (c : bus_container) :
  kept lo hi V o m -> slot_within (body_size (header m)) c -> slot_outside lo hi c ->
  kept lo hi V o (set_containers (containers m ++ [c]) m).
Proof.
  intros (He & Hr & Hm & Hs & Hw & Ho & Hroot) Hin Hout.
  unfold kept. cbn.
  split; [exact He|]. split; [exact Hr|]. split; [exact Hm|]. split; [exact Hs|].
  split; [apply Forall_app; split; [exact Hw|constructor; [exact Hin|constructor]]|].
  split; [apply Forall_app; split; [exact Ho|constructor; [exact Hout|constructor]]|].
  exact Hroot.
Qed.

Lemma Forall_removelast {A} (P : A -> Prop) (l : list A) :
  Forall P l -> Forall P (removelast l).
Proof.
  induction 1 as [|x l Hx Hl IH]; [constructor|].
  cbn [removelast]. destruct l; [constructor|]. constructor; assumption.
Qed.

Lemma pop_kept (lo hi : Z) (V : list Z) (o : option (Z * Z)) (m : sd_bus_message) :
  kept lo hi V o m -> kept lo hi V o (set_containers (removelast (containers m)) m).
Proof.
  intros (He & Hr & Hm & Hs & Hw & Ho & Hroot).
  unfold kept. cbn.
  split; [exact He|]. split; [exact Hr|]. split; [exact Hm|]. split; [exact Hs|].
  split; [apply Forall_removelast; exact Hw|].
  split; [apply Forall_removelast; exact Ho|exact Hroot].
Qed.

Lemma append_slot_kept
    (lo hi : Z) (V : list Z) (o : option (Z * Z)) (m m1 : sd_bus_message)
    (t : Z) (h h1 : heap) (r : Z) (e : bool) :
  kept lo hi V o m -> append_slot m t h = Returns ((r, e, m1), h1) ->
  kept lo hi V o m1
  /\ (e = true -> enclosing (message_get_container m1) = 0).
Proof.
  intros Hk Hrun. apply append_slot_cases in Hrun. cbv zeta in Hrun.
  destruct Hrun as [(-> & -> & _)|(_ & -> & _ & He & ->)].
  - split; [exact Hk|discriminate].
  - split.
    + apply set_container_kept; [exact Hk|reflexivity|].
      intros i t0 _ Hh. apply holds_type_extended. exact Hh.
    + intros _. rewrite get_container_set. exact He.
Qed.

(** What [message_append_basic] lays out for a value that lies in memory:
    an alignment of the type table, and as many bytes as it asks the body
    to grow by. *)
Lemma basic_layout_cases (t : Z) (p : pointee) :
  bus_type_is_basic t = true ->
  match basic_layout t p with
  | Returns (r, (align, sz, bytes)) =>
      r < 0
      \/ (r = 0 /\ 0 < align <= 8
          /\ (in_memory p -> 0 < sz <= 2 ^ 63 + 8 /\ Zlength bytes = sz))
  | Stops _ => True
  end.
Proof.
  intros Hb. unfold bus_type_is_basic, basic_types in Hb. cbn [existsb] in Hb.
  repeat (apply orb_true_iff in Hb; destruct Hb as [Hb|Hb]); try discriminate Hb;
    apply Z.eqb_eq in Hb; subst t;
    match goal with
    | |- match basic_layout ?T _ with _ => _ end => unfold basic_layout; type_tests T
    end;
    (destruct p as [|x|s]; cbv beta iota zeta; try exact I);
    try (left; unfold EINVAL; lia);
    (right; split; [reflexivity|split; [lia|]]); intros Hmem;
    try (cbn [in_memory] in Hmem; unfold PTRDIFF_MAX, strlen in *;
         pose proof (Zlength_nonneg s));
    rewrite ?size_t_small by lia;
    rewrite ?Zlength_app, ?Zlength_cons, ?Zlength_nil, ?Zlength_store_native;
    split; lia.
Qed.

Lemma basic_layout_fits (t : Z) (p : pointee) (r align sz : Z) (bytes : list Z) :
  bus_type_is_basic t = true -> in_memory p ->
  basic_layout t p = Returns (r, (align, sz, bytes)) -> 0 <= r ->
  r = 0 /\ 0 < align <= 8 /\ 0 < sz <= 2 ^ 63 + 8 /\ Zlength bytes = sz.
Proof.
  intros Hb Hmem El Hr. pose proof (basic_layout_cases t p Hb) as H. rewrite El in H.
  destruct H as [H|(H0 & Ha & Hs)]; [lia|]. specialize (Hs Hmem). tauto.
Qed.

Lemma append_value_kept
    (lo hi : Z) (V : list Z) (o : option (Z * Z)) (m m' : sd_bus_message)
    (e : bool) (t align sz : Z) (bytes : list Z) (h h' : heap) (r : Z) :
  kept lo hi V o m -> (e = true -> enclosing (message_get_container m) = 0) ->
  0 < align <= 8 -> 0 <= sz <= 2 ^ 63 + 8 -> Zlength bytes = sz ->
  append_value m e t align sz bytes None h = Returns ((r, m'), h') ->
  kept lo hi V o m'.
Proof.
  intros Hk He Halign Hsz Hlen. unfold append_value, bind.
  destruct (message_extend_body m align sz h) as [[[a m2] h2]|] eqn:E; [|discriminate].
  destruct (extend_body_kept _ _ _ _ _ _ _ _ _ _ _ Hk Halign Hsz E)
    as (Hk2 & Hc2 & Hr2 & Hs2 & Hle2 & Hcase).
  destruct a as [q|].
  - destruct Hcase as (Hq & _ & Hbs2 & _).
    cbn [assign].
    assert (Hif : forall (mm : sd_bus_message) (b1 b2 : bool),
               (if b1 then mm else if b2 then mm else mm) = mm)
      by (intros mm [] []; reflexivity).
    rewrite Hif. intros H. inversion H; subst; clear H.
    pose proof Hk as (_ & Hrange0 & _).
    pose proof Hk2 as (_ & Hrange & _).
    apply set_container_kept; [apply write_kept; [exact Hk2|lia|lia]|apply advance_fields|].
    intros i t0 _ Hh. apply holds_type_advanced; [exact Hh|]. left. lia.
  - subst m2. intros H. inversion H; subst. apply truncate_kept; assumption.
Qed.

Lemma append_basic_kept
    (lo hi : Z) (V : list Z) (o : option (Z * Z)) (m m' : sd_bus_message)
    (t : Z) (p : pointee) (h h' : heap) (r : Z) :
  kept lo hi V o m -> in_memory p ->
  sd_bus_message_append_basic m t p h = Returns ((r, m'), h') -> kept lo hi V o m'.
Proof.
  intros Hk Hmem. unfold sd_bus_message_append_basic, message_append_basic.
  destruct (sealed m); [intros H; inversion H; subst; exact Hk|].
  destruct (bus_type_is_basic t) eqn:Hb; cbn [negb];
    [|intros H; inversion H; subst; exact Hk].
  unfold bind at 1.
  destruct (append_slot m t h) as [[[[r1 e] m1] h1]|] eqn:Es; [|discriminate].
  destruct (append_slot_kept _ _ _ _ _ _ _ _ _ _ _ Hk Es) as [Hk1 He].
  destruct (r1 <? 0); [intros H; inversion H; subst; exact Hk1|].
  destruct (basic_layout t p) as [[r2 [[align sz] bytes]]|] eqn:El; [|discriminate].
  destruct (r2 <? 0) eqn:Hr2.
  - intros H. inversion H; subst. apply truncate_kept; assumption.
  - apply Z.ltb_ge in Hr2.
    destruct (basic_layout_fits _ _ _ _ _ _ Hb Hmem El Hr2) as (_ & Halign & Hsz & Hlen).
    intros H. eapply append_value_kept; [exact Hk1|exact He|exact Halign| |exact Hlen|exact H].
    lia.
Qed.

Lemma open_slot_kept
    (lo hi : Z) (V : list Z) (o : option (Z * Z)) (m m1 : sd_bus_message)
    (matches : bool) (expected : cstring) (h h1 : heap) (r nindex : Z) (e : bool) :
  kept lo hi V o m ->
  open_slot m (message_get_container m) matches expected h
  = Returns ((r, e, nindex, m1), h1) ->
  kept lo hi V o m1
  /\ (e = true -> enclosing (message_get_container m1) = 0)
  /\ (0 <= r -> index (message_get_container m1) <= nindex
                 \/ strlen (strempty (signature (message_get_container m1))) <= nindex).
Proof.
  intros Hk. unfold open_slot. set (c := message_get_container m).
  pose proof (Zlength_nonneg expected) as Hexp.
  destruct (has_char c).
  { destruct (negb matches); intros H; inversion H; subst.
    - split; [exact Hk|]. split; [discriminate|]. unfold ENXIO. lia.
    - split; [exact Hk|]. split; [discriminate|]. intros _. left. fold c.
      unfold strlen. lia. }
  destruct (enclosing c =? 0) eqn:Ee; cbn [negb].
  2:{ intros H. inversion H; subst. split; [exact Hk|]. split; [discriminate|].
      unfold ENXIO. lia. }
  apply Z.eqb_eq in Ee. unfold bind.
  destruct (strextend (signature c) expected h) as [[s h2]|] eqn:Ex; [|discriminate].
  apply strextend_cases in Ex. destruct Ex as [->| ->].
  - intros H. inversion H; subst. split; [exact Hk|]. split; [discriminate|].
    unfold ENOMEM. lia.
  - intros H. inversion H; subst. split.
    + apply set_container_kept; [exact Hk|reflexivity|].
      intros i t0 _ Hh. apply holds_type_extended. exact Hh.
    + rewrite get_container_set. split; [intros _; exact Ee|].
      intros _. right. cbn [signature set_signature strempty]. lia.
Qed.

Lemma open_array_kept
    (lo hi : Z) (V : list Z) (o : option (Z * Z)) (m m' : sd_bus_message)
    (contents : cstring) (h h' : heap) (r : Z) (a : option Z) :
  kept lo hi V o m ->
  bus_message_open_array m (message_get_container m) contents h = Returns ((r, m', a), h') ->
  kept lo hi V o m'
  /\ (0 <= r -> forall q, a = Some q ->
                          0 <= q /\ q + 4 <= body_size (header m') /\ hi <= q).
Proof.
  intros Hk. unfold bus_message_open_array.
  assert (Hfail : forall r0 h0,
             ret (r0, m, @None Z) h0 = Returns ((r, m', a), h') ->
             kept lo hi V o m'
             /\ (0 <= r -> forall q, a = Some q ->
                                     0 <= q /\ q + 4 <= body_size (header m') /\ hi <= q)).
  { intros r0 h0 H. inversion H; subst. split; [exact Hk|]. intros _ q Hq. discriminate. }
  destruct (negb (signature_is_single contents)); [apply Hfail|].
  set (alignment := bus_type_get_alignment (char_at contents 0)).
  destruct (alignment <? 0) eqn:Hal; [apply Hfail|]. clear Hfail.
  apply Z.ltb_ge in Hal. pose proof (alignment_cases _ Hal) as Halign. fold alignment in Halign.
  unfold bind at 1.
  destruct (open_slot _ _ _ _ h) as [[[[[r1 e] nindex] m1] h1]|] eqn:Es; [|discriminate].
  destruct (open_slot_kept _ _ _ _ _ _ _ _ _ _ _ _ _ Hk Es) as (Hk1 & He & Hn).
  destruct (r1 <? 0) eqn:Hr1.
  { intros H. inversion H; subst. split; [exact Hk1|]. intros _ q Hq. discriminate. }
  apply Z.ltb_ge in Hr1. specialize (Hn Hr1).
  unfold bind at 1.
  destruct (message_extend_body m1 4 4 h1) as [[[a1 m2] h2]|] eqn:E1; [|discriminate].
  destruct (extend_body_kept lo hi V o m1 m2 4 4 h1 h2 a1 Hk1 ltac:(lia) ltac:(lia) E1)
    as (Hk2 & Hc2 & Hr2 & Hs2 & Hle2 & Hcase2).
  destruct a1 as [q1|].
  2:{ subst m2. intros H. inversion H; subst.
      split; [apply truncate_kept; assumption|]. intros _ q Hq. discriminate. }
  destruct Hcase2 as (Hq1 & _ & Hbs2 & _).
  unfold bind at 1.
  destruct (message_extend_body m2 alignment 0 h2) as [[[pad m3] h3]|] eqn:E2; [|discriminate].
  destruct (extend_body_kept lo hi V o m2 m3 alignment 0 h2 h3 pad Hk2 Halign ltac:(lia) E2)
    as (Hk3 & Hc3 & Hr3 & Hs3 & Hle3 & Hcase3).
  assert (Hget2 : message_get_container m2 = message_get_container m1)
    by (apply get_container_same; assumption).
  assert (Hget3 : message_get_container m3 = message_get_container m1)
    by (rewrite <- Hget2; apply get_container_same; assumption).
  pose proof Hk1 as (_ & Hrange1 & _ & _ & Hw1 & _).
  pose proof Hk3 as (_ & Hrange3 & _).
  destruct pad as [q2|].
  2:{ subst m3. intros H. inversion H; subst.
      split; [|intros _ q Hq; discriminate].
      destruct (truncate_fields m2 e) as (Hth & _).
      rewrite Hth. rewrite <- Hth at 1. apply restore_kept.
      - apply truncate_kept; [exact Hk2|]. rewrite Hget2. exact He.
      - rewrite Hth. lia.
      - apply truncate_frames; [apply slot_within_array_size|].
        rewrite Hc2. exact Hw1. }
  intros H. inversion H; subst; clear H.
  destruct (set_container_fields m3
              (advance (message_get_container m3) nindex)) as (Eh & Eb & _).
  split.
  - apply write_kept.
    + apply set_container_kept; [exact Hk3|apply advance_fields|].
      intros i t _ Hh. apply holds_type_advanced; [exact Hh|]. rewrite Hget3. exact Hn.
    + lia.
    + rewrite Eb, Zlength_store_native. lia.
  - intros _ q Hq. inversion Hq; subst. cbn [header set_body]. rewrite Eh. lia.
Qed.

Lemma open_variant_kept
    (lo hi : Z) (V : list Z) (o : option (Z * Z)) (m m' : sd_bus_message)
    (contents : cstring) (h h' : heap) (r : Z) :
  kept lo hi V o m -> strlen contents <= PTRDIFF_MAX ->
  bus_message_open_variant m (message_get_container m) contents h = Returns ((r, m'), h') ->
  kept lo hi V o m'.
Proof.
  intros Hk Hmem. unfold bus_message_open_variant.
  destruct (negb (signature_is_single contents)); [intros H; inversion H; subst; exact Hk|].
  destruct (char_at contents 0 =? SD_BUS_TYPE_DICT_ENTRY_BEGIN);
    [intros H; inversion H; subst; exact Hk|].
  unfold bind at 1.
  destruct (open_slot _ _ _ _ h) as [[[[[r1 e] nindex] m1] h1]|] eqn:Es; [|discriminate].
  destruct (open_slot_kept _ _ _ _ _ _ _ _ _ _ _ _ _ Hk Es) as (Hk1 & He & _).
  destruct (r1 <? 0); [intros H; inversion H; subst; exact Hk1|].
  unfold PTRDIFF_MAX, strlen in *. pose proof (Zlength_nonneg contents) as Hc.
  rewrite size_t_small by lia.
  unfold bind.
  destruct (message_extend_body m1 1 _ h1) as [[[a1 m2] h2]|] eqn:E1; [|discriminate].
  destruct (extend_body_kept lo hi V o m1 m2 1 (1 + Zlength contents + 1) h1 h2 a1 Hk1
              ltac:(lia) ltac:(lia) E1)
    as (Hk2 & Hc2 & Hr2 & Hs2 & Hle2 & Hcase2).
  destruct a1 as [q1|].
  2:{ subst m2. intros H. inversion H; subst. apply truncate_kept; assumption. }
  destruct Hcase2 as (Hq1 & _ & Hbs2 & _).
  pose proof Hk1 as (_ & Hrange1 & _).
  pose proof Hk2 as (_ & Hrange2 & _).
  intros H. inversion H; subst; clear H.
  apply set_container_kept; [apply write_kept; [exact Hk2|lia|]|apply advance_fields|].
  - rewrite ?Zlength_cons, ?Zlength_app, ?Zlength_cons, ?Zlength_nil. lia.
  - intros i t _ Hh. apply holds_type_advanced; [exact Hh|]. left. lia.
Qed.

Lemma open_struct_kept
    (lo hi : Z) (V : list Z) (o : option (Z * Z)) (m m' : sd_bus_message)
    (contents : cstring) (h h' : heap) (r : Z) :
  kept lo hi V o m ->
  bus_message_open_struct m (message_get_container m) contents h = Returns ((r, m'), h') ->
  kept lo hi V o m'.
Proof.
  intros Hk. unfold bus_message_open_struct.
  destruct (negb (signature_is_valid contents false));
    [intros H; inversion H; subst; exact Hk|].
  unfold bind at 1.
  destruct (open_slot _ _ _ _ h) as [[[[[r1 e] nindex] m1] h1]|] eqn:Es; [|discriminate].
  destruct (open_slot_kept _ _ _ _ _ _ _ _ _ _ _ _ _ Hk Es) as (Hk1 & He & Hn).
  destruct (r1 <? 0) eqn:Hr1; [intros H; inversion H; subst; exact Hk1|].
  apply Z.ltb_ge in Hr1. specialize (Hn Hr1).
  unfold bind.
  destruct (message_extend_body m1 8 0 h1) as [[[a1 m2] h2]|] eqn:E1; [|discriminate].
  destruct (extend_body_kept lo hi V o m1 m2 8 0 h1 h2 a1 Hk1 ltac:(lia) ltac:(lia) E1)
    as (Hk2 & Hc2 & Hr2 & Hs2 & Hle2 & Hcase2).
  assert (Hget2 : message_get_container m2 = message_get_container m1)
    by (apply get_container_same; assumption).
  destruct a1 as [q1|].
  2:{ subst m2. intros H. inversion H; subst. apply truncate_kept; assumption. }
  intros H. inversion H; subst; clear H.
  apply set_container_kept; [exact Hk2|apply advance_fields|].
  intros i t _ Hh. apply holds_type_advanced; [exact Hh|]. rewrite Hget2. exact Hn.
Qed.

Lemma open_dict_entry_kept
    (lo hi : Z) (V : list Z) (o : option (Z * Z)) (m m' : sd_bus_message)
    (contents : cstring) (h h' : heap) (r : Z) :
  kept lo hi V o m ->
  bus_message_open_dict_entry m (message_get_container m) contents h
  = Returns ((r, m'), h') ->
  kept lo hi V o m'.
Proof.
  intros Hk. unfold bus_message_open_dict_entry.
  set (c := message_get_container m).
  destruct (negb (signature_is_pair contents)); [intros H; inversion H; subst; exact Hk|].
  destruct (negb (enclosing c =? SD_BUS_TYPE_ARRAY));
    [intros H; inversion H; subst; exact Hk|].
  destruct (has_char c); [|intros H; inversion H; subst; exact Hk].
  destruct (negb _); [intros H; inversion H; subst; exact Hk|].
  unfold bind.
  destruct (message_extend_body m 8 0 h) as [[[a1 m2] h2]|] eqn:E1; [|discriminate].
  destruct (extend_body_kept lo hi V o m m2 8 0 h h2 a1 Hk ltac:(lia) ltac:(lia) E1)
    as (Hk2 & Hc2 & Hr2 & Hs2 & Hle2 & Hcase2).
  assert (Hget2 : message_get_container m2 = c) by (apply get_container_same; assumption).
  destruct a1 as [q1|].
  2:{ subst m2. intros H. inversion H; subst. exact Hk. }
  intros H. inversion H; subst; clear H.
  apply set_container_kept; [exact Hk2|apply advance_fields|].
  intros i t _ Hh. apply holds_type_advanced; [exact Hh|]. rewrite Hget2. left.
  pose proof (Zlength_nonneg contents). unfold strlen. lia.
Qed.

Lemma open_container_kept
    (lo hi : Z) (V : list Z) (o : option (Z * Z)) (m m' : sd_bus_message)
    (t : Z) (contents : option cstring) (h h' : heap) (r : Z) :
  kept lo hi V o m -> contents_in_memory contents ->
  sd_bus_message_open_container m t contents h = Returns ((r, m'), h') ->
  kept lo hi V o m'.
Proof.
  intros Hk Hmem. unfold sd_bus_message_open_container.
  destruct (sealed m); [intros H; inversion H; subst; exact Hk|].
  destruct contents as [contents|]; [|intros H; inversion H; subst; exact Hk].
  cbn [contents_in_memory] in Hmem.
  unfold bind at 1. destruct (alloc_cases h) as [[Ha _]|[junk Ha]]; rewrite Ha.
  { intros H. inversion H; subst. exact Hk. }
  unfold bind at 1. destruct (alloc_cases (skipn 1 h)) as [[Hb _]|[junk2 Hb]]; rewrite Hb.
  { intros H. inversion H; subst. exact Hk. }
  unfold bind, open_kind.
  assert (Hplain : forall (x : outcome (Z * sd_bus_message * heap)) r1 m1 hh,
             match x with
             | Returns (r0, m0, h0) => ret (r0, m0, @None Z) h0
             | Stops why => Stops why
             end = Returns ((r1, m1, @None Z), hh) ->
             x = Returns ((r1, m1), hh)).
  { intros [[[r0 m0] h0]|] r1 m1 hh H; inversion H. reflexivity. }
  destruct (t =? SD_BUS_TYPE_ARRAY).
  { destruct (bus_message_open_array m _ contents _) as [[[[r1 m1] a] h1]|] eqn:E;
      [|discriminate].
    destruct (open_array_kept _ _ _ _ _ _ _ _ _ _ _ Hk E) as [Hk1 Hslot].
    destruct (r1 <? 0) eqn:Hr1; [intros H; inversion H; subst; exact Hk1|].
    apply Z.ltb_ge in Hr1. intros H. inversion H; subst; clear H.
    apply push_kept; [exact Hk1| |]; unfold slot_within, slot_outside; cbn [array_size];
      (destruct a as [q|]; [|exact I]); destruct (Hslot Hr1 q eq_refl) as (H1 & H2 & H3).
    - lia.
    - right. exact H3. }
  assert (Hpush : forall m1, kept lo hi V o m1 ->
             kept lo hi V o
                  (set_containers (containers m1 ++ [mk_container t (Some contents) 0 None 0])
                                  m1)).
  { intros m1 Hk1. apply push_kept; [exact Hk1|exact I|exact I]. }
  destruct (t =? SD_BUS_TYPE_VARIANT).
  { unfold bind.
    destruct (bus_message_open_variant m _ contents _) as [[[r1 m1] h1]|] eqn:E;
      [|discriminate].
    pose proof (open_variant_kept _ _ _ _ _ _ _ _ _ _ Hk Hmem E) as Hk1.
    cbn [ret]. unfold ret.
    destruct (r1 <? 0); intros H; inversion H; subst; [exact Hk1|apply Hpush; exact Hk1]. }
  destruct (t =? SD_BUS_TYPE_STRUCT).
  { unfold bind.
    destruct (bus_message_open_struct m _ contents _) as [[[r1 m1] h1]|] eqn:E;
      [|discriminate].
    pose proof (open_struct_kept _ _ _ _ _ _ _ _ _ _ Hk E) as Hk1.
    unfold ret.
    destruct (r1 <? 0); intros H; inversion H; subst; [exact Hk1|apply Hpush; exact Hk1]. }
  destruct (t =? SD_BUS_TYPE_DICT_ENTRY).
  { unfold bind.
    destruct (bus_message_open_dict_entry m _ contents _) as [[[r1 m1] h1]|] eqn:E;
      [|discriminate].
    pose proof (open_dict_entry_kept _ _ _ _ _ _ _ _ _ _ Hk E) as Hk1.
    unfold ret.
    destruct (r1 <? 0); intros H; inversion H; subst; [exact Hk1|apply Hpush; exact Hk1]. }
  unfold ret. cbn. intros H. inversion H; subst. exact Hk.
Qed.

Lemma close_container_kept
    (lo hi : Z) (V : list Z) (o : option (Z * Z)) (m m' : sd_bus_message) (r : Z) :
  kept lo hi V o m -> sd_bus_message_close_container m = (r, m') -> kept lo hi V o m'.
Proof.
  intros Hk. unfold sd_bus_message_close_container.
  destruct (sealed m); [intros H; inversion H; subst; exact Hk|].
  destruct (n_containers m <=? 0); [intros H; inversion H; subst; exact Hk|].
  destruct (_ && _); intros H; inversion H; subst; [exact Hk|].
  apply pop_kept. exact Hk.
Qed.

(** Whatever the writer goes on to do, the value stays. *)
Lemma written_further_kept
    (lo hi : Z) (V : list Z) (o : option (Z * Z)) (m m' : sd_bus_message) :
  written_further m m' -> kept lo hi V o m -> kept lo hi V o m'.
Proof.
  induction 1 as [m|m m1 m' Hcall _ IH]; intros Hk; [exact Hk|].
  apply IH. destruct Hcall as [t p h h' r Hmem Hrun|t contents h h' r Hmem Hrun|r Hrun].
  - eapply append_basic_kept; eassumption.
  - eapply open_container_kept; eassumption.
  - eapply close_container_kept; eassumption.
Qed.
End Writer.

(** ** The value a successful append leaves in the body *)

Section Stored.
Context {host : Host} {ext : Collaborators}.

Lemma writable_kept (m : sd_bus_message) :
  writable m -> kept (body_size (header m)) (body_size (header m)) [] None m.
Proof.
  intros (He & Hr & Hm & Hw). unfold kept. rewrite Z.sub_diag.
  split; [exact He|]. split; [lia|]. split; [exact Hm|].
  split; [reflexivity|]. split; [exact Hw|]. split; [|exact I].
  eapply Forall_impl; [|exact Hw]. intros c Hc. unfold slot_within, slot_outside in *.
  destruct (array_size c); [lia|exact I].
Qed.

Lemma kept_writable (lo hi : Z) (V : list Z) (o : option (Z * Z)) (m : sd_bus_message) :
  kept lo hi V o m -> writable m.
Proof.
  intros (He & Hr & Hm & Hs & Hw & Ho & Hroot). unfold writable.
  split; [exact He|]. split; [lia|]. split; [exact Hm|exact Hw].
Qed.

(** The writer keeps a writable message writable. *)
Lemma written_further_writable (m m' : sd_bus_message) :
  written_further m m' -> writable m -> writable m'.
Proof.
  intros Hf Hw. eapply kept_writable.
  eapply written_further_kept; [exact Hf|apply writable_kept; exact Hw].
Qed.

(** A message is writable from the start. *)
Lemma message_new_writable (bus : option sd_bus) (t : Z) (h h' : heap) (m : sd_bus_message) :
  message_new bus t h = Returns (Some m, h') -> writable m.
Proof.
  intros Hnew. destruct (message_new_shape _ _ _ _ _ Hnew) as [v ->].
  unfold writable, UINT32_MAX. cbn.
  split; [reflexivity|]. split; [split; discriminate|]. split; [discriminate|constructor].
Qed.






(** ** Sealing leaves the body and the cursor alone *)




End Stored.

(** ** Reading the value where it stands *)

Section Reader.
Context {host : Host} {ext : Collaborators}.








End Reader.

(** ** The round trip *)

Section RoundTripAnywhere.
Context {host : Host} {ext : Collaborators}.






End RoundTripAnywhere.

